(** * measurement-control-drivers: SCPI instrument drivers

    A shallow embedding of the PyVISA/SCPI drivers of the package
    [measurement_control_drivers] (spectrum analyzer, VNA, Rigol AWG,
    AnaPico signal generator), and the properties of their command
    fallback, error-queue drain, trace parsing, axis reconstruction,
    validation and close paths.

    Layout:
    - [PyStr]     the [str] methods the drivers call;
    - [PyFloat]   Python's [float]: IEEE 754 binary64, with [float(s)],
                  [int(x)] and [repr(x)];
    - [exn], [result]  the exceptions that reach the drivers;
    - [Visa]      the instrument session (a PyVISA resource and its
                  resource manager) and the I/O monad;
    - [SpectrumAnalyzer], [VNA], [AWG_Rigol_DG922Pro], [AnaPico_sin20G]
                  the driver methods;
    - [Mock]      scripted instruments used to run the drivers;
    - the theorems. *)

From Stdlib Require Import ZArith QArith Bool List String Ascii DecimalString Lia.
From Stdlib Require Import SpecFloat.
Import ListNotations.

Local Open Scope string_scope.
Local Open Scope Z_scope.

(* ================================================================== *)
(** ** Python strings *)
(* ================================================================== *)

(** A [str] is modelled as a [string] whose characters are the code
    points below 256 (instrument replies are ASCII text). *)
Module PyStr.

(** [c.isspace()] for a code point below 256. *)
Definition is_space (c : ascii) : bool :=
  let n := Z.of_nat (nat_of_ascii c) in
  ((9 <=? n) && (n <=? 13)) || ((28 <=? n) && (n <=? 32))
  || (n =? 133) || (n =? 160).

Section Strip.
Variable space : ascii -> bool.

Fixpoint lstrip_with (s : string) : string :=
  match s with
  | EmptyString => EmptyString
  | String c s' => if space c then lstrip_with s' else s
  end.

Fixpoint rstrip_with (s : string) : string :=
  match s with
  | EmptyString => EmptyString
  | String c s' =>
      match rstrip_with s' with
      | EmptyString => if space c then EmptyString else String c EmptyString
      | r => String c r
      end
  end.

Definition strip_with (s : string) : string := rstrip_with (lstrip_with s).
End Strip.

(** [s.strip()] *)
Definition strip (s : string) : string := strip_with is_space s.

(** [s.replace(old, new)] for one-character [old] and [new], the only
    form the drivers use. *)
Fixpoint replace (old new : ascii) (s : string) : string :=
  match s with
  | EmptyString => EmptyString
  | String c s' =>
      String (if Ascii.eqb c old then new else c) (replace old new s')
  end.

(** [s.split(sep)] for a one-character separator: never returns the
    empty list, and keeps empty fields. *)
Fixpoint split (sep : ascii) (s : string) : list string :=
  match s with
  | EmptyString => [EmptyString]
  | String c s' =>
      if Ascii.eqb c sep then EmptyString :: split sep s'
      else match split sep s' with
           | h :: t => String c h :: t
           | [] => [String c EmptyString]
           end
  end.

(** [s.startswith(p)] *)
Definition startswith (s p : string) : bool := String.prefix p s.

(** Truth value of a string: [if s:] *)
Definition truthy (s : string) : bool :=
  match s with EmptyString => false | _ => true end.

(** [str(n)] / [f"{n}"] for an [int]. *)
Definition of_int (n : Z) : string := NilZero.string_of_int (Z.to_int n).

(** ASCII lower case of one character. *)
Definition lower_char (c : ascii) : ascii :=
  let n := nat_of_ascii c in
  if ((65 <=? n) && (n <=? 90))%nat then ascii_of_nat (n + 32) else c.

Fixpoint lower (s : string) : string :=
  match s with
  | EmptyString => EmptyString
  | String c s' => String (lower_char c) (lower s')
  end.

Fixpoint repeat_char (c : ascii) (n : nat) : string :=
  match n with
  | O => EmptyString
  | S n' => String c (repeat_char c n')
  end.

Definition newline : ascii := ascii_of_nat 10.

(** [needle in hay] *)
Fixpoint contains (needle hay : string) : bool :=
  String.prefix needle hay
  || match hay with
     | EmptyString => false
     | String _ hay' => contains needle hay'
     end.

(** The code points of [c.upper()]: upper-casing can leave the range
    below 256 (U+00B5, U+00FF) or give two characters (U+00DF). *)
Definition upper_cp (c : ascii) : list N :=
  let n := N_of_ascii c in
  if ((97 <=? n) && (n <=? 122))%N then [n - 32]%N
  else if (n =? 181)%N then [924%N]
  else if (n =? 223)%N then [83%N; 83%N]
  else if ((224 <=? n) && (n <=? 254) && negb (n =? 247))%N then [n - 32]%N
  else if (n =? 255)%N then [376%N]
  else [n].

(** The code points of a string, and of [s.upper()]. *)
Fixpoint codes (s : string) : list N :=
  match s with
  | EmptyString => []
  | String c s' => N_of_ascii c :: codes s'
  end.

Fixpoint upper (s : string) : list N :=
  match s with
  | EmptyString => []
  | String c s' => (upper_cp c ++ upper s')%list
  end.

Fixpoint cp_prefix (p l : list N) : bool :=
  match p, l with
  | [], _ => true
  | x :: p', y :: l' => (x =? y)%N && cp_prefix p' l'
  | _ :: _, [] => false
  end.

(** [needle in hay] on code points. *)
Fixpoint cp_contains (needle hay : list N) : bool :=
  cp_prefix needle hay
  || match hay with
     | [] => false
     | _ :: hay' => cp_contains needle hay'
     end.

Fixpoint cp_eqb (a b : list N) : bool :=
  match a, b with
  | [], [] => true
  | x :: a', y :: b' => (x =? y)%N && cp_eqb a' b'
  | _, _ => false
  end.

(** The text before the first [sep]: [s.split(sep)[0]]. *)
Fixpoint first_field (sep : ascii) (s : string) : string :=
  match s with
  | EmptyString => EmptyString
  | String c s' =>
      if Ascii.eqb c sep then EmptyString else String c (first_field sep s')
  end.

Definition hex_digit (n : N) : ascii :=
  ascii_of_N (if (n <? 10)%N then 48 + n else 87 + n)%N.

(** [repr(s)]: quoted, with the escapes Python prints. *)
Definition repr_char (quote : ascii) (c : ascii) : string :=
  let n := N_of_ascii c in
  if Ascii.eqb c quote || (n =? 92)%N then String "\" (String c EmptyString)
  else if (n =? 9)%N then "\t"
  else if (n =? 10)%N then "\n"
  else if (n =? 13)%N then "\r"
  else if (n <? 32)%N || (n =? 127)%N
          || ((128 <=? n) && (n <=? 160))%N || (n =? 173)%N then
    String "\" (String "x" (String (hex_digit (n / 16)) (String (hex_digit (n mod 16)) EmptyString)))
  else String c EmptyString.

Fixpoint repr_body (quote : ascii) (s : string) : string :=
  match s with
  | EmptyString => EmptyString
  | String c s' => repr_char quote c ++ repr_body quote s'
  end.

Definition single_quote : ascii := ascii_of_nat 39.
Definition double_quote : ascii := ascii_of_nat 34.

Definition has_char (c : ascii) (s : string) : bool :=
  contains (String c EmptyString) s.

Definition repr (s : string) : string :=
  let quote :=
    if has_char single_quote s && negb (has_char double_quote s)
    then double_quote else single_quote in
  String quote (repr_body quote s ++ String quote EmptyString).

End PyStr.

(* ================================================================== *)
(** ** Exceptions and results *)
(* ================================================================== *)

(** The exceptions that can reach the drivers.  All of them are
    subclasses of [Exception]; [ValueError_float s] is the [ValueError]
    that [float(s)] raises, kept apart so that its message (which
    quotes [s]) need not be spelled out. *)
Inductive exn : Type :=
| VisaIOError (descr : string)        (* pyvisa.VisaIOError, [descr = str(e)] *)
| InvalidSession                      (* pyvisa.errors.InvalidSession *)
| RuntimeError (msg : string)
| ValueError (msg : string)
| ValueError_float (arg : string)
| OverflowError (msg : string)
| ZeroDivisionError (msg : string)
| OtherException (descr : string).

(** [isinstance(e, ValueError)] *)
Definition is_ValueError (e : exn) : bool :=
  match e with
  | ValueError _ | ValueError_float _ => true
  | _ => false
  end.

(** [str(e)], as an f-string prints an exception. *)
Definition exn_str (e : exn) : string :=
  match e with
  | VisaIOError d => d
  | InvalidSession => "Invalid session handle. The resource might be closed."
  | RuntimeError m | ValueError m | OverflowError m | ZeroDivisionError m => m
  | ValueError_float a => "could not convert string to float: " ++ PyStr.repr a
  | OtherException d => d
  end.

Inductive result (A : Type) : Type :=
| Ok (a : A)
| Raise (e : exn).
Arguments Ok {A} a.
Arguments Raise {A} e.

(* ================================================================== *)
(** ** Python floats *)
(* ================================================================== *)

(** A Python [float] is an IEEE 754 binary64 number; its operations
    round to nearest, ties to even. *)
Module PyFloat.

Definition prec : Z := 53.
Definition emax : Z := 1024.

Definition float : Type := spec_float.

Definition add : float -> float -> float := SFadd prec emax.
Definition sub : float -> float -> float := SFsub prec emax.
Definition mul : float -> float -> float := SFmul prec emax.
Definition leb : float -> float -> bool := SFleb.
Definition ltb : float -> float -> bool := SFltb.
Definition eqb : float -> float -> bool := SFeqb.

Definition is_zero (x : float) : bool :=
  match x with S754_zero _ => true | _ => false end.

(** [x / y]: raises [ZeroDivisionError] on a zero divisor. *)
Definition truediv (x y : float) : result float :=
  if is_zero y then Raise (ZeroDivisionError "float division by zero")
  else Ok (SFdiv prec emax x y).

(** [float(n)] for an [int], also the implicit conversion of an [int]
    operand in mixed arithmetic. *)
Definition of_int (n : Z) : result float :=
  match binary_normalize prec emax n 0 false with
  | S754_infinity _ => Raise (OverflowError "int too large to convert to float")
  | f => Ok f
  end.

(** [int(x)]: truncation towards zero. *)
Definition to_int (x : float) : result Z :=
  match x with
  | S754_nan => Raise (ValueError "cannot convert float NaN to integer")
  | S754_infinity _ => Raise (OverflowError "cannot convert float infinity to integer")
  | S754_zero _ => Ok 0
  | S754_finite s m e =>
      let v := if 0 <=? e then Zpos m * 2 ^ e else Zpos m / 2 ^ (- e) in
      Ok (if s then - v else v)
  end.

(** *** [float(s)] *)

(** The white space [float] skips around its argument: [str.isspace]
    without the separators U+001C..U+001F. *)
Definition is_space (c : ascii) : bool :=
  let n := Z.of_nat (nat_of_ascii c) in
  ((9 <=? n) && (n <=? 13)) || (n =? 32) || (n =? 133) || (n =? 160).

Definition digit_val (c : ascii) : option Z :=
  let n := Z.of_nat (nat_of_ascii c) in
  if (48 <=? n) && (n <=? 57) then Some (n - 48) else None.

(** The rest of a digit part [digit (["_"] digit)*] after its first
    digit: accumulated value, digit count, unread rest. *)
Fixpoint digits_tail (s : string) (acc cnt : Z) : Z * Z * string :=
  match s with
  | EmptyString => (acc, cnt, s)
  | String c s' =>
      match digit_val c with
      | Some d => digits_tail s' (10 * acc + d) (cnt + 1)
      | None =>
          if Ascii.eqb c "_" then
            match s' with
            | String c2 s'' =>
                match digit_val c2 with
                | Some d => digits_tail s'' (10 * acc + d) (cnt + 1)
                | None => (acc, cnt, s)
                end
            | EmptyString => (acc, cnt, s)
            end
          else (acc, cnt, s)
      end
  end.

Definition digitpart (s : string) (acc cnt : Z) : option (Z * Z * string) :=
  match s with
  | String c s' =>
      match digit_val c with
      | Some d => Some (digits_tail s' (10 * acc + d) (cnt + 1))
      | None => None
      end
  | EmptyString => None
  end.

Definition take_sign (s : string) : bool * string :=
  match s with
  | String c r =>
      if Ascii.eqb c "-" then (true, r)
      else if Ascii.eqb c "+" then (false, r)
      else (false, s)
  | EmptyString => (false, s)
  end.

(** An unsigned decimal literal [digits [. digits] [(e|E) [sign] digits]]
    read as [(M, E)], standing for [M * 10^E]. *)
Definition parse_decimal (u : string) : option (Z * Z) :=
  let '(iv, ic, r1) :=
    match digitpart u 0 0 with Some x => x | None => (0, 0, u) end in
  let '(mv, fc, r2) :=
    match r1 with
    | String c r =>
        if Ascii.eqb c "." then
          match digitpart r iv 0 with Some x => x | None => (iv, 0, r) end
        else (iv, 0, r1)
    | EmptyString => (iv, 0, r1)
    end in
  if ic + fc =? 0 then None
  else
    match r2 with
    | EmptyString => Some (mv, - fc)
    | String c r =>
        if Ascii.eqb c "e" || Ascii.eqb c "E" then
          let '(eneg, r') := take_sign r in
          match digitpart r' 0 0 with
          | Some (ev, _, EmptyString) =>
              Some (mv, (if eneg then - ev else ev) - fc)
          | _ => None
          end
        else None
    end.

(** The binary64 number nearest to [(-1)^neg * M * 10^E] (ties to
    even), for [M >= 0].  A negative [E] divides with 60 guard bits
    and a sticky bit, so that the single final rounding is exact. *)
Definition of_decimal (neg : bool) (M E : Z) : float :=
  let sgn (v : Z) := if neg then - v else v in
  if 0 <=? E then binary_normalize prec emax (sgn (M * 10 ^ E)) 0 neg
  else
    let D := 10 ^ (- E) in
    let k := 60 + Z.log2 D in
    let q := (M * 2 ^ k) / D in
    let r := (M * 2 ^ k) mod D in
    binary_normalize prec emax
      (sgn (2 * q + (if r =? 0 then 0 else 1))) (- k - 1) neg.

(** [float(s)] for a string argument. *)
Definition of_string (s : string) : result float :=
  let '(neg, u) := take_sign (PyStr.strip_with is_space s) in
  let lu := PyStr.lower u in
  if String.eqb lu "inf" || String.eqb lu "infinity" then Ok (S754_infinity neg)
  else if String.eqb lu "nan" then Ok S754_nan
  else
    match parse_decimal u with
    | Some (M, E) => Ok (of_decimal neg M E)
    | None => Raise (ValueError_float s)
    end.

(** *** [repr(x)]: the shortest decimal string that reads back as [x] *)

(** A positive finite float [m * 2^e] as the fraction [N / D]. *)
Definition num (m : positive) (e : Z) : Z :=
  if 0 <=? e then Zpos m * 2 ^ e else Zpos m.
Definition den (e : Z) : Z :=
  if 0 <=? e then 1 else 2 ^ (- e).

(** [N / D < 10^d] *)
Definition below_pow10 (N D d : Z) : bool :=
  if 0 <=? d then N <? 10 ^ d * D else N * 10 ^ (- d) <? D.

Fixpoint find_decpt (fuel : nat) (N D d : Z) : Z :=
  match fuel with
  | O => d
  | S fuel' => if below_pow10 N D d then d else find_decpt fuel' N D (d + 1)
  end.

(** The decimal point position: the [d] with
    [10^(d-1) <= N / D < 10^d], searched upwards from below a
    logarithm estimate. *)
Definition decpt_of (N D : Z) : Z :=
  let L := Z.log2 N - Z.log2 D in
  find_decpt 8 N D ((L * 30103) / 100000 - 3).

(** The value [N / D] scaled by [10^(-k)]: numerator and denominator. *)
Definition scaled (N D k : Z) : Z * Z :=
  if 0 <=? k then (N, D * 10 ^ k) else (N * 10 ^ (- k), D).

(** With [p] significant digits: the [p]-digit neighbour of [x] that
    reads back as [x], the nearer one when both do, the even one on a
    tie.  [force] takes the nearest neighbour unconditionally. *)
Definition digits_at (x : float) (N D dp p : Z) (force : bool) : option Z :=
  let k := dp - p in
  let '(a, b) := scaled N D k in
  let lo := a / b in
  let r := a mod b in
  let hi := lo + 1 in
  let back (d : Z) := eqb (of_decimal false d k) x in
  let nearest :=
    match 2 * r ?= b with
    | Lt => lo
    | Gt => hi
    | Eq => if Z.even lo then lo else hi
    end in
  if force then Some nearest
  else
    match back lo, back hi with
    | true, true => Some nearest
    | true, false => Some lo
    | false, true => Some hi
    | false, false => None
    end.

Fixpoint shortest (fuel : nat) (x : float) (N D dp p : Z) : Z * Z :=
  match fuel with
  | O => (match digits_at x N D dp p true with Some d => d | None => 0 end, p)
  | S fuel' =>
      match digits_at x N D dp p false with
      | Some d => (d, p)
      | None => shortest fuel' x N D dp (p + 1)
      end
  end.

Fixpoint rstrip_zeros (s : string) : string :=
  match s with
  | EmptyString => EmptyString
  | String c s' =>
      match rstrip_zeros s' with
      | EmptyString => if Ascii.eqb c "0" then EmptyString else String c EmptyString
      | r => String c r
      end
  end.

(** The digits and decimal point position of the shortest repr of a
    positive finite float. *)
Definition shortest_digits (m : positive) (e : Z) : string * Z :=
  let N := num m e in
  let D := den e in
  let dp := decpt_of N D in
  let '(d, p) := shortest 16 (S754_finite false m e) N D dp 1 in
  let ds := PyStr.of_int d in
  (rstrip_zeros ds, dp + (Z.of_nat (String.length ds) - p)).

(** Layout of [repr]: exponent notation when [decpt <= -4] or
    [decpt > 16], else fixed notation with at least one fractional
    digit. *)
Definition layout (ds : string) (dp : Z) : string :=
  let n := Z.of_nat (String.length ds) in
  if (dp <=? -4) || (16 <? dp) then
    let x := dp - 1 in
    let ax := PyStr.of_int (Z.abs x) in
    let ax := if Z.abs x <? 10 then "0" ++ ax else ax in
    let mant :=
      match ds with
      | String c EmptyString => ds
      | String c rest => String c (String "." rest)
      | EmptyString => ds
      end in
    mant ++ "e" ++ (if x <? 0 then "-" else "+") ++ ax
  else if dp <=? 0 then
    "0." ++ PyStr.repeat_char "0" (Z.to_nat (- dp)) ++ ds
  else if n <=? dp then
    ds ++ PyStr.repeat_char "0" (Z.to_nat (dp - n)) ++ ".0"
  else
    String.substring 0 (Z.to_nat dp) ds ++ "."
      ++ String.substring (Z.to_nat dp) (Z.to_nat (n - dp)) ds.

(** [repr(x)], which is also [str(x)] and [f"{x}"]. *)
Definition repr (x : float) : string :=
  match x with
  | S754_nan => "nan"
  | S754_infinity s => if s then "-inf" else "inf"
  | S754_zero s => if s then "-0.0" else "0.0"
  | S754_finite s m e =>
      let '(ds, dp) := shortest_digits m e in
      (if s then "-" else "") ++ layout ds dp
  end.

End PyFloat.

(* ================================================================== *)
(** ** Python integers from text, and fixed-point formatting *)
(* ================================================================== *)

Module PyInt.

(** [int(s)] for a string argument, base 10, with CPython's default
    limit of 4300 digits. *)
Definition of_string (s : string) : result Z :=
  let invalid :=
    Raise (ValueError ("invalid literal for int() with base 10: " ++ PyStr.repr s)) in
  let '(neg, u) := PyFloat.take_sign (PyStr.strip_with PyFloat.is_space s) in
  match PyFloat.digitpart u 0 0 with
  | None => invalid
  | Some (v, cnt, rest) =>
      match rest with
      | String c _ =>
          if Ascii.eqb c "_" then invalid
          else if 4300 <? cnt then
            Raise (ValueError
                     ("Exceeds the limit (4300 digits) for integer string conversion: value has "
                        ++ PyStr.of_int cnt
                        ++ " digits; use sys.set_int_max_str_digits() to increase the limit"))
          else invalid
      | EmptyString =>
          if 4300 <? cnt then
            Raise (ValueError
                     ("Exceeds the limit (4300 digits) for integer string conversion: value has "
                        ++ PyStr.of_int cnt
                        ++ " digits; use sys.set_int_max_str_digits() to increase the limit"))
          else Ok (if neg then - v else v)
      end
  end.

(** [bool(n)] *)
Definition truthy (n : Z) : bool := negb (n =? 0).

Fixpoint pad3 (s : string) (fuel : nat) : string :=
  match fuel with
  | O => s
  | S fuel' => if (String.length s <? 3)%nat then pad3 ("0" ++ s) fuel' else s
  end.

(** [f"{x:.3f}"]: the exact value of [x] rounded to three decimals,
    ties to even. *)
Definition format_3f (x : PyFloat.float) : string :=
  match x with
  | S754_nan => "nan"
  | S754_infinity s => if s then "-inf" else "inf"
  | S754_zero s => if s then "-0.000" else "0.000"
  | S754_finite s m e =>
      let a := PyFloat.num m e * 1000 in
      let b := PyFloat.den e in
      let lo := a / b in
      let r := a mod b in
      let n :=
        match 2 * r ?= b with
        | Lt => lo
        | Gt => lo + 1
        | Eq => if Z.even lo then lo else lo + 1
        end in
      (if s then "-" else "")
        ++ PyStr.of_int (n / 1000) ++ "." ++ pad3 (PyStr.of_int (n mod 1000)) 3
  end.

End PyInt.

(* ================================================================== *)
(** ** The instrument session *)
(* ================================================================== *)

Module Visa.

(** What the instrument (and the transport under it) answers.  Each
    operation may fail with an exception and may change the
    instrument. *)
Class Instrument (Dev : Type) : Type := {
  visa_write : string -> Dev -> result unit * Dev;
  visa_query : string -> Dev -> result string * Dev;
  visa_close : Dev -> result unit * Dev;
  visa_rm_close : Dev -> result unit * Dev
}.

(** Calls made on the PyVISA handles, in program order. *)
Inductive event : Type :=
| EvWrite (cmd : string)
| EvQuery (cmd : string)
| EvClose
| EvRmClose.

(** A driver object's view of the world: the instrument, whether the
    resource handle and the resource manager are still open, the
    calls made so far and the lines printed so far. *)
Record session (Dev : Type) : Type := mkSession {
  device : Dev;
  is_open : bool;
  rm_open : bool;
  calls : list event;
  stdout : list string
}.
Arguments mkSession {Dev}.
Arguments device {Dev}.
Arguments is_open {Dev}.
Arguments rm_open {Dev}.
Arguments calls {Dev}.
Arguments stdout {Dev}.

(** Driver code: a state and exception monad over the session. *)
Definition M (Dev A : Type) : Type := session Dev -> result A * session Dev.

Definition ret {Dev A} (a : A) : M Dev A := fun w => (Ok a, w).

Definition raise {Dev A} (e : exn) : M Dev A := fun w => (Raise e, w).

Definition bind {Dev A B} (m : M Dev A) (k : A -> M Dev B) : M Dev B :=
  fun w =>
    match m w with
    | (Ok a, w') => k a w'
    | (Raise e, w') => (Raise e, w')
    end.

(** [try: m  except Exception as e: h(e)] *)
Definition try_except {Dev A} (m : M Dev A) (h : exn -> M Dev A) : M Dev A :=
  fun w =>
    match m w with
    | (Ok a, w') => (Ok a, w')
    | (Raise e, w') => h e w'
    end.

(** [try: m  finally: f], for a [f] that returns nothing. *)
Definition try_finally {Dev A} (m : M Dev A) (f : M Dev unit) : M Dev A :=
  fun w =>
    let '(r, w') := m w in
    match f w' with
    | (Ok _, w'') => (r, w'')
    | (Raise e, w'') => (Raise e, w'')
    end.

(** A pure computation that may raise. *)
Definition lift {Dev A} (r : result A) : M Dev A := fun w => (r, w).

Definition log {Dev} (ev : event) (w : session Dev) : session Dev :=
  mkSession (device w) (is_open w) (rm_open w) (calls w ++ [ev]) (stdout w).

Definition set_device {Dev} (d : Dev) (w : session Dev) : session Dev :=
  mkSession d (is_open w) (rm_open w) (calls w) (stdout w).

(** [print(line)] *)
Definition print {Dev} (line : string) : M Dev unit :=
  fun w => (Ok tt,
            mkSession (device w) (is_open w) (rm_open w) (calls w)
                      (stdout w ++ [line])).

Section Resource.
Context {Dev : Type} `{Instrument Dev}.

(** [resource.write(cmd)]: a closed handle raises [InvalidSession]
    without reaching the instrument. *)
Definition res_write (cmd : string) : M Dev unit :=
  fun w =>
    let w := log (EvWrite cmd) w in
    if is_open w then
      let '(r, d) := visa_write cmd (device w) in (r, set_device d w)
    else (Raise InvalidSession, w).

(** [resource.query(cmd)] *)
Definition res_query (cmd : string) : M Dev string :=
  fun w =>
    let w := log (EvQuery cmd) w in
    if is_open w then
      let '(r, d) := visa_query cmd (device w) in (r, set_device d w)
    else (Raise InvalidSession, w).

(** [resource.close()]: PyVISA marks the handle invalid once the
    library call went through, and does nothing on a handle that is
    already closed. *)
Definition res_close : M Dev unit :=
  fun w =>
    let w := log EvClose w in
    if is_open w then
      match visa_close (device w) with
      | (Ok _, d) =>
          (Ok tt, mkSession d false (rm_open w) (calls w) (stdout w))
      | (Raise InvalidSession, d) => (Ok tt, set_device d w)
      | (Raise e, d) => (Raise e, set_device d w)
      end
    else (Ok tt, w).

(** [rm.close()]: closes the resources it created, then itself. *)
Definition rm_close : M Dev unit :=
  fun w =>
    let w := log EvRmClose w in
    if rm_open w then
      match visa_rm_close (device w) with
      | (Ok _, d) => (Ok tt, mkSession d false false (calls w) (stdout w))
      | (Raise InvalidSession, d) => (Ok tt, set_device d w)
      | (Raise e, d) => (Raise e, set_device d w)
      end
    else (Ok tt, w).

End Resource.

End Visa.

Import Visa.

(* ================================================================== *)
(** ** The host side: opening resources, and the clock *)
(* ================================================================== *)

Module Host.

(** [pyvisa.ResourceManager(backend)] and [rm.open_resource(name)]:
    either may raise; a resource that opens gives an instrument. *)
Class Library (Dev : Type) : Type := {
  new_resource_manager : option string -> result unit;
  open_resource : string -> result Dev
}.

(** [time.sleep(seconds)]: returns, or raises on a delay it refuses. *)
Class Clock : Type := {
  sleep : PyFloat.float -> result unit
}.

(** Truth value of an optional string argument: [None] and [""] are
    false. *)
Definition given (a : option string) : option string :=
  match a with
  | Some s => if PyStr.truthy s then Some s else None
  | None => None
  end.

(** What a constructor leaves behind: its outcome, the resource names
    it asked the library to open, in order, and the session it opened
    if it got that far. *)
Record construction (Dev Obj : Type) : Type := mkConstruction {
  outcome : result Obj;
  tried : list string;
  opened : option (session Dev)
}.
Arguments mkConstruction {Dev Obj}.
Arguments outcome {Dev Obj}.
Arguments tried {Dev Obj}.
Arguments opened {Dev Obj}.

End Host.

Import Host.

Declare Scope visa_scope.
Delimit Scope visa_scope with visa.
Notation "x <- m ;; k" := (bind m (fun x => k))
  (at level 61, m at next level, right associativity) : visa_scope.
Notation "m ;;; k" := (bind m (fun _ => k))
  (at level 61, right associativity) : visa_scope.
Local Open Scope visa_scope.

(** [range(n)] *)
Definition range (n : Z) : list Z := map Z.of_nat (seq 0 (Z.to_nat n)).

(* ================================================================== *)
(** ** spectrum_analyzer_scpi.py *)
(* ================================================================== *)

Module SpectrumAnalyzer.
Section Driver.
Context {Dev : Type} `{Instrument Dev}.

(** [write]: a [VisaIOError] is re-raised as a [RuntimeError] that
    names the command; anything else passes through. *)
Definition write (cmd : string) : M Dev unit :=
  try_except (res_write cmd)
    (fun e =>
       match e with
       | VisaIOError d =>
           raise (RuntimeError ("VISA write error en '" ++ cmd ++ "': " ++ d))
       | _ => raise e
       end).

Definition query (cmd : string) : M Dev string :=
  try_except (res_query cmd)
    (fun e =>
       match e with
       | VisaIOError d =>
           raise (RuntimeError ("VISA query error en '" ++ cmd ++ "': " ++ d))
       | _ => raise e
       end).

(** The [for c in cmds] loop of [_try_write_any], with [last_err]
    as the loop variable. *)
Fixpoint try_write_loop (cmds : list string) (last_err : option exn)
  : M Dev unit :=
  match cmds with
  | [] =>
      match last_err with
      | Some e => raise e
      | None => raise (RuntimeError "No SCPI variant worked")
      end
  | c :: cs =>
      try_except (write c) (fun e => try_write_loop cs (Some e))
  end.

Definition _try_write_any (cmds : list string) : M Dev unit :=
  try_write_loop cmds None.

Fixpoint try_query_loop (cmds : list string) (last_err : option exn)
  : M Dev string :=
  match cmds with
  | [] =>
      match last_err with
      | Some e => raise e
      | None => raise (RuntimeError "No SCPI variant worked")
      end
  | c :: cs =>
      try_except (query c) (fun e => try_query_loop cs (Some e))
  end.

Definition _try_query_any (cmds : list string) : M Dev string :=
  try_query_loop cmds None.

(** The [for _ in range(max_reads)] loop of [check_errors]. *)
Fixpoint check_errors_loop (n : nat) (errs : list string)
  : M Dev (list string) :=
  match n with
  | O => ret errs
  | S n' =>
      err <- query "SYST:ERR?" ;;
      let errs := (errs ++ [PyStr.strip err])%list in
      if PyStr.startswith err "0" then ret errs
      else check_errors_loop n' errs
  end.

Definition check_errors (max_reads : Z) : M Dev (list string) :=
  check_errors_loop (Z.to_nat max_reads) [].

(** [close]: the resource handle is always truthy, so its [close]
    is always called; the manager is closed in the [finally] clause
    with every exception swallowed. *)
Definition close : M Dev unit :=
  try_finally res_close
    (try_except rm_close (fun _ => ret tt)).

Definition set_span (start_hz stop_hz : PyFloat.float) (points : Z)
  : M Dev unit :=
  if PyFloat.leb stop_hz start_hz then
    raise (ValueError "stop_hz debe ser mayor que start_hz")
  else
    _try_write_any ["FREQ:STAR " ++ PyFloat.repr start_hz;
                    "SENS:FREQ:STAR " ++ PyFloat.repr start_hz] ;;;
    _try_write_any ["FREQ:STOP " ++ PyFloat.repr stop_hz;
                    "SENS:FREQ:STOP " ++ PyFloat.repr stop_hz] ;;;
    _try_write_any ["SWE:POIN " ++ PyStr.of_int points;
                    "SENS:SWE:POIN " ++ PyStr.of_int points].

Definition get_start_stop : M Dev (PyFloat.float * PyFloat.float) :=
  s1 <- _try_query_any ["FREQ:STAR?"; "SENS:FREQ:STAR?"] ;;
  f_start <- lift (PyFloat.of_string s1) ;;
  s2 <- _try_query_any ["FREQ:STOP?"; "SENS:FREQ:STOP?"] ;;
  f_stop <- lift (PyFloat.of_string s2) ;;
  ret (f_start, f_stop).

(** *** Trace read-out *)

(** [trc = f"TRACE{trace}" if isinstance(trace, int) else str(trace)] *)
Definition trace_name (trace : Z + string) : string :=
  match trace with
  | inl n => "TRACE" ++ PyStr.of_int n
  | inr s => s
  end.

Definition trace_commands (trc : string) : list string :=
  ["TRAC:DATA? " ++ trc; "TRAC? " ++ trc; "TRAC:DATA?"].

(** The first parse of [fetch_trace]: the [for p in parts] loop,
    where a [ValueError] of [float] is passed over. *)
Fixpoint parse_parts (parts : list string) (vals : list PyFloat.float)
  : result (list PyFloat.float) :=
  match parts with
  | [] => Ok vals
  | p :: rest =>
      let p := PyStr.strip p in
      if PyStr.truthy p then
        match PyFloat.of_string p with
        | Ok v => parse_parts rest (vals ++ [v])%list
        | Raise e =>
            if is_ValueError e then parse_parts rest vals else Raise e
        end
      else parse_parts rest vals
  end.

Definition first_parse (data_str : string) : result (list PyFloat.float) :=
  let parts :=
    PyStr.split ","
      (PyStr.replace ";" "," (PyStr.replace PyStr.newline "," data_str)) in
  parse_parts parts [].

(** The reparse after forcing ASCII format: the list comprehension
    [[float(x) for x in ... if x.strip()]]. *)
Fixpoint parse_comprehension (xs : list string)
  : result (list PyFloat.float) :=
  match xs with
  | [] => Ok []
  | x :: rest =>
      if PyStr.truthy (PyStr.strip x) then
        match PyFloat.of_string x with
        | Ok v =>
            match parse_comprehension rest with
            | Ok vs => Ok (v :: vs)
            | Raise e => Raise e
            end
        | Raise e => Raise e
        end
      else parse_comprehension rest
  end.

Definition second_parse (data_str : string) : result (list PyFloat.float) :=
  parse_comprehension
    (PyStr.split "," (PyStr.replace PyStr.newline "," data_str)).

(** [fetch_trace(trace)], [trace] being an [int] or a [str]. *)
Definition fetch_trace (trace : Z + string) : M Dev (list PyFloat.float) :=
  let trc := trace_name trace in
  data_str <- _try_query_any (trace_commands trc) ;;
  vals <- lift (first_parse data_str) ;;
  match vals with
  | [] =>
      _try_write_any ["FORM ASC"; "FORM:DATA ASC"] ;;;
      data_str <- _try_query_any (trace_commands trc) ;;
      lift (second_parse data_str)
  | _ => ret vals
  end.

(** *** Frequency axis *)

(** [[f_start + i * step for i in range(points)]]: the [int] [i] is
    converted to a float for the product. *)
Fixpoint axis_entries (f_start step : PyFloat.float) (idxs : list Z)
  : result (list PyFloat.float) :=
  match idxs with
  | [] => Ok []
  | i :: rest =>
      match PyFloat.of_int i with
      | Ok fi =>
          match axis_entries f_start step rest with
          | Ok vs => Ok (PyFloat.add f_start (PyFloat.mul fi step) :: vs)
          | Raise e => Raise e
          end
      | Raise e => Raise e
      end
  end.

(** The arithmetic of [get_frequency_axis] once start, stop and the
    point count have been read back. *)
Definition linear_axis (f_start f_stop : PyFloat.float) (points : Z)
  : result (list PyFloat.float) :=
  if points <? 2 then Ok [f_start]
  else
    match PyFloat.of_int (points - 1) with
    | Ok d =>
        match PyFloat.truediv (PyFloat.sub f_stop f_start) d with
        | Ok step => axis_entries f_start step (range points)
        | Raise e => Raise e
        end
    | Raise e => Raise e
    end.

Definition get_frequency_axis : M Dev (list PyFloat.float) :=
  ss <- get_start_stop ;;
  let '(f_start, f_stop) := ss in
  s <- _try_query_any ["SWE:POIN?"; "SENS:SWE:POIN?"] ;;
  pf <- lift (PyFloat.of_string s) ;;
  points <- lift (PyFloat.to_int pf) ;;
  lift (linear_axis f_start f_stop points).

(** *** Markers *)

Definition on_off (on : bool) : string := if on then "ON" else "OFF".

Definition set_marker (idx : Z) (on : bool) : M Dev unit :=
  _try_write_any
    ["CALC:MARK" ++ PyStr.of_int idx ++ ":STAT " ++ on_off on;
     "CALC:MARKER" ++ PyStr.of_int idx ++ ":STATE " ++ on_off on].

Definition set_marker_x (idx : Z) (freq_hz : PyFloat.float) : M Dev unit :=
  ss <- get_start_stop ;;
  let '(f_start, f_stop) := ss in
  if negb (PyFloat.leb f_start freq_hz && PyFloat.leb freq_hz f_stop) then
    raise (ValueError ("Frecuencia " ++ PyFloat.repr freq_hz
                         ++ " fuera de span [" ++ PyFloat.repr f_start
                         ++ ", " ++ PyFloat.repr f_stop ++ "]"))
  else
    _try_write_any
      ["CALC:MARK" ++ PyStr.of_int idx ++ ":X " ++ PyFloat.repr freq_hz;
       "CALC:MARKER" ++ PyStr.of_int idx ++ ":X " ++ PyFloat.repr freq_hz].

Definition get_marker_xy (idx : Z) : M Dev (PyFloat.float * PyFloat.float) :=
  sx <- _try_query_any ["CALC:MARK" ++ PyStr.of_int idx ++ ":X?";
                        "CALC:MARKER" ++ PyStr.of_int idx ++ ":X?"] ;;
  x <- lift (PyFloat.of_string sx) ;;
  sy <- _try_query_any ["CALC:MARK" ++ PyStr.of_int idx ++ ":Y?";
                        "CALC:MARKER" ++ PyStr.of_int idx ++ ":Y?"] ;;
  y <- lift (PyFloat.of_string sy) ;;
  ret (x, y).

(** The [try] body of [get_delta_reading]: the direct read-out. *)
Definition direct_delta (del_idx : Z) : M Dev (PyFloat.float * PyFloat.float) :=
  sx <- _try_query_any ["CALC:MARK" ++ PyStr.of_int del_idx ++ ":DELT:X?";
                        "CALC:MARKER" ++ PyStr.of_int del_idx ++ ":DELTA:X?"] ;;
  df <- lift (PyFloat.of_string sx) ;;
  sy <- _try_query_any ["CALC:MARK" ++ PyStr.of_int del_idx ++ ":DELT:Y?";
                        "CALC:MARKER" ++ PyStr.of_int del_idx ++ ":DELTA:Y?"] ;;
  da <- lift (PyFloat.of_string sy) ;;
  ret (df, da).

(** The [except Exception] body: the difference of the two markers. *)
Definition manual_delta (ref_idx del_idx : Z)
  : M Dev (PyFloat.float * PyFloat.float) :=
  p1 <- get_marker_xy ref_idx ;;
  let '(x1, y1) := p1 in
  p2 <- get_marker_xy del_idx ;;
  let '(x2, y2) := p2 in
  ret (PyFloat.sub x2 x1, PyFloat.sub y2 y1).

Definition get_delta_reading (ref_idx del_idx : Z)
  : M Dev (PyFloat.float * PyFloat.float) :=
  try_except (direct_delta del_idx)
    (fun _ => manual_delta ref_idx del_idx).

(** *** Initialisation and sweep settings *)

Definition reset (wait : bool) : M Dev unit :=
  write "*CLS" ;;;
  write "*RST" ;;;
  if wait then (_r <- query "*OPC?" ;; ret tt) else ret tt.

Definition set_center_span (center_hz span_hz : PyFloat.float) (points : Z)
  : M Dev unit :=
  if PyFloat.leb span_hz (S754_zero false) then
    raise (ValueError "span_hz debe ser > 0")
  else
    _try_write_any ["FREQ:CENT " ++ PyFloat.repr center_hz;
                    "SENS:FREQ:CENT " ++ PyFloat.repr center_hz] ;;;
    _try_write_any ["FREQ:SPAN " ++ PyFloat.repr span_hz;
                    "SENS:FREQ:SPAN " ++ PyFloat.repr span_hz] ;;;
    _try_write_any ["SWE:POIN " ++ PyStr.of_int points;
                    "SENS:SWE:POIN " ++ PyStr.of_int points].

Definition set_sweep_time (seconds : PyFloat.float) (auto : bool) : M Dev unit :=
  if auto then
    _try_write_any ["SWE:TIME:AUTO ON"; "SENS:SWE:TIME:AUTO ON"]
  else
    _try_write_any ["SWE:TIME:AUTO OFF"; "SENS:SWE:TIME:AUTO OFF"] ;;;
    _try_write_any ["SWE:TIME " ++ PyFloat.repr seconds;
                    "SENS:SWE:TIME " ++ PyFloat.repr seconds].

Definition set_points (points : Z) : M Dev unit :=
  _try_write_any ["SWE:POIN " ++ PyStr.of_int points;
                  "SENS:SWE:POIN " ++ PyStr.of_int points].

(** [if x is not None: body] *)
Definition when_given {A : Type} (x : option A) (body : A -> M Dev unit)
  : M Dev unit :=
  match x with
  | Some a => body a
  | None => ret tt
  end.

Definition set_rbw_vbw (rbw_hz vbw_hz : option PyFloat.float)
  (rbw_auto vbw_auto : option bool) : M Dev unit :=
  when_given rbw_auto (fun a =>
    _try_write_any ["BAND:AUTO " ++ on_off a; "SENS:BAND:AUTO " ++ on_off a]) ;;;
  when_given rbw_hz (fun v =>
    _try_write_any ["BAND " ++ PyFloat.repr v; "SENS:BAND " ++ PyFloat.repr v]) ;;;
  when_given vbw_auto (fun a =>
    _try_write_any ["BAND:VID:AUTO " ++ on_off a;
                    "SENS:BAND:VID:AUTO " ++ on_off a]) ;;;
  when_given vbw_hz (fun v =>
    _try_write_any ["BAND:VID " ++ PyFloat.repr v;
                    "SENS:BAND:VID " ++ PyFloat.repr v]).

Definition set_reference_level (level_dbm : PyFloat.float) : M Dev unit :=
  _try_write_any ["DISP:WIND:TRAC:Y:RLEV " ++ PyFloat.repr level_dbm;
                  "DISP:TRAC:Y:RLEV " ++ PyFloat.repr level_dbm;
                  "DISP:WIND1:TRAC1:Y:RLEV " ++ PyFloat.repr level_dbm].

Definition set_attenuation (att_db : option PyFloat.float) (auto : option bool)
  : M Dev unit :=
  when_given auto (fun a =>
    _try_write_any ["INP:ATT:AUTO " ++ on_off a;
                    "SENS:POW:ATT:AUTO " ++ on_off a]) ;;;
  when_given att_db (fun v =>
    _try_write_any ["INP:ATT " ++ PyFloat.repr v;
                    "SENS:POW:ATT " ++ PyFloat.repr v]).

(** [set_preamp], with [self.vendor] as an argument. *)
Definition set_preamp (vendor : list N) (on : bool) : M Dev unit :=
  if PyStr.cp_contains (PyStr.codes "ROHDE") vendor
     || PyStr.cp_contains (PyStr.codes "R&S") vendor then
    _try_write_any ["INP:GAIN:STAT " ++ on_off on]
  else
    _try_write_any ["POW:GAIN " ++ on_off on; "POW:GAIN:STAT " ++ on_off on].

Definition set_averaging (on : bool) (count : option Z) (clear : bool)
  : M Dev unit :=
  _try_write_any ["AVER:STAT " ++ on_off on; "SENS:AVER:STAT " ++ on_off on] ;;;
  when_given count (fun n =>
    _try_write_any ["AVER:COUN " ++ PyStr.of_int n;
                    "SENS:AVER:COUN " ++ PyStr.of_int n]) ;;;
  if clear then _try_write_any ["AVER:CLE"; "SENS:AVER:CLE"] else ret tt.

Definition continuous (on : bool) : M Dev unit :=
  _try_write_any ["INIT:CONT " ++ on_off on; "SENS:INIT:CONT " ++ on_off on].

Definition single_sweep (wait : bool) : M Dev unit :=
  continuous false ;;;
  _try_write_any ["INIT:IMM"; "INIT"] ;;;
  if wait then (_r <- query "*OPC?" ;; ret tt) else ret tt.

(** *** More on markers *)

(** The [for i in range(1, max_markers + 1)] loop of [clear_markers]:
    [i] is the current index, [n] the number of indices left. *)
Fixpoint clear_markers_loop (n : nat) (i : Z) : M Dev unit :=
  match n with
  | O => ret tt
  | S n' =>
      fun w =>
        match set_marker i false w with
        | (Ok _, w') => clear_markers_loop n' (i + 1) w'
        | (Raise _, w') => (Ok tt, w')
        end
  end.

Definition clear_markers (max_markers : Z) : M Dev unit :=
  clear_markers_loop (Z.to_nat max_markers) 1.

Definition peak_search (idx : Z) : M Dev unit :=
  _try_write_any ["CALC:MARK" ++ PyStr.of_int idx ++ ":MAX";
                  "CALC:MARKER" ++ PyStr.of_int idx ++ ":MAX"] ;;;
  set_marker idx true.

Definition next_peak (idx : Z) (direction : string) : M Dev unit :=
  let direction := PyStr.upper direction in
  (if PyStr.cp_eqb direction (PyStr.codes "NEXT")
      || PyStr.cp_eqb direction (PyStr.codes "RIGHT") then
     _try_write_any ["CALC:MARK" ++ PyStr.of_int idx ++ ":MAX:NEXT";
                     "CALC:MARKER" ++ PyStr.of_int idx ++ ":MAX:NEXT"]
   else
     _try_write_any ["CALC:MARK" ++ PyStr.of_int idx ++ ":MAX:LEFT";
                     "CALC:MARKER" ++ PyStr.of_int idx ++ ":MAX:LEFT"]) ;;;
  set_marker idx true.

Definition marker_delta_mode (on : bool) (ref_idx del_idx : Z) : M Dev unit :=
  if on then
    _try_write_any
      ["CALC:MARK" ++ PyStr.of_int del_idx ++ ":FUNC:TYPE DELT; CALC:MARK"
         ++ PyStr.of_int del_idx ++ ":FUNC:STAT ON";
       "CALC:MARKER" ++ PyStr.of_int del_idx ++ ":FUNC:TYPE DELT; CALC:MARKER"
         ++ PyStr.of_int del_idx ++ ":FUNC:STATE ON";
       "CALC:MARK" ++ PyStr.of_int del_idx ++ ":MODE DELT"] ;;;
    set_marker ref_idx true ;;;
    set_marker del_idx true
  else
    _try_write_any
      ["CALC:MARK" ++ PyStr.of_int del_idx ++ ":FUNC:STAT OFF";
       "CALC:MARKER" ++ PyStr.of_int del_idx ++ ":FUNC:STATE OFF"].

(** The [try] body of one turn of [active_markers]: is marker [i] on? *)
Definition marker_is_on (i : Z) : M Dev bool :=
  s <- _try_query_any ["CALC:MARK" ++ PyStr.of_int i ++ ":STAT?";
                       "CALC:MARKER" ++ PyStr.of_int i ++ ":STATE?"] ;;
  st <- lift (PyFloat.of_string s) ;;
  n <- lift (PyFloat.to_int st) ;;
  ret (n =? 1).

(** The loop of [active_markers]; any exception ends it. *)
Fixpoint active_markers_loop (n : nat) (i : Z) (actives : list Z)
  : M Dev (list Z) :=
  match n with
  | O => ret actives
  | S n' =>
      fun w =>
        match marker_is_on i w with
        | (Ok b, w') =>
            active_markers_loop n' (i + 1)
              (if b then (actives ++ [i])%list else actives) w'
        | (Raise _, w') => (Ok actives, w')
        end
  end.

Definition active_markers (max_markers : Z) : M Dev (list Z) :=
  active_markers_loop (Z.to_nat max_markers) 1 [].

(** *** Display and screenshots *)

Definition set_trace_detector_view (trace : Z) (average_display : bool)
  : M Dev unit :=
  let mode := if average_display then "AVER" else "WRIT" in
  _try_write_any ["DISP:TRAC" ++ PyStr.of_int trace ++ ":MODE " ++ mode;
                  "DISP:WIND1:TRAC" ++ PyStr.of_int trace ++ ":MODE " ++ mode].

Definition screenshot_png (filepath : string) : M Dev unit :=
  try_except
    (write "HCOP:DEV:LANG PNG" ;;;
     write ("MMEM:NAME '" ++ filepath ++ "'") ;;;
     write "HCOP:IMM" ;;;
     _r <- query "*OPC?" ;; ret tt)
    (fun _ => ret tt).

(** [__exit__] *)
Definition __exit__ : M Dev unit := close.

End Driver.

Section Constructor.
Context {Dev : Type} `{Instrument Dev} `{Library Dev}.

(** The object a constructor builds. *)
Record analyzer : Type := mkAnalyzer {
  sa : session Dev;
  idn : string;
  vendor : list N
}.

(** The [for suffix in ("hislip0", "inst0")] loop of [__init__]. *)
Fixpoint open_first (ip : string) (suffixes : list string) (names : list string)
  : option Dev * list string :=
  match suffixes with
  | [] => (None, names)
  | suffix :: rest =>
      let candidate := "TCPIP0::" ++ ip ++ "::" ++ suffix ++ "::INSTR" in
      match open_resource candidate with
      | Ok d => (Some d, (names ++ [candidate])%list)
      | Raise _ => open_first ip rest (names ++ [candidate])%list
      end
  end.

(** The opening part of [__init__]. *)
Definition connect (resource ip : option string) : result Dev * list string :=
  match resource, given ip with
  | None, Some i =>
      match open_first i ["hislip0"; "inst0"] [] with
      | (Some d, names) => (Ok d, names)
      | (None, names) =>
          (Raise (RuntimeError ("No pude abrir VISA en " ++ i
                                  ++ " (hislip0 ni inst0)")), names)
      end
  | _, _ =>
      match given resource with
      | Some r => (open_resource r, [r])
      | None => (Raise (ValueError "Proporciona 'resource' o 'ip'"), [])
      end
  end.

(** [__init__(resource, ip, backend, timeout_ms)].  Setting the
    terminators, the timeout and the chunk size on the handle has no
    counterpart in the session. *)
Definition __init__ (resource ip backend : option string) (timeout_ms : Z)
  : construction Dev analyzer :=
  match new_resource_manager (given backend) with
  | Raise e => mkConstruction (Raise e) [] None
  | Ok _ =>
      match connect resource ip with
      | (Raise e, names) => mkConstruction (Raise e) names None
      | (Ok d, names) =>
          let w0 := mkSession d true true [] [] in
          match write "*CLS" w0 with
          | (Raise e, w1) => mkConstruction (Raise e) names (Some w1)
          | (Ok _, w1) =>
              match query "*IDN?" w1 with
              | (Raise e, w2) => mkConstruction (Raise e) names (Some w2)
              | (Ok reply, w2) =>
                  let idn := PyStr.strip reply in
                  let vendor :=
                    PyStr.upper (if PyStr.contains "," idn
                                 then PyStr.first_field "," idn else idn) in
                  mkConstruction (Ok (mkAnalyzer w2 idn vendor)) names (Some w2)
              end
          end
      end
  end.

End Constructor.
End SpectrumAnalyzer.

(* ================================================================== *)
(** ** vna_rs_znl20.py *)
(* ================================================================== *)

Module VNA.
Section Driver.
Context {Dev : Type} `{Instrument Dev}.

Definition write (cmd : string) : M Dev unit :=
  try_except (res_write cmd)
    (fun e =>
       match e with
       | VisaIOError d =>
           raise (RuntimeError ("VISA write error en '" ++ cmd ++ "': " ++ d))
       | _ => raise e
       end).

Definition query (cmd : string) : M Dev string :=
  try_except (res_query cmd)
    (fun e =>
       match e with
       | VisaIOError d =>
           raise (RuntimeError ("VISA query error en '" ++ cmd ++ "': " ++ d))
       | _ => raise e
       end).

(** The [for _ in range(20)] loop of [check_errors]. *)
Fixpoint check_errors_loop (n : nat) (errors : list string)
  : M Dev (list string) :=
  match n with
  | O => ret errors
  | S n' =>
      err <- query "SYST:ERR?" ;;
      let errors := (errors ++ [PyStr.strip err])%list in
      if PyStr.startswith err "0" then ret errors
      else check_errors_loop n' errors
  end.

Definition check_errors : M Dev (list string) :=
  check_errors_loop (Z.to_nat 20) [].

Definition close : M Dev unit :=
  try_finally res_close
    (try_except rm_close (fun _ => ret tt)).

Definition set_span (start_freq stop_freq : PyFloat.float) (points : Z)
  : M Dev unit :=
  if PyFloat.leb stop_freq start_freq then
    raise (ValueError "Stop frequency must be greater than start frequency")
  else
    write ("SENS:FREQ:STAR " ++ PyFloat.repr start_freq) ;;;
    write ("SENS:FREQ:STOP " ++ PyFloat.repr stop_freq) ;;;
    write ("SENS:SWE:POIN " ++ PyStr.of_int points).

Definition set_marker_x (idx : Z) (freq_hz : PyFloat.float) : M Dev unit :=
  s1 <- query "SENS:FREQ:STAR?" ;;
  f_start <- lift (PyFloat.of_string s1) ;;
  s2 <- query "SENS:FREQ:STOP?" ;;
  f_stop <- lift (PyFloat.of_string s2) ;;
  if negb (PyFloat.leb f_start freq_hz && PyFloat.leb freq_hz f_stop) then
    raise (ValueError ("Frecuencia " ++ PyFloat.repr freq_hz
                         ++ " fuera del sweep [" ++ PyFloat.repr f_start
                         ++ ", " ++ PyFloat.repr f_stop ++ "]"))
  else
    write ("CALC:MARK" ++ PyStr.of_int idx ++ ":X " ++ PyFloat.repr freq_hz).

(** *** The rest of the VNA driver *)

Definition reset (wait : bool) : M Dev unit :=
  write "*CLS" ;;;
  write "*RST" ;;;
  if wait then (_r <- query "*OPC?" ;; ret tt) else ret tt.

(** [window] and [trace] are accepted and not used. *)
Definition get_trace_name (window trace : Z) : M Dev string :=
  query "CALC1:PAR:CAT?".

Definition select_or_create_trace (name sparam : string) (window trace : Z)
  : M Dev string :=
  write ("CALC" ++ PyStr.of_int window ++ ":PAR:MEAS '" ++ name ++ "','"
           ++ sparam ++ "'") ;;;
  write ("CALC" ++ PyStr.of_int window ++ ":PAR:SEL '" ++ name ++ "'") ;;;
  query "SYST:ERR?".

Definition set_marker (idx : Z) (on : bool) : M Dev unit :=
  write ("CALC:MARK" ++ PyStr.of_int idx ++ ":STAT "
           ++ (if on then "ON" else "OFF")).

Definition get_marker_xy (idx : Z) : M Dev (PyFloat.float * PyFloat.float) :=
  sx <- query ("CALC:MARK" ++ PyStr.of_int idx ++ ":X?") ;;
  x <- lift (PyFloat.of_string sx) ;;
  sy <- query ("CALC:MARK" ++ PyStr.of_int idx ++ ":Y?") ;;
  y <- lift (PyFloat.of_string sy) ;;
  ret (x, y).

(** The [try] body of one turn of [active_markers]. *)
Definition marker_is_on (i : Z) : M Dev bool :=
  s <- query ("CALC:MARK" ++ PyStr.of_int i ++ ":STAT?") ;;
  f <- lift (PyFloat.of_string s) ;;
  state <- lift (PyFloat.to_int f) ;;
  ret (state =? 1).

Fixpoint active_markers_loop (n : nat) (i : Z) (actives : list Z)
  : M Dev (list Z) :=
  match n with
  | O => ret actives
  | S n' =>
      fun w =>
        match marker_is_on i w with
        | (Ok b, w') =>
            active_markers_loop n' (i + 1)
              (if b then (actives ++ [i])%list else actives) w'
        | (Raise _, w') => (Ok actives, w')
        end
  end.

(** [for i in range(1, 11)] *)
Definition active_markers : M Dev (list Z) :=
  active_markers_loop 10 1 [].

(** The [for idx in actives] loop of [get_all_marker_xy]. *)
Fixpoint read_markers (actives : list Z)
  (results : list (Z * PyFloat.float * PyFloat.float))
  : M Dev (list (Z * PyFloat.float * PyFloat.float)) :=
  match actives with
  | [] => ret results
  | idx :: rest =>
      p <- get_marker_xy idx ;;
      let '(x, y) := p in
      read_markers rest (results ++ [(idx, x, y)])%list
  end.

Definition get_all_marker_xy : M Dev (list (Z * PyFloat.float * PyFloat.float)) :=
  actives <- active_markers ;;
  read_markers actives [].

(** The loop of [clear_markers]: a failure is printed and ends it. *)
Fixpoint clear_markers_loop (n : nat) (i : Z) : M Dev unit :=
  match n with
  | O => ret tt
  | S n' =>
      fun w =>
        match write ("CALC:MARK" ++ PyStr.of_int i ++ ":STAT OFF") w with
        | (Ok _, w') => clear_markers_loop n' (i + 1) w'
        | (Raise e, w') =>
            print ("Error al intentar borrar marcador " ++ PyStr.of_int i
                     ++ ": " ++ exn_str e) w'
        end
  end.

Definition clear_markers (max_markers : Z) : M Dev unit :=
  clear_markers_loop (Z.to_nat max_markers) 1.

Definition __exit__ : M Dev unit := close.

End Driver.

Section Constructor.
Context {Dev : Type} `{Instrument Dev} `{Library Dev}.

Record analyzer : Type := mkAnalyzer {
  vna : session Dev;
  idn : string;
  vendor : list N
}.

Fixpoint open_first (ip : string) (suffixes : list string) (names : list string)
  : option Dev * list string :=
  match suffixes with
  | [] => (None, names)
  | suffix :: rest =>
      let candidate := "TCPIP0::" ++ ip ++ "::" ++ suffix ++ "::INSTR" in
      match open_resource candidate with
      | Ok d => (Some d, (names ++ [candidate])%list)
      | Raise _ => open_first ip rest (names ++ [candidate])%list
      end
  end.

Definition connect (resource ip : option string) : result Dev * list string :=
  match resource, given ip with
  | None, Some i =>
      match open_first i ["hislip0"; "inst0"] [] with
      | (Some d, names) => (Ok d, names)
      | (None, names) =>
          (Raise (RuntimeError ("No pude abrir VISA en " ++ i
                                  ++ " (hislip0 ni inst0)")), names)
      end
  | _, _ =>
      match given resource with
      | Some r => (open_resource r, [r])
      | None => (Raise (ValueError "Proporciona 'resource' o 'ip'"), [])
      end
  end.

Definition __init__ (resource ip backend : option string) (timeout_ms : Z)
  : construction Dev analyzer :=
  match new_resource_manager (given backend) with
  | Raise e => mkConstruction (Raise e) [] None
  | Ok _ =>
      match connect resource ip with
      | (Raise e, names) => mkConstruction (Raise e) names None
      | (Ok d, names) =>
          let w0 := mkSession d true true [] [] in
          match write "*CLS" w0 with
          | (Raise e, w1) => mkConstruction (Raise e) names (Some w1)
          | (Ok _, w1) =>
              match query "*IDN?" w1 with
              | (Raise e, w2) => mkConstruction (Raise e) names (Some w2)
              | (Ok reply, w2) =>
                  let idn := PyStr.strip reply in
                  let vendor :=
                    if PyStr.contains "," idn
                    then PyStr.upper (PyStr.first_field "," idn)
                    else PyStr.upper idn in
                  mkConstruction (Ok (mkAnalyzer w2 idn vendor)) names (Some w2)
              end
          end
      end
  end.

End Constructor.
End VNA.

(* ================================================================== *)
(** ** awg_rigol_dg922pro.py *)
(* ================================================================== *)

(** The float literals [0.001] and [0.0]. *)
Definition f_0_001 : PyFloat.float := S754_finite false 4611686018427388 (-62).
Definition f_0_0 : PyFloat.float := S754_zero false.

Module AWG_Rigol_DG922Pro.
Section Driver.
Context {Dev : Type} `{Instrument Dev}.

Definition enable_output (channel : Z) (state : bool) : M Dev unit :=
  let state_str := if state then "ON" else "OFF" in
  res_write (":OUTP" ++ PyStr.of_int channel ++ " " ++ state_str).

Definition close : M Dev unit :=
  enable_output 1 false ;;;
  enable_output 2 false ;;;
  res_close.

Definition set_sin (channel : Z) (frequency amplitude offset phase : PyFloat.float)
  : M Dev unit :=
  amplitude <-
    (if PyFloat.ltb amplitude f_0_001 then
       print "Amplitude below minimum (0.001). Setting it to 0.001." ;;;
       ret f_0_001
     else ret amplitude) ;;
  res_write (":SOUR" ++ PyStr.of_int channel ++ ":APPL:SIN "
               ++ PyFloat.repr frequency ++ "," ++ PyFloat.repr amplitude
               ++ "," ++ PyFloat.repr offset) ;;;
  if negb (PyFloat.eqb phase f_0_0) then
    res_write (":SOUR" ++ PyStr.of_int channel ++ ":PHAS " ++ PyFloat.repr phase)
  else ret tt.

(** *** The other one-command setters, trigger and error read-out *)

(** Returns [self.inst], which the embedding has no value for. *)
Definition init_and_set (offset : PyFloat.float) (channel : Z) : M Dev unit :=
  res_write (":OUTP" ++ PyStr.of_int channel ++ ":LOAD 50") ;;;
  res_write (":SOUR" ++ PyStr.of_int channel ++ ":APPL:DC DEF,DEF,"
               ++ PyFloat.repr offset).

Definition set_DC (offset : PyFloat.float) (channel : Z) : M Dev unit :=
  res_write (":SOUR" ++ PyStr.of_int channel ++ ":APPL:DC DEF,DEF,"
               ++ PyFloat.repr offset).

Definition set_phase (channel : Z) (phase : PyFloat.float) : M Dev unit :=
  res_write (":SOUR" ++ PyStr.of_int channel ++ ":PHAS " ++ PyFloat.repr phase).

Definition set_sync_phase : M Dev unit :=
  res_write ":SOUR:PHAS:SYNC".

Definition set_amplitude (channel : Z) (amplitude : PyFloat.float) : M Dev unit :=
  res_write (":SOUR" ++ PyStr.of_int channel ++ ":VOLT " ++ PyFloat.repr amplitude).

Definition set_offset (channel : Z) (offset : PyFloat.float) : M Dev unit :=
  res_write (":SOUR" ++ PyStr.of_int channel ++ ":VOLT:OFFS "
               ++ PyFloat.repr offset).

Definition set_frequency (channel : Z) (frequency : PyFloat.float) : M Dev unit :=
  res_write (":SOUR" ++ PyStr.of_int channel ++ ":FREQ " ++ PyFloat.repr frequency).

Definition set_waveform (channel : Z) (waveform_type : string) : M Dev unit :=
  res_write (":SOUR" ++ PyStr.of_int channel ++ ":FUNC " ++ waveform_type).

Definition setup_trigger (channel : Z) (trigger_source : string) (burst_cycles : Z)
  : M Dev unit :=
  res_write (":SOUR" ++ PyStr.of_int channel ++ ":BURS:STAT ON") ;;;
  res_write (":SOUR" ++ PyStr.of_int channel ++ ":BURS:MODE TRIG") ;;;
  res_write (":SOUR" ++ PyStr.of_int channel ++ ":BURS:NCYC "
               ++ PyStr.of_int burst_cycles) ;;;
  if String.eqb trigger_source "EXT" then
    res_write (":TRIG" ++ PyStr.of_int channel ++ ":SOUR EXT")
  else if String.eqb trigger_source "INT" then
    res_write (":TRIG" ++ PyStr.of_int channel ++ ":SOUR INT")
  else if String.eqb trigger_source "MAN" then
    res_write (":TRIG" ++ PyStr.of_int channel ++ ":SOUR MAN")
  else ret tt.

Definition trigger_manual : M Dev unit :=
  res_write "*TRG".

Definition get_error : M Dev string :=
  error <- res_query ":SYST:ERR?" ;;
  ret (PyStr.strip error).

Definition __exit__ : M Dev unit := close.

End Driver.
End AWG_Rigol_DG922Pro.

(* ================================================================== *)
(** ** signal_generator_anapico_apsin20g.py *)
(* ================================================================== *)

Module AnaPico_sin20G.
Section Driver.
Context {Dev : Type} `{Instrument Dev}.

Definition enable_output (state : bool) : M Dev unit :=
  let state_str := if state then "ON" else "OFF" in
  res_write (":OUTP " ++ state_str).

Definition close : M Dev unit :=
  enable_output false ;;;
  res_close.

(** *** Setters *)

Definition set_frequency (frequency : PyFloat.float) : M Dev unit :=
  res_write (":FREQ " ++ PyFloat.repr frequency).

Definition set_power (power : PyFloat.float) : M Dev unit :=
  res_write (":POW " ++ PyFloat.repr power).

Definition set_amplitude (amplitude : PyFloat.float) : M Dev unit :=
  res_write (":VOLT " ++ PyFloat.repr amplitude).

Definition set_reference_source (source : string) : M Dev unit :=
  res_write (":ROSC:SOUR " ++ source).

Definition set_reference_frequency (frequency : PyFloat.float) : M Dev unit :=
  res_write (":ROSC:EXT:FREQ " ++ PyFloat.repr frequency).

Definition set_phase (phase : PyFloat.float) : M Dev unit :=
  res_write (":PHAS " ++ PyFloat.repr phase).

(** *** Getters: a bare [except:] turns every failure into [None] *)

Definition get_frequency : M Dev (option PyFloat.float) :=
  try_except
    (freq <- res_query ":FREQ?" ;;
     v <- lift (PyFloat.of_string (PyStr.strip freq)) ;;
     ret (Some v))
    (fun _ => print "Error reading frequency" ;;; ret None).

Definition get_power : M Dev (option PyFloat.float) :=
  try_except
    (power <- res_query ":POW?" ;;
     v <- lift (PyFloat.of_string (PyStr.strip power)) ;;
     ret (Some v))
    (fun _ => print "Error reading power" ;;; ret None).

Definition get_output_state : M Dev (option bool) :=
  try_except
    (state <- res_query ":OUTP?" ;;
     n <- lift (PyInt.of_string (PyStr.strip state)) ;;
     ret (Some (PyInt.truthy n)))
    (fun _ => print "Error reading output state" ;;; ret None).

Definition get_phase : M Dev (option PyFloat.float) :=
  try_except
    (phase <- res_query ":PHAS?" ;;
     v <- lift (PyFloat.of_string (PyStr.strip phase)) ;;
     ret (Some v))
    (fun _ => print "Error reading phase" ;;; ret None).

Definition get_error : M Dev string :=
  try_except
    (error <- res_query ":SYST:ERR?" ;; ret (PyStr.strip error))
    (fun _ => ret "Error query not supported").

Definition preset : M Dev unit :=
  try_except (res_write ":SYST:PRES")
    (fun _ => print "Preset command might not be supported").

(** *** Composite operations *)

Definition configure_sine_output (frequency power : PyFloat.float) (enable : bool)
  : M Dev unit :=
  set_frequency frequency ;;;
  set_power power ;;;
  if enable then enable_output true else ret tt.

(** The dictionary [get_status] returns, as a record of its four
    values. *)
Record status : Type := mkStatus {
  frequency : option PyFloat.float;
  power : option PyFloat.float;
  output_enabled : option bool;
  phase : option PyFloat.float
}.

Definition get_status : M Dev status :=
  f <- get_frequency ;;
  p <- get_power ;;
  o <- get_output_state ;;
  ph <- get_phase ;;
  ret (mkStatus f p o ph).

Definition __exit__ : M Dev unit := close.

End Driver.

Section Timed.
Context {Dev : Type} `{Instrument Dev} `{Clock}.

(** The float literals [1.0] and [1e6]. *)
Definition f_1_0 : PyFloat.float := S754_finite false 4503599627370496 (-52).
Definition f_1e6 : PyFloat.float := S754_finite false 8589934592000000 (-33).

Definition reset : M Dev unit :=
  res_write "*RST" ;;;
  lift (sleep f_1_0).

(** The [while current_freq <= stop_freq] loop of [frequency_sweep],
    run for at most [fuel] turns: [Some tt] when the loop has ended,
    [None] when it is still running after [fuel] turns. *)
Fixpoint frequency_sweep_loop (fuel : nat)
  (current_freq stop_freq step_freq dwell_time : PyFloat.float)
  : M Dev (option unit) :=
  if PyFloat.leb current_freq stop_freq then
    match fuel with
    | O => ret None
    | S fuel' =>
        set_frequency current_freq ;;;
        print ("Frequency: "
                 ++ PyInt.format_3f (SFdiv PyFloat.prec PyFloat.emax current_freq f_1e6)
                 ++ " MHz") ;;;
        lift (sleep dwell_time) ;;;
        frequency_sweep_loop fuel' (PyFloat.add current_freq step_freq)
          stop_freq step_freq dwell_time
    end
  else ret (Some tt).

Definition frequency_sweep (fuel : nat)
  (start_freq stop_freq step_freq dwell_time : PyFloat.float)
  : M Dev (option unit) :=
  frequency_sweep_loop fuel start_freq stop_freq step_freq dwell_time.

Fixpoint power_sweep_loop (fuel : nat)
  (current_power stop_power step_power dwell_time : PyFloat.float)
  : M Dev (option unit) :=
  if PyFloat.leb current_power stop_power then
    match fuel with
    | O => ret None
    | S fuel' =>
        set_power current_power ;;;
        lift (sleep dwell_time) ;;;
        print ("Power: " ++ PyFloat.repr current_power ++ " dBm") ;;;
        power_sweep_loop fuel' (PyFloat.add current_power step_power)
          stop_power step_power dwell_time
    end
  else ret (Some tt).

Definition power_sweep (fuel : nat)
  (start_power stop_power step_power dwell_time : PyFloat.float)
  : M Dev (option unit) :=
  power_sweep_loop fuel start_power stop_power step_power dwell_time.

End Timed.
End AnaPico_sin20G.

(* ================================================================== *)
(** ** Scripted instruments *)
(* ================================================================== *)

Module Mock.

(** An instrument that plays back a script: each write or query
    consumes the next outcome; past the end of the script the
    transport times out.  Closing always works. *)
Definition script : Type := list (result string).

Definition play_write (cmd : string) (d : script) : result unit * script :=
  match d with
  | [] => (Raise (VisaIOError "VI_ERROR_TMO"), [])
  | Ok _ :: rest => (Ok tt, rest)
  | Raise e :: rest => (Raise e, rest)
  end.

Definition play_query (cmd : string) (d : script) : result string * script :=
  match d with
  | [] => (Raise (VisaIOError "VI_ERROR_TMO"), [])
  | r :: rest => (r, rest)
  end.

#[export] Instance scripted : Instrument script := {
  visa_write := play_write;
  visa_query := play_query;
  visa_close := fun d => (Ok tt, d);
  visa_rm_close := fun d => (Ok tt, d)
}.

(** A freshly opened session on a scripted instrument. *)
Definition fresh (d : script) : session script :=
  mkSession d true true [] [].

(** The same session after its handles were closed. *)
Definition closed (d : script) : session script :=
  mkSession d false false [] [].

End Mock.

Import Mock.

(* ================================================================== *)
(** ** More instruments, a library and a clock to run the drivers *)
(* ================================================================== *)

Module Bench.

(** An instrument that accepts every write and answers every query
    with the same reply (its state). *)
Definition agreeable : Instrument string := {|
  visa_write := fun _ d => (Ok tt, d);
  visa_query := fun _ d => (Ok d, d);
  visa_close := fun d => (Ok tt, d);
  visa_rm_close := fun d => (Ok tt, d)
|}.

(** A library that knows the resources of a directory and reports any
    other name as not found. *)
Fixpoint lookup (book : list (string * Mock.script)) (name : string)
  : result Mock.script :=
  match book with
  | [] => Raise (VisaIOError "VI_ERROR_RSRC_NFOUND")
  | (n, d) :: rest => if String.eqb n name then Ok d else lookup rest name
  end.

Definition library_of (book : list (string * Mock.script)) : Library Mock.script := {|
  new_resource_manager := fun _ => Ok tt;
  open_resource := lookup book
|}.

(** The float literal [1e9]. *)
Definition f_1e9 : PyFloat.float := S754_finite false 8388608000000000 (-23).

(** [time.sleep] as CPython 3.11 has it on Linux, with the monotonic
    clock reading [now_ns] nanoseconds: the delay in nanoseconds is
    [seconds * 1e9] rounded away from zero; it must fit a signed 64-bit
    integer, must not be negative, and the deadline [now_ns] plus the
    delay must fit as well. *)
Definition steady (now_ns : Z) : Clock := {|
  sleep := fun x =>
    match x with
    | S754_nan => Raise (ValueError "Invalid value NaN (not a number)")
    | _ =>
        match PyFloat.mul x f_1e9 with
        | S754_zero _ => Ok tt
        | S754_finite s m e =>
            let ns :=
              if 0 <=? e then Zpos m * 2 ^ e
              else (Zpos m + 2 ^ (- e) - 1) / 2 ^ (- e) in
            if 2 ^ 63 <? ns then
              Raise (OverflowError "timestamp too large to convert to C _PyTime_t")
            else if s || (ns =? 2 ^ 63) then
              Raise (ValueError "sleep length must be non-negative")
            else if 2 ^ 63 - 1 <? now_ns + ns then
              Raise (OtherException "[Errno 22] Invalid argument")
            else Ok tt
        | _ =>
            Raise (OverflowError "timestamp too large to convert to C _PyTime_t")
        end
    end
|}.

End Bench.

(* ================================================================== *)
(** ** Vocabulary of the statements *)
(* ================================================================== *)

Section Vocabulary.
Context {Dev : Type} `{Instrument Dev}.

(** [all_fail op cmds w es w']: the commands [cmds], tried with [op]
    one after the other from session [w], all raise; [es] lists the
    exceptions in order and [w'] is the session after the last one. *)
Inductive all_fail {A : Type} (op : string -> M Dev A)
  : list string -> session Dev -> list exn -> session Dev -> Prop :=
| all_fail_nil : forall w, all_fail op [] w [] w
| all_fail_cons : forall c cs w e w1 es w',
    op c w = (Raise e, w1) ->
    all_fail op cs w1 es w' ->
    all_fail op (c :: cs) w (e :: es) w'.

(** The exception of an exhausted candidate list: the last one
    observed, or the stock [RuntimeError] when nothing was tried. *)
Definition raised_error (es : list exn) : exn :=
  last es (RuntimeError "No SCPI variant worked").

(** [replies op cmd w rs w']: [length rs] successive calls [op cmd]
    from session [w] return the replies [rs] in order and leave the
    session [w']. *)
Inductive replies (op : string -> M Dev string) (cmd : string)
  : session Dev -> list string -> session Dev -> Prop :=
| replies_nil : forall w, replies op cmd w [] w
| replies_cons : forall w r w1 rs w',
    op cmd w = (Ok r, w1) ->
    replies op cmd w1 rs w' ->
    replies op cmd w (r :: rs) w'.

(** The ordered-fallback loop shared by [_try_write_any] and
    [_try_query_any]. *)
Fixpoint try_loop {A : Type} (op : string -> M Dev A)
  (cmds : list string) (last_err : option exn) : M Dev A :=
  match cmds with
  | [] =>
      match last_err with
      | Some e => raise e
      | None => raise (RuntimeError "No SCPI variant worked")
      end
  | c :: cs => try_except (op c) (fun e => try_loop op cs (Some e))
  end.

End Vocabulary.

(** A reply that reports an empty error queue. *)
Definition no_error (r : string) : bool := PyStr.startswith r "0".

(** [drained rs cap]: [rs] is what a drain of at most [cap] reads
    sees: no reply before the last reports an empty queue, and either
    the last one does, or the cap is reached without any doing so. *)
Definition drained (rs : list string) (cap : nat) : Prop :=
  (forall r, In r (removelast rs) -> no_error r = false) /\
  ((rs <> [] /\ no_error (last rs "") = true /\ (List.length rs <= cap)%nat) \/
   (no_error (last rs "1") = false /\ List.length rs = cap)).

(** The query that reads the error queue. *)
Definition err_query : event := EvQuery "SYST:ERR?".

(** The characters at which a trace reply is cut on its first parse. *)
Definition is_separator (c : ascii) : bool :=
  Ascii.eqb c "," || Ascii.eqb c ";" || Ascii.eqb c PyStr.newline.

(** Cutting a string at every character that satisfies [sep]. *)
Fixpoint split_where (sep : ascii -> bool) (s : string) : list string :=
  match s with
  | EmptyString => [EmptyString]
  | String c s' =>
      if sep c then EmptyString :: split_where sep s'
      else match split_where sep s' with
           | h :: t => String c h :: t
           | [] => [String c EmptyString]
           end
  end.

(** What one token contributes to a leniently parsed trace: its value
    when [float] accepts it, nothing otherwise. *)
Definition token_value (tok : string) : list PyFloat.float :=
  match PyFloat.of_string (PyStr.strip tok) with
  | Ok v => [v]
  | Raise _ => []
  end.

(** The float literals [-10.5], [-20.1] and [-5.0]. *)
Definition f_m10_5 : PyFloat.float := S754_finite true 5910974510923776 (-49).
Definition f_m20_1 : PyFloat.float := S754_finite true 5657647031884186 (-48).
Definition f_m5_0 : PyFloat.float := S754_finite true 5629499534213120 (-50).

(** The characters at which a trace reply is cut on its second parse. *)
Definition is_line_or_comma (c : ascii) : bool :=
  Ascii.eqb c "," || Ascii.eqb c PyStr.newline.

(** The float literals [1.5] and [2.5]. *)
Definition f_1_5 : PyFloat.float := S754_finite false 6755399441055744 (-52).
Definition f_2_5 : PyFloat.float := S754_finite false 5629499534213120 (-51).

(** The float a decimal literal denotes ([nan] for a malformed one). *)
Definition lit (s : string) : PyFloat.float :=
  match PyFloat.of_string s with
  | Ok v => v
  | Raise _ => S754_nan
  end.

(** [freq_hz] lies outside the span [[f_start, f_stop]], as the marker
    setters test it. *)
Definition outside_span (f_start f_stop freq_hz : PyFloat.float) : bool :=
  negb (PyFloat.leb f_start freq_hz && PyFloat.leb freq_hz f_stop).

(** A computation whose only calls on the handle are queries. *)
Definition queries_only {Dev A : Type} (m : M Dev A) : Prop :=
  forall w r w', m w = (r, w') ->
    exists qs, calls w' = (calls w ++ map EvQuery qs)%list.

(** A float that is neither an infinity nor a NaN. *)
Definition is_finite (x : PyFloat.float) : bool :=
  match x with
  | S754_zero _ | S754_finite _ _ _ => true
  | _ => false
  end.

(** The formula of the frequency axis carried out without rounding, on
    rationals: entry [i] and the whole axis. *)
Definition exact_entry (start stop : Q) (points i : Z) : Q :=
  (start + inject_Z i * ((stop - start) / inject_Z (points - 1)))%Q.

Definition exact_axis (start stop : Q) (points : Z) : list Q :=
  if points <? 2 then [start]
  else map (exact_entry start stop points) (range points).

(** The rational a finite float stands for (0 for infinities and NaN). *)
Definition to_Q (x : PyFloat.float) : Q :=
  match x with
  | S754_finite s m e =>
      let v := if 0 <=? e then inject_Z (Zpos m * 2 ^ e)
               else Qmake (Zpos m) (Z.to_pos (2 ^ (- e))) in
      if s then Qopp v else v
  | _ => 0%Q
  end.

(** A computation whose only calls on the handle are writes. *)
Definition writes_only {Dev A : Type} (m : M Dev A) : Prop :=
  forall w r w', m w = (r, w') ->
    exists ws, calls w' = (calls w ++ map EvWrite ws)%list.

(** A computation that never raises. *)
Definition never_raises {Dev A : Type} (m : M Dev A) : Prop :=
  forall w, exists a w', m w = (Ok a, w').

(** [l] increases strictly and stays within [[lo, hi]]. *)
Fixpoint ascending (lo hi : Z) (l : list Z) : Prop :=
  match l with
  | [] => True
  | x :: rest => lo <= x <= hi /\ ascending (x + 1) hi rest
  end.

(** Marker indices [first], [first + 1], ... ([n] of them). *)
Fixpoint indices (n : nat) (first : Z) : list Z :=
  match n with
  | O => []
  | S n' => first :: indices n' (first + 1)
  end.

(** The instrument accepts every write. *)
Definition accepts_writes {Dev : Type} `{Instrument Dev} : Prop :=
  forall cmd d, fst (visa_write cmd d) = Ok tt.

(** The marker index of an entry of [get_all_marker_xy]. *)
Definition marker_index (entry : Z * PyFloat.float * PyFloat.float) : Z :=
  fst (fst entry).

(** [l] is an initial segment of [full]. *)
Definition initial_segment {A : Type} (l full : list A) : Prop :=
  exists rest, full = (l ++ rest)%list.

(** [isinstance(e, VisaIOError)] *)
Definition is_VisaIOError (e : exn) : bool :=
  match e with
  | VisaIOError _ => true
  | _ => false
  end.

(** A computation that never raises a bare [VisaIOError]. *)
Definition no_visa_error {Dev A : Type} (m : M Dev A) : Prop :=
  forall w e w', m w = (Raise e, w') -> is_VisaIOError e = false.

(** The command that switches marker [i] off, first spelling. *)
Definition marker_off (i : Z) : event :=
  EvWrite ("CALC:MARK" ++ PyStr.of_int i ++ ":STAT OFF").

(** What a getter of the signal generator prints for its reading:
    one line when the reading is [None]. *)
Definition complaint {A : Type} (msg : string) (reading : option A)
  : list string :=
  match reading with
  | Some _ => []
  | None => [msg]
  end.

(** The three commands of [AnaPico_sin20G.configure_sine_output]. *)
Definition sine_commands (frequency power : PyFloat.float) : list event :=
  [EvWrite (":FREQ " ++ PyFloat.repr frequency);
   EvWrite (":POW " ++ PyFloat.repr power);
   EvWrite ":OUTP ON"].

(** The trigger sources [setup_trigger] knows. *)
Definition known_trigger_source (source : string) : bool :=
  String.eqb source "EXT" || String.eqb source "INT" || String.eqb source "MAN".

(** What both analyzer constructors do with [resource] and [ip], read
    off a finished construction [c]; [handle] gives the session of the
    object built. *)
Definition opens_one_resource {Dev Obj : Type} `{Library Dev}
  (handle : Obj -> session Dev) (resource ip : option string)
  (c : construction Dev Obj) : Prop :=
  (given resource = None -> (resource <> None \/ given ip = None) ->
   outcome c = Raise (ValueError "Proporciona 'resource' o 'ip'")
   /\ tried c = [] /\ opened c = None)
  /\ (forall r, given resource = Some r ->
        tried c = [r]
        /\ forall e, open_resource r = Raise e ->
             outcome c = Raise e /\ opened c = None)
  /\ (forall i, resource = None -> given ip = Some i ->
        let first := "TCPIP0::" ++ i ++ "::hislip0::INSTR" in
        let second := "TCPIP0::" ++ i ++ "::inst0::INSTR" in
        match open_resource first with
        | Ok _ => tried c = [first]
        | Raise _ =>
            tried c = [first; second]
            /\ forall e, open_resource second = Raise e ->
                 outcome c = Raise (RuntimeError ("No pude abrir VISA en " ++ i
                                                    ++ " (hislip0 ni inst0)"))
                 /\ opened c = None
        end)
  /\ (forall a, outcome c = Ok a ->
        opened c = Some (handle a)
        /\ calls (handle a) = [EvWrite "*CLS"; EvQuery "*IDN?"]).

(** The commands of [SpectrumAnalyzer.screenshot_png]. *)
Definition screenshot_commands (filepath : string) : list event :=
  [EvWrite "HCOP:DEV:LANG PNG";
   EvWrite ("MMEM:NAME '" ++ filepath ++ "'");
   EvWrite "HCOP:IMM";
   EvQuery "*OPC?"].

(** [all_ok op xs w bs w']: [op], applied to the elements of [xs]
    one after the other from session [w], returns normally each time;
    [bs] lists what it returned and [w'] is the session after the
    last call. *)
Inductive all_ok {Dev A B : Type} (op : A -> M Dev B)
  : list A -> session Dev -> list B -> session Dev -> Prop :=
| all_ok_nil : forall w, all_ok op [] w [] w
| all_ok_cons : forall x xs w b w1 bs w',
    op x w = (Ok b, w1) ->
    all_ok op xs w1 bs w' ->
    all_ok op (x :: xs) w (b :: bs) w'.

(** The markers among [idxs] whose reading in [states] is on. *)
Definition switched_on (idxs : list Z) (states : list bool) : list Z :=
  map fst (filter snd (combine idxs states)).

(** The command that switches marker [i] off on the network analyzer. *)
Definition vna_marker_off (i : Z) : string :=
  "CALC:MARK" ++ PyStr.of_int i ++ ":STAT OFF".

(** Making one call of the spectrum analyzer's wrappers, given as the
    event it records. *)
Definition perform {Dev : Type} `{Instrument Dev} (ev : event) : M Dev unit :=
  match ev with
  | EvWrite cmd => SpectrumAnalyzer.write cmd
  | EvQuery cmd => SpectrumAnalyzer.query cmd ;;; ret tt
  | _ => ret tt
  end.

(** The values a sweep sets in its first [n] turns. *)
Fixpoint visited (n : nat) (current step : PyFloat.float) : list PyFloat.float :=
  match n with
  | O => []
  | S n' => current :: visited n' (PyFloat.add current step) step
  end.

(** *** Vocabulary of the rounding lemmas

    The operations of [SpecFloat] round a mantissa by shifting it right
    one bit at a time, keeping a round bit and a sticky bit.  The
    definitions below describe that process on plain integers, so that
    the order of the results can be compared. *)

(** The number of binary digits of a mantissa. *)
Definition dg (m : positive) : Z := Zpos (digits2_pos m).

(** A shifted mantissa with its round and sticky bits, as one integer:
    [4 * m + 2 * r + s]. *)
Definition enc (mrs : shr_record) : Z :=
  4 * shr_m mrs + 2 * Z.b2z (shr_r mrs) + Z.b2z (shr_s mrs).

(** One right shift of [shr_1] on that integer: halve, and keep in the
    last bit whether anything was lost. *)
Definition hs (X : Z) : Z :=
  2 * (X / 4) + (if X mod 4 =? 0 then 0 else 1).

(** The mantissa [round_nearest_even] chooses for that integer. *)
Definition rne4 (X : Z) : Z :=
  let q := X / 4 in
  let c := X mod 4 in
  if c <? 2 then q
  else if c =? 2 then (if Z.even q then q else q + 1)
  else q + 1.

(** [n] right shifts. *)
Definition halve (n : Z) (X : Z) : Z := Nat.iter (Z.to_nat n) hs X.

(** The exponent binary64 gives a number of magnitude [e]. *)
Definition fx (e : Z) : Z := fexp 53 1024 e.

(** [m * 2^e] has at least as many digits as binary64 keeps. *)
Definition precond (m : positive) (e : Z) : Prop := e <= fx (dg m + e).

(** The mantissa of [m * 2^e] rounded to binary64. *)
Definition rmant (m : positive) (e : Z) : Z :=
  rne4 (halve (fx (dg m + e) - e) (4 * Zpos m)).

(** The value of a float in units of [2^-1074], the spacing of the
    smallest binary64 numbers; the infinities are placed at
    [+-2^2098], beyond every finite value.  Floats compare as their
    keys do. *)
Definition key (x : spec_float) : Z :=
  match x with
  | S754_zero _ => 0
  | S754_infinity s => if s then - 2 ^ 2098 else 2 ^ 2098
  | S754_nan => 0
  | S754_finite s m e =>
      if s then - (Zpos m * 2 ^ (e + 1074)) else Zpos m * 2 ^ (e + 1074)
  end.

(** A well-formed binary64 value: a finite one has its canonical
    mantissa and exponent. *)
Definition good (x : spec_float) : Prop := valid_binary 53 1024 x = true.

Definition is_nan (x : spec_float) : bool :=
  match x with S754_nan => true | _ => false end.

(** The key of [m * 2^e] rounded to binary64, an overflow counted as
    infinity. *)
Definition RK (m : positive) (e : Z) : Z :=
  Z.min (rmant m e * 2 ^ (fx (dg m + e) + 1074)) (2 ^ 2098).

(** [a * 2^ea <= b * 2^eb], on integers. *)
Definition vle (a ea b eb : Z) : Prop :=
  a * 2 ^ (ea - Z.min ea eb) <= b * 2 ^ (eb - Z.min ea eb).

(** [RK] after the left shift [binary_round] applies to a short
    mantissa. *)
Definition RKn (m : positive) (e : Z) : Z :=
  let me := shl_align m e (fx (dg m + e)) in RK (fst me) (snd me).

(** The key of the integer [z * 2^e] rounded to binary64. *)
Definition SR (z e : Z) : Z :=
  match z with
  | Z0 => 0
  | Zpos m => RKn m e
  | Zneg m => - RKn m e
  end.

(** The key of [k * 2^-1074] rounded to binary64. *)
Definition NR (k : Z) : Z := SR k (-1074).

(* ================================================================== *)
(** ** Basic facts about the session monad and the wrappers *)
(* ================================================================== *)

Section Basics.
Context {Dev : Type} `{Instrument Dev}.

Lemma res_write_calls : forall c (w w' : session Dev) r,
    res_write c w = (r, w') -> calls w' = (calls w ++ [EvWrite c])%list.
Proof.
  intros c w w' r. unfold res_write. simpl.
  destruct (is_open w).
  - destruct (visa_write c (device w)) as [r0 d]. intros [= <- <-]. reflexivity.
  - intros [= <- <-]. reflexivity.
Qed.

Lemma res_query_calls : forall c (w w' : session Dev) r,
    res_query c w = (r, w') -> calls w' = (calls w ++ [EvQuery c])%list.
Proof.
  intros c w w' r. unfold res_query. simpl.
  destruct (is_open w).
  - destruct (visa_query c (device w)) as [r0 d]. intros [= <- <-]. reflexivity.
  - intros [= <- <-]. reflexivity.
Qed.

Lemma sa_write_calls : forall c (w w' : session Dev) r,
    SpectrumAnalyzer.write c w = (r, w') ->
    calls w' = (calls w ++ [EvWrite c])%list.
Proof.
  intros c w w' r. unfold SpectrumAnalyzer.write, try_except.
  destruct (res_write c w) as [[u|e] w1] eqn:E;
    apply res_write_calls in E.
  - intros [= <- <-]. exact E.
  - destruct e; unfold raise; intros [= <- <-]; exact E.
Qed.

Lemma sa_query_calls : forall c (w w' : session Dev) r,
    SpectrumAnalyzer.query c w = (r, w') ->
    calls w' = (calls w ++ [EvQuery c])%list.
Proof.
  intros c w w' r. unfold SpectrumAnalyzer.query, try_except.
  destruct (res_query c w) as [[u|e] w1] eqn:E;
    apply res_query_calls in E.
  - intros [= <- <-]. exact E.
  - destruct e; unfold raise; intros [= <- <-]; exact E.
Qed.

Lemma vna_write_calls : forall c (w w' : session Dev) r,
    VNA.write c w = (r, w') -> calls w' = (calls w ++ [EvWrite c])%list.
Proof. exact sa_write_calls. Qed.

Lemma vna_query_calls : forall c (w w' : session Dev) r,
    VNA.query c w = (r, w') -> calls w' = (calls w ++ [EvQuery c])%list.
Proof. exact sa_query_calls. Qed.

Lemma try_write_loop_eq : forall cmds last_err (w : session Dev),
    SpectrumAnalyzer.try_write_loop cmds last_err w
    = try_loop SpectrumAnalyzer.write cmds last_err w.
Proof.
  induction cmds as [|c cs IH]; intros last_err w; simpl.
  - reflexivity.
  - unfold try_except.
    destruct (SpectrumAnalyzer.write c w) as [[u|e] w1]; auto.
Qed.

Lemma try_query_loop_eq : forall cmds last_err (w : session Dev),
    SpectrumAnalyzer.try_query_loop cmds last_err w
    = try_loop SpectrumAnalyzer.query cmds last_err w.
Proof.
  induction cmds as [|c cs IH]; intros last_err w; simpl.
  - reflexivity.
  - unfold try_except.
    destruct (SpectrumAnalyzer.query c w) as [[u|e] w1]; auto.
Qed.

End Basics.

(* ================================================================== *)
(** ** Command Variant Resolver *)
(* ================================================================== *)

Section Resolver.
Context {Dev : Type} `{Instrument Dev}.

Lemma last_cons_default : forall (es : list exn) (e d : exn),
    last (e :: es) d = last es e.
Proof.
  induction es as [|e1 es IH]; intros e d.
  - reflexivity.
  - change (last (e :: e1 :: es) d) with (last (e1 :: es) d).
    rewrite (IH e1 d), (IH e1 e). reflexivity.
Qed.

(** The loop, for any operation that records exactly one call per
    attempt. *)
Lemma try_loop_spec :
  forall (A : Type) (op : string -> M Dev A) (ev : string -> event),
    (forall c w w' r, op c w = (r, w') -> calls w' = (calls w ++ [ev c])%list) ->
    forall cmds last_err w,
      match try_loop op cmds last_err w with
      | (Ok a, w') =>
          exists pre c post es w1,
            cmds = (pre ++ c :: post)%list /\
            all_fail op pre w es w1 /\
            op c w1 = (Ok a, w') /\
            calls w' = (calls w ++ map ev (pre ++ [c]))%list
      | (Raise e, w') =>
          exists es,
            all_fail op cmds w es w' /\
            e = last es (match last_err with
                         | Some e0 => e0
                         | None => RuntimeError "No SCPI variant worked"
                         end) /\
            calls w' = (calls w ++ map ev cmds)%list
      end.
Proof.
  intros A op ev Hlog.
  induction cmds as [|c cs IH]; intros last_err w.
  - destruct last_err; simpl; unfold raise; exists [];
      (split; [constructor|]); simpl; rewrite app_nil_r; auto.
  - simpl. unfold try_except.
    destruct (op c w) as [[a|e] w1] eqn:E.
    + exists [], c, cs, [], w. simpl.
      repeat split; auto; [constructor | eapply Hlog; eauto].
    + specialize (IH (Some e) w1). pose proof (Hlog _ _ _ _ E) as Hc.
      destruct (try_loop op cs (Some e) w1) as [[a'|e'] w2].
      * destruct IH as (pre & c0 & post & es & w1' & -> & Hf & Hop & Hc').
        exists (c :: pre), c0, post, (e :: es), w1'.
        repeat split; auto.
        -- econstructor; eauto.
        -- rewrite Hc', Hc. simpl. rewrite <- app_assoc. reflexivity.
      * destruct IH as (es & Hf & -> & Hc').
        exists (e :: es). repeat split.
        -- econstructor; eauto.
        -- rewrite last_cons_default. reflexivity.
        -- rewrite Hc', Hc. simpl. rewrite <- app_assoc. reflexivity.
Qed.

End Resolver.

(** C2.  [_try_write_any] and [_try_query_any] try the candidates in
    list order.  When the call returns, some candidate [c] succeeded,
    every candidate before it had failed, and exactly those candidates
    and [c] were attempted, in order: nothing after [c] is tried.  When
    the call raises, every candidate was attempted in order and failed,
    and the exception is the one of the last candidate (the stock
    [RuntimeError] for an empty list). *)
Theorem try_any_first_success_else_last_error :
  forall (Dev : Type) (I : Instrument Dev) (cmds : list string) (w : session Dev),
    match SpectrumAnalyzer._try_write_any cmds w with
    | (Ok _, w') =>
        exists pre c post es w1,
          cmds = (pre ++ c :: post)%list /\
          all_fail SpectrumAnalyzer.write pre w es w1 /\
          SpectrumAnalyzer.write c w1 = (Ok tt, w') /\
          calls w' = (calls w ++ map EvWrite (pre ++ [c]))%list
    | (Raise e, w') =>
        exists es,
          all_fail SpectrumAnalyzer.write cmds w es w' /\
          e = raised_error es /\
          calls w' = (calls w ++ map EvWrite cmds)%list
    end
    /\
    match SpectrumAnalyzer._try_query_any cmds w with
    | (Ok reply, w') =>
        exists pre c post es w1,
          cmds = (pre ++ c :: post)%list /\
          all_fail SpectrumAnalyzer.query pre w es w1 /\
          SpectrumAnalyzer.query c w1 = (Ok reply, w') /\
          calls w' = (calls w ++ map EvQuery (pre ++ [c]))%list
    | (Raise e, w') =>
        exists es,
          all_fail SpectrumAnalyzer.query cmds w es w' /\
          e = raised_error es /\
          calls w' = (calls w ++ map EvQuery cmds)%list
    end.
Proof.
  intros Dev I cmds w. split.
  - unfold SpectrumAnalyzer._try_write_any. rewrite try_write_loop_eq.
    pose proof (try_loop_spec unit SpectrumAnalyzer.write EvWrite
                  sa_write_calls cmds None w) as S.
    destruct (try_loop SpectrumAnalyzer.write cmds None w) as [[[]|e] w'];
      exact S.
  - unfold SpectrumAnalyzer._try_query_any. rewrite try_query_loop_eq.
    exact (try_loop_spec string SpectrumAnalyzer.query EvQuery
             sa_query_calls cmds None w).
Qed.

(** The scenario of the specification: of [A; B; C], A and B are
    refused and C is accepted. *)
Example resolver_third_candidate :
  SpectrumAnalyzer._try_write_any ["A"; "B"; "C"]
    (fresh [Raise (VisaIOError "a"); Raise (VisaIOError "b"); Ok ""; Ok ""])
  = (Ok tt,
     mkSession [Ok ""] true true [EvWrite "A"; EvWrite "B"; EvWrite "C"] []).
Proof. reflexivity. Qed.

(** All three refused: the error of C is raised. *)
Example resolver_all_refused :
  SpectrumAnalyzer._try_query_any ["A"; "B"; "C"]
    (fresh [Raise (VisaIOError "a"); Raise (OtherException "b");
            Raise (VisaIOError "c"); Ok "late"])
  = (Raise (RuntimeError "VISA query error en 'C': c"),
     mkSession [Ok "late"] true true [EvQuery "A"; EvQuery "B"; EvQuery "C"] []).
Proof. reflexivity. Qed.

(** A first candidate that works hides the others. *)
Example resolver_first_candidate :
  SpectrumAnalyzer._try_query_any ["A"; "B"; "C"] (fresh [Ok "1"; Ok "2"])
  = (Ok "1", mkSession [Ok "2"] true true [EvQuery "A"] []).
Proof. reflexivity. Qed.

(** No candidate at all: the stock error, and no call. *)
Example resolver_no_candidate :
  SpectrumAnalyzer._try_write_any [] (fresh [Ok ""])
  = (Raise (RuntimeError "No SCPI variant worked"), fresh [Ok ""]).
Proof. reflexivity. Qed.

(* ================================================================== *)
(** ** Error-queue drain *)
(* ================================================================== *)

Section Drain.
Context {Dev : Type} `{Instrument Dev}.

Lemma drained_nil : forall cap, drained [] cap -> cap = O.
Proof.
  intros cap [_ [(Hne & _)|(_ & Hlen)]].
  - contradiction.
  - simpl in Hlen. auto.
Qed.

Lemma drained_single : forall r cap,
    drained [r] cap ->
    exists cap', cap = S cap' /\ (no_error r = true \/ cap' = O).
Proof.
  intros r cap [_ [(_ & Hlast & Hlen)|(Hlast & Hlen)]]; simpl in *.
  - destruct cap as [|cap']; [lia|]. exists cap'. auto.
  - exists O. subst cap. auto.
Qed.

Lemma drained_more : forall r r2 rs cap,
    drained (r :: r2 :: rs) cap ->
    exists cap', cap = S cap' /\ no_error r = false /\ drained (r2 :: rs) cap'.
Proof.
  intros r r2 rs cap [Hinit Hend].
  assert (Hr : no_error r = false) by (apply Hinit; simpl; auto).
  assert (Hinit' : forall x, In x (removelast (r2 :: rs)) -> no_error x = false).
  { intros x Hx. apply Hinit.
    change (removelast (r :: r2 :: rs)) with (r :: removelast (r2 :: rs)).
    right. exact Hx. }
  destruct Hend as [(_ & Hlast & Hlen)|(Hlast & Hlen)].
  - destruct cap as [|cap']; [simpl in Hlen; lia|].
    exists cap'. split; [reflexivity|]. split; [exact Hr|].
    split; [exact Hinit'|].
    left. split; [discriminate|]. split; [exact Hlast | simpl in *; lia].
  - exists (List.length (r2 :: rs)). split; [symmetry; exact Hlen|].
    split; [exact Hr|]. split; [exact Hinit'|].
    right. split; [exact Hlast | reflexivity].
Qed.

Lemma check_errors_loop_drain :
  forall rs cap acc (w w' : session Dev),
    replies SpectrumAnalyzer.query "SYST:ERR?" w rs w' ->
    drained rs cap ->
    SpectrumAnalyzer.check_errors_loop cap acc w
    = (Ok (acc ++ map PyStr.strip rs)%list, w')
    /\ calls w' = (calls w ++ repeat err_query (List.length rs))%list
    /\ (List.length rs <= cap)%nat.
Proof.
  induction rs as [|r rs IH]; intros cap acc w w' Hrep Hdr.
  - inversion Hrep; subst. apply drained_nil in Hdr. subst cap.
    simpl. rewrite !app_nil_r. auto.
  - inversion Hrep as [|w0 r0 w1 rs0 w2 Hq Hrest]; subst.
    pose proof (sa_query_calls _ _ _ _ Hq) as Hc.
    destruct rs as [|r2 rs].
    + inversion Hrest; subst.
      apply drained_single in Hdr. destruct Hdr as (cap' & -> & Hstop).
      simpl. unfold bind. rewrite Hq. fold (no_error r).
      repeat split; [|exact Hc|lia].
      destruct (no_error r) eqn:E; [reflexivity|].
      destruct Hstop as [?| ->]; [discriminate|reflexivity].
    + apply drained_more in Hdr. destruct Hdr as (cap' & -> & Hr & Hdr').
      destruct (IH cap' (acc ++ [PyStr.strip r])%list w1 w' Hrest Hdr')
        as (Hres & Hcalls & Hlen).
      cbn [SpectrumAnalyzer.check_errors_loop]. unfold bind. rewrite Hq.
      fold (no_error r). rewrite Hr. rewrite Hres.
      repeat split.
      * rewrite <- app_assoc. reflexivity.
      * rewrite Hcalls, Hc, <- app_assoc. reflexivity.
      * simpl in *. lia.
Qed.

Lemma check_errors_loop_bound :
  forall cap acc (w : session Dev),
    exists k, (k <= cap)%nat /\
      calls (snd (SpectrumAnalyzer.check_errors_loop cap acc w))
      = (calls w ++ repeat err_query k)%list.
Proof.
  induction cap as [|cap IH]; intros acc w.
  - exists O. simpl. rewrite app_nil_r. auto.
  - simpl. unfold bind.
    destruct (SpectrumAnalyzer.query "SYST:ERR?" w) as [[r|e] w1] eqn:Hq;
      pose proof (sa_query_calls _ _ _ _ Hq) as Hc.
    + destruct (PyStr.startswith r "0").
      * exists 1%nat. split; [lia|exact Hc].
      * destruct (IH (acc ++ [PyStr.strip r])%list w1) as (k & Hk & Hcalls).
        exists (S k). split; [lia|].
        rewrite Hcalls, Hc, <- app_assoc. reflexivity.
    + exists 1%nat. split; [lia|exact Hc].
Qed.

End Drain.

(** C3.  [check_errors] reads the error queue one reply at a time.  If
    the instrument's successive replies [rs] end with the first reply
    that starts with "0" (within the cap), or are [max_reads] replies
    none of which starts with "0", then the call returns exactly those
    replies (each stripped of surrounding white space, as the code
    appends them; unchanged when they carry none) after exactly
    [length rs] queries.  Whatever the
    instrument does, the loop makes at most [max_reads] queries (20 for
    the VNA), so it always terminates. *)
Theorem check_errors_stops_at_no_error_or_cap :
  forall (Dev : Type) (I : Instrument Dev),
    (forall (w w' : session Dev) (rs : list string) (max_reads : Z),
        replies SpectrumAnalyzer.query "SYST:ERR?" w rs w' ->
        drained rs (Z.to_nat max_reads) ->
        SpectrumAnalyzer.check_errors max_reads w = (Ok (map PyStr.strip rs), w')
        /\ calls w' = (calls w ++ repeat err_query (List.length rs))%list
        /\ (List.length rs <= Z.to_nat max_reads)%nat
        /\ ((forall r, In r rs -> PyStr.strip r = r) ->
            SpectrumAnalyzer.check_errors max_reads w = (Ok rs, w')))
    /\
    (forall (w w' : session Dev) (rs : list string),
        replies VNA.query "SYST:ERR?" w rs w' ->
        drained rs 20 ->
        VNA.check_errors w = (Ok (map PyStr.strip rs), w')
        /\ calls w' = (calls w ++ repeat err_query (List.length rs))%list
        /\ (List.length rs <= 20)%nat)
    /\
    (forall (w : session Dev) (max_reads : Z),
        exists k, (k <= Z.to_nat max_reads)%nat /\
          calls (snd (SpectrumAnalyzer.check_errors max_reads w))
          = (calls w ++ repeat err_query k)%list)
    /\
    (forall (w : session Dev),
        exists k, (k <= 20)%nat /\
          calls (snd (VNA.check_errors w))
          = (calls w ++ repeat err_query k)%list).
Proof.
  intros Dev I. split; [|split; [|split]].
  - intros w w' rs max_reads Hrep Hdr.
    destruct (check_errors_loop_drain rs (Z.to_nat max_reads) [] w w' Hrep Hdr)
      as (Hres & Hcalls & Hlen).
    repeat split; try assumption.
    intros Hclean. unfold SpectrumAnalyzer.check_errors. rewrite Hres.
    simpl. rewrite (map_ext_in _ (fun r => r) rs Hclean), map_id. reflexivity.
  - intros w w' rs Hrep Hdr.
    exact (check_errors_loop_drain rs 20%nat [] w w' Hrep Hdr).
  - intros w max_reads.
    exact (check_errors_loop_bound (Z.to_nat max_reads) [] w).
  - intros w. exact (check_errors_loop_bound 20%nat [] w).
Qed.

(** The drain scenario of the specification on a scripted instrument:
    two errors, then "0,No error"; the fourth reply is never read. *)
Lemma check_errors_stops_at_no_error_witness :
  let w := fresh [Ok "1,err"; Ok "2,err"; Ok "0,No error"; Ok "unread"] in
  let w' := mkSession [Ok "unread"] true true
              [err_query; err_query; err_query] [] in
  let rs := ["1,err"; "2,err"; "0,No error"] in
  replies SpectrumAnalyzer.query "SYST:ERR?" w rs w' /\
  drained rs (Z.to_nat 20) /\
  SpectrumAnalyzer.check_errors 20 w = (Ok rs, w') /\
  VNA.check_errors w = (Ok rs, w').
Proof.
  intros w w' rs.
  assert (Hrep : replies SpectrumAnalyzer.query "SYST:ERR?" w rs w').
  { eapply replies_cons; [reflexivity|].
    eapply replies_cons; [reflexivity|].
    eapply replies_cons; [reflexivity|].
    apply replies_nil. }
  assert (Hdr : drained rs (Z.to_nat 20)).
  { split.
    - intros r Hin. simpl in Hin. destruct Hin as [<-|[<-|[]]]; reflexivity.
    - left. split; [discriminate|]. split; [reflexivity|]. simpl. lia. }
  split; [exact Hrep|]. split; [exact Hdr|]. split.
  - exact (proj1 (proj1 (check_errors_stops_at_no_error_or_cap script scripted)
                    w w' rs 20 Hrep Hdr)).
  - exact (proj1 (proj1 (proj2
             (check_errors_stops_at_no_error_or_cap script scripted))
                    w w' rs Hrep Hdr)).
Defined.

(** An instrument that keeps reporting errors is read exactly [cap]
    times. *)
Example check_errors_cap_reached :
  let noisy := repeat (Ok "-113,Undefined header") 25 in
  SpectrumAnalyzer.check_errors 20 (fresh noisy)
  = (Ok (repeat "-113,Undefined header" 20),
     mkSession (repeat (Ok "-113,Undefined header") 5) true true
       (repeat err_query 20) [])
  /\ VNA.check_errors (fresh noisy)
  = (Ok (repeat "-113,Undefined header" 20),
     mkSession (repeat (Ok "-113,Undefined header") 5) true true
       (repeat err_query 20) []).
Proof. split; vm_compute; reflexivity. Qed.

(** A failing query ends the drain with its error. *)
Example check_errors_query_fails :
  SpectrumAnalyzer.check_errors 20
    (fresh [Ok "1,err"; Raise (VisaIOError "VI_ERROR_TMO"); Ok "0"])
  = (Raise (RuntimeError "VISA query error en 'SYST:ERR?': VI_ERROR_TMO"),
     mkSession [Ok "0"] true true [err_query; err_query] []).
Proof. reflexivity. Qed.

(* ================================================================== *)
(** ** Trace read-out *)
(* ================================================================== *)

Lemma of_string_raises : forall s e,
    PyFloat.of_string s = Raise e -> e = ValueError_float s.
Proof.
  intros s e. unfold PyFloat.of_string.
  destruct (PyFloat.take_sign (PyStr.strip_with PyFloat.is_space s)) as [neg u].
  destruct (String.eqb (PyStr.lower u) "inf" || String.eqb (PyStr.lower u) "infinity");
    [discriminate|].
  destruct (String.eqb (PyStr.lower u) "nan"); [discriminate|].
  destruct (PyFloat.parse_decimal u) as [[M E]|]; [discriminate|].
  intros [= <-]. reflexivity.
Qed.

Lemma truthy_false : forall s, PyStr.truthy s = false -> s = EmptyString.
Proof. intros [|c s]; [reflexivity|discriminate]. Qed.

(** The first parse never raises: it collects, in order, the value of
    every token that [float] accepts. *)
Lemma parse_parts_spec : forall parts acc,
    SpectrumAnalyzer.parse_parts parts acc
    = Ok (acc ++ flat_map token_value parts)%list.
Proof.
  induction parts as [|p parts IH]; intros acc; simpl.
  - rewrite app_nil_r. reflexivity.
  - unfold token_value at 1.
    destruct (PyStr.truthy (PyStr.strip p)) eqn:T.
    + destruct (PyFloat.of_string (PyStr.strip p)) as [v|e] eqn:E.
      * rewrite IH, <- app_assoc. reflexivity.
      * apply of_string_raises in E. subst e. simpl. apply IH.
    + apply truthy_false in T. rewrite T. simpl. apply IH.
Qed.

(** Replacing newline and semicolon by comma and cutting at commas is
    cutting at the three separators. *)
Lemma split_after_replace : forall s,
    PyStr.split ","
      (PyStr.replace ";" "," (PyStr.replace PyStr.newline "," s))
    = split_where is_separator s.
Proof.
  induction s as [|c s IH]; [reflexivity|].
  cbn [PyStr.replace PyStr.split split_where]. rewrite IH.
  unfold is_separator.
  destruct (Ascii.eqb c PyStr.newline) eqn:E1.
  - rewrite orb_true_r. reflexivity.
  - destruct (Ascii.eqb c ";") eqn:E2.
    + rewrite orb_true_r. reflexivity.
    + rewrite !orb_false_r. reflexivity.
Qed.

Lemma first_parse_spec : forall raw,
    SpectrumAnalyzer.first_parse raw
    = Ok (flat_map token_value (split_where is_separator raw)).
Proof.
  intros raw. unfold SpectrumAnalyzer.first_parse.
  rewrite split_after_replace. apply parse_parts_spec.
Qed.

(** C4.  When the instrument answers the trace query with
    "-10.5,-20.1,,abc,-5.0", [fetch_trace] returns exactly
    [-10.5, -20.1, -5.0] and does no further I/O.  In general the first
    parse cuts the reply at commas, semicolons and newlines and keeps,
    in order, the value of every token [float] accepts; empty and
    unparseable tokens are passed over and never abort the parse. *)
Theorem fetch_trace_skips_bad_tokens :
  forall (Dev : Type) (I : Instrument Dev),
    (forall (trace : Z + string) (w w1 : session Dev),
        SpectrumAnalyzer._try_query_any
          (SpectrumAnalyzer.trace_commands (SpectrumAnalyzer.trace_name trace)) w
        = (Ok "-10.5,-20.1,,abc,-5.0", w1) ->
        SpectrumAnalyzer.fetch_trace trace w
        = (Ok [f_m10_5; f_m20_1; f_m5_0], w1))
    /\ (forall raw : string,
           SpectrumAnalyzer.first_parse raw
           = Ok (flat_map token_value (split_where is_separator raw)))
    /\ split_where is_separator "-10.5,-20.1,,abc,-5.0"
       = ["-10.5"; "-20.1"; ""; "abc"; "-5.0"]
    /\ PyFloat.of_string "-10.5" = Ok f_m10_5
    /\ PyFloat.of_string "-20.1" = Ok f_m20_1
    /\ PyFloat.of_string "-5.0" = Ok f_m5_0
    /\ PyFloat.of_string "abc" = Raise (ValueError_float "abc").
Proof.
  intros Dev I. split; [|split; [exact first_parse_spec|]].
  - intros trace w w1 Hq.
    unfold SpectrumAnalyzer.fetch_trace, bind. rewrite Hq.
    unfold lift. rewrite first_parse_spec.
    vm_compute flat_map. reflexivity.
  - repeat split; vm_compute; reflexivity.
Qed.

(** A scripted instrument that answers the first spelling of the trace
    query. *)
Lemma fetch_trace_skips_bad_tokens_witness :
  let w := fresh [Ok "-10.5,-20.1,,abc,-5.0"] in
  let w1 := mkSession [] true true [EvQuery "TRAC:DATA? TRACE1"] [] in
  SpectrumAnalyzer._try_query_any
    (SpectrumAnalyzer.trace_commands (SpectrumAnalyzer.trace_name (inl 1))) w
  = (Ok "-10.5,-20.1,,abc,-5.0", w1)
  /\ SpectrumAnalyzer.fetch_trace (inl 1) w = (Ok [f_m10_5; f_m20_1; f_m5_0], w1).
Proof.
  intros w w1.
  assert (Hq : SpectrumAnalyzer._try_query_any
                 (SpectrumAnalyzer.trace_commands
                    (SpectrumAnalyzer.trace_name (inl 1))) w
               = (Ok "-10.5,-20.1,,abc,-5.0", w1)) by reflexivity.
  split; [exact Hq|].
  exact (proj1 (fetch_trace_skips_bad_tokens script scripted) (inl 1) w w1 Hq).
Defined.

(** Semicolons and newlines separate as commas do, and white space
    around a token is ignored. *)
Example first_parse_mixed_separators :
  SpectrumAnalyzer.first_parse
    (String.append "-10.5; -20.1" (String PyStr.newline "-5.0,"))
  = Ok [f_m10_5; f_m20_1; f_m5_0].
Proof. vm_compute. reflexivity. Qed.

(** *** The retry after forcing ASCII format *)

Lemma split_after_replace_newline : forall s,
    PyStr.split "," (PyStr.replace PyStr.newline "," s)
    = split_where is_line_or_comma s.
Proof.
  induction s as [|c s IH]; [reflexivity|].
  cbn [PyStr.replace PyStr.split split_where]. rewrite IH.
  unfold is_line_or_comma.
  destruct (Ascii.eqb c PyStr.newline) eqn:E1.
  - rewrite orb_true_r. reflexivity.
  - rewrite orb_false_r. reflexivity.
Qed.

Lemma parse_comprehension_raises : forall toks tok e,
    In tok toks ->
    PyStr.truthy (PyStr.strip tok) = true ->
    PyFloat.of_string tok = Raise e ->
    exists bad, SpectrumAnalyzer.parse_comprehension toks
                = Raise (ValueError_float bad).
Proof.
  induction toks as [|x rest IH]; intros tok e Hin Ht Hf; [contradiction|].
  simpl.
  destruct (PyFloat.of_string x) as [v|e0] eqn:Ex.
  - destruct Hin as [->|Hin]; [congruence|].
    destruct (IH tok e Hin Ht Hf) as (bad & Hbad). rewrite Hbad.
    destruct (PyStr.truthy (PyStr.strip x)); eauto.
  - apply of_string_raises in Ex. subst e0.
    destruct (PyStr.truthy (PyStr.strip x)) eqn:Tx; [eauto|].
    destruct Hin as [->|Hin]; [congruence|].
    exact (IH tok e Hin Ht Hf).
Qed.

Lemma parse_comprehension_returns : forall toks,
    (forall tok, In tok toks -> PyStr.truthy (PyStr.strip tok) = true ->
                 exists v, PyFloat.of_string tok = Ok v) ->
    exists vs, SpectrumAnalyzer.parse_comprehension toks = Ok vs.
Proof.
  induction toks as [|x rest IH]; intros Hall; simpl; [eauto|].
  destruct IH as (vs & Hvs).
  { intros tok Hin. apply Hall. right. exact Hin. }
  rewrite Hvs.
  destruct (PyStr.truthy (PyStr.strip x)) eqn:Tx; [|eauto].
  destruct (Hall x (or_introl eq_refl) Tx) as (v & Hv). rewrite Hv. eauto.
Qed.

(** C10, as the code has it.  The retry of [fetch_trace] is reached
    when, and only when, the first parse yields no value; once the
    format command and the second query have gone through, the result
    is the second parse of the new reply.
    That parse cuts at newline and comma only, so a semicolon stays
    inside its token, and a token that is not blank and that [float]
    rejects makes the call raise [ValueError] instead of being passed
    over; a blank token (empty or white space only) is passed over as
    in the first parse, and when [float] accepts every non-blank token
    a list is returned. *)
Theorem fetch_trace_retry_is_strict :
  forall (Dev : Type) (I : Instrument Dev),
    (forall (trace : Z + string) (w w1 w2 w3 : session Dev) (raw raw2 : string),
        let cmds := SpectrumAnalyzer.trace_commands
                      (SpectrumAnalyzer.trace_name trace) in
        SpectrumAnalyzer._try_query_any cmds w = (Ok raw, w1) ->
        flat_map token_value (split_where is_separator raw) = [] ->
        SpectrumAnalyzer._try_write_any ["FORM ASC"; "FORM:DATA ASC"] w1
        = (Ok tt, w2) ->
        SpectrumAnalyzer._try_query_any cmds w2 = (Ok raw2, w3) ->
        SpectrumAnalyzer.fetch_trace trace w
        = (SpectrumAnalyzer.second_parse raw2, w3))
    /\ (forall (trace : Z + string) (w w1 : session Dev) (raw : string),
           SpectrumAnalyzer._try_query_any
             (SpectrumAnalyzer.trace_commands (SpectrumAnalyzer.trace_name trace)) w
           = (Ok raw, w1) ->
           flat_map token_value (split_where is_separator raw) <> [] ->
           SpectrumAnalyzer.fetch_trace trace w
           = (Ok (flat_map token_value (split_where is_separator raw)), w1))
    /\ (forall raw : string,
           SpectrumAnalyzer.second_parse raw
           = SpectrumAnalyzer.parse_comprehension
               (split_where is_line_or_comma raw))
    /\ (forall (toks : list string) (tok : string) (e : exn),
           In tok toks ->
           PyStr.truthy (PyStr.strip tok) = true ->
           PyFloat.of_string tok = Raise e ->
           exists bad, SpectrumAnalyzer.parse_comprehension toks
                       = Raise (ValueError_float bad))
    /\ (forall toks : list string,
           (forall tok, In tok toks -> PyStr.truthy (PyStr.strip tok) = true ->
                        exists v, PyFloat.of_string tok = Ok v) ->
           exists vs, SpectrumAnalyzer.parse_comprehension toks = Ok vs)
    /\ SpectrumAnalyzer.first_parse "1.5;2.5" = Ok [f_1_5; f_2_5]
    /\ SpectrumAnalyzer.second_parse "1.5;2.5" = Raise (ValueError_float "1.5;2.5")
    /\ SpectrumAnalyzer.first_parse "1.5,abc" = Ok [f_1_5]
    /\ SpectrumAnalyzer.second_parse "1.5,abc" = Raise (ValueError_float "abc").
Proof.
  intros Dev I. split; [|split; [|split; [|split; [|split]]]].
  - intros trace w w1 w2 w3 raw raw2 cmds Hq Hempty Hw Hq2.
    unfold SpectrumAnalyzer.fetch_trace, bind. fold cmds. rewrite Hq.
    unfold lift. rewrite first_parse_spec, Hempty, Hw, Hq2. reflexivity.
  - intros trace w w1 raw Hq Hvals.
    unfold SpectrumAnalyzer.fetch_trace, bind. rewrite Hq.
    unfold lift. rewrite first_parse_spec.
    destruct (flat_map token_value (split_where is_separator raw));
      [contradiction|reflexivity].
  - intros raw. unfold SpectrumAnalyzer.second_parse.
    rewrite split_after_replace_newline. reflexivity.
  - exact parse_comprehension_raises.
  - exact parse_comprehension_returns.
  - repeat split; vm_compute; reflexivity.
Qed.

(** An instrument in binary format answers with a block header; after
    "FORM ASC" it answers in text, here with a stray semicolon. *)
Lemma fetch_trace_retry_is_strict_witness :
  let w := fresh [Ok "#42\x00\x01"; Ok ""; Ok "1.5;2.5"] in
  let w3 := mkSession [] true true
              [EvQuery "TRAC:DATA? TRACE1"; EvWrite "FORM ASC";
               EvQuery "TRAC:DATA? TRACE1"] [] in
  let v := fresh [Ok "1.5;2.5"; Ok "unread"] in
  let v1 := mkSession [Ok "unread"] true true
              [EvQuery "TRAC:DATA? TRACE1"] [] in
  SpectrumAnalyzer.fetch_trace (inl 1) w
  = (Raise (ValueError_float "1.5;2.5"), w3)
  /\ SpectrumAnalyzer.fetch_trace (inl 1) v = (Ok [f_1_5; f_2_5], v1).
Proof.
  intros w w3 v v1.
  pose (w1 := mkSession [Ok ""; Ok "1.5;2.5"] true true
                [EvQuery "TRAC:DATA? TRACE1"] [] : session script).
  pose (w2 := mkSession [Ok "1.5;2.5"] true true
                [EvQuery "TRAC:DATA? TRACE1"; EvWrite "FORM ASC"] []
              : session script).
  assert (Hv : SpectrumAnalyzer._try_query_any
                 (SpectrumAnalyzer.trace_commands
                    (SpectrumAnalyzer.trace_name (inl 1))) v
               = (Ok "1.5;2.5", v1)) by reflexivity.
  assert (Hne : flat_map token_value (split_where is_separator "1.5;2.5") <> [])
    by (vm_compute; discriminate).
  split.
  - exact (proj1 (fetch_trace_retry_is_strict script scripted)
             (inl 1) w w1 w2 w3 "#42\x00\x01" "1.5;2.5"
             eq_refl eq_refl eq_refl eq_refl).
  - exact (proj1 (proj2 (fetch_trace_retry_is_strict script scripted))
             (inl 1) v v1 "1.5;2.5" Hv Hne).
Defined.

(** C10 as stated fails: a token of one space is not empty and [float]
    rejects it, yet the reparse passes it over instead of raising. *)
Lemma fetch_trace_retry_skips_blank_token :
  let w := fresh [Ok "#42\x00\x01"; Ok ""; Ok "1.5, ,2.5"] in
  " " <> ""
  /\ In " " (split_where is_line_or_comma "1.5, ,2.5")
  /\ PyFloat.of_string " " = Raise (ValueError_float " ")
  /\ SpectrumAnalyzer.second_parse "1.5, ,2.5" = Ok [f_1_5; f_2_5]
  /\ SpectrumAnalyzer.fetch_trace (inl 1) w
     = (Ok [f_1_5; f_2_5],
        mkSession [] true true
          [EvQuery "TRAC:DATA? TRACE1"; EvWrite "FORM ASC";
           EvQuery "TRAC:DATA? TRACE1"] []).
Proof.
  intros w. split; [discriminate|].
  split; [vm_compute; auto|].
  repeat split; vm_compute; reflexivity.
Qed.

(* ================================================================== *)
(** ** Validation before I/O *)
(* ================================================================== *)

(** C6.  [set_span] with [stop <= start] raises [ValueError] and leaves
    the session exactly as it was: no call is made on the handle and
    the instrument is untouched.  Both the spectrum analyzer and the
    VNA driver do so. *)
Theorem set_span_rejects_without_io :
  forall (Dev : Type) (I : Instrument Dev)
         (start stop : PyFloat.float) (points : Z) (w : session Dev),
    PyFloat.leb stop start = true ->
    SpectrumAnalyzer.set_span start stop points w
    = (Raise (ValueError "stop_hz debe ser mayor que start_hz"), w)
    /\ VNA.set_span start stop points w
       = (Raise (ValueError "Stop frequency must be greater than start frequency"), w).
Proof.
  intros Dev I start stop points w Hle.
  unfold SpectrumAnalyzer.set_span, VNA.set_span. rewrite Hle.
  split; reflexivity.
Qed.

Lemma set_span_rejects_without_io_witness :
  let w := fresh [Ok ""; Ok ""; Ok ""] in
  PyFloat.leb (lit "1e9") (lit "2e9") = true
  /\ SpectrumAnalyzer.set_span (lit "2e9") (lit "1e9") 1001 w
     = (Raise (ValueError "stop_hz debe ser mayor que start_hz"), w)
  /\ VNA.set_span (lit "2e9") (lit "1e9") 201 w
     = (Raise (ValueError "Stop frequency must be greater than start frequency"), w).
Proof.
  intros w.
  assert (Hle : PyFloat.leb (lit "1e9") (lit "2e9") = true) by reflexivity.
  split; [exact Hle|]. split.
  - exact (proj1 (set_span_rejects_without_io script scripted
                    (lit "2e9") (lit "1e9") 1001 w Hle)).
  - exact (proj2 (set_span_rejects_without_io script scripted
                    (lit "2e9") (lit "1e9") 201 w Hle)).
Defined.

(** An equal start and stop is rejected as well; a proper span is
    written with the first spelling of each command. *)
Example set_span_equal_bounds :
  SpectrumAnalyzer.set_span (lit "1e9") (lit "1e9") 1001 (fresh [])
  = (Raise (ValueError "stop_hz debe ser mayor que start_hz"), fresh []).
Proof. reflexivity. Qed.

Example set_span_accepts :
  SpectrumAnalyzer.set_span (lit "1e9") (lit "2e9") 1001
    (fresh [Ok ""; Ok ""; Ok ""])
  = (Ok tt,
     mkSession [] true true
       [EvWrite "FREQ:STAR 1000000000.0"; EvWrite "FREQ:STOP 2000000000.0";
        EvWrite "SWE:POIN 1001"] []).
Proof. vm_compute. reflexivity. Qed.

(** *** Marker position *)

Section QueriesOnly.
Context {Dev : Type} `{Instrument Dev}.

Lemma try_query_any_calls : forall cmds (w w' : session Dev) r,
    SpectrumAnalyzer._try_query_any cmds w = (r, w') ->
    exists qs, calls w' = (calls w ++ map EvQuery qs)%list.
Proof.
  intros cmds w w' r E.
  unfold SpectrumAnalyzer._try_query_any in E.
  rewrite try_query_loop_eq in E.
  pose proof (try_loop_spec string SpectrumAnalyzer.query EvQuery
                sa_query_calls cmds None w) as S.
  rewrite E in S. destruct r as [a|e].
  - destruct S as (pre & c & post & es & w1 & _ & _ & _ & Hc). eauto.
  - destruct S as (es & _ & _ & Hc). eauto.
Qed.

Lemma try_write_any_calls : forall cmds (w w' : session Dev) r,
    SpectrumAnalyzer._try_write_any cmds w = (r, w') ->
    exists ws, calls w' = (calls w ++ map EvWrite ws)%list.
Proof.
  intros cmds w w' r E.
  unfold SpectrumAnalyzer._try_write_any in E.
  rewrite try_write_loop_eq in E.
  pose proof (try_loop_spec unit SpectrumAnalyzer.write EvWrite
                sa_write_calls cmds None w) as S.
  rewrite E in S. destruct r as [a|e].
  - destruct S as (pre & c & post & es & w1 & _ & _ & _ & Hc). eauto.
  - destruct S as (es & _ & _ & Hc). eauto.
Qed.

Lemma queries_only_ret : forall (A : Type) (a : A),
    queries_only (ret (Dev := Dev) a).
Proof.
  intros A a w r w' [= <- <-]. exists []. rewrite app_nil_r. reflexivity.
Qed.

Lemma queries_only_lift : forall (A : Type) (x : result A),
    queries_only (lift (Dev := Dev) x).
Proof.
  intros A x w r w' [= <- <-]. exists []. rewrite app_nil_r. reflexivity.
Qed.

Lemma queries_only_bind :
  forall (A B : Type) (m : M Dev A) (k : A -> M Dev B),
    queries_only m -> (forall a, queries_only (k a)) ->
    queries_only (bind m k).
Proof.
  intros A B m k Hm Hk w r w'. unfold bind.
  destruct (m w) as [[a|e] w1] eqn:E; destruct (Hm _ _ _ E) as (q1 & H1).
  - intros Ek. destruct (Hk a _ _ _ Ek) as (q2 & H2).
    exists (q1 ++ q2)%list. rewrite H2, H1, map_app, app_assoc. reflexivity.
  - intros [= <- <-]. eauto.
Qed.

Lemma queries_only_try_query_any : forall cmds,
    queries_only (SpectrumAnalyzer._try_query_any (Dev := Dev) cmds).
Proof. intros cmds w r w' E. exact (try_query_any_calls _ _ _ _ E). Qed.

(** Reading the span back only queries. *)
Lemma get_start_stop_queries :
  queries_only (SpectrumAnalyzer.get_start_stop (Dev := Dev)).
Proof.
  unfold SpectrumAnalyzer.get_start_stop.
  repeat (apply queries_only_bind; [|intros ?]);
    auto using queries_only_try_query_any, queries_only_lift, queries_only_ret.
Qed.

Lemma get_start_stop_calls : forall (w w' : session Dev) r,
    SpectrumAnalyzer.get_start_stop w = (r, w') ->
    exists qs, calls w' = (calls w ++ map EvQuery qs)%list.
Proof. intros w w' r E. exact (get_start_stop_queries _ _ _ E). Qed.

Lemma get_marker_xy_queries : forall idx,
    queries_only (SpectrumAnalyzer.get_marker_xy (Dev := Dev) idx).
Proof.
  intros idx. unfold SpectrumAnalyzer.get_marker_xy.
  repeat (apply queries_only_bind; [|intros ?]);
    auto using queries_only_try_query_any, queries_only_lift, queries_only_ret.
Qed.

Lemma manual_delta_queries : forall ref_idx del_idx,
    queries_only (SpectrumAnalyzer.manual_delta (Dev := Dev) ref_idx del_idx).
Proof.
  intros ref_idx del_idx. unfold SpectrumAnalyzer.manual_delta.
  apply queries_only_bind; [apply get_marker_xy_queries|].
  intros [x1 y1].
  apply queries_only_bind; [apply get_marker_xy_queries|].
  intros [x2 y2]. apply queries_only_ret.
Qed.

End QueriesOnly.

(** C5, as the code has it.  [set_marker_x] first reads the span back
    from the instrument, then tests the frequency: when the frequency
    lies outside the span just read, it raises [ValueError] and writes
    nothing; the queries that read the span are the only calls made.
    For the VNA these are exactly the start and the stop query. *)
Theorem set_marker_x_rejects_after_span_readback :
  forall (Dev : Type) (I : Instrument Dev) (idx : Z) (freq_hz : PyFloat.float),
    (forall (w w1 : session Dev) (f_start f_stop : PyFloat.float),
        SpectrumAnalyzer.get_start_stop w = (Ok (f_start, f_stop), w1) ->
        outside_span f_start f_stop freq_hz = true ->
        SpectrumAnalyzer.set_marker_x idx freq_hz w
        = (Raise (ValueError ("Frecuencia " ++ PyFloat.repr freq_hz
                                ++ " fuera de span [" ++ PyFloat.repr f_start
                                ++ ", " ++ PyFloat.repr f_stop ++ "]")), w1)
        /\ exists qs, calls w1 = (calls w ++ map EvQuery qs)%list)
    /\
    (forall (w w1 w2 : session Dev) (s1 s2 : string)
            (f_start f_stop : PyFloat.float),
        VNA.query "SENS:FREQ:STAR?" w = (Ok s1, w1) ->
        PyFloat.of_string s1 = Ok f_start ->
        VNA.query "SENS:FREQ:STOP?" w1 = (Ok s2, w2) ->
        PyFloat.of_string s2 = Ok f_stop ->
        outside_span f_start f_stop freq_hz = true ->
        VNA.set_marker_x idx freq_hz w
        = (Raise (ValueError ("Frecuencia " ++ PyFloat.repr freq_hz
                                ++ " fuera del sweep [" ++ PyFloat.repr f_start
                                ++ ", " ++ PyFloat.repr f_stop ++ "]")), w2)
        /\ calls w2 = (calls w ++ [EvQuery "SENS:FREQ:STAR?";
                                   EvQuery "SENS:FREQ:STOP?"])%list).
Proof.
  intros Dev I idx freq_hz. split.
  - intros w w1 f_start f_stop Hss Hout. split.
    + unfold SpectrumAnalyzer.set_marker_x, bind. rewrite Hss.
      unfold outside_span in Hout. rewrite Hout. reflexivity.
    + exact (get_start_stop_calls _ _ _ Hss).
  - intros w w1 w2 s1 s2 f_start f_stop Hq1 Hf1 Hq2 Hf2 Hout. split.
    + unfold VNA.set_marker_x, bind, lift. rewrite Hq1, Hf1, Hq2, Hf2.
      unfold outside_span in Hout. rewrite Hout. reflexivity.
    + rewrite (vna_query_calls _ _ _ _ Hq2), (vna_query_calls _ _ _ _ Hq1),
        <- app_assoc. reflexivity.
Qed.

Lemma set_marker_x_rejects_after_span_readback_witness :
  let w := fresh [Ok "1e9"; Ok "2e9"; Ok ""] in
  let w1 := mkSession [Ok ""] true true
              [EvQuery "FREQ:STAR?"; EvQuery "FREQ:STOP?"] [] in
  let v1 := mkSession [Ok "2e9"; Ok ""] true true
              [EvQuery "SENS:FREQ:STAR?"] [] in
  let v2 := mkSession [Ok ""] true true
              [EvQuery "SENS:FREQ:STAR?"; EvQuery "SENS:FREQ:STOP?"] [] in
  (SpectrumAnalyzer.get_start_stop w = (Ok (lit "1e9", lit "2e9"), w1)
   /\ outside_span (lit "1e9") (lit "2e9") (lit "3e9") = true
   /\ SpectrumAnalyzer.set_marker_x 1 (lit "3e9") w
      = (Raise (ValueError ("Frecuencia " ++ PyFloat.repr (lit "3e9")
                              ++ " fuera de span [" ++ PyFloat.repr (lit "1e9")
                              ++ ", " ++ PyFloat.repr (lit "2e9") ++ "]")), w1))
  /\ (VNA.query "SENS:FREQ:STAR?" w = (Ok "1e9", v1)
      /\ VNA.query "SENS:FREQ:STOP?" v1 = (Ok "2e9", v2)
      /\ VNA.set_marker_x 1 (lit "3e9") w
         = (Raise (ValueError ("Frecuencia " ++ PyFloat.repr (lit "3e9")
                                 ++ " fuera del sweep [" ++ PyFloat.repr (lit "1e9")
                                 ++ ", " ++ PyFloat.repr (lit "2e9") ++ "]")), v2)).
Proof.
  intros w w1 v1 v2.
  assert (Hss : SpectrumAnalyzer.get_start_stop w
                = (Ok (lit "1e9", lit "2e9"), w1)) by (vm_compute; reflexivity).
  assert (Hout : outside_span (lit "1e9") (lit "2e9") (lit "3e9") = true)
    by (vm_compute; reflexivity).
  assert (Hq1 : VNA.query "SENS:FREQ:STAR?" w = (Ok "1e9", v1)) by reflexivity.
  assert (Hq2 : VNA.query "SENS:FREQ:STOP?" v1 = (Ok "2e9", v2)) by reflexivity.
  assert (Hf1 : PyFloat.of_string "1e9" = Ok (lit "1e9"))
    by (vm_compute; reflexivity).
  assert (Hf2 : PyFloat.of_string "2e9" = Ok (lit "2e9"))
    by (vm_compute; reflexivity).
  split.
  - split; [exact Hss|]. split; [exact Hout|].
    exact (proj1 (proj1 (set_marker_x_rejects_after_span_readback
                           script scripted 1 (lit "3e9"))
                    w w1 (lit "1e9") (lit "2e9") Hss Hout)).
  - split; [exact Hq1|]. split; [exact Hq2|].
    exact (proj1 (proj2 (set_marker_x_rejects_after_span_readback
                           script scripted 1 (lit "3e9"))
                    w v1 v2 "1e9" "2e9" (lit "1e9") (lit "2e9")
                    Hq1 Hf1 Hq2 Hf2 Hout)).
Defined.

(** C5 as stated fails: the rejection of an out-of-span frequency comes
    after two queries have been sent to the instrument, for the
    spectrum analyzer and for the VNA alike. *)
Lemma set_marker_x_queries_before_rejecting :
  let w := fresh [Ok "1e9"; Ok "2e9"; Ok ""] in
  (SpectrumAnalyzer.set_marker_x 1 (lit "3e9") w
   = (Raise (ValueError
               "Frecuencia 3000000000.0 fuera de span [1000000000.0, 2000000000.0]"),
      mkSession [Ok ""] true true
        [EvQuery "FREQ:STAR?"; EvQuery "FREQ:STOP?"] [])
   /\ calls (snd (SpectrumAnalyzer.set_marker_x 1 (lit "3e9") w)) <> calls w)
  /\
  (VNA.set_marker_x 1 (lit "3e9") w
   = (Raise (ValueError
               "Frecuencia 3000000000.0 fuera del sweep [1000000000.0, 2000000000.0]"),
      mkSession [Ok ""] true true
        [EvQuery "SENS:FREQ:STAR?"; EvQuery "SENS:FREQ:STOP?"] [])
   /\ calls (snd (VNA.set_marker_x 1 (lit "3e9") w)) <> calls w).
Proof.
  intros w. split; split; try (vm_compute; reflexivity);
    vm_compute; discriminate.
Qed.

(** A frequency inside the span is written. *)
Example set_marker_x_accepts :
  SpectrumAnalyzer.set_marker_x 1 (lit "1.5e9") (fresh [Ok "1e9"; Ok "2e9"; Ok ""])
  = (Ok tt,
     mkSession [] true true
       [EvQuery "FREQ:STAR?"; EvQuery "FREQ:STOP?";
        EvWrite "CALC:MARK1:X 1500000000.0"] []).
Proof. vm_compute. reflexivity. Qed.

(* ================================================================== *)
(** ** AWG sine setter *)
(* ================================================================== *)

(** The session after the clamp notice was printed. *)
Lemma print_notice : forall (Dev : Type) (line : string) (w : session Dev),
    print line w
    = (Ok tt, mkSession (device w) (is_open w) (rm_open w) (calls w)
                (stdout w ++ [line])).
Proof. reflexivity. Qed.

(** C7, as the code has it.  An amplitude below 0.001 V is not
    rejected: [set_sin] prints a notice, replaces the amplitude by
    0.001 and goes on exactly as if 0.001 had been passed, so its first
    call on the handle is the write of the sine command carrying
    amplitude 0.001. *)
Theorem set_sin_clamps_low_amplitude :
  forall (Dev : Type) (I : Instrument Dev) (channel : Z)
         (frequency amplitude offset phase : PyFloat.float) (w : session Dev),
    PyFloat.ltb amplitude f_0_001 = true ->
    let notice := "Amplitude below minimum (0.001). Setting it to 0.001." in
    let w0 := mkSession (device w) (is_open w) (rm_open w) (calls w)
                (stdout w ++ [notice]) in
    AWG_Rigol_DG922Pro.set_sin channel frequency amplitude offset phase w
    = AWG_Rigol_DG922Pro.set_sin channel frequency f_0_001 offset phase w0
    /\ PyFloat.repr f_0_001 = "0.001"
    /\ exists rest,
        calls (snd (AWG_Rigol_DG922Pro.set_sin
                      channel frequency amplitude offset phase w))
        = (calls w
             ++ EvWrite (":SOUR" ++ PyStr.of_int channel ++ ":APPL:SIN "
                           ++ PyFloat.repr frequency ++ ",0.001,"
                           ++ PyFloat.repr offset) :: rest)%list.
Proof.
  intros Dev I channel frequency amplitude offset phase w Hlt notice w0.
  assert (Hrepr : PyFloat.repr f_0_001 = "0.001") by (vm_compute; reflexivity).
  assert (Hsame : PyFloat.ltb f_0_001 f_0_001 = false) by reflexivity.
  assert (Heq : AWG_Rigol_DG922Pro.set_sin channel frequency amplitude offset phase w
                = AWG_Rigol_DG922Pro.set_sin channel frequency f_0_001 offset phase w0).
  { unfold AWG_Rigol_DG922Pro.set_sin. rewrite Hlt, Hsame.
    unfold bind at 1 2. rewrite print_notice. unfold ret at 1.
    unfold bind at 3. unfold ret at 2. reflexivity. }
  split; [exact Heq|]. split; [exact Hrepr|].
  rewrite Heq. unfold AWG_Rigol_DG922Pro.set_sin. rewrite Hsame.
  unfold bind at 1 2. unfold ret at 1. rewrite Hrepr.
  match goal with
  | |- context [res_write ?c w0] =>
      destruct (res_write c w0) as [[u|e] w1] eqn:E;
      pose proof (res_write_calls _ _ _ _ E) as Hc
  end.
  - destruct (negb (PyFloat.eqb phase f_0_0)).
    + match goal with
      | |- context [res_write ?c w1] =>
          destruct (res_write c w1) as [r2 w2] eqn:E2;
          pose proof (res_write_calls _ _ _ _ E2) as Hc2
      end.
      simpl. eexists. rewrite Hc2, Hc. simpl.
      rewrite <- app_assoc. reflexivity.
    + simpl. exists []. rewrite Hc. reflexivity.
  - simpl. exists []. rewrite Hc. reflexivity.
Qed.

Lemma set_sin_clamps_low_amplitude_witness :
  let w := fresh [Ok ""] in
  PyFloat.ltb (lit "0.0005") f_0_001 = true
  /\ AWG_Rigol_DG922Pro.set_sin 1 (lit "1000.0") (lit "0.0005") f_0_0 f_0_0 w
     = AWG_Rigol_DG922Pro.set_sin 1 (lit "1000.0") f_0_001 f_0_0 f_0_0
         (mkSession [Ok ""] true true []
            ["Amplitude below minimum (0.001). Setting it to 0.001."]).
Proof.
  intros w.
  assert (Hlt : PyFloat.ltb (lit "0.0005") f_0_001 = true) by reflexivity.
  split; [exact Hlt|].
  exact (proj1 (set_sin_clamps_low_amplitude script scripted 1
                  (lit "1000.0") (lit "0.0005") f_0_0 f_0_0 w Hlt)).
Defined.

(** C7 as stated fails: an amplitude of 0.0005 V raises nothing; the
    sine command goes out to the instrument with amplitude 0.001. *)
Lemma set_sin_low_amplitude_is_sent :
  PyFloat.ltb (lit "0.0005") (lit "0.001") = true
  /\ AWG_Rigol_DG922Pro.set_sin 1 (lit "1000.0") (lit "0.0005") f_0_0 f_0_0
       (fresh [Ok ""])
     = (Ok tt,
        mkSession [] true true
          [EvWrite ":SOUR1:APPL:SIN 1000.0,0.001,0.0"]
          ["Amplitude below minimum (0.001). Setting it to 0.001."]).
Proof. split; vm_compute; reflexivity. Qed.

(** The literal [0.001] of the source is [f_0_001]. *)
Example f_0_001_is_the_literal : PyFloat.of_string "0.001" = Ok f_0_001.
Proof. vm_compute. reflexivity. Qed.

(* ================================================================== *)
(** ** Closing a session *)
(* ================================================================== *)

Section Closing.
Context {Dev : Type} `{Instrument Dev}.

Lemma res_close_calls : forall (w w' : session Dev) r,
    res_close w = (r, w') -> calls w' = (calls w ++ [EvClose])%list.
Proof.
  intros w w' r. unfold res_close. simpl.
  destruct (is_open w).
  - destruct (visa_close (device w)) as [[u|e] d].
    + intros [= <- <-]. reflexivity.
    + destruct e; intros [= <- <-]; reflexivity.
  - intros [= <- <-]. reflexivity.
Qed.

Lemma rm_close_calls : forall (w w' : session Dev) r,
    rm_close w = (r, w') -> calls w' = (calls w ++ [EvRmClose])%list.
Proof.
  intros w w' r. unfold rm_close. simpl.
  destruct (rm_open w).
  - destruct (visa_rm_close (device w)) as [[u|e] d].
    + intros [= <- <-]. reflexivity.
    + destruct e; intros [= <- <-]; reflexivity.
  - intros [= <- <-]. reflexivity.
Qed.

Lemma res_close_closed : forall w : session Dev,
    is_open w = false -> res_close w = (Ok tt, log EvClose w).
Proof. intros w Hc. unfold res_close. simpl. rewrite Hc. reflexivity. Qed.

(** The [finally] clause of the analyzer's [close] never raises. *)
Lemma swallowed_rm_close : forall w : session Dev,
    exists w', try_except rm_close (fun _ => ret tt) w = (Ok tt, w')
               /\ calls w' = (calls w ++ [EvRmClose])%list.
Proof.
  intros w. unfold try_except.
  destruct (rm_close w) as [[[]|e] w'] eqn:E;
    pose proof (rm_close_calls _ _ _ E) as Hc;
    (exists w'; split; [reflexivity | exact Hc]).
Qed.

(** The analyzer's [close]: the outcome is that of closing the
    resource handle, after both handles were asked to close. *)
Lemma sa_close_spec : forall w : session Dev,
    exists w1 w2,
      res_close w = (fst (SpectrumAnalyzer.close w), w1)
      /\ snd (SpectrumAnalyzer.close w) = w2
      /\ calls w2 = (calls w ++ [EvClose; EvRmClose])%list.
Proof.
  intros w. unfold SpectrumAnalyzer.close, try_finally.
  destruct (res_close w) as [r w1] eqn:E.
  pose proof (res_close_calls _ _ _ E) as Hc.
  destruct (swallowed_rm_close w1) as (w2 & Hrm & Hc2).
  rewrite Hrm. exists w1, w2. simpl.
  repeat split. rewrite Hc2, Hc, <- app_assoc. reflexivity.
Qed.

End Closing.

(** C8, as the code has it.  The analyzer and the VNA ask the resource
    handle and then the resource manager to close, whatever the
    session state, and on a handle that is already closed this never
    raises.  The AnaPico and Rigol drivers write their output-off
    commands first and close the handle after them: whenever those
    writes go through, the calls are the output-off writes followed by
    the close, in that order. *)
Theorem close_order_and_closed_handle :
  forall (Dev : Type) (I : Instrument Dev) (w : session Dev),
    (calls (snd (SpectrumAnalyzer.close w)) = (calls w ++ [EvClose; EvRmClose])%list
     /\ calls (snd (VNA.close w)) = (calls w ++ [EvClose; EvRmClose])%list)
    /\ (is_open w = false ->
        fst (SpectrumAnalyzer.close w) = Ok tt /\ fst (VNA.close w) = Ok tt)
    /\ (forall w1 : session Dev,
           res_write ":OUTP OFF" w = (Ok tt, w1) ->
           AnaPico_sin20G.close w = res_close w1
           /\ calls (snd (AnaPico_sin20G.close w))
              = (calls w ++ [EvWrite ":OUTP OFF"; EvClose])%list)
    /\ (forall w1 w2 : session Dev,
           res_write ":OUTP1 OFF" w = (Ok tt, w1) ->
           res_write ":OUTP2 OFF" w1 = (Ok tt, w2) ->
           AWG_Rigol_DG922Pro.close w = res_close w2
           /\ calls (snd (AWG_Rigol_DG922Pro.close w))
              = (calls w ++ [EvWrite ":OUTP1 OFF"; EvWrite ":OUTP2 OFF";
                             EvClose])%list).
Proof.
  intros Dev I w.
  destruct (sa_close_spec w) as (w1 & w2 & Hres & Hsnd & Hcalls).
  split; [|split; [|split]].
  - split; rewrite <- Hcalls, <- Hsnd; reflexivity.
  - intros Hclosed. rewrite (res_close_closed w Hclosed) in Hres.
    injection Hres as Hfst _. split; symmetry; exact Hfst.
  - intros wa Hw.
    assert (E : AnaPico_sin20G.close w = res_close wa).
    { unfold AnaPico_sin20G.close, AnaPico_sin20G.enable_output, bind.
      cbn [append]. rewrite Hw. reflexivity. }
    split; [exact E|]. rewrite E.
    destruct (res_close wa) as [r wb] eqn:Ec. simpl.
    rewrite (res_close_calls _ _ _ Ec), (res_write_calls _ _ _ _ Hw),
      <- app_assoc. reflexivity.
  - intros wa wb Hw1 Hw2.
    assert (E : AWG_Rigol_DG922Pro.close w = res_close wb).
    { unfold AWG_Rigol_DG922Pro.close, AWG_Rigol_DG922Pro.enable_output, bind.
      change (":OUTP" ++ PyStr.of_int 1 ++ " " ++ "OFF") with ":OUTP1 OFF".
      change (":OUTP" ++ PyStr.of_int 2 ++ " " ++ "OFF") with ":OUTP2 OFF".
      rewrite Hw1, Hw2. reflexivity. }
    split; [exact E|]. rewrite E.
    destruct (res_close wb) as [r wc] eqn:Ec. simpl.
    rewrite (res_close_calls _ _ _ Ec), (res_write_calls _ _ _ _ Hw2),
      (res_write_calls _ _ _ _ Hw1), <- !app_assoc. reflexivity.
Qed.

Lemma close_order_and_closed_handle_witness :
  let w := closed [] in
  let g := fresh [Ok ""; Ok ""] in
  let g1 := mkSession [Ok ""] true true [EvWrite ":OUTP OFF"] [] in
  let a1 := mkSession [Ok ""] true true [EvWrite ":OUTP1 OFF"] [] in
  let a2 := mkSession [] true true [EvWrite ":OUTP1 OFF"; EvWrite ":OUTP2 OFF"] [] in
  (is_open w = false
   /\ fst (SpectrumAnalyzer.close w) = Ok tt
   /\ fst (VNA.close w) = Ok tt)
  /\ (res_write ":OUTP OFF" g = (Ok tt, g1)
      /\ calls (snd (AnaPico_sin20G.close g))
         = [EvWrite ":OUTP OFF"; EvClose])
  /\ (res_write ":OUTP1 OFF" g = (Ok tt, a1)
      /\ res_write ":OUTP2 OFF" a1 = (Ok tt, a2)
      /\ calls (snd (AWG_Rigol_DG922Pro.close g))
         = [EvWrite ":OUTP1 OFF"; EvWrite ":OUTP2 OFF"; EvClose]).
Proof.
  intros w g g1 a1 a2.
  assert (Hclosed : is_open w = false) by reflexivity.
  assert (Hg : res_write ":OUTP OFF" g = (Ok tt, g1)) by reflexivity.
  assert (Ha1 : res_write ":OUTP1 OFF" g = (Ok tt, a1)) by reflexivity.
  assert (Ha2 : res_write ":OUTP2 OFF" a1 = (Ok tt, a2)) by reflexivity.
  split; [|split].
  - split; [exact Hclosed|].
    exact (proj1 (proj2 (close_order_and_closed_handle script scripted w))
             Hclosed).
  - split; [exact Hg|].
    exact (proj2 (proj1 (proj2 (proj2
             (close_order_and_closed_handle script scripted g))) g1 Hg)).
  - split; [exact Ha1|]. split; [exact Ha2|].
    exact (proj2 (proj2 (proj2 (proj2
             (close_order_and_closed_handle script scripted g))) a1 a2 Ha1 Ha2)).
Defined.

(** C8 as stated fails for the two generator drivers: on a handle that
    is already closed their [close] raises, because the output-off
    write comes first and is refused by the closed handle. *)
Lemma generator_close_raises_on_closed_handle :
  AnaPico_sin20G.close (closed [])
  = (Raise InvalidSession,
     mkSession [] false false [EvWrite ":OUTP OFF"] [])
  /\ AWG_Rigol_DG922Pro.close (closed [])
     = (Raise InvalidSession,
        mkSession [] false false [EvWrite ":OUTP1 OFF"] []).
Proof. split; reflexivity. Qed.

(** Closing an open generator: outputs off, then the handle. *)
Example generator_close_open_session :
  AnaPico_sin20G.close (fresh [Ok ""])
  = (Ok tt, mkSession [] false true [EvWrite ":OUTP OFF"; EvClose] [])
  /\ AWG_Rigol_DG922Pro.close (fresh [Ok ""; Ok ""])
     = (Ok tt,
        mkSession [] false true
          [EvWrite ":OUTP1 OFF"; EvWrite ":OUTP2 OFF"; EvClose] []).
Proof. split; reflexivity. Qed.

(** Closing the analyzer twice. *)
Example analyzer_close_twice :
  (SpectrumAnalyzer.close ;;; SpectrumAnalyzer.close) (fresh [])
  = (Ok tt,
     mkSession [] false false [EvClose; EvRmClose; EvClose; EvRmClose] []).
Proof. reflexivity. Qed.

(* ================================================================== *)
(** ** Marker delta *)
(* ================================================================== *)

Section Delta.
Context {Dev : Type} `{Instrument Dev}.

(** A non-empty candidate list starts by querying its head. *)
Lemma try_query_any_first_call : forall c cs (w w' : session Dev) r,
    SpectrumAnalyzer._try_query_any (c :: cs) w = (r, w') ->
    exists rest, calls w' = (calls w ++ EvQuery c :: rest)%list.
Proof.
  intros c cs w w' r E.
  unfold SpectrumAnalyzer._try_query_any in E.
  rewrite try_query_loop_eq in E.
  pose proof (try_loop_spec string SpectrumAnalyzer.query EvQuery
                sa_query_calls (c :: cs) None w) as S.
  rewrite E in S. destruct r as [a|e].
  - destruct S as (pre & c0 & post & es & w1 & Hsplit & _ & _ & Hc).
    destruct pre as [|p pre]; simpl in Hsplit; injection Hsplit as <- _;
      rewrite Hc; simpl; eauto.
  - destruct S as (es & _ & _ & Hc). rewrite Hc. simpl. eauto.
Qed.

Lemma calls_extend_trans : forall (l0 l1 l2 : list event) ev rest more,
    l1 = (l0 ++ ev :: rest)%list -> l2 = (l1 ++ more)%list ->
    l2 = (l0 ++ ev :: (rest ++ more))%list.
Proof.
  intros l0 l1 l2 ev rest more -> ->. rewrite <- app_assoc. reflexivity.
Qed.

(** The direct read-out starts with the first spelling of the delta
    X query. *)
Lemma direct_delta_first_call : forall del_idx (w w' : session Dev) r,
    SpectrumAnalyzer.direct_delta del_idx w = (r, w') ->
    exists rest,
      calls w' = (calls w
                    ++ EvQuery ("CALC:MARK" ++ PyStr.of_int del_idx ++ ":DELT:X?")
                    :: rest)%list.
Proof.
  intros del_idx w w' r. unfold SpectrumAnalyzer.direct_delta.
  unfold bind at 1.
  match goal with
  | |- context [SpectrumAnalyzer._try_query_any ?l w] =>
      destruct (SpectrumAnalyzer._try_query_any l w) as [[sx|e] w1] eqn:E1;
      destruct (try_query_any_first_call _ _ _ _ _ E1) as (rest1 & H1)
  end.
  - intros Ek.
    match type of Ek with
    | ?k w1 = _ => assert (Hk : queries_only k)
    end.
    { repeat (apply queries_only_bind; [|intros ?]);
        auto using queries_only_try_query_any, queries_only_lift,
          queries_only_ret. }
    destruct (Hk _ _ _ Ek) as (q & Hq).
    eexists. eapply calls_extend_trans; eauto.
  - intros [= <- <-]. eauto.
Qed.

End Delta.

(** C9.  [get_delta_reading] starts with the direct delta queries.  If
    they succeed, their readings are returned and nothing else is
    asked.  If they fail in any way, and only then, the two markers are
    read one after the other, reference first, and the result is
    [(x2 - x1, y2 - y1)] with [(x1, y1)] the reference marker and
    [(x2, y2)] the delta marker. *)
Theorem get_delta_reading_direct_then_manual :
  forall (Dev : Type) (I : Instrument Dev) (ref_idx del_idx : Z) (w : session Dev),
    (exists rest,
        calls (snd (SpectrumAnalyzer.get_delta_reading ref_idx del_idx w))
        = (calls w
             ++ EvQuery ("CALC:MARK" ++ PyStr.of_int del_idx ++ ":DELT:X?")
             :: rest)%list)
    /\ (forall df da w1,
           SpectrumAnalyzer.direct_delta del_idx w = (Ok (df, da), w1) ->
           SpectrumAnalyzer.get_delta_reading ref_idx del_idx w
           = (Ok (df, da), w1))
    /\ (forall e w1,
           SpectrumAnalyzer.direct_delta del_idx w = (Raise e, w1) ->
           SpectrumAnalyzer.get_delta_reading ref_idx del_idx w
           = SpectrumAnalyzer.manual_delta ref_idx del_idx w1)
    /\ (forall e w1 x1 y1 w2 x2 y2 w3,
           SpectrumAnalyzer.direct_delta del_idx w = (Raise e, w1) ->
           SpectrumAnalyzer.get_marker_xy ref_idx w1 = (Ok (x1, y1), w2) ->
           SpectrumAnalyzer.get_marker_xy del_idx w2 = (Ok (x2, y2), w3) ->
           SpectrumAnalyzer.get_delta_reading ref_idx del_idx w
           = (Ok (PyFloat.sub x2 x1, PyFloat.sub y2 y1), w3)).
Proof.
  intros Dev I ref_idx del_idx w.
  assert (Hfail : forall e w1,
             SpectrumAnalyzer.direct_delta del_idx w = (Raise e, w1) ->
             SpectrumAnalyzer.get_delta_reading ref_idx del_idx w
             = SpectrumAnalyzer.manual_delta ref_idx del_idx w1).
  { intros e w1 Hd. unfold SpectrumAnalyzer.get_delta_reading, try_except.
    rewrite Hd. reflexivity. }
  split; [|split; [|split]].
  - destruct (SpectrumAnalyzer.direct_delta del_idx w) as [[p|e] w1] eqn:Ed;
      destruct (direct_delta_first_call _ _ _ _ Ed) as (rest & Hc).
    + unfold SpectrumAnalyzer.get_delta_reading, try_except. rewrite Ed.
      simpl. eauto.
    + rewrite (Hfail e w1 eq_refl).
      destruct (SpectrumAnalyzer.manual_delta ref_idx del_idx w1)
        as [r w2] eqn:Em.
      destruct (manual_delta_queries _ _ _ _ _ Em) as (q & Hq).
      simpl. eexists. eapply calls_extend_trans; eauto.
  - intros df da w1 Hd. unfold SpectrumAnalyzer.get_delta_reading, try_except.
    rewrite Hd. reflexivity.
  - exact Hfail.
  - intros e w1 x1 y1 w2 x2 y2 w3 Hd H1 H2.
    rewrite (Hfail e w1 Hd).
    unfold SpectrumAnalyzer.manual_delta, bind. rewrite H1, H2. reflexivity.
Qed.

(** An instrument without the direct delta read-out: both spellings of
    the delta query are refused, then the markers are read. *)
Lemma get_delta_reading_direct_then_manual_witness :
  let w := fresh [Raise (VisaIOError "-113"); Raise (VisaIOError "-113");
                  Ok "1.0e9"; Ok "-40.0"; Ok "1001500000.0"; Ok "-43.0"] in
  let v := fresh [Ok "1500000.0"; Ok "-3.0"; Ok "unread"] in
  let v1 := mkSession [Ok "unread"] true true
              [EvQuery "CALC:MARK2:DELT:X?"; EvQuery "CALC:MARK2:DELT:Y?"] [] in
  SpectrumAnalyzer.get_delta_reading 1 2 w
  = (Ok (lit "1500000.0", lit "-3.0"),
     mkSession [] true true
       [EvQuery "CALC:MARK2:DELT:X?"; EvQuery "CALC:MARKER2:DELTA:X?";
        EvQuery "CALC:MARK1:X?"; EvQuery "CALC:MARK1:Y?";
        EvQuery "CALC:MARK2:X?"; EvQuery "CALC:MARK2:Y?"] [])
  /\ (SpectrumAnalyzer.direct_delta 2 v
      = (Ok (lit "1500000.0", lit "-3.0"), v1)
      /\ SpectrumAnalyzer.get_delta_reading 1 2 v
         = (Ok (lit "1500000.0", lit "-3.0"), v1)).
Proof.
  intros w v v1.
  pose (w1 := mkSession [Ok "1.0e9"; Ok "-40.0"; Ok "1001500000.0"; Ok "-43.0"]
                true true
                [EvQuery "CALC:MARK2:DELT:X?"; EvQuery "CALC:MARKER2:DELTA:X?"] []
              : session script).
  pose (w2 := mkSession [Ok "1001500000.0"; Ok "-43.0"] true true
                [EvQuery "CALC:MARK2:DELT:X?"; EvQuery "CALC:MARKER2:DELTA:X?";
                 EvQuery "CALC:MARK1:X?"; EvQuery "CALC:MARK1:Y?"] []
              : session script).
  assert (Hd : SpectrumAnalyzer.direct_delta 2 w
               = (Raise (RuntimeError
                           "VISA query error en 'CALC:MARKER2:DELTA:X?': -113"), w1))
    by (vm_compute; reflexivity).
  assert (H1 : SpectrumAnalyzer.get_marker_xy 1 w1
               = (Ok (lit "1.0e9", lit "-40.0"), w2))
    by (vm_compute; reflexivity).
  assert (H2 : SpectrumAnalyzer.get_marker_xy 2 w2
               = (Ok (lit "1001500000.0", lit "-43.0"),
                  mkSession [] true true
                    [EvQuery "CALC:MARK2:DELT:X?"; EvQuery "CALC:MARKER2:DELTA:X?";
                     EvQuery "CALC:MARK1:X?"; EvQuery "CALC:MARK1:Y?";
                     EvQuery "CALC:MARK2:X?"; EvQuery "CALC:MARK2:Y?"] []))
    by (vm_compute; reflexivity).
  assert (Hv : SpectrumAnalyzer.direct_delta 2 v
               = (Ok (lit "1500000.0", lit "-3.0"), v1))
    by (vm_compute; reflexivity).
  split.
  - exact (proj2 (proj2 (proj2 (get_delta_reading_direct_then_manual
                                  script scripted 1 2 w)))
             _ _ _ _ _ _ _ _ Hd H1 H2).
  - split; [exact Hv|].
    exact (proj1 (proj2 (get_delta_reading_direct_then_manual
                           script scripted 1 2 v)) _ _ _ Hv).
Defined.

(** The direct read-out works: the markers are not read. *)
Example get_delta_reading_direct :
  SpectrumAnalyzer.get_delta_reading 1 2
    (fresh [Ok "1500000.0"; Ok "-3.0"; Ok "unread"])
  = (Ok (lit "1500000.0", lit "-3.0"),
     mkSession [Ok "unread"] true true
       [EvQuery "CALC:MARK2:DELT:X?"; EvQuery "CALC:MARK2:DELT:Y?"] []).
Proof. vm_compute. reflexivity. Qed.

(** A direct reply that is not a number counts as a failure too. *)
Example get_delta_reading_unparseable_direct :
  SpectrumAnalyzer.get_delta_reading 1 2
    (fresh [Ok "n/a"; Ok "1.0e9"; Ok "-40.0"; Ok "1001500000.0"; Ok "-43.0"])
  = (Ok (lit "1500000.0", lit "-3.0"),
     mkSession [] true true
       [EvQuery "CALC:MARK2:DELT:X?";
        EvQuery "CALC:MARK1:X?"; EvQuery "CALC:MARK1:Y?";
        EvQuery "CALC:MARK2:X?"; EvQuery "CALC:MARK2:Y?"] []).
Proof. vm_compute. reflexivity. Qed.

(* ================================================================== *)
(** ** Frequency axis *)
(* ================================================================== *)

(** *** Integers below 2^53 convert to floats without error *)

Lemma digits2_pos_size : forall p, digits2_pos p = Pos.size p.
Proof. induction p; simpl; congruence. Qed.

Lemma digits2_pos_bound : forall p n,
    0 <= n -> Zpos p < 2 ^ n -> Zpos (digits2_pos p) <= n.
Proof.
  intros p n Hn Hp. rewrite digits2_pos_size.
  destruct (Z_le_gt_dec (Zpos (Pos.size p)) n) as [|Hgt]; [assumption|exfalso].
  assert (H2 : 2 ^ Zpos (Pos.size p) <= 2 * Zpos p).
  { change (2 * Zpos p) with (Zpos (p~0)). rewrite <- Pos2Z.inj_pow.
    apply Pos2Z.pos_le_pos. apply Pos.size_le. }
  assert (H3 : 2 ^ (n + 1) <= 2 ^ Zpos (Pos.size p))
    by (apply Z.pow_le_mono_r; lia).
  rewrite Z.pow_add_r in H3 by lia. lia.
Qed.

Lemma digits2_pos_iter_xO : forall d p,
    digits2_pos (Pos.iter xO p d) = (digits2_pos p + d)%positive.
Proof.
  induction d as [|d IH] using Pos.peano_ind; intros p.
  - simpl. lia.
  - rewrite Pos.iter_succ. simpl. rewrite IH. lia.
Qed.

(** A mantissa of exactly 53 bits needs no shift. *)
Lemma shr_fexp_exact : forall m e,
    Zpos (digits2_pos m) = 53 -> -1074 <= e ->
    shr_fexp 53 1024 (Zpos m) e loc_Exact
    = ({| shr_m := Zpos m; shr_r := false; shr_s := false |}, e).
Proof.
  intros m e Hd He.
  unfold shr_fexp, fexp, emin, Zdigits2. rewrite Hd.
  match goal with |- context [shr _ _ ?n] => replace n with 0 by lia end.
  reflexivity.
Qed.

Lemma binary_round_aux_exact : forall m e,
    Zpos (digits2_pos m) = 53 -> -1074 <= e <= 971 ->
    binary_round_aux 53 1024 false (Zpos m) e loc_Exact = S754_finite false m e.
Proof.
  intros m e Hd He.
  unfold binary_round_aux.
  rewrite shr_fexp_exact by lia.
  cbn [shr_m shr_r shr_s loc_of_shr_record round_nearest_even].
  rewrite shr_fexp_exact by lia.
  cbn [shr_m].
  destruct (e <=? 1024 - 53) eqn:E; [reflexivity|]. apply Z.leb_gt in E. lia.
Qed.

Lemma of_int_pos_small : forall p,
    Zpos p < 2 ^ 53 ->
    exists m e, PyFloat.of_int (Zpos p) = Ok (S754_finite false m e).
Proof.
  intros p Hp.
  pose proof (digits2_pos_bound p 53 ltac:(lia) Hp) as Hd.
  unfold PyFloat.of_int, binary_normalize, binary_round, shl_align,
    PyFloat.prec, PyFloat.emax.
  assert (Hf : fexp 53 1024 (Zpos (digits2_pos p) + 0)
               = Zpos (digits2_pos p) - 53).
  { unfold fexp, emin. lia. }
  rewrite Hf.
  destruct (Zpos (digits2_pos p) - 53 - 0) as [|q|q] eqn:Eq.
  - rewrite binary_round_aux_exact by lia. eauto.
  - lia.
  - rewrite binary_round_aux_exact; [eauto| |lia].
    rewrite digits2_pos_iter_xO. lia.
Qed.

Lemma of_int_small : forall i,
    0 <= i < 2 ^ 53 -> exists fi, PyFloat.of_int i = Ok fi.
Proof.
  intros [|p|p] Hi; [eexists; reflexivity| |lia].
  destruct (of_int_pos_small p (proj2 Hi)) as (m & e & H). eauto.
Qed.

(** *** The list comprehension *)

Lemma range_length : forall n, List.length (range n) = Z.to_nat n.
Proof. intros n. unfold range. rewrite length_map, length_seq. reflexivity. Qed.

Lemma range_nth : forall n i,
    0 <= i < n -> nth_error (range n) (Z.to_nat i) = Some i.
Proof.
  intros n i Hi. unfold range.
  rewrite nth_error_map, nth_error_seq.
  destruct (Nat.ltb_spec (Z.to_nat i) (Z.to_nat n)); [|lia].
  simpl. f_equal. lia.
Qed.

Lemma range_in : forall n i, In i (range n) -> 0 <= i < n.
Proof.
  intros n i Hin. unfold range in Hin. apply in_map_iff in Hin.
  destruct Hin as (k & <- & Hk). apply in_seq in Hk. lia.
Qed.

Section AxisEntries.
Context {Dev : Type} `{Instrument Dev}.

Lemma axis_entries_spec : forall f_start step idxs,
    (forall i, In i idxs -> 0 <= i < 2 ^ 53) ->
    exists axis,
      SpectrumAnalyzer.axis_entries f_start step idxs = Ok axis
      /\ List.length axis = List.length idxs
      /\ forall k i, nth_error idxs k = Some i ->
           exists fi, PyFloat.of_int i = Ok fi
                      /\ nth_error axis k
                         = Some (PyFloat.add f_start (PyFloat.mul fi step)).
Proof.
  intros f_start step.
  induction idxs as [|i0 idxs IH]; intros Hsmall.
  - exists []. repeat split. intros [|k] i Hk; discriminate.
  - destruct IH as (axis & Hax & Hlen & Hnth).
    { intros i Hi. apply Hsmall. right. exact Hi. }
    destruct (of_int_small i0 (Hsmall i0 (or_introl eq_refl))) as (f0 & Hf0).
    exists (PyFloat.add f_start (PyFloat.mul f0 step) :: axis).
    cbn [SpectrumAnalyzer.axis_entries]. rewrite Hf0, Hax.
    split; [reflexivity|]. split; [simpl; congruence|].
    intros [|k] i Hk; simpl in Hk.
    + injection Hk as <-. exists f0. split; [exact Hf0|reflexivity].
    + exact (Hnth k i Hk).
Qed.

End AxisEntries.

(** *** The first entry *)

Lemma eqb_refl_not_nan : forall x,
    x <> S754_nan -> PyFloat.eqb x x = true.
Proof.
  intros [s|s| |s m e] Hx; unfold PyFloat.eqb, SFeqb, SFcompare.
  - reflexivity.
  - destruct s; reflexivity.
  - contradiction.
  - rewrite Z.compare_refl, Pos.compare_cont_refl. destruct s; reflexivity.
Qed.

Lemma add_zero_times_step : forall f_start f_stop step,
    PyFloat.ltb f_start f_stop = true ->
    is_finite step = true ->
    PyFloat.eqb (PyFloat.add f_start (PyFloat.mul (S754_zero false) step))
                f_start = true.
Proof.
  intros f_start f_stop step Hlt Hfin.
  assert (Hnn : f_start <> S754_nan).
  { intros ->. discriminate Hlt. }
  assert (Hz : exists s, PyFloat.mul (S754_zero false) step = S754_zero s).
  { destruct step as [s|s| |s m e]; try discriminate Hfin; simpl; eauto. }
  destruct Hz as (s & ->).
  destruct f_start as [s0|s0| |s0 m0 e0]; try contradiction.
  - destruct s0, s; reflexivity.
  - apply eqb_refl_not_nan. discriminate.
  - apply (eqb_refl_not_nan (S754_finite s0 m0 e0)). discriminate.
Qed.

(** *** Rounding to nearest even, on integers

    [SpecFloat] rounds by shifting the mantissa right one bit at a time
    with a round bit and a sticky bit.  The lemmas below read that
    state as one integer ([enc]), on which a shift is [hs] and the final
    choice is [rne4]; both are monotone. *)

Lemma dg_bounds : forall m, 2 ^ (dg m - 1) <= Zpos m < 2 ^ dg m.
Proof.
  intros m. unfold dg. rewrite digits2_pos_size.
  pose proof (Pos.size_gt m) as Hgt. pose proof (Pos.size_le m) as Hle.
  assert (H1 : Zpos m < 2 ^ Zpos (Pos.size m)).
  { rewrite <- Pos2Z.inj_pow. apply Pos2Z.pos_lt_pos. exact Hgt. }
  assert (H2 : 2 ^ Zpos (Pos.size m) <= 2 * Zpos m).
  { change (2 * Zpos m) with (Zpos (m~0)). rewrite <- Pos2Z.inj_pow.
    apply Pos2Z.pos_le_pos. exact Hle. }
  split; [|exact H1].
  replace (Zpos (Pos.size m)) with (Zpos (Pos.size m) - 1 + 1) in H2 by lia.
  rewrite Z.pow_add_r in H2 by lia. lia.
Qed.

Lemma dg_pos : forall m, 1 <= dg m.
Proof. intros m. unfold dg. lia. Qed.

Lemma dg_unique : forall m d, 2 ^ (d - 1) <= Zpos m < 2 ^ d -> dg m = d.
Proof.
  intros m d [H1 H2]. pose proof (dg_bounds m) as [B1 B2]. pose proof (dg_pos m).
  destruct (Z_lt_le_dec d 1) as [Hd|Hd].
  { assert (2 ^ d <= 2 ^ 0) by (apply Z.pow_le_mono_r; lia).
    change (2 ^ 0) with 1 in *. lia. }
  destruct (Z.lt_trichotomy (dg m) d) as [Hlt|[Heq|Hgt]]; [|exact Heq|].
  - assert (2 ^ dg m <= 2 ^ (d - 1)) by (apply Z.pow_le_mono_r; lia). lia.
  - assert (2 ^ d <= 2 ^ (dg m - 1)) by (apply Z.pow_le_mono_r; lia). lia.
Qed.

Lemma decomp4 : forall X, exists q c, X = 4 * q + c /\ 0 <= c < 4 /\ X / 4 = q /\ X mod 4 = c.
Proof.
  intros X. exists (X / 4), (X mod 4).
  pose proof (Z.div_mod X 4 ltac:(lia)). pose proof (Z.mod_pos_bound X 4 ltac:(lia)).
  repeat split; lia.
Qed.

Lemma div4 : forall q c, 0 <= c < 4 -> (4 * q + c) / 4 = q /\ (4 * q + c) mod 4 = c.
Proof.
  intros q c Hc.
  assert (E : 4 * q + c = c + q * 4) by lia. rewrite E.
  rewrite Z.div_add, Z.mod_add by lia.
  rewrite Z.div_small, Z.mod_small by lia. split; lia.
Qed.

Lemma hs_mono : forall X Y, X <= Y -> hs X <= hs Y.
Proof.
  intros X Y H. unfold hs.
  destruct (decomp4 X) as (q1 & c1 & E1 & B1 & -> & ->).
  destruct (decomp4 Y) as (q2 & c2 & E2 & B2 & -> & ->).
  destruct (Z.eqb_spec c1 0), (Z.eqb_spec c2 0); lia.
Qed.

Lemma hs_nonneg : forall X, 0 <= X -> 0 <= hs X.
Proof.
  intros X H. unfold hs.
  destruct (decomp4 X) as (q1 & c1 & E1 & B1 & -> & ->).
  destruct (Z.eqb_spec c1 0); lia.
Qed.

Lemma hs_div4 : forall X, hs X / 4 = X / 4 / 2.
Proof.
  intros X. unfold hs.
  destruct (decomp4 X) as (q & c & E & B & -> & ->).
  pose proof (Z.div_mod q 2 ltac:(lia)). pose proof (Z.mod_pos_bound q 2 ltac:(lia)).
  destruct (Z.eqb_spec c 0).
  - replace (2 * q + 0) with (4 * (q / 2) + 2 * (q mod 2)) by lia.
    apply (div4 (q / 2) (2 * (q mod 2))). lia.
  - replace (2 * q + 1) with (4 * (q / 2) + (2 * (q mod 2) + 1)) by lia.
    apply (div4 (q / 2) (2 * (q mod 2) + 1)). lia.
Qed.

Lemma hs_double : forall X, hs (2 * X) = X.
Proof.
  intros X. unfold hs.
  pose proof (Z.div_mod X 2 ltac:(lia)). pose proof (Z.mod_pos_bound X 2 ltac:(lia)).
  assert (E : 2 * X = 4 * (X / 2) + 2 * (X mod 2)) by lia.
  rewrite E. destruct (div4 (X / 2) (2 * (X mod 2)) ltac:(lia)) as [-> ->].
  destruct (Z.eqb_spec (2 * (X mod 2)) 0); lia.
Qed.

Lemma rne4_mono : forall X Y, X <= Y -> rne4 X <= rne4 Y.
Proof.
  intros X Y H. unfold rne4.
  destruct (decomp4 X) as (q1 & c1 & E1 & B1 & -> & ->).
  destruct (decomp4 Y) as (q2 & c2 & E2 & B2 & -> & ->).
  destruct (Z.eq_dec q1 q2) as [->|Hne].
  - destruct (Z.ltb_spec c1 2), (Z.ltb_spec c2 2), (Z.eqb_spec c1 2),
      (Z.eqb_spec c2 2), (Z.even q2); lia.
  - assert (q1 < q2) by lia.
    destruct (Z.ltb_spec c1 2), (Z.ltb_spec c2 2), (Z.eqb_spec c1 2),
      (Z.eqb_spec c2 2), (Z.even q1), (Z.even q2); lia.
Qed.

Lemma rne4_bounds : forall X, X / 4 <= rne4 X <= X / 4 + 1.
Proof.
  intros X. unfold rne4.
  destruct (X mod 4 <? 2), (X mod 4 =? 2), (Z.even (X / 4)); lia.
Qed.

Lemma rne4_exact : forall m, rne4 (4 * m) = m.
Proof.
  intros m. unfold rne4.
  destruct (div4 m 0 ltac:(lia)) as [E1 E2].
  replace (4 * m + 0) with (4 * m) in * by lia. rewrite E1, E2. reflexivity.
Qed.

Lemma rne4_enc : forall mrs,
    round_nearest_even (shr_m mrs) (loc_of_shr_record mrs) = rne4 (enc mrs).
Proof.
  intros [m r s]. unfold enc, rne4. cbn [shr_m shr_r shr_s].
  destruct r, s; cbn [Z.b2z loc_of_shr_record round_nearest_even].
  - destruct (div4 m 3 ltac:(lia)) as [E1 E2].
    replace (4 * m + 2 * 1 + 1) with (4 * m + 3) by lia. rewrite E1, E2. reflexivity.
  - destruct (div4 m 2 ltac:(lia)) as [E1 E2].
    replace (4 * m + 2 * 1 + 0) with (4 * m + 2) by lia. rewrite E1, E2. reflexivity.
  - destruct (div4 m 1 ltac:(lia)) as [E1 E2].
    replace (4 * m + 2 * 0 + 1) with (4 * m + 1) by lia. rewrite E1, E2. reflexivity.
  - destruct (div4 m 0 ltac:(lia)) as [E1 E2].
    replace (4 * m + 2 * 0 + 0) with (4 * m + 0) by lia. rewrite E1, E2. reflexivity.
Qed.

Lemma shr_1_enc : forall mrs, 0 <= shr_m mrs ->
    enc (shr_1 mrs) = hs (enc mrs) /\ 0 <= shr_m (shr_1 mrs).
Proof.
  intros [m r s] Hm. cbn [shr_m] in Hm. unfold enc, hs.
  assert (Hb : 0 <= 2 * Z.b2z r + Z.b2z s < 4) by (destruct r, s; cbn; lia).
  cbn [shr_m shr_r shr_s].
  replace (4 * m + 2 * Z.b2z r + Z.b2z s) with (4 * m + (2 * Z.b2z r + Z.b2z s)) by lia.
  destruct (div4 m _ Hb) as [-> ->].
  assert (Hs : Z.b2z (r || s) = if 2 * Z.b2z r + Z.b2z s =? 0 then 0 else 1)
    by (destruct r, s; reflexivity).
  destruct m as [|[p|p|]|p]; try lia; cbn [shr_1 shr_m shr_r shr_s];
    rewrite Hs; cbn [Z.b2z]; split; lia.
Qed.

Lemma iter_pos_nat : forall (A : Type) (f : A -> A) p x,
    iter_pos f p x = Nat.iter (Pos.to_nat p) f x.
Proof.
  intros A f. induction p as [p IH|p IH|]; intros x; cbn [iter_pos].
  - rewrite !IH. rewrite Pos2Nat.inj_xI.
    replace (S (2 * Pos.to_nat p)) with (Pos.to_nat p + (Pos.to_nat p + 1))%nat by lia.
    rewrite !Nat.iter_add. cbn. reflexivity.
  - rewrite !IH. rewrite Pos2Nat.inj_xO.
    replace (2 * Pos.to_nat p)%nat with (Pos.to_nat p + Pos.to_nat p)%nat by lia.
    rewrite Nat.iter_add. reflexivity.
  - reflexivity.
Qed.

Lemma halve_mono : forall n X Y, X <= Y -> halve n X <= halve n Y.
Proof.
  intros n X Y H. unfold halve.
  induction (Z.to_nat n) as [|k IH]; cbn; [exact H|]. apply hs_mono. exact IH.
Qed.

Lemma halve_nonneg : forall n X, 0 <= X -> 0 <= halve n X.
Proof.
  intros n X H. unfold halve.
  induction (Z.to_nat n) as [|k IH]; cbn; [exact H|]. apply hs_nonneg. exact IH.
Qed.

Lemma iter_hs_div4 : forall k X, Nat.iter k hs X / 4 = X / 4 / 2 ^ Z.of_nat k.
Proof.
  induction k as [|k IH]; intros X.
  - cbn. rewrite Z.div_1_r. reflexivity.
  - rewrite Nat.iter_succ, hs_div4, IH.
    rewrite Nat2Z.inj_succ, Z.pow_succ_r by lia.
    rewrite Z.div_div by lia. f_equal. lia.
Qed.

Lemma halve_div4 : forall n X, 0 <= n -> halve n X / 4 = X / 4 / 2 ^ n.
Proof.
  intros n X Hn. unfold halve. rewrite iter_hs_div4, Z2Nat.id by lia. reflexivity.
Qed.

Lemma iter_hs_scale : forall j X, Nat.iter j hs (2 ^ Z.of_nat j * X) = X.
Proof.
  induction j as [|j IH]; intros X.
  - unfold Nat.iter. simpl. destruct X; reflexivity.
  - rewrite Nat2Z.inj_succ, Z.pow_succ_r by lia.
    rewrite Nat.iter_succ_r.
    replace (2 * 2 ^ Z.of_nat j * X) with (2 * (2 ^ Z.of_nat j * X)) by lia.
    rewrite hs_double. apply IH.
Qed.

Lemma halve_scale : forall k n X, 0 <= k -> 0 <= n ->
    halve (n + k) (2 ^ k * X) = halve n X.
Proof.
  intros k n X Hk Hn. unfold halve.
  rewrite Z2Nat.inj_add by lia. rewrite Nat.iter_add. f_equal.
  rewrite <- (Z2Nat.id k) at 2 by lia. apply iter_hs_scale.
Qed.

Lemma shr_enc : forall mrs e n, 0 <= shr_m mrs ->
    enc (fst (shr mrs e n)) = halve n (enc mrs)
    /\ 0 <= shr_m (fst (shr mrs e n))
    /\ snd (shr mrs e n) = e + Z.max n 0.
Proof.
  intros mrs e n Hm. unfold shr, halve.
  assert (G : forall k, enc (Nat.iter k shr_1 mrs) = Nat.iter k hs (enc mrs)
                        /\ 0 <= shr_m (Nat.iter k shr_1 mrs)).
  { induction k as [|k [IH1 IH2]]; [cbn; auto|].
    rewrite !Nat.iter_succ.
    destruct (shr_1_enc _ IH2) as [E1 E2]. rewrite E1, IH1. auto. }
  destruct n as [|p|p]; cbn [fst snd].
  - split; [reflexivity|]. split; [exact Hm|lia].
  - rewrite iter_pos_nat. destruct (G (Pos.to_nat p)) as [G1 G2].
    split; [exact G1|]. split; [exact G2|lia].
  - split; [reflexivity|]. split; [exact Hm|lia].
Qed.

(** *** One rounding step of [binary_round_aux] *)

Lemma fx_eq : forall x, fx x = Z.max (x - 53) (-1074).
Proof. reflexivity. Qed.

Lemma enc_div4 : forall mrs, enc mrs / 4 = shr_m mrs.
Proof.
  intros [m r s]. unfold enc. cbn [shr_m shr_r shr_s].
  replace (4 * m + 2 * Z.b2z r + Z.b2z s) with (4 * m + (2 * Z.b2z r + Z.b2z s)) by lia.
  apply div4. destruct r, s; cbn; lia.
Qed.

Lemma rmant_bounds : forall m e,
    precond m e ->
    0 <= rmant m e <= 2 ^ 53
    /\ (-1074 < fx (dg m + e) -> 2 ^ 52 <= rmant m e)
    /\ (rmant m e = 2 ^ 53 \/ rmant m e < 2 ^ 53).
Proof.
  intros m e Hp. unfold precond in Hp. unfold rmant.
  set (E := fx (dg m + e)) in *. set (n := E - e).
  assert (Hn : 0 <= n) by (unfold n; lia).
  pose proof (rne4_bounds (halve n (4 * Zpos m))) as [B1 B2].
  rewrite halve_div4 in B1, B2 by lia.
  replace (4 * Zpos m / 4) with (Zpos m) in * by (rewrite Z.mul_comm, Z.div_mul; lia).
  pose proof (dg_bounds m) as [D1 D2].
  assert (Hpow : 0 < 2 ^ n) by (apply Z.pow_pos_nonneg; lia).
  assert (Hq0 : 0 <= Zpos m / 2 ^ n) by (apply Z.div_pos; lia).
  assert (Hq1 : Zpos m / 2 ^ n < 2 ^ 53).
  { apply Z.div_lt_upper_bound; [lia|].
    rewrite <- Z.pow_add_r by lia.
    assert (dg m <= n + 53) by (unfold n, E; rewrite fx_eq; lia).
    assert (2 ^ dg m <= 2 ^ (n + 53)) by (apply Z.pow_le_mono_r; lia). lia. }
  split; [lia|]. split; [|lia].
  intros Hnorm.
  assert (HE : E = dg m + e - 53) by (unfold E in *; rewrite fx_eq in *; lia).
  assert (2 ^ 52 <= Zpos m / 2 ^ n); [|lia].
  apply Z.div_le_lower_bound; [lia|].
  rewrite <- Z.pow_add_r by lia.
  replace (n + 52) with (dg m - 1) by (unfold n; lia). exact D1.
Qed.

Lemma shr_fexp_exact_general : forall m E,
    -1074 <= E -> 0 < m < 2 ^ 53 ->
    shr_fexp 53 1024 m E loc_Exact
    = ({| shr_m := m; shr_r := false; shr_s := false |}, E).
Proof.
  intros m E HE Hm. destruct m as [|p|p]; try lia.
  unfold shr_fexp, Zdigits2. cbn [shr_record_of_loc].
  assert (Hd : dg p <= 53).
  { pose proof (dg_bounds p) as [D1 D2]. pose proof (dg_pos p).
    destruct (Z_le_gt_dec (dg p) 53) as [|Hgt]; [assumption|exfalso].
    assert (2 ^ 53 <= 2 ^ (dg p - 1)) by (apply Z.pow_le_mono_r; lia). lia. }
  fold (dg p). change (fexp 53 1024) with fx. rewrite fx_eq.
  destruct (Z.max (dg p + E - 53) (-1074) - E) as [|q|q] eqn:Eq; try reflexivity. lia.
Qed.

Lemma shr_fexp_zero : forall E,
    -1074 <= E ->
    shr_fexp 53 1024 0 E loc_Exact
    = ({| shr_m := 0; shr_r := false; shr_s := false |}, E).
Proof.
  intros E HE. unfold shr_fexp, Zdigits2. cbn [shr_record_of_loc].
  change (fexp 53 1024) with fx. rewrite fx_eq.
  destruct (Z.max (0 + E - 53) (-1074) - E) as [|q|q] eqn:Eq; try reflexivity. lia.
Qed.

Lemma shr_fexp_carry : forall E,
    -1074 <= E ->
    shr_fexp 53 1024 (2 ^ 53) E loc_Exact
    = ({| shr_m := 2 ^ 52; shr_r := false; shr_s := false |}, E + 1).
Proof.
  intros E HE. unfold shr_fexp. cbn [shr_record_of_loc].
  change (Zdigits2 (2 ^ 53)) with 54.
  change (fexp 53 1024) with fx. rewrite fx_eq.
  replace (Z.max (54 + E - 53) (-1074) - E) with 1 by lia.
  reflexivity.
Qed.

Lemma bra_eq : forall s m e,
    precond m e ->
    binary_round_aux 53 1024 s (Zpos m) e loc_Exact
    = (let '(mrs'', e'') :=
         shr_fexp 53 1024 (rmant m e) (fx (dg m + e)) loc_Exact in
       match shr_m mrs'' with
       | Z0 => S754_zero s
       | Zpos m0 => if e'' <=? 1024 - 53 then S754_finite s m0 e'' else S754_infinity s
       | _ => S754_nan
       end).
Proof.
  intros s m e Hp. unfold precond in Hp.
  unfold binary_round_aux.
  unfold shr_fexp at 1. cbn [Zdigits2]. fold (dg m). change (fexp 53 1024) with fx.
  set (E := fx (dg m + e)) in *.
  pose proof (shr_enc (shr_record_of_loc (Zpos m) loc_Exact) e (E - e)
                ltac:(cbn; lia)) as (S1 & S2 & S3).
  destruct (shr (shr_record_of_loc (Zpos m) loc_Exact) e (E - e)) as [mrs' e'] eqn:Es.
  cbn [fst snd] in S1, S2, S3.
  assert (He' : e' = E) by lia.
  rewrite rne4_enc, S1, He'.
  change (enc (shr_record_of_loc (Zpos m) loc_Exact)) with (4 * Zpos m + 2 * 0 + 0).
  replace (4 * Zpos m + 2 * 0 + 0) with (4 * Zpos m) by lia.
  reflexivity.
Qed.

(** The three outcomes of rounding a positive [m * 2^e]. *)
Lemma bra_cases : forall s m e,
    precond m e ->
    let E := fx (dg m + e) in
    let m1 := rmant m e in
    (m1 = 0 /\ binary_round_aux 53 1024 s (Zpos m) e loc_Exact = S754_zero s)
    \/ (0 < m1 < 2 ^ 53
        /\ binary_round_aux 53 1024 s (Zpos m) e loc_Exact
           = if E <=? 971 then S754_finite s (Z.to_pos m1) E else S754_infinity s)
    \/ (m1 = 2 ^ 53
        /\ binary_round_aux 53 1024 s (Zpos m) e loc_Exact
           = if E + 1 <=? 971 then S754_finite s (Z.to_pos (2 ^ 52)) (E + 1)
             else S754_infinity s).
Proof.
  intros s m e Hp E m1.
  pose proof (rmant_bounds m e Hp) as (B & _ & C). fold m1 in B, C.
  assert (HE : -1074 <= E) by (unfold E; rewrite fx_eq; lia).
  rewrite (bra_eq s m e Hp). fold E. fold m1.
  destruct (Z.eq_dec m1 0) as [H0|H0].
  - left. split; [exact H0|]. rewrite H0, shr_fexp_zero by lia. reflexivity.
  - destruct C as [C|C].
    + right. right. split; [exact C|]. rewrite C, shr_fexp_carry by lia.
      cbn [shr_m]. reflexivity.
    + right. left. split; [lia|]. rewrite shr_fexp_exact_general by lia.
      cbn [shr_m]. destruct m1; try lia. reflexivity.
Qed.

(** *** Comparing floats by their keys *)

Lemma good_finite : forall s m e,
    good (S754_finite s m e) <->
    (-1074 <= e <= 971 /\ dg m <= 53 /\ (-1074 < e -> dg m = 53)).
Proof.
  intros s m e. unfold good, valid_binary, bounded, canonical_mantissa.
  fold (dg m). change (fexp 53 1024) with fx. rewrite fx_eq.
  rewrite andb_true_iff, Z.eqb_eq, Z.leb_le. lia.
Qed.

Lemma pow_split : forall a b, 0 <= a -> 0 <= b -> 2 ^ (a + b) = 2 ^ a * 2 ^ b.
Proof. intros. apply Z.pow_add_r; lia. Qed.

Lemma dg_le_lt : forall m d, 0 <= d -> dg m <= d -> Zpos m < 2 ^ d.
Proof.
  intros m d Hd H. pose proof (dg_bounds m) as [_ B]. pose proof (dg_pos m).
  assert (2 ^ dg m <= 2 ^ d) by (apply Z.pow_le_mono_r; lia). lia.
Qed.

Lemma good_key_bounds : forall s m e,
    good (S754_finite s m e) ->
    0 < Zpos m * 2 ^ (e + 1074) < 2 ^ 2098.
Proof.
  intros s m e G. apply good_finite in G. destruct G as (He & Hd & _).
  pose proof (dg_le_lt m 53 ltac:(lia) Hd) as Hm.
  assert (Hp : 0 < 2 ^ (e + 1074)) by (apply Z.pow_pos_nonneg; lia).
  split; [lia|].
  assert (H1 : 2 ^ (e + 1074) <= 2 ^ 2045) by (apply Z.pow_le_mono_r; lia).
  change (2 ^ 2098) with (2 ^ 53 * 2 ^ 2045).
  assert (Zpos m * 2 ^ (e + 1074) < 2 ^ 53 * 2 ^ (e + 1074))
    by (apply Z.mul_lt_mono_pos_r; lia).
  assert (2 ^ 53 * 2 ^ (e + 1074) <= 2 ^ 53 * 2 ^ 2045)
    by (apply Z.mul_le_mono_nonneg_l; lia).
  lia.
Qed.

Lemma canon_lt : forall s1 m1 e1 s2 m2 e2,
    good (S754_finite s1 m1 e1) -> good (S754_finite s2 m2 e2) ->
    e1 < e2 ->
    Zpos m1 * 2 ^ (e1 + 1074) < Zpos m2 * 2 ^ (e2 + 1074).
Proof.
  intros s1 m1 e1 s2 m2 e2 G1 G2 Hlt.
  apply good_finite in G1. apply good_finite in G2.
  destruct G1 as (He1 & Hd1 & _). destruct G2 as (He2 & _ & Hn2).
  pose proof (dg_le_lt m1 53 ltac:(lia) Hd1) as Hm1.
  pose proof (dg_bounds m2) as [Hm2 _]. rewrite Hn2 in Hm2 by lia.
  change (2 ^ (53 - 1)) with (2 ^ 52) in Hm2.
  assert (Hp : 0 < 2 ^ (e1 + 1074)) by (apply Z.pow_pos_nonneg; lia).
  replace (e2 + 1074) with ((e2 - e1 - 1) + 1 + (e1 + 1074)) by lia.
  rewrite (Z.pow_add_r 2 (e2 - e1 - 1 + 1) (e1 + 1074)) by lia.
  rewrite (Z.pow_add_r 2 (e2 - e1 - 1) 1) by lia.
  assert (Hq : 0 < 2 ^ (e2 - e1 - 1)) by (apply Z.pow_pos_nonneg; lia).
  change (2 ^ 1) with 2.
  set (A := 2 ^ (e1 + 1074)) in *. set (B := 2 ^ (e2 - e1 - 1)) in *.
  assert (H1 : Zpos m1 * A < 2 ^ 53 * A) by (apply Z.mul_lt_mono_pos_r; lia).
  assert (H2 : 2 ^ 52 * (B * 2 * A) <= Zpos m2 * (B * 2 * A))
    by (apply Z.mul_le_mono_nonneg_r; nia).
  assert (H3 : 2 ^ 53 * A <= 2 ^ 52 * (B * 2 * A)).
  { change (2 ^ 53) with (2 ^ 52 * 2). 
    assert (1 * (2 ^ 52 * 2 * A) <= B * (2 ^ 52 * 2 * A))
      by (apply Z.mul_le_mono_nonneg_r; nia). nia. }
  lia.
Qed.

Lemma compare_scaled : forall m1 m2 k, 0 < k ->
    (Zpos m1 * k ?= Zpos m2 * k) = Pos.compare_cont Eq m1 m2.
Proof.
  intros m1 m2 k Hk.
  change (Pos.compare_cont Eq m1 m2) with (Zpos m1 ?= Zpos m2).
  destruct (Z.compare_spec (Zpos m1) (Zpos m2)) as [E|L|G].
  - rewrite E. apply Z.compare_refl.
  - apply Z.compare_lt_iff. apply Z.mul_lt_mono_pos_r; lia.
  - apply Z.compare_gt_iff. apply Z.mul_lt_mono_pos_r; lia.
Qed.

Lemma compare_canon : forall s1 m1 e1 s2 m2 e2,
    good (S754_finite s1 m1 e1) -> good (S754_finite s2 m2 e2) ->
    match e1 ?= e2 with
    | Eq => Pos.compare_cont Eq m1 m2
    | Lt => Lt
    | Gt => Gt
    end = (Zpos m1 * 2 ^ (e1 + 1074) ?= Zpos m2 * 2 ^ (e2 + 1074)).
Proof.
  intros s1 m1 e1 s2 m2 e2 G1 G2.
  destruct (Z.compare_spec e1 e2) as [E|L|G].
  - subst e2. symmetry. apply compare_scaled.
    apply good_finite in G1. apply Z.pow_pos_nonneg; lia.
  - symmetry. apply Z.compare_lt_iff. eapply canon_lt; eauto.
  - symmetry. apply Z.compare_gt_iff. eapply canon_lt; eauto.
Qed.

Lemma compare_key : forall x y,
    good x -> good y -> is_nan x = false -> is_nan y = false ->
    SFcompare x y = Some (key x ?= key y).
Proof.
  intros x y Gx Gy Nx Ny.
  destruct x as [sx|sx| |sx mx ex], y as [sy|sy| |sy my ey];
    try discriminate; cbn [SFcompare key].
  - reflexivity.
  - destruct sy; reflexivity.
  - pose proof (good_key_bounds _ _ _ Gy) as [B1 B2].
    f_equal. destruct sy; symmetry;
      [apply Z.compare_gt_iff|apply Z.compare_lt_iff]; lia.
  - destruct sx; reflexivity.
  - destruct sx, sy; reflexivity.
  - pose proof (good_key_bounds _ _ _ Gy) as [B1 B2].
    f_equal. destruct sx, sy; symmetry;
      try (apply Z.compare_gt_iff; lia); apply Z.compare_lt_iff; lia.
  - pose proof (good_key_bounds _ _ _ Gx) as [B1 B2].
    f_equal. destruct sx; symmetry;
      [apply Z.compare_lt_iff|apply Z.compare_gt_iff]; lia.
  - pose proof (good_key_bounds _ _ _ Gx) as [B1 B2].
    f_equal. destruct sx, sy; symmetry;
      try (apply Z.compare_gt_iff; lia); apply Z.compare_lt_iff; lia.
  - pose proof (good_key_bounds _ _ _ Gx) as [B1 B2].
    pose proof (good_key_bounds _ _ _ Gy) as [B3 B4].
    f_equal. destruct sx, sy.
    + rewrite Z.compare_opp.
      rewrite <- (compare_canon true my ey true mx ex Gy Gx).
      rewrite (Z.compare_antisym ey ex).
      destruct (ey ?= ex) eqn:Ec; cbn; try reflexivity.
      change (Pos.compare_cont Eq mx my) with (Pos.compare mx my).
      change (Pos.compare_cont Eq my mx) with (Pos.compare my mx).
      rewrite (Pos.compare_antisym my mx). destruct (my ?= mx)%positive; reflexivity.
    + symmetry. apply Z.compare_lt_iff. lia.
    + symmetry. apply Z.compare_gt_iff. lia.
    + apply (compare_canon false mx ex false my ey); assumption.
Qed.

Lemma leb_key : forall x y,
    good x -> good y -> is_nan x = false -> is_nan y = false ->
    SFleb x y = (key x <=? key y).
Proof.
  intros x y Gx Gy Nx Ny. unfold SFleb. rewrite (compare_key x y Gx Gy Nx Ny).
  unfold Z.leb. destruct (key x ?= key y); reflexivity.
Qed.

Lemma ltb_key : forall x y,
    good x -> good y -> is_nan x = false -> is_nan y = false ->
    SFltb x y = (key x <? key y).
Proof.
  intros x y Gx Gy Nx Ny. unfold SFltb. rewrite (compare_key x y Gx Gy Nx Ny).
  unfold Z.ltb. destruct (key x ?= key y); reflexivity.
Qed.

(** *** The key of a rounded mantissa *)

Lemma lt_dg_le : forall p d, 0 <= d -> Zpos p < 2 ^ d -> dg p <= d.
Proof.
  intros p d Hd H. pose proof (dg_bounds p) as [B _]. pose proof (dg_pos p).
  destruct (Z_le_gt_dec (dg p) d) as [|Hgt]; [assumption|exfalso].
  assert (2 ^ d <= 2 ^ (dg p - 1)) by (apply Z.pow_le_mono_r; lia). lia.
Qed.

Lemma le_dg_ge : forall p d, 2 ^ (d - 1) <= Zpos p -> d <= dg p.
Proof.
  intros p d H. pose proof (dg_bounds p) as [_ B]. pose proof (dg_pos p).
  destruct (Z_le_gt_dec d (dg p)) as [|Hgt]; [assumption|exfalso].
  assert (2 ^ dg p <= 2 ^ (d - 1)) by (apply Z.pow_le_mono_r; lia). lia.
Qed.

Lemma fx_ge : forall x, -1074 <= fx x.
Proof. intros x. rewrite fx_eq. lia. Qed.

Lemma RK_bounds : forall m e, precond m e -> 0 <= RK m e <= 2 ^ 2098.
Proof.
  intros m e Hp. unfold RK.
  pose proof (rmant_bounds m e Hp) as (B & _ & _).
  pose proof (fx_ge (dg m + e)).
  assert (0 < 2 ^ (fx (dg m + e) + 1074)) by (apply Z.pow_pos_nonneg; lia).
  assert (0 <= rmant m e * 2 ^ (fx (dg m + e) + 1074)) by nia.
  assert (0 < 2 ^ 2098) by (apply Z.pow_pos_nonneg; lia).
  lia.
Qed.

Lemma bra_key : forall s m e,
    precond m e ->
    good (binary_round_aux 53 1024 s (Zpos m) e loc_Exact)
    /\ is_nan (binary_round_aux 53 1024 s (Zpos m) e loc_Exact) = false
    /\ key (binary_round_aux 53 1024 s (Zpos m) e loc_Exact)
       = if s then - RK m e else RK m e.
Proof.
  intros s m e Hp.
  pose proof (rmant_bounds m e Hp) as (B & Hnorm & _).
  pose proof (fx_ge (dg m + e)) as HE.
  pose proof (bra_cases s m e Hp) as C. cbv zeta in C.
  unfold RK.
  set (E := fx (dg m + e)) in *. set (m1 := rmant m e) in *.
  assert (Hpow : 0 < 2 ^ (E + 1074)) by (apply Z.pow_pos_nonneg; lia).
  assert (H98 : 0 < 2 ^ 2098) by (apply Z.pow_pos_nonneg; lia).
  destruct C as [[H0 ->]|[[H1 ->]|[H2 ->]]].
  - split; [reflexivity|]. split; [reflexivity|].
    cbn [key]. rewrite H0. rewrite Z.mul_0_l, Z.min_l by lia.
    destruct s; reflexivity.
  - destruct (Z.leb_spec E 971) as [Hle|Hgt].
    + assert (G : good (S754_finite s (Z.to_pos m1) E)).
      { apply good_finite. split; [lia|].
        assert (Hz : Zpos (Z.to_pos m1) = m1) by (apply Z2Pos.id; lia).
        split.
        - apply lt_dg_le; [lia|]. rewrite Hz. lia.
        - intros Hn. apply Z.le_antisymm.
          + apply lt_dg_le; [lia|]. rewrite Hz. lia.
          + apply le_dg_ge. rewrite Hz. apply Hnorm. exact Hn. }
      split; [exact G|]. split; [reflexivity|].
      pose proof (good_key_bounds _ _ _ G) as [K1 K2].
      cbn [key]. rewrite Z2Pos.id in * by lia.
      rewrite Z.min_l by lia. reflexivity.
    + split; [reflexivity|]. split; [reflexivity|].
      cbn [key].
      assert (Hm : 2 ^ 52 <= m1) by (apply Hnorm; lia).
      assert (H1' : 2 ^ 2046 <= 2 ^ (E + 1074)) by (apply Z.pow_le_mono_r; lia).
      assert (2 ^ 2098 <= m1 * 2 ^ (E + 1074)).
      { change (2 ^ 2098) with (2 ^ 52 * 2 ^ 2046).
        assert (2 ^ 52 * 2 ^ 2046 <= 2 ^ 52 * 2 ^ (E + 1074))
          by (apply Z.mul_le_mono_nonneg_l; lia).
        assert (2 ^ 52 * 2 ^ (E + 1074) <= m1 * 2 ^ (E + 1074))
          by (apply Z.mul_le_mono_nonneg_r; lia).
        lia. }
      rewrite Z.min_r by lia. reflexivity.
  - assert (Hc : m1 * 2 ^ (E + 1074) = 2 ^ 52 * 2 ^ (E + 1 + 1074)).
    { rewrite H2. replace (E + 1 + 1074) with (1 + (E + 1074)) by lia.
      rewrite (Z.pow_add_r 2 1 (E + 1074)) by lia.
      change (2 ^ 53) with (2 ^ 52 * 2 ^ 1). lia. }
    destruct (Z.leb_spec (E + 1) 971) as [Hle|Hgt].
    + assert (G : good (S754_finite s (Z.to_pos (2 ^ 52)) (E + 1))).
      { apply good_finite. split; [lia|].
        change (dg (Z.to_pos (2 ^ 52))) with 53. lia. }
      split; [exact G|]. split; [reflexivity|].
      pose proof (good_key_bounds _ _ _ G) as [K1 K2].
      cbn [key]. change (Zpos (Z.to_pos (2 ^ 52))) with (2 ^ 52) in *.
      rewrite Hc, Z.min_l by lia. reflexivity.
    + split; [reflexivity|]. split; [reflexivity|].
      cbn [key]. rewrite Hc.
      assert (H1' : 2 ^ 2046 <= 2 ^ (E + 1 + 1074)) by (apply Z.pow_le_mono_r; lia).
      assert (2 ^ 2098 <= 2 ^ 52 * 2 ^ (E + 1 + 1074)).
      { change (2 ^ 2098) with (2 ^ 52 * 2 ^ 2046).
        apply Z.mul_le_mono_nonneg_l; lia. }
      rewrite Z.min_r by lia. reflexivity.
Qed.

(** *** Rounding is monotone *)

Lemma vle_at : forall a ea b eb e0,
    e0 <= ea -> e0 <= eb ->
    (vle a ea b eb <-> a * 2 ^ (ea - e0) <= b * 2 ^ (eb - e0)).
Proof.
  intros a ea b eb e0 Ha Hb. unfold vle.
  set (mn := Z.min ea eb).
  assert (Hk : 0 <= mn - e0) by (unfold mn; lia).
  assert (Hp : 0 < 2 ^ (mn - e0)) by (apply Z.pow_pos_nonneg; lia).
  replace (ea - e0) with ((ea - mn) + (mn - e0)) by lia.
  replace (eb - e0) with ((eb - mn) + (mn - e0)) by lia.
  rewrite (Z.pow_add_r 2 (ea - mn)), (Z.pow_add_r 2 (eb - mn)) by (unfold mn; lia).
  rewrite !Z.mul_assoc.
  split; intros H.
  - apply Z.mul_le_mono_nonneg_r; lia.
  - apply Z.mul_le_mono_pos_r in H; lia.
Qed.

Lemma magnitude_mono : forall m1 e1 m2 e2,
    vle (Zpos m1) e1 (Zpos m2) e2 -> dg m1 + e1 <= dg m2 + e2.
Proof.
  intros m1 e1 m2 e2 H. unfold vle in H.
  set (e0 := Z.min e1 e2) in *.
  pose proof (dg_bounds m1) as [L1 _]. pose proof (dg_bounds m2) as [_ U2].
  pose proof (dg_pos m1). pose proof (dg_pos m2).
  assert (P1 : 0 < 2 ^ (e1 - e0)) by (apply Z.pow_pos_nonneg; unfold e0; lia).
  assert (P2 : 0 < 2 ^ (e2 - e0)) by (apply Z.pow_pos_nonneg; unfold e0; lia).
  assert (A : 2 ^ (dg m1 - 1 + (e1 - e0)) <= Zpos m1 * 2 ^ (e1 - e0)).
  { rewrite Z.pow_add_r by (unfold e0; lia). apply Z.mul_le_mono_nonneg_r; lia. }
  assert (B : Zpos m2 * 2 ^ (e2 - e0) < 2 ^ (dg m2 + (e2 - e0))).
  { rewrite Z.pow_add_r by (unfold e0; lia). apply Z.mul_lt_mono_pos_r; lia. }
  assert (C : 2 ^ (dg m1 - 1 + (e1 - e0)) < 2 ^ (dg m2 + (e2 - e0))) by lia.
  apply Z.pow_lt_mono_r_iff in C; unfold e0 in *; lia.
Qed.

Lemma rmant_at : forall m e e0,
    precond m e -> e0 <= e ->
    rmant m e = rne4 (halve (fx (dg m + e) - e0) (4 * (Zpos m * 2 ^ (e - e0)))).
Proof.
  intros m e e0 Hp H0. unfold rmant. unfold precond in Hp.
  replace (fx (dg m + e) - e0) with ((fx (dg m + e) - e) + (e - e0)) by lia.
  replace (4 * (Zpos m * 2 ^ (e - e0))) with (2 ^ (e - e0) * (4 * Zpos m)) by lia.
  rewrite halve_scale by lia. reflexivity.
Qed.

Lemma RK_mono : forall m1 e1 m2 e2,
    precond m1 e1 -> precond m2 e2 ->
    vle (Zpos m1) e1 (Zpos m2) e2 ->
    RK m1 e1 <= RK m2 e2.
Proof.
  intros m1 e1 m2 e2 P1 P2 H.
  pose proof (magnitude_mono _ _ _ _ H) as Hmag.
  pose proof (rmant_bounds m1 e1 P1) as (B1 & N1 & _).
  pose proof (rmant_bounds m2 e2 P2) as (B2 & N2 & _).
  pose proof (fx_ge (dg m1 + e1)) as G1. pose proof (fx_ge (dg m2 + e2)) as G2.
  unfold RK. apply Z.min_le_compat_r.
  assert (HE : fx (dg m1 + e1) <= fx (dg m2 + e2)) by (rewrite !fx_eq; lia).
  destruct (Z.eq_dec (fx (dg m1 + e1)) (fx (dg m2 + e2))) as [Heq|Hne].
  - rewrite Heq. apply Z.mul_le_mono_nonneg_r.
    { apply Z.pow_nonneg. lia. }
    set (e0 := Z.min e1 e2).
    rewrite (rmant_at m1 e1 e0 P1), (rmant_at m2 e2 e0 P2) by (unfold e0; lia).
    rewrite Heq. apply rne4_mono, halve_mono.
    unfold vle in H. fold e0 in H. lia.
  - assert (Hlt : fx (dg m1 + e1) + 1 <= fx (dg m2 + e2)) by lia.
    set (E1 := fx (dg m1 + e1)) in *. set (E2 := fx (dg m2 + e2)) in *.
    assert (Hn2 : 2 ^ 52 <= rmant m2 e2) by (apply N2; lia).
    assert (Q1 : 0 < 2 ^ (E1 + 1074)) by (apply Z.pow_pos_nonneg; lia).
    assert (Q2 : 2 ^ (E1 + 1 + 1074) <= 2 ^ (E2 + 1074))
      by (apply Z.pow_le_mono_r; lia).
    replace (E1 + 1 + 1074) with (1 + (E1 + 1074)) in Q2 by lia.
    rewrite (Z.pow_add_r 2 1) in Q2 by lia. change (2 ^ 1) with 2 in Q2.
    assert (S1 : rmant m1 e1 * 2 ^ (E1 + 1074) <= 2 ^ 53 * 2 ^ (E1 + 1074))
      by (apply Z.mul_le_mono_nonneg_r; lia).
    assert (S2 : 2 ^ 52 * 2 ^ (E2 + 1074) <= rmant m2 e2 * 2 ^ (E2 + 1074))
      by (apply Z.mul_le_mono_nonneg_r; lia).
    assert (S3 : 2 ^ 52 * (2 * 2 ^ (E1 + 1074)) <= 2 ^ 52 * 2 ^ (E2 + 1074))
      by (apply Z.mul_le_mono_nonneg_l; lia).
    change (2 ^ 53) with (2 ^ 52 * 2) in S1. lia.
Qed.

(** A valid float is its own rounding. *)
Lemma RK_good : forall s m e,
    good (S754_finite s m e) ->
    precond m e /\ RK m e = Zpos m * 2 ^ (e + 1074).
Proof.
  intros s m e G. pose proof (good_key_bounds _ _ _ G) as [K1 K2].
  apply good_finite in G. destruct G as (He & Hd & Hn).
  assert (Hfx : fx (dg m + e) = e) by (rewrite fx_eq; lia).
  split; [unfold precond; lia|].
  unfold RK, rmant. rewrite Hfx. replace (e - e) with 0 by lia.
  change (halve 0 (4 * Zpos m)) with (4 * Zpos m).
  rewrite rne4_exact. lia.
Qed.

(** *** Rounding an integer with any exponent *)

Lemma iter_xO_val : forall d m, Zpos (Pos.iter xO m d) = Zpos m * 2 ^ Zpos d.
Proof.
  induction d as [|d IH] using Pos.peano_ind; intros m.
  - cbn. lia.
  - rewrite Pos.iter_succ. rewrite Pos2Z.inj_xO, IH.
    rewrite Pos2Z.inj_succ, Z.pow_succ_r by lia. lia.
Qed.

Lemma shl_align_spec : forall m e e',
    snd (shl_align m e e') = Z.min e e'
    /\ Zpos (fst (shl_align m e e')) = Zpos m * 2 ^ (e - Z.min e e').
Proof.
  intros m e e'. unfold shl_align.
  destruct (e' - e) as [|d|d] eqn:E; cbn [fst snd].
  - replace (Z.min e e') with e by lia. rewrite Z.sub_diag. split; lia.
  - replace (Z.min e e') with e by lia. rewrite Z.sub_diag. split; lia.
  - replace (Z.min e e') with e' by lia. split; [reflexivity|].
    rewrite iter_xO_val. f_equal. f_equal. lia.
Qed.

Lemma dg_scale : forall m m' k, 0 <= k -> Zpos m' = Zpos m * 2 ^ k -> dg m' = dg m + k.
Proof.
  intros m m' k Hk E. apply dg_unique. rewrite E.
  pose proof (dg_bounds m) as [L U]. pose proof (dg_pos m).
  assert (0 < 2 ^ k) by (apply Z.pow_pos_nonneg; lia).
  replace (dg m + k - 1) with (dg m - 1 + k) by lia.
  rewrite !Z.pow_add_r by lia. split.
  - apply Z.mul_le_mono_nonneg_r; lia.
  - apply Z.mul_lt_mono_pos_r; lia.
Qed.

(** What [binary_round] does before rounding: same value, enough digits. *)
Lemma normal_form : forall m e,
    let me := shl_align m e (fx (dg m + e)) in
    snd me <= e
    /\ Zpos (fst me) = Zpos m * 2 ^ (e - snd me)
    /\ dg (fst me) + snd me = dg m + e
    /\ precond (fst me) (snd me).
Proof.
  intros m e me.
  destruct (shl_align_spec m e (fx (dg m + e))) as [S1 S2]. fold me in S1, S2.
  assert (H1 : snd me <= e) by lia.
  rewrite <- S1 in S2.
  assert (H3 : dg (fst me) = dg m + (e - snd me))
    by (apply dg_scale; [lia|exact S2]).
  split; [exact H1|]. split; [exact S2|]. split; [lia|].
  unfold precond. replace (dg (fst me) + snd me) with (dg m + e) by lia. lia.
Qed.

Lemma binary_round_key : forall s m e,
    good (binary_round 53 1024 s m e)
    /\ is_nan (binary_round 53 1024 s m e) = false
    /\ key (binary_round 53 1024 s m e) = if s then - RKn m e else RKn m e.
Proof.
  intros s m e. unfold binary_round, RKn.
  fold (dg m). change (fexp 53 1024) with fx.
  pose proof (normal_form m e) as (_ & _ & _ & P). cbv zeta in P.
  destruct (shl_align m e (fx (dg m + e))) as [m' e']. cbn [fst snd] in *.
  exact (bra_key s m' e' P).
Qed.

Lemma RKn_bounds : forall m e, 0 <= RKn m e <= 2 ^ 2098.
Proof.
  intros m e. unfold RKn. apply RK_bounds.
  exact (proj2 (proj2 (proj2 (normal_form m e)))).
Qed.

Lemma vle_normal : forall m e,
    let me := shl_align m e (fx (dg m + e)) in
    forall e0, e0 <= snd me ->
      Zpos (fst me) * 2 ^ (snd me - e0) = Zpos m * 2 ^ (e - e0).
Proof.
  intros m e me e0 H0.
  destruct (normal_form m e) as (H1 & H2 & _). fold me in H1, H2.
  rewrite H2. rewrite <- Z.mul_assoc, <- Z.pow_add_r by lia.
  f_equal. f_equal. lia.
Qed.

Lemma RKn_mono : forall m1 e1 m2 e2,
    vle (Zpos m1) e1 (Zpos m2) e2 -> RKn m1 e1 <= RKn m2 e2.
Proof.
  intros m1 e1 m2 e2 H. unfold RKn.
  destruct (normal_form m1 e1) as (A1 & _ & _ & P1).
  destruct (normal_form m2 e2) as (A2 & _ & _ & P2).
  pose proof (vle_normal m1 e1) as V1. pose proof (vle_normal m2 e2) as V2.
  cbv zeta in *.
  set (me1 := shl_align m1 e1 (fx (dg m1 + e1))) in *.
  set (me2 := shl_align m2 e2 (fx (dg m2 + e2))) in *.
  apply RK_mono; [exact P1|exact P2|].
  set (e0 := Z.min (snd me1) (snd me2)).
  apply (vle_at _ _ _ _ e0); [unfold e0; lia|unfold e0; lia|].
  rewrite V1, V2 by (unfold e0; lia).
  apply (vle_at _ _ _ _ e0) in H; [exact H|unfold e0; lia|unfold e0; lia].
Qed.

Lemma RKn_good : forall s m e,
    good (S754_finite s m e) -> RKn m e = Zpos m * 2 ^ (e + 1074).
Proof.
  intros s m e G. destruct (RK_good s m e G) as [P E].
  assert (Hfx : fx (dg m + e) = e).
  { apply good_finite in G. rewrite fx_eq. lia. }
  unfold RKn. rewrite Hfx. unfold shl_align. rewrite Z.sub_diag. cbn [fst snd].
  exact E.
Qed.

Lemma binary_normalize_key : forall z e sz,
    good (binary_normalize 53 1024 z e sz)
    /\ is_nan (binary_normalize 53 1024 z e sz) = false
    /\ key (binary_normalize 53 1024 z e sz) = SR z e.
Proof.
  intros z e sz. unfold binary_normalize, SR. destruct z as [|m|m].
  - repeat split.
  - exact (binary_round_key false m e).
  - exact (binary_round_key true m e).
Qed.

Lemma SR_bounds : forall z e, - 2 ^ 2098 <= SR z e <= 2 ^ 2098.
Proof.
  intros z e. unfold SR.
  assert (0 < 2 ^ 2098) by (apply Z.pow_pos_nonneg; lia).
  destruct z as [|m|m]; [lia| |]; pose proof (RKn_bounds m e); lia.
Qed.

Lemma vle_sym_opp : forall a ea b eb, vle (- a) ea (- b) eb <-> vle b eb a ea.
Proof.
  intros a ea b eb. unfold vle. rewrite (Z.min_comm eb ea). lia.
Qed.

Lemma SR_mono : forall a ea b eb, vle a ea b eb -> SR a ea <= SR b eb.
Proof.
  intros a ea b eb H.
  assert (Pa : 0 < 2 ^ (ea - Z.min ea eb)) by (apply Z.pow_pos_nonneg; lia).
  assert (Pb : 0 < 2 ^ (eb - Z.min ea eb)) by (apply Z.pow_pos_nonneg; lia).
  destruct a as [|ma|ma], b as [|mb|mb]; cbn [SR];
    try (pose proof (RKn_bounds ma ea)); try (pose proof (RKn_bounds mb eb));
    try lia; try (exfalso; unfold vle in H; nia).
  - apply RKn_mono. exact H.
  - change (Zneg ma) with (- Zpos ma) in H. change (Zneg mb) with (- Zpos mb) in H.
    apply vle_sym_opp in H. apply RKn_mono in H. lia.
Qed.

Lemma SR_good : forall s m e,
    good (S754_finite s m e) ->
    SR (if s then Zneg m else Zpos m) e = key (S754_finite s m e).
Proof.
  intros s m e G. pose proof (RKn_good s m e G) as E.
  destruct s; cbn [SR key]; rewrite E; reflexivity.
Qed.

(** *** Sums, differences and quotients *)

Lemma SR_value : forall a ea b eb,
    vle a ea b eb -> vle b eb a ea -> SR a ea = SR b eb.
Proof.
  intros a ea b eb H1 H2. apply Z.le_antisymm; apply SR_mono; assumption.
Qed.

Lemma NR_mono : forall k1 k2, k1 <= k2 -> NR k1 <= NR k2.
Proof.
  intros k1 k2 H. unfold NR. apply SR_mono. unfold vle.
  rewrite Z.min_id, Z.sub_diag. change (2 ^ 0) with 1. lia.
Qed.

Lemma NR_0 : NR 0 = 0.
Proof. reflexivity. Qed.

Lemma NR_bounds : forall k, - 2 ^ 2098 <= NR k <= 2 ^ 2098.
Proof. intros k. apply SR_bounds. Qed.

Lemma SR_NR : forall z e, -1074 <= e -> SR z e = NR (z * 2 ^ (e + 1074)).
Proof.
  intros z e He. unfold NR.
  assert (E : z * 2 ^ (e - -1074) = z * 2 ^ (e + 1074) * 2 ^ (-1074 - -1074)).
  { replace (e - -1074) with (e + 1074) by lia.
    replace (-1074 - -1074) with 0 by lia. change (2 ^ 0) with 1. lia. }
  apply SR_value; apply (vle_at _ _ _ _ (-1074)); lia.
Qed.

Lemma NR_key : forall x,
    good x -> is_finite x = true -> NR (key x) = key x.
Proof.
  intros [s|s| |s m e] G F; try discriminate F; [reflexivity|].
  pose proof G as G'. apply good_finite in G'.
  pose proof (SR_good s m e G) as E. rewrite SR_NR in E by lia.
  rewrite <- E at 2. f_equal. destruct s; cbn [key]; lia.
Qed.

Lemma cond_Zopp_key : forall s m e ez,
    ez <= e -> -1074 <= ez ->
    cond_Zopp s (Zpos (fst (shl_align m e ez))) * 2 ^ (ez + 1074)
    = key (S754_finite s m e).
Proof.
  intros s m e ez H1 H2.
  destruct (shl_align_spec m e ez) as [_ S2]. rewrite S2.
  replace (Z.min e ez) with ez by lia.
  assert (E : Zpos m * 2 ^ (e - ez) * 2 ^ (ez + 1074) = Zpos m * 2 ^ (e + 1074)).
  { rewrite <- Z.mul_assoc, <- Z.pow_add_r by lia. f_equal. f_equal. lia. }
  destruct s; cbn [cond_Zopp key]; lia.
Qed.

Lemma add_key : forall x y,
    good x -> good y -> is_finite x = true -> is_finite y = true ->
    good (SFadd 53 1024 x y)
    /\ is_nan (SFadd 53 1024 x y) = false
    /\ key (SFadd 53 1024 x y) = NR (key x + key y).
Proof.
  intros x y Gx Gy Fx Fy.
  destruct x as [sx|sx| |sx mx ex], y as [sy|sy| |sy my ey];
    try discriminate Fx; try discriminate Fy.
  - cbn [SFadd key]. destruct sx, sy; repeat split.
  - cbn [SFadd]. split; [exact Gy|]. split; [reflexivity|].
    change (key (S754_zero sx)) with 0. rewrite Z.add_0_l.
    symmetry. apply NR_key; [exact Gy|reflexivity].
  - cbn [SFadd]. split; [exact Gx|]. split; [reflexivity|].
    change (key (S754_zero sy)) with 0. rewrite Z.add_0_r.
    symmetry. apply NR_key; [exact Gx|reflexivity].
  - cbn [SFadd]. cbv zeta.
    pose proof Gx as Gx'. pose proof Gy as Gy'.
    apply good_finite in Gx'. apply good_finite in Gy'.
    set (ez := Z.min ex ey).
    destruct (binary_normalize_key
                (cond_Zopp sx (Zpos (fst (shl_align mx ex ez)))
                 + cond_Zopp sy (Zpos (fst (shl_align my ey ez)))) ez false)
      as (G & N & K).
    split; [exact G|]. split; [exact N|]. rewrite K.
    rewrite SR_NR by (unfold ez; lia). f_equal.
    rewrite Z.mul_add_distr_r.
    rewrite !cond_Zopp_key by (unfold ez; lia). reflexivity.
Qed.

Lemma sub_key : forall x y,
    good x -> good y -> is_finite x = true -> is_finite y = true ->
    good (SFsub 53 1024 x y)
    /\ is_nan (SFsub 53 1024 x y) = false
    /\ key (SFsub 53 1024 x y) = NR (key x - key y).
Proof.
  intros x y Gx Gy Fx Fy.
  destruct x as [sx|sx| |sx mx ex], y as [sy|sy| |sy my ey];
    try discriminate Fx; try discriminate Fy.
  - cbn [SFsub key]. destruct sx, sy; repeat split.
  - cbn [SFsub]. split; [exact Gy|]. split; [reflexivity|].
    change (key (S754_zero sx)) with 0. rewrite Z.sub_0_l.
    assert (E : - key (S754_finite sy my ey) = key (S754_finite (negb sy) my ey))
      by (destruct sy; cbn [key negb]; lia).
    rewrite E. symmetry. apply NR_key; [exact Gy|reflexivity].
  - cbn [SFsub]. split; [exact Gx|]. split; [reflexivity|].
    change (key (S754_zero sy)) with 0. rewrite Z.sub_0_r.
    symmetry. apply NR_key; [exact Gx|reflexivity].
  - cbn [SFsub]. cbv zeta.
    pose proof Gx as Gx'. pose proof Gy as Gy'.
    apply good_finite in Gx'. apply good_finite in Gy'.
    set (ez := Z.min ex ey).
    destruct (binary_normalize_key
                (cond_Zopp sx (Zpos (fst (shl_align mx ex ez)))
                 - cond_Zopp sy (Zpos (fst (shl_align my ey ez)))) ez false)
      as (G & N & K).
    split; [exact G|]. split; [exact N|]. rewrite K.
    rewrite SR_NR by (unfold ez; lia). f_equal.
    rewrite Z.mul_sub_distr_r.
    rewrite !cond_Zopp_key by (unfold ez; lia). reflexivity.
Qed.

(** The sign of a valid float shows in its key. *)
Lemma key_pos_shape : forall x,
    good x -> 0 < key x ->
    x = S754_infinity false \/ exists m e, x = S754_finite false m e.
Proof.
  intros [s|s| |s m e] G K; cbn [key] in K; try lia.
  - destruct s; [|auto]. assert (0 < 2 ^ 2098) by (apply Z.pow_pos_nonneg; lia). lia.
  - pose proof (good_key_bounds _ _ _ G). destruct s; [lia|eauto].
Qed.

Lemma key_finite_lt : forall x,
    good x -> is_finite x = true -> - 2 ^ 2098 < key x < 2 ^ 2098.
Proof.
  intros [s|s| |s m e] G F; try discriminate F; cbn [key].
  - assert (0 < 2 ^ 2098) by (apply Z.pow_pos_nonneg; lia). lia.
  - pose proof (good_key_bounds _ _ _ G). destruct s; lia.
Qed.

Lemma key_lt_finite : forall x,
    good x -> is_nan x = false -> - 2 ^ 2098 < key x < 2 ^ 2098 ->
    is_finite x = true.
Proof.
  intros [s|s| |s m e] G N K; try discriminate N; try reflexivity.
  cbn [key] in K. destruct s; lia.
Qed.

Lemma bra_sign : forall s m e l s' m' e',
    binary_round_aux 53 1024 s m e l = S754_finite s' m' e' -> s' = s.
Proof.
  intros s m e l s' m' e'. unfold binary_round_aux.
  destruct (shr_fexp 53 1024 m e l) as [mrs1 e1].
  destruct (shr_fexp 53 1024 _ e1 loc_Exact) as [mrs2 e2].
  destruct (shr_m mrs2); try discriminate.
  destruct (e2 <=? 1024 - 53); [|discriminate]. intros [= <- _ _]. reflexivity.
Qed.

(** A finite quotient by a positive divisor has the sign of the dividend. *)
Lemma div_shape : forall x my ey,
    good x ->
    is_finite (SFdiv 53 1024 x (S754_finite false my ey)) = true ->
    is_finite x = true
    /\ (0 <= key x ->
        exists s, SFdiv 53 1024 x (S754_finite false my ey) = S754_zero s
        \/ exists m e, SFdiv 53 1024 x (S754_finite false my ey)
                       = S754_finite false m e).
Proof.
  intros [sx|sx| |sx mx ex] my ey G F; cbn [SFdiv] in *; try discriminate F.
  - split; [reflexivity|]. intros _. exists (xorb sx false). left. reflexivity.
  - split; [reflexivity|]. intros K.
    assert (Hs : sx = false).
    { destruct sx; [|reflexivity]. cbn [key] in K.
      pose proof (good_key_bounds _ _ _ G). lia. }
    subst sx. cbn [xorb] in *.
    destruct (SFdiv_core_binary 53 1024 (Zpos mx) ex (Zpos my) ey) as [[mz ez] lz].
    destruct (binary_round_aux 53 1024 false mz ez lz) as [s|s| |s m e] eqn:E;
      try discriminate F.
    + exists s. left. reflexivity.
    + apply bra_sign in E. subst s. exists false. right. eauto.
Qed.

(** *** [float(i)] *)

Lemma of_int_key : forall i f,
    PyFloat.of_int i = Ok f ->
    f = binary_normalize 53 1024 i 0 false
    /\ good f /\ is_finite f = true /\ key f = NR (i * 2 ^ 1074).
Proof.
  intros i f. unfold PyFloat.of_int.
  change (binary_normalize PyFloat.prec PyFloat.emax i 0 false)
    with (binary_normalize 53 1024 i 0 false).
  destruct (binary_normalize_key i 0 false) as (G & N & K).
  rewrite SR_NR in K by lia. change (0 + 1074) with 1074 in K.
  destruct (binary_normalize 53 1024 i 0 false) as [s|s| |s m e] eqn:E;
    try discriminate; intros [= <-]; auto.
Qed.

Lemma of_int_total : forall i j fj,
    0 <= i <= j -> PyFloat.of_int j = Ok fj ->
    exists fi, PyFloat.of_int i = Ok fi.
Proof.
  intros i j fj Hij Hj.
  destruct (of_int_key j fj Hj) as (_ & Gj & Fj & Kj).
  pose proof (key_finite_lt fj Gj Fj) as [_ Bj].
  unfold PyFloat.of_int.
  change (binary_normalize PyFloat.prec PyFloat.emax i 0 false)
    with (binary_normalize 53 1024 i 0 false).
  destruct (binary_normalize_key i 0 false) as (G & N & K).
  rewrite SR_NR in K by lia. change (0 + 1074) with 1074 in K.
  assert (H1 : NR (0 * 2 ^ 1074) <= NR (i * 2 ^ 1074)) by (apply NR_mono; lia).
  assert (H2 : NR (i * 2 ^ 1074) <= NR (j * 2 ^ 1074)) by (apply NR_mono; lia).
  rewrite Z.mul_0_l, NR_0 in H1.
  destruct (binary_normalize 53 1024 i 0 false) as [s|s| |s m e]; eauto.
  exfalso. cbn [key] in K. destruct s; lia.
Qed.

Lemma key_one : NR (1 * 2 ^ 1074) = 2 ^ 1074.
Proof.
  destruct (binary_normalize_key 1 0 false) as (_ & _ & K).
  transitivity (SR 1 0); [symmetry; exact (SR_NR 1 0 ltac:(lia))|].
  rewrite <- K. vm_compute. reflexivity.
Qed.

(** A positive integer converts to a normal float. *)
Lemma of_int_pos_shape : forall i f,
    1 <= i -> PyFloat.of_int i = Ok f ->
    exists m e, f = S754_finite false m e /\ good f /\ dg m = 53.
Proof.
  intros i f Hi Hf.
  destruct (of_int_key i f Hf) as (_ & G & F & K).
  assert (P : 0 < 2 ^ 1074) by (apply Z.pow_pos_nonneg; lia).
  assert (H1 : 2 ^ 1074 <= key f).
  { rewrite K. transitivity (NR (1 * 2 ^ 1074)); [rewrite key_one; lia|].
    apply NR_mono. apply Z.mul_le_mono_nonneg_r; lia. }
  assert (H0 : 0 < key f) by lia.
  destruct (key_pos_shape f G H0) as [->|(m & e & ->)]; [discriminate F|].
  exists m, e. split; [reflexivity|]. split; [exact G|].
  pose proof G as G'. apply good_finite in G'. destruct G' as (He & Hd & Hn).
  apply Hn. destruct (Z.eq_dec e (-1074)) as [->|]; [exfalso|lia].
  cbn [key] in H1. change (2 ^ (-1074 + 1074)) with 1 in H1.
  pose proof (dg_le_lt m 53 ltac:(lia) Hd).
  assert (2 ^ 53 <= 2 ^ 1074) by (apply Z.pow_le_mono_r; lia). lia.
Qed.

(** *** The product [float(i) * step] *)

Lemma mul_key : forall ma ea ms es,
    dg ma = 53 ->
    good (SFmul 53 1024 (S754_finite false ma ea) (S754_finite false ms es))
    /\ is_nan (SFmul 53 1024 (S754_finite false ma ea) (S754_finite false ms es))
       = false
    /\ key (SFmul 53 1024 (S754_finite false ma ea) (S754_finite false ms es))
       = RK (ma * ms) (ea + es)
    /\ precond (ma * ms) (ea + es).
Proof.
  intros ma ea ms es Hd. cbn [SFmul xorb].
  assert (P : precond (ma * ms) (ea + es)).
  { unfold precond. rewrite fx_eq.
    assert (53 <= dg (ma * ms)); [|lia].
    apply le_dg_ge. change (2 ^ (53 - 1)) with (2 ^ 52).
    pose proof (dg_bounds ma) as [L _]. rewrite Hd in L.
    change (2 ^ (53 - 1)) with (2 ^ 52) in L.
    rewrite Pos2Z.inj_mul. nia. }
  destruct (bra_key false (ma * ms) (ea + es) P) as (G & N & K).
  auto.
Qed.

Lemma key_vle : forall ma ea mb eb,
    -1074 <= ea -> -1074 <= eb ->
    Zpos ma * 2 ^ (ea + 1074) <= Zpos mb * 2 ^ (eb + 1074) ->
    vle (Zpos ma) ea (Zpos mb) eb.
Proof.
  intros ma ea mb eb Ha Hb H.
  apply (vle_at _ _ _ _ (-1074)); [lia|lia|].
  replace (ea - -1074) with (ea + 1074) by lia.
  replace (eb - -1074) with (eb + 1074) by lia. exact H.
Qed.

Lemma vle_mul : forall ma ea mb eb ms es,
    vle (Zpos ma) ea (Zpos mb) eb ->
    vle (Zpos (ma * ms)) (ea + es) (Zpos (mb * ms)) (eb + es).
Proof.
  intros ma ea mb eb ms es H. unfold vle in *.
  replace (Z.min (ea + es) (eb + es)) with (Z.min ea eb + es) by lia.
  replace (ea + es - (Z.min ea eb + es)) with (ea - Z.min ea eb) by lia.
  replace (eb + es - (Z.min ea eb + es)) with (eb - Z.min ea eb) by lia.
  rewrite !Pos2Z.inj_mul. nia.
Qed.

(** The products of the axis: for a finite, non-negative step they are
    valid, not NaN, non-negative and do not decrease with [i]. *)
Lemma products_mono : forall step i j fi fj,
    is_finite step = true ->
    (exists s, step = S754_zero s) \/ (exists m e, step = S754_finite false m e) ->
    0 <= i <= j ->
    PyFloat.of_int i = Ok fi -> PyFloat.of_int j = Ok fj ->
    let ti := PyFloat.mul fi step in
    let tj := PyFloat.mul fj step in
    good ti /\ good tj /\ is_nan ti = false /\ is_nan tj = false
    /\ 0 <= key ti <= key tj.
Proof.
  intros step i j fi fj Fs Hstep Hij Hi Hj ti tj.
  unfold PyFloat.mul in ti, tj.
  change (SFmul PyFloat.prec PyFloat.emax) with (SFmul 53 1024) in ti, tj.
  destruct Hstep as [(s & ->)|(ms & es & ->)].
  - (* a zero step: every product is a zero *)
    destruct (of_int_key i fi Hi) as (_ & _ & Fi & _).
    destruct (of_int_key j fj Hj) as (_ & _ & Fj & _).
    subst ti tj.
    destruct fi as [si|si| |si mi ei], fj as [sj|sj| |sj mj ej];
      try discriminate Fi; try discriminate Fj; cbn [SFmul key];
      repeat split; lia.
  - destruct (Z.eq_dec i 0) as [->|Hi0].
    + (* the first product is zero *)
      cbn in Hi. injection Hi as <-.
      assert (Ezero : ti = S754_zero false) by reflexivity.
      destruct (Z.eq_dec j 0) as [->|Hj0].
      * cbn in Hj. injection Hj as <-.
        assert (Ezero' : tj = S754_zero false) by reflexivity.
        rewrite Ezero, Ezero'. repeat split; cbn [key]; lia.
      * destruct (of_int_pos_shape j fj ltac:(lia) Hj) as (mj & ej & -> & Gj & Dj).
        destruct (mul_key mj ej ms es Dj) as (G & N & K & P).
        fold tj in G, N, K. rewrite Ezero.
        pose proof (RK_bounds _ _ P).
        repeat split; auto; cbn [key]; lia.
    + destruct (of_int_pos_shape i fi ltac:(lia) Hi) as (mi & ei & -> & Gi & Di).
      destruct (of_int_pos_shape j fj ltac:(lia) Hj) as (mj & ej & -> & Gj & Dj).
      destruct (mul_key mi ei ms es Di) as (G1 & N1 & K1 & P1).
      destruct (mul_key mj ej ms es Dj) as (G2 & N2 & K2 & P2).
      fold ti in G1, N1, K1. fold tj in G2, N2, K2.
      destruct (of_int_key i _ Hi) as (_ & _ & _ & Ki).
      destruct (of_int_key j _ Hj) as (_ & _ & _ & Kj).
      assert (Hk : key (S754_finite false mi ei) <= key (S754_finite false mj ej)).
      { rewrite Ki, Kj. apply NR_mono.
        assert (0 < 2 ^ 1074) by (apply Z.pow_pos_nonneg; lia). nia. }
      cbn [key] in Hk.
      pose proof Gi as Gi'. pose proof Gj as Gj'.
      apply good_finite in Gi'. apply good_finite in Gj'.
      pose proof (key_vle mi ei mj ej ltac:(lia) ltac:(lia) Hk) as V.
      pose proof (RK_mono _ _ _ _ P1 P2 (vle_mul _ _ _ _ ms es V)) as M.
      pose proof (RK_bounds _ _ P1).
      repeat split; auto; lia.
Qed.

(** *** What is read back is a valid float *)

Lemma of_string_good : forall s f, PyFloat.of_string s = Ok f -> good f.
Proof.
  intros s f. unfold PyFloat.of_string.
  destruct (PyFloat.take_sign _) as [neg u].
  destruct (_ || _)%bool; [intros [= <-]; reflexivity|].
  destruct (String.eqb _ "nan"); [intros [= <-]; reflexivity|].
  destruct (PyFloat.parse_decimal u) as [[M E]|]; [|discriminate].
  intros [= <-]. unfold PyFloat.of_decimal.
  change PyFloat.prec with 53. change PyFloat.emax with 1024.
  destruct (0 <=? E); apply binary_normalize_key.
Qed.

Section ReadBack.
Context {Dev : Type} `{Instrument Dev}.

Lemma get_start_stop_good : forall (w w1 : session Dev) f_start f_stop,
    SpectrumAnalyzer.get_start_stop w = (Ok (f_start, f_stop), w1) ->
    good f_start /\ good f_stop.
Proof.
  intros w w1 f_start f_stop. unfold SpectrumAnalyzer.get_start_stop, bind, lift, ret.
  destruct (SpectrumAnalyzer._try_query_any _ w) as [[s1|e1] wa]; [|discriminate].
  destruct (PyFloat.of_string s1) as [a|e2] eqn:Ea; [|discriminate].
  destruct (SpectrumAnalyzer._try_query_any _ wa) as [[s2|e3] wb]; [|discriminate].
  destruct (PyFloat.of_string s2) as [b|e4] eqn:Eb; [|discriminate].
  intros [= <- <- _]. split; eapply of_string_good; eassumption.
Qed.

End ReadBack.

(** *** The divisor [points - 1] *)

Lemma to_int_bound : forall pf points,
    good pf -> PyFloat.to_int pf = Ok points -> 2 <= points ->
    is_finite pf = true /\ 0 <= (points - 1) * 2 ^ 1074 <= key pf.
Proof.
  intros [s|s| |s m e] points G Hp H2; try discriminate Hp.
  - injection Hp as <-. lia.
  - pose proof G as G'. apply good_finite in G'. destruct G' as (He & _).
    assert (P : 0 < 2 ^ 1074) by (apply Z.pow_pos_nonneg; lia).
    split; [reflexivity|]. split; [nia|].
    set (v := if 0 <=? e then Zpos m * 2 ^ e else Zpos m / 2 ^ (- e)).
    assert (Hv : (if s then - v else v) = points).
    { change (Ok (if s then - v else v) = Ok points) in Hp. congruence. }
    assert (V0 : 0 <= v /\ v * 2 ^ 1074 <= Zpos m * 2 ^ (e + 1074)).
    { unfold v. destruct (Z.leb_spec 0 e) as [E|E].
      - assert (0 < 2 ^ e) by (apply Z.pow_pos_nonneg; lia).
        rewrite (pow_split e 1074) by lia. nia.
      - assert (Q : 0 < 2 ^ (- e)) by (apply Z.pow_pos_nonneg; lia).
        assert (R : 0 < 2 ^ (e + 1074)) by (apply Z.pow_pos_nonneg; lia).
        assert (E1 : 2 ^ 1074 = 2 ^ (- e) * 2 ^ (e + 1074)).
        { rewrite <- pow_split by lia. f_equal. lia. }
        rewrite E1.
        pose proof (Z.mul_div_le (Zpos m) (2 ^ (- e)) Q) as D.
        assert (0 <= Zpos m / 2 ^ (- e)) by (apply Z.div_pos; lia).
        nia. }
    clearbody v. destruct s; [lia|]. cbn [key]. nia.
Qed.

Lemma of_int_below_float : forall pf k,
    good pf -> is_finite pf = true -> k * 2 ^ 1074 <= key pf -> 0 <= k ->
    exists d, PyFloat.of_int k = Ok d.
Proof.
  intros pf k G F Hk H0.
  unfold PyFloat.of_int.
  change (binary_normalize PyFloat.prec PyFloat.emax k 0 false)
    with (binary_normalize 53 1024 k 0 false).
  destruct (binary_normalize_key k 0 false) as (Gd & Nd & Kd).
  rewrite SR_NR in Kd by lia. change (0 + 1074) with 1074 in Kd.
  pose proof (NR_mono _ _ Hk) as M. rewrite (NR_key pf G F) in M.
  pose proof (key_finite_lt pf G F) as [_ B].
  assert (P : 0 < 2 ^ 2098) by (apply Z.pow_pos_nonneg; lia).
  destruct (binary_normalize 53 1024 k 0 false) as [s|s| |s m e]; eauto.
  exfalso. cbn [key] in Kd.
  assert (Z0 : NR (0 * 2 ^ 1074) <= NR (k * 2 ^ 1074)).
  { apply NR_mono. apply Z.mul_le_mono_nonneg_r; [apply Z.pow_nonneg|]; lia. }
  rewrite Z.mul_0_l, NR_0 in Z0. destruct s; lia.
Qed.

(** *** The step is not negative *)

Lemma step_sign : forall f_start f_stop md ed,
    good f_start -> good f_stop ->
    PyFloat.ltb f_start f_stop = true ->
    is_finite (SFdiv 53 1024 (PyFloat.sub f_stop f_start)
                 (S754_finite false md ed)) = true ->
    is_finite f_start = true
    /\ ((exists s, SFdiv 53 1024 (PyFloat.sub f_stop f_start)
                     (S754_finite false md ed) = S754_zero s)
        \/ (exists m e, SFdiv 53 1024 (PyFloat.sub f_stop f_start)
                          (S754_finite false md ed) = S754_finite false m e)).
Proof.
  intros f_start f_stop md ed Ga Gb Hlt Hfin.
  assert (Na : is_nan f_start = false).
  { destruct f_start; try reflexivity. discriminate Hlt. }
  assert (Nb : is_nan f_stop = false).
  { destruct f_stop; try reflexivity. destruct f_start; discriminate Hlt. }
  unfold PyFloat.sub in *.
  change (SFsub PyFloat.prec PyFloat.emax) with (SFsub 53 1024) in *.
  destruct (is_finite f_start) eqn:Fa, (is_finite f_stop) eqn:Fb.
  - destruct (sub_key f_stop f_start Gb Ga Fb Fa) as (GS & NS & KS).
    unfold PyFloat.ltb in Hlt. rewrite (ltb_key _ _ Ga Gb Na Nb) in Hlt.
    apply Z.ltb_lt in Hlt.
    assert (K0 : 0 <= key (SFsub 53 1024 f_stop f_start)).
    { rewrite KS, <- NR_0. apply NR_mono. lia. }
    destruct (div_shape _ md ed GS Hfin) as (_ & Hs).
    destruct (Hs K0) as (s & [E|E]); split; auto. left. eauto.
  - exfalso.
    destruct f_start as [sa|sa| |sa ma ea], f_stop as [sb|sb| |sb mb eb];
      try discriminate Fa; try discriminate Fb; try discriminate Nb;
      cbn in Hfin; discriminate Hfin.
  - exfalso.
    destruct f_start as [sa|sa| |sa ma ea], f_stop as [sb|sb| |sb mb eb];
      try discriminate Fa; try discriminate Fb; try discriminate Na;
      cbn in Hfin; discriminate Hfin.
  - exfalso.
    destruct f_start as [sa|sa| |sa ma ea], f_stop as [sb|sb| |sb mb eb];
      try discriminate Fa; try discriminate Fb; try discriminate Na;
      try discriminate Nb.
    destruct sa, sb; try discriminate Hlt; cbn in Hfin; discriminate Hfin.
Qed.

(** *** The sums [start + t] *)

Lemma nonneg_shape : forall t,
    good t -> is_nan t = false -> 0 <= key t ->
    is_finite t = true \/ t = S754_infinity false.
Proof.
  intros [s|s| |s m e] G N K; try discriminate N;
    [left; reflexivity| |left; reflexivity].
  destruct s; [exfalso|right; reflexivity]. cbn [key] in K.
  assert (0 < 2 ^ 2098) by (apply Z.pow_pos_nonneg; lia). lia.
Qed.

Lemma sum_key : forall a t,
    good a -> is_finite a = true ->
    good t -> is_nan t = false -> 0 <= key t ->
    good (PyFloat.add a t) /\ is_nan (PyFloat.add a t) = false
    /\ ((is_finite t = true /\ key (PyFloat.add a t) = NR (key a + key t))
        \/ (t = S754_infinity false /\ key (PyFloat.add a t) = 2 ^ 2098)).
Proof.
  intros a t Ga Fa Gt Nt Kt. unfold PyFloat.add.
  change (SFadd PyFloat.prec PyFloat.emax) with (SFadd 53 1024).
  destruct (nonneg_shape t Gt Nt Kt) as [Ft| ->].
  - destruct (add_key a t Ga Gt Fa Ft) as (G & N & K). auto.
  - destruct a as [sa|sa| |sa ma ea]; try discriminate Fa;
      cbn [SFadd]; repeat split; right; split; reflexivity.
Qed.

Lemma sums_mono : forall a ti tj,
    good a -> is_finite a = true ->
    good ti -> good tj -> is_nan ti = false -> is_nan tj = false ->
    0 <= key ti <= key tj ->
    PyFloat.leb (PyFloat.add a ti) (PyFloat.add a tj) = true.
Proof.
  intros a ti tj Ga Fa Gi Gj Ni Nj Hk.
  destruct (sum_key a ti Ga Fa Gi Ni ltac:(lia)) as (G1 & N1 & C1).
  destruct (sum_key a tj Ga Fa Gj Nj ltac:(lia)) as (G2 & N2 & C2).
  unfold PyFloat.leb. rewrite (leb_key _ _ G1 G2 N1 N2). apply Z.leb_le.
  destruct C2 as [(F2 & K2)|(E2 & K2)].
  - destruct C1 as [(F1 & K1)|(E1 & K1)].
    + rewrite K1, K2. apply NR_mono. lia.
    + exfalso. subst ti. cbn [key] in Hk.
      pose proof (key_finite_lt tj Gj F2). lia.
  - rewrite K2. destruct C1 as [(F1 & K1)|(E1 & K1)].
    + rewrite K1. apply NR_bounds.
    + rewrite K1. lia.
Qed.

(** *** The order of the axis *)

Lemma axis_entries_total : forall f_start step idxs,
    (forall i, In i idxs -> exists fi, PyFloat.of_int i = Ok fi) ->
    exists axis,
      SpectrumAnalyzer.axis_entries f_start step idxs = Ok axis
      /\ List.length axis = List.length idxs
      /\ forall k i, nth_error idxs k = Some i ->
           exists fi, PyFloat.of_int i = Ok fi
                      /\ nth_error axis k
                         = Some (PyFloat.add f_start (PyFloat.mul fi step)).
Proof.
  intros f_start step.
  induction idxs as [|i0 idxs IH]; intros Hconv.
  - exists []. repeat split. intros [|k] i Hk; discriminate.
  - destruct IH as (axis & Hax & Hlen & Hnth).
    { intros i Hi. apply Hconv. right. exact Hi. }
    destruct (Hconv i0 (or_introl eq_refl)) as (f0 & Hf0).
    exists (PyFloat.add f_start (PyFloat.mul f0 step) :: axis).
    cbn [SpectrumAnalyzer.axis_entries]. rewrite Hf0, Hax.
    split; [reflexivity|]. split; [simpl; congruence|].
    intros [|k] i Hk; simpl in Hk.
    + injection Hk as <-. exists f0. split; [exact Hf0|reflexivity].
    + exact (Hnth k i Hk).
Qed.

(** *** Exact arithmetic *)

Lemma points_minus_one_nonzero : forall points,
    2 <= points -> ~ (inject_Z (points - 1) == 0)%Q.
Proof. intros points Hp E. unfold Qeq in E. simpl in E. lia. Qed.

Lemma exact_entry_formula : forall start stop points i,
    2 <= points ->
    (exact_entry start stop points i
     == start + inject_Z i * (stop - start) / inject_Z (points - 1))%Q.
Proof.
  intros start stop points i Hp. unfold exact_entry.
  field. exact (points_minus_one_nonzero points Hp).
Qed.

Lemma exact_entry_first : forall start stop points,
    2 <= points -> (exact_entry start stop points 0 == start)%Q.
Proof.
  intros start stop points Hp. unfold exact_entry.
  field. exact (points_minus_one_nonzero points Hp).
Qed.

Lemma exact_entry_last : forall start stop points,
    2 <= points -> (exact_entry start stop points (points - 1) == stop)%Q.
Proof.
  intros start stop points Hp. unfold exact_entry.
  field. exact (points_minus_one_nonzero points Hp).
Qed.

Lemma exact_entry_increasing : forall start stop points i j,
    (start < stop)%Q -> 2 <= points -> i < j ->
    (exact_entry start stop points i < exact_entry start stop points j)%Q.
Proof.
  intros start stop points i j Hlt Hp Hij. unfold exact_entry.
  assert (Hpos : (0 < (stop - start) / inject_Z (points - 1))%Q).
  { apply Qlt_shift_div_l.
    - change 0%Q with (inject_Z 0). rewrite <- Zlt_Qlt. lia.
    - rewrite Qmult_0_l. unfold Qminus. rewrite <- (Qplus_opp_r start).
      apply Qplus_lt_l. exact Hlt. }
  apply Qplus_lt_r. apply Qmult_lt_compat_r; [exact Hpos|].
  rewrite <- Zlt_Qlt. exact Hij.
Qed.

(** C1, as the code has it.  Once start, stop and the point count have
    been read back, [get_frequency_axis] returns [linear_axis] of them.
    For values read back with [stop > start] and [points >= 2] the call
    returns a list of exactly [points] entries; entry [i] is the
    double-precision value of [start + i * step], with [step] the
    double-precision quotient [(stop - start) / (points - 1)]; and
    whenever [step] is finite the first entry equals start and the
    entries are in non-decreasing order.  The order need not be strict
    and the last entry need not be stop. *)
Theorem frequency_axis_entries :
  forall (Dev : Type) (I : Instrument Dev)
         (w w1 w2 : session Dev) (f_start f_stop pf : PyFloat.float)
         (ps : string) (points : Z),
    SpectrumAnalyzer.get_start_stop w = (Ok (f_start, f_stop), w1) ->
    SpectrumAnalyzer._try_query_any ["SWE:POIN?"; "SENS:SWE:POIN?"] w1
    = (Ok ps, w2) ->
    PyFloat.of_string ps = Ok pf ->
    PyFloat.to_int pf = Ok points ->
    SpectrumAnalyzer.get_frequency_axis w
    = (SpectrumAnalyzer.linear_axis f_start f_stop points, w2)
    /\ (PyFloat.ltb f_start f_stop = true ->
        2 <= points ->
        exists d axis,
          PyFloat.of_int (points - 1) = Ok d
          /\ SpectrumAnalyzer.get_frequency_axis w = (Ok axis, w2)
          /\ List.length axis = Z.to_nat points
          /\ let step := SFdiv PyFloat.prec PyFloat.emax
                           (PyFloat.sub f_stop f_start) d in
             (forall i, 0 <= i < points ->
                exists fi, PyFloat.of_int i = Ok fi
                           /\ nth_error axis (Z.to_nat i)
                              = Some (PyFloat.add f_start (PyFloat.mul fi step)))
             /\ (is_finite step = true ->
                 (exists a0, nth_error axis 0 = Some a0
                             /\ PyFloat.eqb a0 f_start = true)
                 /\ (forall (i j : nat) a b,
                        (i <= j)%nat ->
                        nth_error axis i = Some a ->
                        nth_error axis j = Some b ->
                        PyFloat.leb a b = true))).
Proof.
  intros Dev I w w1 w2 f_start f_stop pf ps points Hss Hq Hpf Hpts.
  assert (Hlin : SpectrumAnalyzer.get_frequency_axis w
                 = (SpectrumAnalyzer.linear_axis f_start f_stop points, w2)).
  { unfold SpectrumAnalyzer.get_frequency_axis, bind, lift.
    rewrite Hss, Hq, Hpf, Hpts. reflexivity. }
  split; [exact Hlin|]. intros Hlt Hp.
  destruct (get_start_stop_good w w1 f_start f_stop Hss) as (Ga & Gb).
  pose proof (of_string_good ps pf Hpf) as Gpf.
  destruct (to_int_bound pf points Gpf Hpts Hp) as (Fpf & _ & Hbound).
  destruct (of_int_below_float pf (points - 1) Gpf Fpf Hbound ltac:(lia))
    as (d & Hd).
  destruct (of_int_pos_shape (points - 1) d ltac:(lia) Hd)
    as (md & ed & -> & Gd & Dd).
  set (step := SFdiv PyFloat.prec PyFloat.emax (PyFloat.sub f_stop f_start)
                 (S754_finite false md ed)).
  destruct (axis_entries_total f_start step (range points))
    as (axis & Hax & Hlen & Hnth).
  { intros i Hi. apply range_in in Hi.
    apply (of_int_total i (points - 1) (S754_finite false md ed)); [lia|exact Hd]. }
  exists (S754_finite false md ed), axis.
  split; [exact Hd|]. split.
  { rewrite Hlin. unfold SpectrumAnalyzer.linear_axis.
    destruct (Z.ltb_spec points 2) as [|_]; [lia|].
    rewrite Hd. cbn [PyFloat.truediv PyFloat.is_zero]. fold step.
    rewrite Hax. reflexivity. }
  split; [rewrite Hlen; apply range_length|].
  fold step. cbv zeta.
  assert (Hentry : forall i, 0 <= i < points ->
             exists fi, PyFloat.of_int i = Ok fi
                        /\ nth_error axis (Z.to_nat i)
                           = Some (PyFloat.add f_start (PyFloat.mul fi step))).
  { intros i Hi. exact (Hnth (Z.to_nat i) i (range_nth points i Hi)). }
  split; [exact Hentry|].
  intros Hfin.
  split.
  { destruct (Hentry 0 ltac:(lia)) as (f0 & Hf0 & Hn0).
    injection Hf0 as <-.
    eexists. split; [exact Hn0|].
    exact (add_zero_times_step f_start f_stop step Hlt Hfin). }
  destruct (step_sign f_start f_stop md ed Ga Gb Hlt Hfin) as (Fa & Hshape).
  fold step in Hshape.
  intros i j a b Hij Ha Hb.
  assert (Hlen' : List.length axis = Z.to_nat points)
    by (rewrite Hlen; apply range_length).
  assert (Hj : (j < Z.to_nat points)%nat).
  { rewrite <- Hlen'. apply nth_error_Some. rewrite Hb. discriminate. }
  destruct (Hentry (Z.of_nat i) ltac:(lia)) as (fi & Hfi & Hni).
  destruct (Hentry (Z.of_nat j) ltac:(lia)) as (fj & Hfj & Hnj).
  rewrite Nat2Z.id in Hni, Hnj.
  rewrite Ha in Hni. rewrite Hb in Hnj.
  injection Hni as ->. injection Hnj as ->.
  destruct (products_mono step (Z.of_nat i) (Z.of_nat j) fi fj Hfin Hshape
              ltac:(lia) Hfi Hfj) as (G1 & G2 & N1 & N2 & K).
  exact (sums_mono f_start _ _ Ga Fa G1 G2 N1 N2 K).
Qed.

Lemma frequency_axis_entries_witness :
  let w := fresh [Ok "1e9"; Ok "2e9"; Ok "5"] in
  let w1 := mkSession [Ok "5"] true true
              [EvQuery "FREQ:STAR?"; EvQuery "FREQ:STOP?"] [] in
  let w2 := mkSession [] true true
              [EvQuery "FREQ:STAR?"; EvQuery "FREQ:STOP?"; EvQuery "SWE:POIN?"] [] in
  SpectrumAnalyzer.get_start_stop w = (Ok (lit "1e9", lit "2e9"), w1)
  /\ SpectrumAnalyzer._try_query_any ["SWE:POIN?"; "SENS:SWE:POIN?"] w1
     = (Ok "5", w2)
  /\ PyFloat.of_string "5" = Ok (lit "5")
  /\ PyFloat.to_int (lit "5") = Ok 5
  /\ PyFloat.ltb (lit "1e9") (lit "2e9") = true
  /\ 2 <= 5
  /\ SpectrumAnalyzer.get_frequency_axis w
     = (SpectrumAnalyzer.linear_axis (lit "1e9") (lit "2e9") 5, w2)
  /\ exists axis,
       SpectrumAnalyzer.get_frequency_axis w = (Ok axis, w2)
       /\ List.length axis = 5%nat
       /\ (exists a0, nth_error axis 0 = Some a0
                      /\ PyFloat.eqb a0 (lit "1e9") = true)
       /\ (forall (i j : nat) a b,
              (i <= j)%nat ->
              nth_error axis i = Some a -> nth_error axis j = Some b ->
              PyFloat.leb a b = true).
Proof.
  intros w w1 w2.
  assert (Hss : SpectrumAnalyzer.get_start_stop w
                = (Ok (lit "1e9", lit "2e9"), w1)) by (vm_compute; reflexivity).
  assert (Hq : SpectrumAnalyzer._try_query_any ["SWE:POIN?"; "SENS:SWE:POIN?"] w1
               = (Ok "5", w2)) by reflexivity.
  assert (Hpf : PyFloat.of_string "5" = Ok (lit "5")) by (vm_compute; reflexivity).
  assert (Hpts : PyFloat.to_int (lit "5") = Ok 5) by (vm_compute; reflexivity).
  assert (Hlt : PyFloat.ltb (lit "1e9") (lit "2e9") = true) by reflexivity.
  assert (Hp : 2 <= 5) by lia.
  repeat (split; [assumption|]).
  destruct (frequency_axis_entries script scripted
              w w1 w2 (lit "1e9") (lit "2e9") (lit "5") "5" 5 Hss Hq Hpf Hpts)
    as (Hlin & Haxis).
  split; [exact Hlin|].
  destruct (Haxis Hlt Hp) as (d & axis & Hd & Hax & Hlen & _ & Hfin).
  assert (Ed : d = lit "4").
  { assert (E4 : PyFloat.of_int (5 - 1) = Ok (lit "4")) by (vm_compute; reflexivity).
    rewrite E4 in Hd. injection Hd as <-. reflexivity. }
  subst d.
  exists axis. split; [exact Hax|]. split; [exact Hlen|].
  apply Hfin. vm_compute. reflexivity.
Defined.

(** C1 as stated fails in double precision.  With start 2 MHz, stop
    2.128 GHz and 500 points the last entry is 2128000000.0000002, not
    the stop frequency.  With start 1e16, stop 1e16 + 2 and 3 points
    the first two entries coincide.  With start -1e308, stop 1e308 and
    2 points the span overflows and the first entry is NaN. *)
Lemma frequency_axis_rounding :
  (PyFloat.ltb (lit "2000000") (lit "2128000000") = true
   /\ exists axis,
        fst (SpectrumAnalyzer.get_frequency_axis
               (fresh [Ok "2000000"; Ok "2128000000"; Ok "500"]))
        = Ok axis
        /\ List.length axis = 500%nat
        /\ last axis S754_nan = lit "2128000000.0000002"
        /\ PyFloat.eqb (last axis S754_nan) (lit "2128000000") = false)
  /\
  (PyFloat.ltb (lit "1e16") (lit "10000000000000002") = true
   /\ SpectrumAnalyzer.linear_axis (lit "1e16") (lit "10000000000000002") 3
      = Ok [lit "1e16"; lit "1e16"; lit "10000000000000002"]
   /\ PyFloat.ltb (lit "1e16") (lit "1e16") = false)
  /\
  (PyFloat.ltb (lit "-1e308") (lit "1e308") = true
   /\ SpectrumAnalyzer.linear_axis (lit "-1e308") (lit "1e308") 2
      = Ok [S754_nan; S754_infinity false]
   /\ PyFloat.eqb S754_nan (lit "-1e308") = false).
Proof.
  split; [|split].
  - split; [vm_compute; reflexivity|].
    eexists. split; [vm_compute; reflexivity|].
    repeat split; vm_compute; reflexivity.
  - repeat split; vm_compute; reflexivity.
  - repeat split; vm_compute; reflexivity.
Qed.

(** Typical settings come out exact: 1 GHz to 2 GHz in 5 points. *)
Example frequency_axis_five_points :
  SpectrumAnalyzer.get_frequency_axis (fresh [Ok "1e9"; Ok "2e9"; Ok "5"])
  = (Ok [lit "1e9"; lit "1.25e9"; lit "1.5e9"; lit "1.75e9"; lit "2e9"],
     mkSession [] true true
       [EvQuery "FREQ:STAR?"; EvQuery "FREQ:STOP?"; EvQuery "SWE:POIN?"] []).
Proof. vm_compute. reflexivity. Qed.

(** A single-point sweep gives the start frequency alone. *)
Example frequency_axis_single_point :
  SpectrumAnalyzer.linear_axis (lit "1e9") (lit "2e9") 1 = Ok [lit "1e9"].
Proof. vm_compute. reflexivity. Qed.

(** Where no operation rounds, the computed axis is the exact one. *)
Example frequency_axis_exact_when_nothing_rounds :
  match SpectrumAnalyzer.linear_axis (lit "1e9") (lit "2e9") 5 with
  | Ok axis =>
      forallb (fun p => Qeq_bool (fst p) (snd p))
        (combine (map to_Q axis)
           (exact_axis (to_Q (lit "1e9")) (to_Q (lit "2e9")) 5))
  | Raise _ => false
  end = true.
Proof. vm_compute. reflexivity. Qed.

(** In the rounding example the exact last entry is the stop frequency,
    the computed one lies just above it. *)
Example frequency_axis_exact_last_entry :
  let start := to_Q (lit "2000000") in
  let stop := to_Q (lit "2128000000") in
  Qeq_bool (exact_entry start stop 500 499) stop = true
  /\ Qeq_bool (to_Q (lit "2128000000.0000002")) stop = false.
Proof. split; vm_compute; reflexivity. Qed.

(* ================================================================== *)
(** ** Further properties of the drivers *)
(* ================================================================== *)

(** *** Which calls a method can make *)

Section CallKinds.
Context {Dev : Type} `{Instrument Dev}.

Lemma queries_only_raise : forall (A : Type) (e : exn),
    queries_only (raise (Dev := Dev) (A := A) e).
Proof.
  intros A e w r w' [= <- <-]. exists []. rewrite app_nil_r. reflexivity.
Qed.

Lemma queries_only_print : forall line, queries_only (print (Dev := Dev) line).
Proof.
  intros line w r w' [= <- <-]. exists []. simpl. rewrite app_nil_r. reflexivity.
Qed.

Lemma queries_only_try_except :
  forall (A : Type) (m : M Dev A) (h : exn -> M Dev A),
    queries_only m -> (forall e, queries_only (h e)) ->
    queries_only (try_except m h).
Proof.
  intros A m h Hm Hh w r w'. unfold try_except.
  destruct (m w) as [[a|e] w1] eqn:E; destruct (Hm _ _ _ E) as (q1 & H1).
  - intros [= <- <-]. eauto.
  - intros Eh. destruct (Hh e _ _ _ Eh) as (q2 & H2).
    exists (q1 ++ q2)%list. rewrite H2, H1, map_app, app_assoc. reflexivity.
Qed.

Lemma queries_only_res_query : forall cmd, queries_only (res_query (Dev := Dev) cmd).
Proof.
  intros cmd w r w' E. exists [cmd]. exact (res_query_calls _ _ _ _ E).
Qed.

Lemma queries_only_query : forall cmd,
    queries_only (SpectrumAnalyzer.query (Dev := Dev) cmd).
Proof.
  intros cmd w r w' E. exists [cmd]. exact (sa_query_calls _ _ _ _ E).
Qed.

Lemma writes_only_ret : forall (A : Type) (a : A), writes_only (ret (Dev := Dev) a).
Proof.
  intros A a w r w' [= <- <-]. exists []. rewrite app_nil_r. reflexivity.
Qed.

Lemma writes_only_raise : forall (A : Type) (e : exn),
    writes_only (raise (Dev := Dev) (A := A) e).
Proof.
  intros A e w r w' [= <- <-]. exists []. rewrite app_nil_r. reflexivity.
Qed.

Lemma writes_only_print : forall line, writes_only (print (Dev := Dev) line).
Proof.
  intros line w r w' [= <- <-]. exists []. simpl. rewrite app_nil_r. reflexivity.
Qed.

Lemma writes_only_bind :
  forall (A B : Type) (m : M Dev A) (k : A -> M Dev B),
    writes_only m -> (forall a, writes_only (k a)) -> writes_only (bind m k).
Proof.
  intros A B m k Hm Hk w r w'. unfold bind.
  destruct (m w) as [[a|e] w1] eqn:E; destruct (Hm _ _ _ E) as (q1 & H1).
  - intros Ek. destruct (Hk a _ _ _ Ek) as (q2 & H2).
    exists (q1 ++ q2)%list. rewrite H2, H1, map_app, app_assoc. reflexivity.
  - intros [= <- <-]. eauto.
Qed.

Lemma writes_only_try_except :
  forall (A : Type) (m : M Dev A) (h : exn -> M Dev A),
    writes_only m -> (forall e, writes_only (h e)) ->
    writes_only (try_except m h).
Proof.
  intros A m h Hm Hh w r w'. unfold try_except.
  destruct (m w) as [[a|e] w1] eqn:E; destruct (Hm _ _ _ E) as (q1 & H1).
  - intros [= <- <-]. eauto.
  - intros Eh. destruct (Hh e _ _ _ Eh) as (q2 & H2).
    exists (q1 ++ q2)%list. rewrite H2, H1, map_app, app_assoc. reflexivity.
Qed.

Lemma writes_only_res_write : forall cmd, writes_only (res_write (Dev := Dev) cmd).
Proof.
  intros cmd w r w' E. exists [cmd]. exact (res_write_calls _ _ _ _ E).
Qed.

Lemma writes_only_write : forall cmd,
    writes_only (SpectrumAnalyzer.write (Dev := Dev) cmd).
Proof.
  intros cmd w r w' E. exists [cmd]. exact (sa_write_calls _ _ _ _ E).
Qed.

Lemma writes_only_try_write_any : forall cmds,
    writes_only (SpectrumAnalyzer._try_write_any (Dev := Dev) cmds).
Proof. intros cmds w r w' E. exact (try_write_any_calls _ _ _ _ E). Qed.

Lemma writes_only_when_given :
  forall (A : Type) (x : option A) (body : A -> M Dev unit),
    (forall a, writes_only (body a)) ->
    writes_only (SpectrumAnalyzer.when_given x body).
Proof.
  intros A [a|] body Hb; simpl; [apply Hb | apply writes_only_ret].
Qed.

End CallKinds.

Create HintDb queries.
Create HintDb writes.

#[local] Hint Resolve queries_only_ret queries_only_lift queries_only_raise
  queries_only_print queries_only_res_query queries_only_query
  queries_only_try_query_any : queries.
#[local] Hint Resolve writes_only_ret writes_only_raise writes_only_print
  writes_only_res_write writes_only_write writes_only_try_write_any : writes.

Ltac queries :=
  repeat first
    [ solve [auto with queries]
    | apply queries_only_bind; [|intros ?]
    | apply queries_only_try_except; [|intros ?] ].

Ltac writes :=
  repeat first
    [ solve [auto with writes]
    | apply writes_only_bind; [|intros ?]
    | apply writes_only_when_given; intros ?
    | apply writes_only_try_except; [|intros ?] ].

Section ReadOuts.
Context {Dev : Type} `{Instrument Dev}.

Lemma sa_check_errors_loop_queries : forall n acc,
    queries_only (SpectrumAnalyzer.check_errors_loop (Dev := Dev) n acc).
Proof.
  induction n as [|n IH]; intros acc;
    cbn [SpectrumAnalyzer.check_errors_loop]; [queries|].
  apply queries_only_bind; [queries|]. intros err.
  destruct (PyStr.startswith err "0"); [queries | apply IH].
Qed.

Lemma sa_marker_is_on_queries : forall i,
    queries_only (SpectrumAnalyzer.marker_is_on (Dev := Dev) i).
Proof. intros i. unfold SpectrumAnalyzer.marker_is_on. queries. Qed.

Lemma sa_active_markers_loop_queries : forall n i acc,
    queries_only (SpectrumAnalyzer.active_markers_loop (Dev := Dev) n i acc).
Proof.
  induction n as [|n IH]; intros i acc;
    cbn [SpectrumAnalyzer.active_markers_loop]; [queries|].
  intros w r w' E.
  destruct (SpectrumAnalyzer.marker_is_on i w) as [[b|e] w1] eqn:Em;
    destruct (sa_marker_is_on_queries _ _ _ _ Em) as (q1 & H1).
  - destruct (IH _ _ _ _ _ E) as (q2 & H2).
    exists (q1 ++ q2)%list. rewrite H2, H1, map_app, app_assoc. reflexivity.
  - injection E as _ <-. eauto.
Qed.

Lemma vna_marker_is_on_queries : forall i,
    queries_only (VNA.marker_is_on (Dev := Dev) i).
Proof. intros i. unfold VNA.marker_is_on. queries. Qed.

Lemma vna_active_markers_loop_queries : forall n i acc,
    queries_only (VNA.active_markers_loop (Dev := Dev) n i acc).
Proof.
  induction n as [|n IH]; intros i acc;
    cbn [VNA.active_markers_loop]; [queries|].
  intros w r w' E.
  destruct (VNA.marker_is_on i w) as [[b|e] w1] eqn:Em;
    destruct (vna_marker_is_on_queries _ _ _ _ Em) as (q1 & H1).
  - destruct (IH _ _ _ _ _ E) as (q2 & H2).
    exists (q1 ++ q2)%list. rewrite H2, H1, map_app, app_assoc. reflexivity.
  - injection E as _ <-. eauto.
Qed.

Lemma vna_get_marker_xy_queries : forall idx,
    queries_only (VNA.get_marker_xy (Dev := Dev) idx).
Proof. intros idx. unfold VNA.get_marker_xy. queries. Qed.

Lemma vna_read_markers_queries : forall actives acc,
    queries_only (VNA.read_markers (Dev := Dev) actives acc).
Proof.
  induction actives as [|idx rest IH]; intros acc;
    cbn [VNA.read_markers]; [queries|].
  apply queries_only_bind; [apply vna_get_marker_xy_queries|].
  intros [x y]. apply IH.
Qed.

End ReadOuts.

(** X1.  The read-outs of the spectrum analyzer never write to the instrument:
    every call they make on the handle is a query, whatever the
    instrument answers and however they end. *)
Theorem sa_read_outs_only_query :
  forall (Dev : Type) (I : Instrument Dev),
    queries_only (SpectrumAnalyzer.get_start_stop (Dev := Dev))
    /\ (forall idx, queries_only (SpectrumAnalyzer.get_marker_xy (Dev := Dev) idx))
    /\ queries_only (SpectrumAnalyzer.get_frequency_axis (Dev := Dev))
    /\ (forall ref_idx del_idx,
           queries_only (SpectrumAnalyzer.get_delta_reading (Dev := Dev) ref_idx del_idx))
    /\ (forall max_reads,
           queries_only (SpectrumAnalyzer.check_errors (Dev := Dev) max_reads))
    /\ (forall max_markers,
           queries_only (SpectrumAnalyzer.active_markers (Dev := Dev) max_markers)).
Proof.
  intros Dev I. repeat match goal with |- _ /\ _ => split end.
  - apply get_start_stop_queries.
  - apply get_marker_xy_queries.
  - unfold SpectrumAnalyzer.get_frequency_axis.
    apply queries_only_bind; [apply get_start_stop_queries|].
    intros [f_start f_stop]. queries.
  - intros ref_idx del_idx. unfold SpectrumAnalyzer.get_delta_reading.
    apply queries_only_try_except.
    + unfold SpectrumAnalyzer.direct_delta. queries.
    + intros e. apply manual_delta_queries.
  - intros max_reads. apply sa_check_errors_loop_queries.
  - intros max_markers. apply sa_active_markers_loop_queries.
Qed.

(** X2.  The read-outs of the network analyzer never write to the instrument:
    every call they make on the handle is a query, whatever the
    instrument answers and however they end. *)
Theorem vna_read_outs_only_query :
  forall (Dev : Type) (I : Instrument Dev),
    queries_only (VNA.check_errors (Dev := Dev))
    /\ (forall window trace, queries_only (VNA.get_trace_name (Dev := Dev) window trace))
    /\ (forall idx, queries_only (VNA.get_marker_xy (Dev := Dev) idx))
    /\ queries_only (VNA.active_markers (Dev := Dev))
    /\ queries_only (VNA.get_all_marker_xy (Dev := Dev)).
Proof.
  intros Dev I. repeat match goal with |- _ /\ _ => split end.
  - exact (sa_check_errors_loop_queries 20 []).
  - intros window trace. unfold VNA.get_trace_name.
    exact (queries_only_query "CALC1:PAR:CAT?").
  - apply vna_get_marker_xy_queries.
  - apply vna_active_markers_loop_queries.
  - unfold VNA.get_all_marker_xy.
    apply queries_only_bind; [apply vna_active_markers_loop_queries|].
    intros actives. apply vna_read_markers_queries.
Qed.

(** X3.  The read-outs of the two generators never write to the instrument:
    every call they make on the handle is a query, whatever the
    instrument answers and however they end. *)
Theorem generator_read_outs_only_query :
  forall (Dev : Type) (I : Instrument Dev),
    queries_only (AWG_Rigol_DG922Pro.get_error (Dev := Dev))
    /\ queries_only (AnaPico_sin20G.get_error (Dev := Dev))
    /\ queries_only (AnaPico_sin20G.get_status (Dev := Dev)).
Proof.
  intros Dev I. repeat match goal with |- _ /\ _ => split end.
  - unfold AWG_Rigol_DG922Pro.get_error. queries.
  - unfold AnaPico_sin20G.get_error. queries.
  - unfold AnaPico_sin20G.get_status, AnaPico_sin20G.get_frequency,
      AnaPico_sin20G.get_power, AnaPico_sin20G.get_output_state,
      AnaPico_sin20G.get_phase. queries.
Qed.

Section Setters.
Context {Dev : Type} `{Instrument Dev}.

Lemma sa_set_marker_writes : forall idx on,
    writes_only (SpectrumAnalyzer.set_marker (Dev := Dev) idx on).
Proof. intros idx on. unfold SpectrumAnalyzer.set_marker. writes. Qed.

Lemma sa_clear_markers_loop_writes : forall n i,
    writes_only (SpectrumAnalyzer.clear_markers_loop (Dev := Dev) n i).
Proof.
  induction n as [|n IH]; intros i;
    cbn [SpectrumAnalyzer.clear_markers_loop]; [writes|].
  intros w r w' E.
  destruct (SpectrumAnalyzer.set_marker i false w) as [[u|e] w1] eqn:Em;
    destruct (sa_set_marker_writes _ _ _ _ _ Em) as (q1 & H1).
  - destruct (IH _ _ _ _ E) as (q2 & H2).
    exists (q1 ++ q2)%list. rewrite H2, H1, map_app, app_assoc. reflexivity.
  - injection E as _ <-. eauto.
Qed.

Lemma vna_clear_markers_loop_writes : forall n i,
    writes_only (VNA.clear_markers_loop (Dev := Dev) n i).
Proof.
  induction n as [|n IH]; intros i; cbn [VNA.clear_markers_loop]; [writes|].
  intros w r w' E.
  match type of E with
  | context [VNA.write ?c w] =>
      destruct (VNA.write c w) as [[u|e] w1] eqn:Em;
      destruct (writes_only_write _ _ _ _ Em) as (q1 & H1)
  end.
  - destruct (IH _ _ _ _ E) as (q2 & H2).
    exists (q1 ++ q2)%list. rewrite H2, H1, map_app, app_assoc. reflexivity.
  - destruct (writes_only_print _ _ _ _ E) as (q2 & H2).
    exists (q1 ++ q2)%list. rewrite H2, H1, map_app, app_assoc. reflexivity.
Qed.

End Setters.

(** X4.  The configuration methods of the spectrum analyzer never query the
    instrument: every call they make on the handle is a write, whatever
    the instrument answers and however they end.  (The exceptions in
    the driver are [set_marker_x], which reads the span first, and
    [reset] and [single_sweep], which wait on the operation-complete
    query when asked to.) *)
Theorem sa_setters_only_write :
  forall (Dev : Type) (I : Instrument Dev),
    (forall a b n, writes_only (SpectrumAnalyzer.set_span (Dev := Dev) a b n))
    /\ (forall a b n, writes_only (SpectrumAnalyzer.set_center_span (Dev := Dev) a b n))
    /\ (forall s a, writes_only (SpectrumAnalyzer.set_sweep_time (Dev := Dev) s a))
    /\ (forall n, writes_only (SpectrumAnalyzer.set_points (Dev := Dev) n))
    /\ (forall a b c d, writes_only (SpectrumAnalyzer.set_rbw_vbw (Dev := Dev) a b c d))
    /\ (forall l, writes_only (SpectrumAnalyzer.set_reference_level (Dev := Dev) l))
    /\ (forall a b, writes_only (SpectrumAnalyzer.set_attenuation (Dev := Dev) a b))
    /\ (forall v on, writes_only (SpectrumAnalyzer.set_preamp (Dev := Dev) v on))
    /\ (forall on c cl, writes_only (SpectrumAnalyzer.set_averaging (Dev := Dev) on c cl))
    /\ (forall on, writes_only (SpectrumAnalyzer.continuous (Dev := Dev) on))
    /\ (forall i on, writes_only (SpectrumAnalyzer.set_marker (Dev := Dev) i on))
    /\ (forall n, writes_only (SpectrumAnalyzer.clear_markers (Dev := Dev) n))
    /\ (forall i, writes_only (SpectrumAnalyzer.peak_search (Dev := Dev) i))
    /\ (forall i d, writes_only (SpectrumAnalyzer.next_peak (Dev := Dev) i d))
    /\ (forall on r d, writes_only (SpectrumAnalyzer.marker_delta_mode (Dev := Dev) on r d))
    /\ (forall t a,
           writes_only (SpectrumAnalyzer.set_trace_detector_view (Dev := Dev) t a)).
Proof.
  intros Dev I. repeat match goal with |- _ /\ _ => split end.
  - intros a b n. unfold SpectrumAnalyzer.set_span.
    destruct (PyFloat.leb b a); writes.
  - intros a b n. unfold SpectrumAnalyzer.set_center_span.
    destruct (PyFloat.leb b (S754_zero false)); writes.
  - intros s a. unfold SpectrumAnalyzer.set_sweep_time. destruct a; writes.
  - intros n. unfold SpectrumAnalyzer.set_points. writes.
  - intros a b c d. unfold SpectrumAnalyzer.set_rbw_vbw. writes.
  - intros l. unfold SpectrumAnalyzer.set_reference_level. writes.
  - intros a b. unfold SpectrumAnalyzer.set_attenuation. writes.
  - intros v on. unfold SpectrumAnalyzer.set_preamp.
    destruct (_ || _); writes.
  - intros on c cl. unfold SpectrumAnalyzer.set_averaging.
    apply writes_only_bind; [writes|]. intros _.
    apply writes_only_bind; [writes|]. intros _.
    destruct cl; writes.
  - intros on. unfold SpectrumAnalyzer.continuous. writes.
  - apply sa_set_marker_writes.
  - intros n. apply sa_clear_markers_loop_writes.
  - intros i. unfold SpectrumAnalyzer.peak_search.
    apply writes_only_bind; [writes|]. intros _. apply sa_set_marker_writes.
  - intros i d. unfold SpectrumAnalyzer.next_peak.
    apply writes_only_bind; [|intros _; apply sa_set_marker_writes].
    destruct (_ || _); writes.
  - intros on r d. unfold SpectrumAnalyzer.marker_delta_mode.
    destruct on; [|writes].
    apply writes_only_bind; [writes|]. intros _.
    apply writes_only_bind; [apply sa_set_marker_writes|]. intros _.
    apply sa_set_marker_writes.
  - intros t a. unfold SpectrumAnalyzer.set_trace_detector_view. writes.
Qed.

(** X5.  The configuration methods of the network analyzer never query the
    instrument: every call they make is a write.  ([set_marker_x] is
    the exception: it reads the span first.) *)
Theorem vna_setters_only_write :
  forall (Dev : Type) (I : Instrument Dev),
    (forall a b n, writes_only (VNA.set_span (Dev := Dev) a b n))
    /\ (forall i on, writes_only (VNA.set_marker (Dev := Dev) i on))
    /\ (forall n, writes_only (VNA.clear_markers (Dev := Dev) n)).
Proof.
  intros Dev I. repeat match goal with |- _ /\ _ => split end.
  - intros a b n. unfold VNA.set_span.
    destruct (PyFloat.leb b a); [writes|].
    apply writes_only_bind; [apply writes_only_write|]. intros _.
    apply writes_only_bind; [apply writes_only_write|]. intros _.
    apply writes_only_write.
  - intros i on. unfold VNA.set_marker. apply writes_only_write.
  - intros n. apply vna_clear_markers_loop_writes.
Qed.

(** X6.  The setters of the Rigol waveform generator never query the
    instrument: every call they make is a write. *)
Theorem rigol_setters_only_write :
  forall (Dev : Type) (I : Instrument Dev),
    (forall o c, writes_only (AWG_Rigol_DG922Pro.init_and_set (Dev := Dev) o c))
    /\ (forall o c, writes_only (AWG_Rigol_DG922Pro.set_DC (Dev := Dev) o c))
    /\ (forall c f a o p, writes_only (AWG_Rigol_DG922Pro.set_sin (Dev := Dev) c f a o p))
    /\ (forall c p, writes_only (AWG_Rigol_DG922Pro.set_phase (Dev := Dev) c p))
    /\ writes_only (AWG_Rigol_DG922Pro.set_sync_phase (Dev := Dev))
    /\ (forall c a, writes_only (AWG_Rigol_DG922Pro.set_amplitude (Dev := Dev) c a))
    /\ (forall c o, writes_only (AWG_Rigol_DG922Pro.set_offset (Dev := Dev) c o))
    /\ (forall c f, writes_only (AWG_Rigol_DG922Pro.set_frequency (Dev := Dev) c f))
    /\ (forall c s, writes_only (AWG_Rigol_DG922Pro.enable_output (Dev := Dev) c s))
    /\ (forall c t, writes_only (AWG_Rigol_DG922Pro.set_waveform (Dev := Dev) c t))
    /\ (forall c s n, writes_only (AWG_Rigol_DG922Pro.setup_trigger (Dev := Dev) c s n))
    /\ writes_only (AWG_Rigol_DG922Pro.trigger_manual (Dev := Dev)).
Proof.
  intros Dev I. repeat match goal with |- _ /\ _ => split end.
  - intros o c. unfold AWG_Rigol_DG922Pro.init_and_set. writes.
  - intros o c. unfold AWG_Rigol_DG922Pro.set_DC. writes.
  - intros c f a o p. unfold AWG_Rigol_DG922Pro.set_sin.
    apply writes_only_bind.
    { destruct (PyFloat.ltb a f_0_001); writes. }
    intros a'. apply writes_only_bind; [writes|]. intros _.
    destruct (negb (PyFloat.eqb p f_0_0)); writes.
  - intros c p. unfold AWG_Rigol_DG922Pro.set_phase. writes.
  - unfold AWG_Rigol_DG922Pro.set_sync_phase. writes.
  - intros c a. unfold AWG_Rigol_DG922Pro.set_amplitude. writes.
  - intros c o. unfold AWG_Rigol_DG922Pro.set_offset. writes.
  - intros c f. unfold AWG_Rigol_DG922Pro.set_frequency. writes.
  - intros c s. unfold AWG_Rigol_DG922Pro.enable_output. writes.
  - intros c t. unfold AWG_Rigol_DG922Pro.set_waveform. writes.
  - intros c s n. unfold AWG_Rigol_DG922Pro.setup_trigger.
    apply writes_only_bind; [writes|]. intros _.
    apply writes_only_bind; [writes|]. intros _.
    apply writes_only_bind; [writes|]. intros _.
    destruct (String.eqb s "EXT"); [writes|].
    destruct (String.eqb s "INT"); [writes|].
    destruct (String.eqb s "MAN"); writes.
  - unfold AWG_Rigol_DG922Pro.trigger_manual. writes.
Qed.

(** X7.  The setters of the AnaPico signal generator never query the
    instrument: every call they make is a write. *)
Theorem anapico_setters_only_write :
  forall (Dev : Type) (I : Instrument Dev),
    (forall f, writes_only (AnaPico_sin20G.set_frequency (Dev := Dev) f))
    /\ (forall p, writes_only (AnaPico_sin20G.set_power (Dev := Dev) p))
    /\ (forall a, writes_only (AnaPico_sin20G.set_amplitude (Dev := Dev) a))
    /\ (forall s, writes_only (AnaPico_sin20G.enable_output (Dev := Dev) s))
    /\ (forall s, writes_only (AnaPico_sin20G.set_reference_source (Dev := Dev) s))
    /\ (forall f, writes_only (AnaPico_sin20G.set_reference_frequency (Dev := Dev) f))
    /\ (forall p, writes_only (AnaPico_sin20G.set_phase (Dev := Dev) p))
    /\ writes_only (AnaPico_sin20G.preset (Dev := Dev))
    /\ (forall f p e,
           writes_only (AnaPico_sin20G.configure_sine_output (Dev := Dev) f p e)).
Proof.
  intros Dev I. repeat match goal with |- _ /\ _ => split end.
  - intros f. unfold AnaPico_sin20G.set_frequency. writes.
  - intros p. unfold AnaPico_sin20G.set_power. writes.
  - intros a. unfold AnaPico_sin20G.set_amplitude. writes.
  - intros s. unfold AnaPico_sin20G.enable_output. writes.
  - intros s. unfold AnaPico_sin20G.set_reference_source. writes.
  - intros f. unfold AnaPico_sin20G.set_reference_frequency. writes.
  - intros p. unfold AnaPico_sin20G.set_phase. writes.
  - unfold AnaPico_sin20G.preset. writes.
  - intros f p e. unfold AnaPico_sin20G.configure_sine_output,
      AnaPico_sin20G.set_frequency, AnaPico_sin20G.set_power,
      AnaPico_sin20G.enable_output.
    apply writes_only_bind; [writes|]. intros _.
    apply writes_only_bind; [writes|]. intros _.
    destruct e; writes.
Qed.

(** *** Transport errors *)

Section Wrapping.
Context {Dev : Type} `{Instrument Dev}.

Lemma no_visa_ret : forall (A : Type) (a : A), no_visa_error (ret (Dev := Dev) a).
Proof. intros A a w e w' E. discriminate E. Qed.

Lemma no_visa_raise : forall (A : Type) (e : exn),
    is_VisaIOError e = false -> no_visa_error (raise (Dev := Dev) (A := A) e).
Proof. intros A e He w e' w' [= <- _]. exact He. Qed.

Lemma no_visa_lift : forall (A : Type) (r : result A),
    (forall e, r = Raise e -> is_VisaIOError e = false) ->
    no_visa_error (lift (Dev := Dev) r).
Proof. intros A r Hr w e w' [= -> _]. apply Hr. reflexivity. Qed.

Lemma no_visa_bind :
  forall (A B : Type) (m : M Dev A) (k : A -> M Dev B),
    no_visa_error m -> (forall a, no_visa_error (k a)) ->
    no_visa_error (bind m k).
Proof.
  intros A B m k Hm Hk w e w'. unfold bind.
  destruct (m w) as [[a|e0] w1] eqn:E.
  - apply Hk.
  - intros [= <- <-]. exact (Hm _ _ _ E).
Qed.

Lemma no_visa_try_except :
  forall (A : Type) (m : M Dev A) (h : exn -> M Dev A),
    (forall e, no_visa_error (h e)) -> no_visa_error (try_except m h).
Proof.
  intros A m h Hh w e w'. unfold try_except.
  destruct (m w) as [[a|e0] w1]; [discriminate|]. apply Hh.
Qed.

Lemma no_visa_write : forall cmd,
    no_visa_error (SpectrumAnalyzer.write (Dev := Dev) cmd).
Proof.
  intros cmd. unfold SpectrumAnalyzer.write. apply no_visa_try_except.
  intros [d| |m|m|a|m|m|d]; apply no_visa_raise; reflexivity.
Qed.

Lemma no_visa_query : forall cmd,
    no_visa_error (SpectrumAnalyzer.query (Dev := Dev) cmd).
Proof.
  intros cmd. unfold SpectrumAnalyzer.query. apply no_visa_try_except.
  intros [d| |m|m|a|m|m|d]; apply no_visa_raise; reflexivity.
Qed.

Lemma all_fail_errors :
  forall (A : Type) (op : string -> M Dev A) (P : exn -> Prop),
    (forall c w e w', op c w = (Raise e, w') -> P e) ->
    forall cmds w es w', all_fail op cmds w es w' -> Forall P es.
Proof.
  intros A op P Hop cmds w es w' Hf.
  induction Hf as [|c cs w e w1 es w' Hc _ IH]; constructor; eauto.
Qed.

Lemma last_satisfies : forall (P : exn -> Prop) (es : list exn) (d : exn),
    Forall P es -> P d -> P (last es d).
Proof.
  intros P es d Hes Hd. induction Hes as [|e es He _ IH]; [exact Hd|].
  destruct es as [|e' es']; [exact He | exact IH].
Qed.

Lemma no_visa_try_write_any : forall cmds,
    no_visa_error (SpectrumAnalyzer._try_write_any (Dev := Dev) cmds).
Proof.
  intros cmds w e w' E.
  unfold SpectrumAnalyzer._try_write_any in E. rewrite try_write_loop_eq in E.
  pose proof (try_loop_spec unit SpectrumAnalyzer.write EvWrite
                sa_write_calls cmds None w) as S.
  rewrite E in S. destruct S as (es & Hf & -> & _).
  apply (last_satisfies (fun x => is_VisaIOError x = false)); [|reflexivity].
  eapply all_fail_errors; [|exact Hf].
  intros c w0 e0 w0' E0. exact (no_visa_write c _ _ _ E0).
Qed.

Lemma no_visa_try_query_any : forall cmds,
    no_visa_error (SpectrumAnalyzer._try_query_any (Dev := Dev) cmds).
Proof.
  intros cmds w e w' E.
  unfold SpectrumAnalyzer._try_query_any in E. rewrite try_query_loop_eq in E.
  pose proof (try_loop_spec string SpectrumAnalyzer.query EvQuery
                sa_query_calls cmds None w) as S.
  rewrite E in S. destruct S as (es & Hf & -> & _).
  apply (last_satisfies (fun x => is_VisaIOError x = false)); [|reflexivity].
  eapply all_fail_errors; [|exact Hf].
  intros c w0 e0 w0' E0. exact (no_visa_query c _ _ _ E0).
Qed.

Lemma no_visa_of_string : forall s,
    no_visa_error (lift (Dev := Dev) (PyFloat.of_string s)).
Proof.
  intros s. apply no_visa_lift. intros e E.
  apply of_string_raises in E. subst e. reflexivity.
Qed.

Lemma no_visa_to_int : forall x,
    no_visa_error (lift (Dev := Dev) (PyFloat.to_int x)).
Proof.
  intros x. apply no_visa_lift. intros e E.
  destruct x; simpl in E; try discriminate; injection E as <-; reflexivity.
Qed.

Lemma of_int_raises : forall n e,
    PyFloat.of_int n = Raise e -> is_VisaIOError e = false.
Proof.
  intros n e. unfold PyFloat.of_int.
  destruct (binary_normalize PyFloat.prec PyFloat.emax n 0 false);
    try discriminate.
  intros [= <-]. reflexivity.
Qed.

Lemma axis_entries_raises : forall f_start step idxs e,
    SpectrumAnalyzer.axis_entries f_start step idxs = Raise e ->
    is_VisaIOError e = false.
Proof.
  intros f_start step. induction idxs as [|i rest IH]; intros e; simpl.
  - discriminate.
  - destruct (PyFloat.of_int i) as [fi|e0] eqn:Ei.
    + destruct (SpectrumAnalyzer.axis_entries f_start step rest) as [vs|e1];
        [discriminate|].
      intros [= <-]. apply IH. reflexivity.
    + intros [= <-]. exact (of_int_raises _ _ Ei).
Qed.

Lemma linear_axis_raises : forall f_start f_stop points e,
    SpectrumAnalyzer.linear_axis f_start f_stop points = Raise e ->
    is_VisaIOError e = false.
Proof.
  intros f_start f_stop points e. unfold SpectrumAnalyzer.linear_axis.
  destruct (points <? 2); [discriminate|].
  destruct (PyFloat.of_int (points - 1)) as [d|e0] eqn:Ed.
  - unfold PyFloat.truediv. destruct (PyFloat.is_zero d).
    + intros [= <-]. reflexivity.
    + apply axis_entries_raises.
  - intros [= <-]. exact (of_int_raises _ _ Ed).
Qed.

End Wrapping.

Create HintDb novisa.

#[local] Hint Resolve no_visa_ret no_visa_write no_visa_query
  no_visa_try_write_any no_visa_try_query_any no_visa_of_string
  no_visa_to_int : novisa.

Ltac novisa :=
  repeat first
    [ solve [auto with novisa]
    | solve [apply no_visa_raise; reflexivity]
    | apply no_visa_bind; [|intros ?]
    | apply no_visa_try_except; intros ? ].

Section NoVisa.
Context {Dev : Type} `{Instrument Dev}.

Lemma parse_comprehension_error : forall toks e,
    SpectrumAnalyzer.parse_comprehension toks = Raise e ->
    is_VisaIOError e = false.
Proof.
  induction toks as [|x rest IH]; intros e; simpl; [discriminate|].
  destruct (PyStr.truthy (PyStr.strip x)); [|apply IH].
  destruct (PyFloat.of_string x) as [v|e0] eqn:Ex.
  - destruct (SpectrumAnalyzer.parse_comprehension rest) as [vs|e1];
      [discriminate|].
    intros [= <-]. apply IH. reflexivity.
  - intros [= <-]. apply of_string_raises in Ex. subst e0. reflexivity.
Qed.

Lemma no_visa_get_start_stop :
  no_visa_error (SpectrumAnalyzer.get_start_stop (Dev := Dev)).
Proof. unfold SpectrumAnalyzer.get_start_stop. novisa. Qed.

Lemma no_visa_sa_get_marker_xy : forall idx,
    no_visa_error (SpectrumAnalyzer.get_marker_xy (Dev := Dev) idx).
Proof. intros idx. unfold SpectrumAnalyzer.get_marker_xy. novisa. Qed.

Lemma no_visa_sa_check_errors_loop : forall n acc,
    no_visa_error (SpectrumAnalyzer.check_errors_loop (Dev := Dev) n acc).
Proof.
  induction n as [|n IH]; intros acc;
    cbn [SpectrumAnalyzer.check_errors_loop]; [novisa|].
  apply no_visa_bind; [novisa|]. intros err.
  destruct (PyStr.startswith err "0"); [novisa | apply IH].
Qed.

Lemma no_visa_sa_set_marker : forall idx on,
    no_visa_error (SpectrumAnalyzer.set_marker (Dev := Dev) idx on).
Proof. intros idx on. unfold SpectrumAnalyzer.set_marker. novisa. Qed.

End NoVisa.

(** X8.  [write] and [query] of the spectrum analyzer driver turn a
    [VisaIOError] of the handle into a [RuntimeError] whose message
    names the command and carries the transport's text.  The methods
    listed here, which reach the instrument through these two only,
    never raise a [VisaIOError].  ([close] and the constructor call
    the handle and the library directly and are not among them.) *)
Theorem sa_visa_errors_are_wrapped :
  forall (Dev : Type) (I : Instrument Dev),
    (forall cmd (w w' : session Dev) d,
        res_write cmd w = (Raise (VisaIOError d), w') ->
        SpectrumAnalyzer.write cmd w
        = (Raise (RuntimeError ("VISA write error en '" ++ cmd ++ "': " ++ d)), w'))
    /\ (forall cmd (w w' : session Dev) d,
        res_query cmd w = (Raise (VisaIOError d), w') ->
        SpectrumAnalyzer.query cmd w
        = (Raise (RuntimeError ("VISA query error en '" ++ cmd ++ "': " ++ d)), w'))
    /\ ((forall cmd, no_visa_error (SpectrumAnalyzer.write (Dev := Dev) cmd))
        /\ (forall cmd, no_visa_error (SpectrumAnalyzer.query (Dev := Dev) cmd))
        /\ (forall cmds, no_visa_error (SpectrumAnalyzer._try_write_any (Dev := Dev) cmds))
        /\ (forall cmds, no_visa_error (SpectrumAnalyzer._try_query_any (Dev := Dev) cmds))
        /\ (forall n, no_visa_error (SpectrumAnalyzer.check_errors (Dev := Dev) n))
        /\ (forall wait, no_visa_error (SpectrumAnalyzer.reset (Dev := Dev) wait))
        /\ (forall a b n, no_visa_error (SpectrumAnalyzer.set_span (Dev := Dev) a b n))
        /\ (forall a b n,
               no_visa_error (SpectrumAnalyzer.set_center_span (Dev := Dev) a b n))
        /\ no_visa_error (SpectrumAnalyzer.get_start_stop (Dev := Dev))
        /\ (forall wait, no_visa_error (SpectrumAnalyzer.single_sweep (Dev := Dev) wait))
        /\ (forall t, no_visa_error (SpectrumAnalyzer.fetch_trace (Dev := Dev) t))
        /\ no_visa_error (SpectrumAnalyzer.get_frequency_axis (Dev := Dev))
        /\ (forall i on, no_visa_error (SpectrumAnalyzer.set_marker (Dev := Dev) i on))
        /\ (forall i f, no_visa_error (SpectrumAnalyzer.set_marker_x (Dev := Dev) i f))
        /\ (forall i, no_visa_error (SpectrumAnalyzer.get_marker_xy (Dev := Dev) i))
        /\ (forall r d,
               no_visa_error (SpectrumAnalyzer.get_delta_reading (Dev := Dev) r d))).
Proof.
  intros Dev I. split; [|split].
  - intros cmd w w' d E. unfold SpectrumAnalyzer.write, try_except. rewrite E. reflexivity.
  - intros cmd w w' d E. unfold SpectrumAnalyzer.query, try_except. rewrite E. reflexivity.
  - repeat match goal with |- _ /\ _ => split end.
    + apply no_visa_write.
    + apply no_visa_query.
    + apply no_visa_try_write_any.
    + apply no_visa_try_query_any.
    + intros n. apply no_visa_sa_check_errors_loop.
    + intros wait. unfold SpectrumAnalyzer.reset.
      apply no_visa_bind; [novisa|]. intros _.
      apply no_visa_bind; [novisa|]. intros _. destruct wait; novisa.
    + intros a b n. unfold SpectrumAnalyzer.set_span.
      destruct (PyFloat.leb b a); novisa.
    + intros a b n. unfold SpectrumAnalyzer.set_center_span.
      destruct (PyFloat.leb b (S754_zero false)); novisa.
    + apply no_visa_get_start_stop.
    + intros wait. unfold SpectrumAnalyzer.single_sweep, SpectrumAnalyzer.continuous.
      apply no_visa_bind; [novisa|]. intros _.
      apply no_visa_bind; [novisa|]. intros _. destruct wait; novisa.
    + intros t. unfold SpectrumAnalyzer.fetch_trace.
      apply no_visa_bind; [novisa|]. intros data_str.
      apply no_visa_bind.
      { apply no_visa_lift. intros e E. rewrite first_parse_spec in E.
        discriminate E. }
      intros [|v vals]; [|novisa].
      apply no_visa_bind; [novisa|]. intros _.
      apply no_visa_bind; [novisa|]. intros data2.
      apply no_visa_lift. intros e. apply parse_comprehension_error.
    + unfold SpectrumAnalyzer.get_frequency_axis.
      apply no_visa_bind; [apply no_visa_get_start_stop|].
      intros [f_start f_stop].
      apply no_visa_bind; [novisa|]. intros s.
      apply no_visa_bind; [novisa|]. intros pf.
      apply no_visa_bind; [novisa|]. intros points.
      apply no_visa_lift. intros e. apply linear_axis_raises.
    + apply no_visa_sa_set_marker.
    + intros i f. unfold SpectrumAnalyzer.set_marker_x.
      apply no_visa_bind; [apply no_visa_get_start_stop|].
      intros [f_start f_stop].
      destruct (negb _); novisa.
    + apply no_visa_sa_get_marker_xy.
    + intros r d. unfold SpectrumAnalyzer.get_delta_reading.
      apply no_visa_try_except. intros _.
      unfold SpectrumAnalyzer.manual_delta.
      apply no_visa_bind; [apply no_visa_sa_get_marker_xy|]. intros [x1 y1].
      apply no_visa_bind; [apply no_visa_sa_get_marker_xy|]. intros [x2 y2].
      novisa.
Qed.

(** X9.  [write] and [query] of the network analyzer driver turn a
    [VisaIOError] of the handle into a [RuntimeError] whose message
    names the command and carries the transport's text.  The methods
    listed here, which reach the instrument through these two only,
    never raise a [VisaIOError].  ([close] and the constructor call
    the handle and the library directly and are not among them.) *)
Theorem vna_visa_errors_are_wrapped :
  forall (Dev : Type) (I : Instrument Dev),
    (forall cmd (w w' : session Dev) d,
        res_write cmd w = (Raise (VisaIOError d), w') ->
        VNA.write cmd w
        = (Raise (RuntimeError ("VISA write error en '" ++ cmd ++ "': " ++ d)), w'))
    /\ (forall cmd (w w' : session Dev) d,
        res_query cmd w = (Raise (VisaIOError d), w') ->
        VNA.query cmd w
        = (Raise (RuntimeError ("VISA query error en '" ++ cmd ++ "': " ++ d)), w'))
    /\ ((forall cmd, no_visa_error (VNA.write (Dev := Dev) cmd))
        /\ (forall cmd, no_visa_error (VNA.query (Dev := Dev) cmd))
        /\ no_visa_error (VNA.check_errors (Dev := Dev))
        /\ (forall wait, no_visa_error (VNA.reset (Dev := Dev) wait))
        /\ (forall n s w t, no_visa_error (VNA.select_or_create_trace (Dev := Dev) n s w t))
        /\ (forall a b n, no_visa_error (VNA.set_span (Dev := Dev) a b n))
        /\ (forall i on, no_visa_error (VNA.set_marker (Dev := Dev) i on))
        /\ (forall i f, no_visa_error (VNA.set_marker_x (Dev := Dev) i f))
        /\ (forall i, no_visa_error (VNA.get_marker_xy (Dev := Dev) i))
        /\ no_visa_error (VNA.get_all_marker_xy (Dev := Dev))).
Proof.
  intros Dev I. split; [|split].
  - intros cmd w w' d E. unfold VNA.write, try_except. rewrite E. reflexivity.
  - intros cmd w w' d E. unfold VNA.query, try_except. rewrite E. reflexivity.
  - assert (Hxy : forall i, no_visa_error (VNA.get_marker_xy (Dev := Dev) i)).
    { intros i. unfold VNA.get_marker_xy.
      apply no_visa_bind; [apply no_visa_query|]. intros sx.
      apply no_visa_bind; [novisa|]. intros x.
      apply no_visa_bind; [apply no_visa_query|]. intros sy.
      novisa. }
    repeat match goal with |- _ /\ _ => split end.
    + apply no_visa_write.
    + apply no_visa_query.
    + exact (no_visa_sa_check_errors_loop 20 []).
    + intros wait. unfold VNA.reset.
      apply no_visa_bind; [apply no_visa_write|]. intros _.
      apply no_visa_bind; [apply no_visa_write|]. intros _.
      destruct wait; [|novisa].
      apply no_visa_bind; [apply no_visa_query|]. intros _. novisa.
    + intros n s w t. unfold VNA.select_or_create_trace.
      apply no_visa_bind; [apply no_visa_write|]. intros _.
      apply no_visa_bind; [apply no_visa_write|]. intros _.
      apply no_visa_query.
    + intros a b n. unfold VNA.set_span.
      destruct (PyFloat.leb b a); [novisa|].
      apply no_visa_bind; [apply no_visa_write|]. intros _.
      apply no_visa_bind; [apply no_visa_write|]. intros _.
      apply no_visa_write.
    + intros i on. unfold VNA.set_marker. apply no_visa_write.
    + intros i f. unfold VNA.set_marker_x.
      apply no_visa_bind; [apply no_visa_query|]. intros s1.
      apply no_visa_bind; [novisa|]. intros f1.
      apply no_visa_bind; [apply no_visa_query|]. intros s2.
      apply no_visa_bind; [novisa|]. intros f2.
      destruct (negb _); [novisa | apply no_visa_write].
    + exact Hxy.
    + unfold VNA.get_all_marker_xy.
      apply no_visa_bind.
      { intros w e w' E.
        assert (Hnr : forall n i acc w0 e0 w0',
                   VNA.active_markers_loop n i acc w0 = (Raise e0, w0') -> False).
        { induction n as [|n IH]; intros i acc w0 e0 w0';
            cbn [VNA.active_markers_loop]; [discriminate|].
          destruct (VNA.marker_is_on i w0) as [[b|e1] w1]; [apply IH|discriminate]. }
        exfalso. exact (Hnr _ _ _ _ _ _ E). }
      intros actives. generalize (@nil (Z * PyFloat.float * PyFloat.float)).
      induction actives as [|idx rest IH]; intros acc; cbn [VNA.read_markers];
        [novisa|].
      apply no_visa_bind; [apply Hxy|]. intros [x y]. apply IH.
Qed.

Lemma sa_visa_errors_are_wrapped_witness :
  let w := fresh [Raise (VisaIOError "VI_ERROR_TMO")] in
  let w' := mkSession [] true true [EvWrite "*CLS"] [] in
  res_write "*CLS" w = (Raise (VisaIOError "VI_ERROR_TMO"), w')
  /\ SpectrumAnalyzer.write "*CLS" w
     = (Raise (RuntimeError "VISA write error en '*CLS': VI_ERROR_TMO"), w').
Proof.
  intros w w'.
  assert (E : res_write "*CLS" w = (Raise (VisaIOError "VI_ERROR_TMO"), w'))
    by reflexivity.
  split; [exact E|].
  exact (proj1 (sa_visa_errors_are_wrapped Mock.script scripted)
           "*CLS" w w' "VI_ERROR_TMO" E).
Defined.

Lemma vna_visa_errors_are_wrapped_witness :
  let w := fresh [Raise (VisaIOError "VI_ERROR_CONN_LOST")] in
  let w' := mkSession [] true true [EvQuery "SYST:ERR?"] [] in
  res_query "SYST:ERR?" w = (Raise (VisaIOError "VI_ERROR_CONN_LOST"), w')
  /\ VNA.query "SYST:ERR?" w
     = (Raise (RuntimeError "VISA query error en 'SYST:ERR?': VI_ERROR_CONN_LOST"),
        w').
Proof.
  intros w w'.
  assert (E : res_query "SYST:ERR?" w
              = (Raise (VisaIOError "VI_ERROR_CONN_LOST"), w'))
    by reflexivity.
  split; [exact E|].
  exact (proj1 (proj2 (vna_visa_errors_are_wrapped Mock.script scripted))
           "SYST:ERR?" w w' "VI_ERROR_CONN_LOST" E).
Defined.

(** *** Marker housekeeping *)

Section Accepting.
Context {Dev : Type} `{Instrument Dev}.

(** On an open handle whose instrument accepts every write, [write]
    succeeds, records one call and leaves the handle open. *)
Lemma write_accepted : forall cmd (w : session Dev),
    accepts_writes -> is_open w = true ->
    exists w', SpectrumAnalyzer.write cmd w = (Ok tt, w')
               /\ calls w' = (calls w ++ [EvWrite cmd])%list
               /\ is_open w' = true
               /\ stdout w' = stdout w.
Proof.
  intros cmd w Hacc Hopen.
  unfold SpectrumAnalyzer.write, try_except, res_write. simpl. rewrite Hopen.
  pose proof (Hacc cmd (device w)) as Ha.
  destruct (visa_write cmd (device w)) as [r d]. simpl in Ha. subst r.
  eexists. split; [reflexivity|]. simpl. auto.
Qed.

Lemma res_write_accepted : forall cmd (w : session Dev),
    accepts_writes -> is_open w = true ->
    exists w', res_write cmd w = (Ok tt, w')
               /\ calls w' = (calls w ++ [EvWrite cmd])%list
               /\ is_open w' = true
               /\ stdout w' = stdout w.
Proof.
  intros cmd w Hacc Hopen. unfold res_write. simpl. rewrite Hopen.
  pose proof (Hacc cmd (device w)) as Ha.
  destruct (visa_write cmd (device w)) as [r d]. simpl in Ha. subst r.
  eexists. split; [reflexivity|]. simpl. auto.
Qed.

(** One [set_marker] makes one or two writes. *)
Lemma sa_set_marker_calls : forall idx on (w w' : session Dev) r,
    SpectrumAnalyzer.set_marker idx on w = (r, w') ->
    exists ws, calls w' = (calls w ++ map EvWrite ws)%list
               /\ (List.length ws <= 2)%nat.
Proof.
  intros idx on w w' r E. unfold SpectrumAnalyzer.set_marker in E.
  unfold SpectrumAnalyzer._try_write_any in E. rewrite try_write_loop_eq in E.
  match type of E with
  | try_loop _ ?cmds None w = _ =>
      pose proof (try_loop_spec unit SpectrumAnalyzer.write EvWrite
                    sa_write_calls cmds None w) as S
  end.
  rewrite E in S. destruct r as [u|e].
  - destruct S as (pre & c & post & es & w1 & Hsplit & _ & _ & Hc).
    exists (pre ++ [c])%list. split; [exact Hc|].
    apply (f_equal (@List.length string)) in Hsplit.
    rewrite length_app in *. simpl in *. lia.
  - destruct S as (es & _ & _ & Hc). eexists. split; [exact Hc|]. simpl. lia.
Qed.

Lemma sa_clear_markers_loop_spec : forall n i (w : session Dev),
    exists w' ws,
      SpectrumAnalyzer.clear_markers_loop n i w = (Ok tt, w')
      /\ calls w' = (calls w ++ map EvWrite ws)%list
      /\ (List.length ws <= 2 * n)%nat.
Proof.
  induction n as [|n IH]; intros i w; cbn [SpectrumAnalyzer.clear_markers_loop].
  - exists w, []. simpl. rewrite app_nil_r. auto.
  - destruct (SpectrumAnalyzer.set_marker i false w) as [[u|e] w1] eqn:Em;
      destruct (sa_set_marker_calls _ _ _ _ _ Em) as (ws1 & H1 & L1).
    + destruct (IH (i + 1) w1) as (w' & ws2 & E2 & H2 & L2).
      exists w', (ws1 ++ ws2)%list. split; [exact E2|]. split.
      * rewrite H2, H1, map_app, app_assoc. reflexivity.
      * rewrite length_app. lia.
    + exists w1, ws1. split; [reflexivity|]. split; [exact H1|lia].
Qed.

Lemma sa_clear_markers_loop_accepted : forall n i (w : session Dev),
    accepts_writes -> is_open w = true ->
    exists w',
      SpectrumAnalyzer.clear_markers_loop n i w = (Ok tt, w')
      /\ calls w' = (calls w ++ map marker_off (indices n i))%list
      /\ is_open w' = true.
Proof.
  induction n as [|n IH]; intros i w Hacc Hopen;
    cbn [SpectrumAnalyzer.clear_markers_loop indices].
  - exists w. simpl. rewrite app_nil_r. auto.
  - destruct (write_accepted
                ("CALC:MARK" ++ PyStr.of_int i ++ ":STAT "
                   ++ SpectrumAnalyzer.on_off false)
                w Hacc Hopen) as (w1 & Ew & Hc & Ho & _).
    assert (Em : SpectrumAnalyzer.set_marker i false w = (Ok tt, w1)).
    { unfold SpectrumAnalyzer.set_marker, SpectrumAnalyzer._try_write_any.
      cbn [SpectrumAnalyzer.try_write_loop].
      unfold try_except at 1. rewrite Ew. reflexivity. }
    rewrite Em.
    destruct (IH (i + 1) w1 Hacc Ho) as (w' & E2 & H2 & Ho2).
    exists w'. split; [exact E2|]. split; [|exact Ho2].
    rewrite H2, Hc, <- app_assoc. reflexivity.
Qed.

End Accepting.

Section ClearingStops.
Context {Dev : Type} `{Instrument Dev}.

(** The loop switches markers off until one refuses; it returns with
    the session that refusal left. *)
Lemma sa_clear_markers_loop_stops : forall n i (w : session Dev),
    exists k us wk,
      (k <= n)%nat
      /\ all_ok (fun j => SpectrumAnalyzer.set_marker j false) (indices k i) w us wk
      /\ ((k = n /\ SpectrumAnalyzer.clear_markers_loop n i w = (Ok tt, wk))
          \/ ((k < n)%nat
              /\ exists e w',
                   SpectrumAnalyzer.set_marker (i + Z.of_nat k) false wk
                   = (Raise e, w')
                   /\ SpectrumAnalyzer.clear_markers_loop n i w = (Ok tt, w'))).
Proof.
  induction n as [|n IH]; intros i w; cbn [SpectrumAnalyzer.clear_markers_loop].
  - exists O, [], w. split; [lia|]. split; [constructor|]. left. auto.
  - destruct (SpectrumAnalyzer.set_marker i false w) as [[u|e] w1] eqn:Em.
    + destruct (IH (i + 1) w1) as (k & us & wk & Hk & Hok & Hend).
      exists (S k), (u :: us), wk. split; [lia|]. split.
      * cbn [indices]. econstructor; eassumption.
      * destruct Hend as [[-> E]|(Hlt & e & w' & Ef & E)].
        { left. auto. }
        right. split; [lia|]. exists e, w'. split; [|exact E].
        replace (i + Z.of_nat (S k)) with (i + 1 + Z.of_nat k) by lia. exact Ef.
    + exists O, [], w. split; [lia|]. split; [constructor|].
      right. split; [lia|]. exists e, w1.
      replace (i + Z.of_nat 0) with i by lia. auto.
Qed.

End ClearingStops.

(** X10.  [SpectrumAnalyzer.clear_markers] never raises, and a marker
    that cannot be switched off ends the loop: markers 1 to k are
    switched off one after the other, and either k is [max_markers],
    or marker k + 1 refused and the method returns with the session
    that refusal left, so that no later marker is touched.  It only
    writes, at most two commands per marker.  When the instrument
    accepts every write, the markers 1 to [max_markers] are switched
    off in order, each with the first spelling of the command. *)
Theorem sa_clear_markers_is_silent :
  forall (Dev : Type) (I : Instrument Dev) (max_markers : Z) (w : session Dev),
    (exists w' ws,
        SpectrumAnalyzer.clear_markers max_markers w = (Ok tt, w')
        /\ calls w' = (calls w ++ map EvWrite ws)%list
        /\ (List.length ws <= 2 * Z.to_nat max_markers)%nat)
    /\ (exists k us wk,
           (k <= Z.to_nat max_markers)%nat
           /\ all_ok (fun j => SpectrumAnalyzer.set_marker j false)
                (indices k 1) w us wk
           /\ ((k = Z.to_nat max_markers
                /\ SpectrumAnalyzer.clear_markers max_markers w = (Ok tt, wk))
               \/ ((k < Z.to_nat max_markers)%nat
                   /\ exists e w',
                        SpectrumAnalyzer.set_marker (1 + Z.of_nat k) false wk
                        = (Raise e, w')
                        /\ SpectrumAnalyzer.clear_markers max_markers w
                           = (Ok tt, w'))))
    /\ (accepts_writes -> is_open w = true ->
        exists w',
          SpectrumAnalyzer.clear_markers max_markers w = (Ok tt, w')
          /\ calls w'
             = (calls w ++ map marker_off (indices (Z.to_nat max_markers) 1))%list).
Proof.
  intros Dev I max_markers w. split; [|split].
  - apply sa_clear_markers_loop_spec.
  - apply sa_clear_markers_loop_stops.
  - intros Hacc Hopen.
    destruct (sa_clear_markers_loop_accepted (Z.to_nat max_markers) 1 w Hacc Hopen)
      as (w' & E & Hc & _).
    eauto.
Qed.

Lemma sa_clear_markers_is_silent_witness :
  let w := mkSession "ready" true true [] [] : session string in
  @accepts_writes string Bench.agreeable
  /\ is_open w = true
  /\ exists w',
       @SpectrumAnalyzer.clear_markers string Bench.agreeable 3 w = (Ok tt, w')
       /\ calls w' = [marker_off 1; marker_off 2; marker_off 3].
Proof.
  intros w.
  assert (Hacc : @accepts_writes string Bench.agreeable) by (intros c d; reflexivity).
  assert (Hopen : is_open w = true) by reflexivity.
  split; [exact Hacc|]. split; [exact Hopen|].
  exact (proj2 (proj2 (sa_clear_markers_is_silent string Bench.agreeable 3 w))
           Hacc Hopen).
Defined.

(** A marker that refuses both spellings stops the loop; nothing is
    raised and marker 3 is not touched. *)
Example sa_clear_markers_stops :
  SpectrumAnalyzer.clear_markers 3
    (fresh [Ok ""; Raise (VisaIOError "a"); Raise (VisaIOError "b"); Ok ""])
  = (Ok tt,
     mkSession [Ok ""] true true
       [EvWrite "CALC:MARK1:STAT OFF"; EvWrite "CALC:MARK2:STAT OFF";
        EvWrite "CALC:MARKER2:STATE OFF"] []).
Proof. reflexivity. Qed.

Section Scanning.
Context {Dev : Type} `{Instrument Dev}.

Lemma ascending_widen : forall l lo hi hi',
    hi <= hi' -> ascending lo hi l -> ascending lo hi' l.
Proof.
  induction l as [|x l IH]; intros lo hi hi' Hle; simpl; [auto|].
  intros [Hx Hl]. split; [lia|]. eapply IH; eauto.
Qed.

Lemma ascending_snoc : forall l lo i,
    lo <= i -> ascending lo (i - 1) l -> ascending lo i (l ++ [i]).
Proof.
  induction l as [|x l IH]; intros lo i Hlo; simpl.
  - intros _. split; [lia|exact I].
  - intros [Hx Hl]. split; [lia|]. apply IH; [lia|exact Hl].
Qed.

(** One turn of the scan of the spectrum analyzer makes at most two
    queries. *)
Lemma sa_marker_is_on_calls : forall i (w w' : session Dev) r,
    SpectrumAnalyzer.marker_is_on i w = (r, w') ->
    exists qs, calls w' = (calls w ++ map EvQuery qs)%list
               /\ (List.length qs <= 2)%nat.
Proof.
  intros i w w' r. unfold SpectrumAnalyzer.marker_is_on, bind.
  destruct (SpectrumAnalyzer._try_query_any _ w) as [[s|e] w1] eqn:E.
  - assert (Hq : exists qs, calls w1 = (calls w ++ map EvQuery qs)%list
                            /\ (List.length qs <= 2)%nat).
    { unfold SpectrumAnalyzer._try_query_any in E.
      rewrite try_query_loop_eq in E.
      match type of E with
      | try_loop _ ?cmds None w = _ =>
          pose proof (try_loop_spec string SpectrumAnalyzer.query EvQuery
                        sa_query_calls cmds None w) as S
      end.
      rewrite E in S.
      destruct S as (pre & c & post & es & w2 & Hsplit & _ & _ & Hc).
      exists (pre ++ [c])%list. split; [exact Hc|].
      apply (f_equal (@List.length string)) in Hsplit.
      rewrite length_app in *. simpl in *. lia. }
    unfold lift, ret.
    destruct (PyFloat.of_string s) as [f|e]; [|intros [= <- <-]; exact Hq].
    destruct (PyFloat.to_int f) as [n|e]; intros [= <- <-]; exact Hq.
  - intros [= <- <-].
    unfold SpectrumAnalyzer._try_query_any in E.
    rewrite try_query_loop_eq in E.
    match type of E with
    | try_loop _ ?cmds None w = _ =>
        pose proof (try_loop_spec string SpectrumAnalyzer.query EvQuery
                      sa_query_calls cmds None w) as S
    end.
    rewrite E in S. destruct S as (es & _ & _ & Hc).
    eexists. split; [exact Hc|]. simpl. lia.
Qed.

(** One turn of the scan of the network analyzer makes one query. *)
Lemma vna_marker_is_on_calls : forall i (w w' : session Dev) r,
    VNA.marker_is_on i w = (r, w') ->
    calls w'
    = (calls w ++ [EvQuery ("CALC:MARK" ++ PyStr.of_int i ++ ":STAT?")])%list.
Proof.
  intros i w w' r. unfold VNA.marker_is_on, bind.
  destruct (VNA.query _ w) as [[s|e] w1] eqn:E; apply vna_query_calls in E.
  - unfold lift, ret.
    destruct (PyFloat.of_string s) as [f|e]; [|intros [= <- <-]; exact E].
    destruct (PyFloat.to_int f) as [n|e]; intros [= <- <-]; exact E.
  - intros [= <- <-]. exact E.
Qed.

Lemma sa_active_markers_loop_spec : forall n i acc (w : session Dev),
    1 <= i -> ascending 1 (i - 1) acc ->
    exists l w' qs,
      SpectrumAnalyzer.active_markers_loop n i acc w = (Ok l, w')
      /\ ascending 1 (i + Z.of_nat n - 1) l
      /\ calls w' = (calls w ++ map EvQuery qs)%list
      /\ (List.length qs <= 2 * n)%nat.
Proof.
  induction n as [|n IH]; intros i acc w Hi Hacc;
    cbn [SpectrumAnalyzer.active_markers_loop].
  - exists acc, w, []. unfold ret. simpl. rewrite app_nil_r.
    repeat split; auto. eapply ascending_widen; [|exact Hacc]. lia.
  - destruct (SpectrumAnalyzer.marker_is_on i w) as [[b|e] w1] eqn:Em;
      destruct (sa_marker_is_on_calls _ _ _ _ Em) as (q1 & H1 & L1).
    + destruct (IH (i + 1) (if b then (acc ++ [i])%list else acc) w1)
        as (l & w' & q2 & E2 & A2 & H2 & L2); [lia| |].
      * replace (i + 1 - 1) with i by lia.
        destruct b; [apply ascending_snoc; [lia|exact Hacc]|].
        eapply ascending_widen; [|exact Hacc]. lia.
      * exists l, w', (q1 ++ q2)%list. split; [exact E2|]. split.
        { replace (i + Z.of_nat (S n) - 1) with (i + 1 + Z.of_nat n - 1) by lia.
          exact A2. }
        split; [rewrite H2, H1, map_app, app_assoc; reflexivity|].
        rewrite length_app. lia.
    + exists acc, w1, q1. split; [reflexivity|]. split.
      * eapply ascending_widen; [|exact Hacc]. lia.
      * split; [exact H1|lia].
Qed.

Lemma vna_active_markers_loop_spec : forall n i acc (w : session Dev),
    1 <= i -> ascending 1 (i - 1) acc ->
    exists l w' k,
      VNA.active_markers_loop n i acc w = (Ok l, w')
      /\ ascending 1 (i + Z.of_nat n - 1) l
      /\ calls w'
         = (calls w
            ++ map (fun j => EvQuery ("CALC:MARK" ++ PyStr.of_int j ++ ":STAT?"))
                 (indices k i))%list
      /\ (k <= n)%nat.
Proof.
  induction n as [|n IH]; intros i acc w Hi Hacc;
    cbn [VNA.active_markers_loop].
  - exists acc, w, O. unfold ret. simpl. rewrite app_nil_r.
    repeat split; auto. eapply ascending_widen; [|exact Hacc]. lia.
  - destruct (VNA.marker_is_on i w) as [[b|e] w1] eqn:Em;
      pose proof (vna_marker_is_on_calls _ _ _ _ Em) as H1.
    + destruct (IH (i + 1) (if b then (acc ++ [i])%list else acc) w1)
        as (l & w' & k & E2 & A2 & H2 & L2); [lia| |].
      * replace (i + 1 - 1) with i by lia.
        destruct b; [apply ascending_snoc; [lia|exact Hacc]|].
        eapply ascending_widen; [|exact Hacc]. lia.
      * exists l, w', (S k). split; [exact E2|]. split.
        { replace (i + Z.of_nat (S n) - 1) with (i + 1 + Z.of_nat n - 1) by lia.
          exact A2. }
        split; [|lia].
        rewrite H2, H1, <- app_assoc. reflexivity.
    + exists acc, w1, 1%nat. split; [reflexivity|]. split.
      * eapply ascending_widen; [|exact Hacc]. lia.
      * split; [exact H1|lia].
Qed.

End Scanning.

Section ScanStops.
Context {Dev : Type} `{Instrument Dev}.

Lemma switched_on_cons : forall i idxs b states,
    switched_on (i :: idxs) (b :: states)
    = ((if b then [i] else []) ++ switched_on idxs states)%list.
Proof. intros i idxs b states. unfold switched_on. destruct b; reflexivity. Qed.

(** The scan reads the markers in order until one cannot be read; it
    returns the markers read as on, with the session the failure left. *)
Lemma sa_active_markers_loop_scan : forall n i acc (w : session Dev),
    exists k states wk,
      (k <= n)%nat
      /\ all_ok SpectrumAnalyzer.marker_is_on (indices k i) w states wk
      /\ ((k = n
           /\ SpectrumAnalyzer.active_markers_loop n i acc w
              = (Ok (acc ++ switched_on (indices k i) states)%list, wk))
          \/ ((k < n)%nat
              /\ exists e w',
                   SpectrumAnalyzer.marker_is_on (i + Z.of_nat k) wk = (Raise e, w')
                   /\ SpectrumAnalyzer.active_markers_loop n i acc w
                      = (Ok (acc ++ switched_on (indices k i) states)%list, w'))).
Proof.
  induction n as [|n IH]; intros i acc w;
    cbn [SpectrumAnalyzer.active_markers_loop].
  - exists O, [], w. split; [lia|]. split; [constructor|]. left.
    split; [reflexivity|]. unfold ret. cbn. rewrite app_nil_r. reflexivity.
  - destruct (SpectrumAnalyzer.marker_is_on i w) as [[b|e] w1] eqn:Em.
    + destruct (IH (i + 1) (if b then (acc ++ [i])%list else acc) w1)
        as (k & states & wk & Hk & Hok & Hend).
      assert (Hl : ((if b then (acc ++ [i])%list else acc)
                    ++ switched_on (indices k (i + 1)) states
                    = acc ++ switched_on (indices (S k) i) (b :: states))%list).
      { cbn [indices]. rewrite switched_on_cons.
        destruct b; [rewrite <- app_assoc|]; reflexivity. }
      rewrite Hl in Hend.
      exists (S k), (b :: states), wk. split; [lia|]. split.
      * cbn [indices]. econstructor; eassumption.
      * destruct Hend as [[-> E]|(Hlt & e & w' & Ef & E)].
        { left. auto. }
        right. split; [lia|]. exists e, w'. split; [|exact E].
        replace (i + Z.of_nat (S k)) with (i + 1 + Z.of_nat k) by lia. exact Ef.
    + exists O, [], w. split; [lia|]. split; [constructor|].
      right. split; [lia|]. exists e, w1.
      replace (i + Z.of_nat 0) with i by lia. split; [exact Em|].
      cbn. rewrite app_nil_r. reflexivity.
Qed.

Lemma vna_active_markers_loop_scan : forall n i acc (w : session Dev),
    exists k states wk,
      (k <= n)%nat
      /\ all_ok VNA.marker_is_on (indices k i) w states wk
      /\ ((k = n
           /\ VNA.active_markers_loop n i acc w
              = (Ok (acc ++ switched_on (indices k i) states)%list, wk))
          \/ ((k < n)%nat
              /\ exists e w',
                   VNA.marker_is_on (i + Z.of_nat k) wk = (Raise e, w')
                   /\ VNA.active_markers_loop n i acc w
                      = (Ok (acc ++ switched_on (indices k i) states)%list, w'))).
Proof.
  induction n as [|n IH]; intros i acc w; cbn [VNA.active_markers_loop].
  - exists O, [], w. split; [lia|]. split; [constructor|]. left.
    split; [reflexivity|]. unfold ret. cbn. rewrite app_nil_r. reflexivity.
  - destruct (VNA.marker_is_on i w) as [[b|e] w1] eqn:Em.
    + destruct (IH (i + 1) (if b then (acc ++ [i])%list else acc) w1)
        as (k & states & wk & Hk & Hok & Hend).
      assert (Hl : ((if b then (acc ++ [i])%list else acc)
                    ++ switched_on (indices k (i + 1)) states
                    = acc ++ switched_on (indices (S k) i) (b :: states))%list).
      { cbn [indices]. rewrite switched_on_cons.
        destruct b; [rewrite <- app_assoc|]; reflexivity. }
      rewrite Hl in Hend.
      exists (S k), (b :: states), wk. split; [lia|]. split.
      * cbn [indices]. econstructor; eassumption.
      * destruct Hend as [[-> E]|(Hlt & e & w' & Ef & E)].
        { left. auto. }
        right. split; [lia|]. exists e, w'. split; [|exact E].
        replace (i + Z.of_nat (S k)) with (i + 1 + Z.of_nat k) by lia. exact Ef.
    + exists O, [], w. split; [lia|]. split; [constructor|].
      right. split; [lia|]. exists e, w1.
      replace (i + Z.of_nat 0) with i by lia. split; [exact Em|].
      cbn. rewrite app_nil_r. reflexivity.
Qed.

End ScanStops.

(** X11.  [active_markers] never raises, on either analyzer.  The
    states of markers 1 to k are read one after the other, and either
    k is [max_markers] (10 on the network analyzer), or the state of
    marker k + 1 could not be read or parsed and the scan ends there;
    the result is the list of the markers among 1..k that were read
    as on, and the session is the one the last reading left.  The
    result increases strictly and stays within 1..[max_markers] (1..10
    on the network analyzer).  The spectrum analyzer makes at most two
    queries per marker; the network analyzer asks for the state of
    markers 1, 2, ..., k in order, with k at most 10. *)
Theorem active_markers_is_total_and_sorted :
  forall (Dev : Type) (I : Instrument Dev) (w : session Dev),
    (forall max_markers,
        exists l w' qs,
          SpectrumAnalyzer.active_markers max_markers w = (Ok l, w')
          /\ ascending 1 max_markers l
          /\ calls w' = (calls w ++ map EvQuery qs)%list
          /\ (List.length qs <= 2 * Z.to_nat max_markers)%nat)
    /\ (exists l w' k,
           VNA.active_markers w = (Ok l, w')
           /\ ascending 1 10 l
           /\ calls w'
              = (calls w
                 ++ map (fun j => EvQuery ("CALC:MARK" ++ PyStr.of_int j ++ ":STAT?"))
                      (indices k 1))%list
           /\ (k <= 10)%nat)
    /\ (forall max_markers,
           exists k states wk,
             (k <= Z.to_nat max_markers)%nat
             /\ all_ok SpectrumAnalyzer.marker_is_on (indices k 1) w states wk
             /\ ((k = Z.to_nat max_markers
                  /\ SpectrumAnalyzer.active_markers max_markers w
                     = (Ok (switched_on (indices k 1) states), wk))
                 \/ ((k < Z.to_nat max_markers)%nat
                     /\ exists e w',
                          SpectrumAnalyzer.marker_is_on (1 + Z.of_nat k) wk
                          = (Raise e, w')
                          /\ SpectrumAnalyzer.active_markers max_markers w
                             = (Ok (switched_on (indices k 1) states), w'))))
    /\ (exists k states wk,
           (k <= 10)%nat
           /\ all_ok VNA.marker_is_on (indices k 1) w states wk
           /\ ((k = 10%nat
                /\ VNA.active_markers w
                   = (Ok (switched_on (indices k 1) states), wk))
               \/ ((k < 10)%nat
                   /\ exists e w',
                        VNA.marker_is_on (1 + Z.of_nat k) wk = (Raise e, w')
                        /\ VNA.active_markers w
                           = (Ok (switched_on (indices k 1) states), w')))).
Proof.
  intros Dev I w. split; [|split; [|split]].
  - intros max_markers.
    destruct (sa_active_markers_loop_spec (Z.to_nat max_markers) 1 [] w)
      as (l & w' & qs & E & A & Hc & L); [lia|exact Logic.I|].
    exists l, w', qs. split; [exact E|]. split; [|auto].
    destruct (Z_le_gt_dec 0 max_markers) as [Hm|Hm].
    + rewrite Z2Nat.id in A by lia.
      replace (1 + max_markers - 1) with max_markers in A by lia. exact A.
    + replace (Z.to_nat max_markers) with O in E by lia.
      simpl in E. injection E as <- _. exact Logic.I.
  - destruct (vna_active_markers_loop_spec 10 1 [] w)
      as (l & w' & k & E & A & Hc & L); [lia|exact Logic.I|].
    exists l, w', k. auto.
  - intros max_markers.
    exact (sa_active_markers_loop_scan (Z.to_nat max_markers) 1 [] w).
  - exact (vna_active_markers_loop_scan 10 1 [] w).
Qed.

(** The scan stops at the first unreadable marker: marker 3 is on but
    is never asked. *)
Example vna_active_markers_stops :
  VNA.active_markers (fresh [Ok "1"; Ok "on"; Ok "1"])
  = (Ok [1],
     mkSession [Ok "1"] true true
       [EvQuery "CALC:MARK1:STAT?"; EvQuery "CALC:MARK2:STAT?"] []).
Proof. vm_compute. reflexivity. Qed.

Section MarkerTable.
Context {Dev : Type} `{Instrument Dev}.

Lemma read_markers_indices : forall actives acc (w w' : session Dev) results,
    VNA.read_markers actives acc w = (Ok results, w') ->
    map marker_index results = (map marker_index acc ++ actives)%list.
Proof.
  induction actives as [|idx rest IH]; intros acc w w' results;
    cbn [VNA.read_markers].
  - unfold ret. intros [= <- <-]. rewrite app_nil_r. reflexivity.
  - unfold bind at 1.
    destruct (VNA.get_marker_xy idx w) as [[[x y]|e] w1]; [|discriminate].
    intros E. apply IH in E. rewrite E, map_app, <- app_assoc. reflexivity.
Qed.

Lemma vna_write_stdout : forall c (w w' : session Dev) r,
    VNA.write c w = (r, w') -> stdout w' = stdout w.
Proof.
  intros c w w' r. unfold VNA.write, try_except, res_write, raise. simpl.
  destruct (is_open w).
  - destruct (visa_write c (device w)) as [[u'|e'] d];
      try destruct e'; intros [= <- <-]; reflexivity.
  - intros [= <- <-]. reflexivity.
Qed.

Lemma vna_clear_markers_loop_spec : forall n i (w : session Dev),
    exists k us wk,
      (k <= n)%nat
      /\ all_ok (fun j => VNA.write (vna_marker_off j)) (indices k i) w us wk
      /\ calls wk = (calls w ++ map marker_off (indices k i))%list
      /\ stdout wk = stdout w
      /\ ((k = n /\ VNA.clear_markers_loop n i w = (Ok tt, wk))
          \/ ((k < n)%nat
              /\ exists e w1 w',
                   VNA.write (vna_marker_off (i + Z.of_nat k)) wk = (Raise e, w1)
                   /\ VNA.clear_markers_loop n i w = (Ok tt, w')
                   /\ calls w' = (calls wk ++ [marker_off (i + Z.of_nat k)])%list
                   /\ stdout w'
                      = (stdout w
                         ++ [("Error al intentar borrar marcador "
                                ++ PyStr.of_int (i + Z.of_nat k)
                                ++ ": " ++ exn_str e)%string])%list)).
Proof.
  induction n as [|n IH]; intros i w; cbn [VNA.clear_markers_loop].
  - exists O, [], w. cbn [indices map]. rewrite app_nil_r.
    split; [lia|]. split; [constructor|]. split; [reflexivity|].
    split; [reflexivity|]. left. auto.
  - change ("CALC:MARK" ++ PyStr.of_int i ++ ":STAT OFF")
      with (vna_marker_off i).
    destruct (VNA.write (vna_marker_off i) w) as [[u|e] w1] eqn:Ew;
      pose proof (vna_write_calls _ _ _ _ Ew) as H1;
      pose proof (vna_write_stdout _ _ _ _ Ew) as Hs.
    + destruct (IH (i + 1) w1) as (k & us & wk & Hk & Hok & Hc & Hso & Hend).
      exists (S k), (u :: us), wk. split; [lia|]. split.
      { cbn [indices]. econstructor; eassumption. }
      split.
      { rewrite Hc, H1, <- app_assoc. reflexivity. }
      split; [congruence|].
      destruct Hend as [[-> E]|(Hlt & e & w2 & w' & Ef & E & Hc' & Hs')].
      * left. auto.
      * right. split; [lia|]. exists e, w2, w'.
        replace (i + Z.of_nat (S k)) with (i + 1 + Z.of_nat k) by lia.
        split; [exact Ef|]. split; [exact E|]. split; [exact Hc'|].
        rewrite Hs', Hs. reflexivity.
    + exists O, [], w. cbn [indices map]. rewrite app_nil_r.
      split; [lia|]. split; [constructor|]. split; [reflexivity|].
      split; [reflexivity|]. right. split; [lia|].
      replace (i + Z.of_nat 0) with i by lia.
      eexists e, w1, _. split; [exact Ew|]. unfold print.
      split; [reflexivity|]. cbn [calls stdout]. split; [exact H1|].
      rewrite Hs. reflexivity.
Qed.

End MarkerTable.

(** X12.  When [VNA.get_all_marker_xy] returns, its entries are those
    of the markers [active_markers] reported on the same session, one
    entry per marker and in the same order; so the indices increase
    strictly within 1..10.  A marker whose position or value cannot be
    read makes the whole call raise: no partial table is returned. *)
Theorem get_all_marker_xy_follows_active_markers :
  forall (Dev : Type) (I : Instrument Dev) (w w2 : session Dev) results,
    VNA.get_all_marker_xy w = (Ok results, w2) ->
    (exists w1, VNA.active_markers w = (Ok (map marker_index results), w1))
    /\ ascending 1 10 (map marker_index results).
Proof.
  intros Dev I w w2 results. unfold VNA.get_all_marker_xy, bind.
  destruct (vna_active_markers_loop_spec 10 1 [] w)
    as (l & w1 & k & E & A & _); [lia|exact Logic.I|].
  change (VNA.active_markers_loop 10 1 [] w) with (VNA.active_markers w) in E.
  rewrite E. intros R. apply read_markers_indices in R. simpl in R.
  rewrite R. split; [exists w1; reflexivity|exact A].
Qed.

Lemma get_all_marker_xy_follows_active_markers_witness :
  let w := fresh [Ok "0"; Ok "1"; Ok "0"; Ok "1"; Ok "0"; Ok "0"; Ok "0";
                  Ok "0"; Ok "0"; Ok "0";
                  Ok "1e9"; Ok "-3.5"; Ok "2e9"; Ok "-10"] in
  (exists results w2,
      VNA.get_all_marker_xy w = (Ok results, w2)
      /\ map marker_index results = [2; 4])
  /\ ascending 1 10 [2; 4].
Proof.
  intros w.
  assert (E : exists results w2,
             VNA.get_all_marker_xy w = (Ok results, w2)
             /\ map marker_index results = [2; 4]).
  { vm_compute. eexists _, _. split; reflexivity. }
  split; [exact E|].
  destruct E as (results & w2 & E & Hi). rewrite <- Hi.
  exact (proj2 (get_all_marker_xy_follows_active_markers _ _ w w2 results E)).
Defined.

(** A marker that cannot be read loses the whole table. *)
Example get_all_marker_xy_all_or_nothing :
  fst (VNA.get_all_marker_xy
         (fresh [Ok "1"; Ok "1"; Ok "0"; Ok "0"; Ok "0"; Ok "0"; Ok "0";
                 Ok "0"; Ok "0"; Ok "0";
                 Ok "1e9"; Ok "-3.5"; Ok "2e9"; Ok "--"]))
  = Raise (ValueError_float "--").
Proof. vm_compute. reflexivity. Qed.

(** X13.  [VNA.clear_markers] never raises.  It switches off markers
    1, 2, ..., k one after the other, each write returning normally,
    and nothing is printed so far.  Either k is [max_markers] and the
    method returns there, or the write for marker k + 1 raised: then
    exactly one line naming marker k + 1 and that error is printed,
    and the method returns without touching a later marker. *)
Theorem vna_clear_markers_reports_and_stops :
  forall (Dev : Type) (I : Instrument Dev) (max_markers : Z) (w : session Dev),
    exists k us wk,
      (k <= Z.to_nat max_markers)%nat
      /\ all_ok (fun j => VNA.write (vna_marker_off j)) (indices k 1) w us wk
      /\ calls wk = (calls w ++ map marker_off (indices k 1))%list
      /\ stdout wk = stdout w
      /\ ((k = Z.to_nat max_markers
           /\ VNA.clear_markers max_markers w = (Ok tt, wk))
          \/ ((k < Z.to_nat max_markers)%nat
              /\ exists e w1 w',
                   VNA.write (vna_marker_off (1 + Z.of_nat k)) wk = (Raise e, w1)
                   /\ VNA.clear_markers max_markers w = (Ok tt, w')
                   /\ calls w' = (calls wk ++ [marker_off (1 + Z.of_nat k)])%list
                   /\ stdout w'
                      = (stdout w
                         ++ [("Error al intentar borrar marcador "
                                ++ PyStr.of_int (1 + Z.of_nat k)
                                ++ ": " ++ exn_str e)%string])%list)).
Proof.
  intros Dev I max_markers w.
  exact (vna_clear_markers_loop_spec (Z.to_nat max_markers) 1 w).
Qed.

Example vna_clear_markers_prints :
  VNA.clear_markers 10 (fresh [Ok ""; Raise (VisaIOError "timeout"); Ok ""])
  = (Ok tt,
     mkSession [Ok ""] true true
       [EvWrite "CALC:MARK1:STAT OFF"; EvWrite "CALC:MARK2:STAT OFF"]
       ["Error al intentar borrar marcador 2: VISA write error en 'CALC:MARK2:STAT OFF': timeout"]).
Proof. vm_compute. reflexivity. Qed.

(** *** The signal generator's read-outs and composite commands *)

Section Generator.
Context {Dev : Type} `{Instrument Dev}.

Lemma res_write_stdout : forall c (w w' : session Dev) r,
    res_write c w = (r, w') -> stdout w' = stdout w.
Proof.
  intros c w w' r. unfold res_write. simpl.
  destruct (is_open w).
  - destruct (visa_write c (device w)) as [r' d]. intros [= <- <-]. reflexivity.
  - intros [= <- <-]. reflexivity.
Qed.

Lemma res_query_stdout : forall c (w w' : session Dev) r,
    res_query c w = (r, w') -> stdout w' = stdout w.
Proof.
  intros c w w' r. unfold res_query. simpl.
  destruct (is_open w).
  - destruct (visa_query c (device w)) as [r' d]. intros [= <- <-]. reflexivity.
  - intros [= <- <-]. reflexivity.
Qed.

(** The common shape of the four getters: one query, a parse, and a
    handler that prints [msg] and returns [None] on any exception. *)
Lemma reading_spec :
  forall (A B : Type) (c msg : string) (parse : string -> result A)
         (f : A -> B) (w : session Dev),
    exists v w',
      try_except
        (x <- res_query c ;;
         a <- lift (parse (PyStr.strip x)) ;;
         ret (Some (f a)))
        (fun _ => print msg ;;; ret None) w = (Ok v, w')
      /\ calls w' = (calls w ++ [EvQuery c])%list
      /\ stdout w' = (stdout w ++ complaint msg v)%list.
Proof.
  intros A B c msg parse f w. unfold try_except, bind.
  destruct (res_query c w) as [[x|e] w1] eqn:E;
    pose proof (res_query_calls _ _ _ _ E) as Hc;
    pose proof (res_query_stdout _ _ _ _ E) as Hs.
  - unfold lift. destruct (parse (PyStr.strip x)) as [a|e].
    + eexists _, _. split; [reflexivity|]. simpl.
      rewrite app_nil_r. auto.
    + eexists _, _. split; [reflexivity|]. simpl. rewrite Hs. auto.
  - eexists _, _. split; [reflexivity|]. simpl. rewrite Hs. auto.
Qed.

End Generator.

Lemma get_status_spec :
  forall (Dev : Type) (I : Instrument Dev) (w : session Dev),
    exists st w',
      AnaPico_sin20G.get_status w = (Ok st, w')
      /\ calls w'
         = (calls w ++ [EvQuery ":FREQ?"; EvQuery ":POW?";
                        EvQuery ":OUTP?"; EvQuery ":PHAS?"])%list
      /\ stdout w'
         = (stdout w
            ++ complaint "Error reading frequency" (AnaPico_sin20G.frequency st)
            ++ complaint "Error reading power" (AnaPico_sin20G.power st)
            ++ complaint "Error reading output state"
                 (AnaPico_sin20G.output_enabled st)
            ++ complaint "Error reading phase" (AnaPico_sin20G.phase st))%list.
Proof.
  intros Dev I w. unfold AnaPico_sin20G.get_status.
  destruct (reading_spec PyFloat.float PyFloat.float ":FREQ?"
              "Error reading frequency" PyFloat.of_string (fun v => v) w)
    as (f & w1 & E1 & C1 & S1).
  destruct (reading_spec PyFloat.float PyFloat.float ":POW?"
              "Error reading power" PyFloat.of_string (fun v => v) w1)
    as (p & w2 & E2 & C2 & S2).
  destruct (reading_spec Z bool ":OUTP?"
              "Error reading output state" PyInt.of_string PyInt.truthy w2)
    as (o & w3 & E3 & C3 & S3).
  destruct (reading_spec PyFloat.float PyFloat.float ":PHAS?"
              "Error reading phase" PyFloat.of_string (fun v => v) w3)
    as (ph & w4 & E4 & C4 & S4).
  exists (AnaPico_sin20G.mkStatus f p o ph), w4.
  split.
  - unfold bind at 1. unfold AnaPico_sin20G.get_frequency. rewrite E1.
    unfold bind at 1. unfold AnaPico_sin20G.get_power. rewrite E2.
    unfold bind at 1. unfold AnaPico_sin20G.get_output_state. rewrite E3.
    unfold bind at 1. unfold AnaPico_sin20G.get_phase. rewrite E4.
    reflexivity.
  - split.
    + rewrite C4, C3, C2, C1. repeat rewrite <- app_assoc. reflexivity.
    + cbn [AnaPico_sin20G.frequency AnaPico_sin20G.power
             AnaPico_sin20G.output_enabled AnaPico_sin20G.phase].
      rewrite S4, S3, S2, S1. repeat rewrite <- app_assoc. reflexivity.
Qed.

(** X14.  [AnaPico_sin20G.get_status] never raises.  Whatever the
    instrument does, it issues exactly the four queries [:FREQ?],
    [:POW?], [:OUTP?] and [:PHAS?] in this order, and prints one line
    for each reading it could not obtain, which is [None] in the
    result. *)
Theorem get_status_always_answers :
  forall (Dev : Type) (I : Instrument Dev) (w : session Dev),
    exists st w',
      AnaPico_sin20G.get_status w = (Ok st, w')
      /\ calls w'
         = (calls w ++ [EvQuery ":FREQ?"; EvQuery ":POW?";
                        EvQuery ":OUTP?"; EvQuery ":PHAS?"])%list
      /\ stdout w'
         = (stdout w
            ++ complaint "Error reading frequency" (AnaPico_sin20G.frequency st)
            ++ complaint "Error reading power" (AnaPico_sin20G.power st)
            ++ complaint "Error reading output state"
                 (AnaPico_sin20G.output_enabled st)
            ++ complaint "Error reading phase" (AnaPico_sin20G.phase st))%list.
Proof. exact get_status_spec. Qed.

(** A reply that is not a number and a time-out each cost one
    reading, not the call. *)
Example get_status_partial :
  AnaPico_sin20G.get_status
    (fresh [Ok "1e9"; Ok "n/a"; Raise (VisaIOError "timeout"); Ok " 0.5 "])
  = (Ok (AnaPico_sin20G.mkStatus
           (Some (S754_finite false 8388608000000000 (-23))) None None
           (Some (S754_finite false 4503599627370496 (-53)))),
     mkSession [] true true
       [EvQuery ":FREQ?"; EvQuery ":POW?"; EvQuery ":OUTP?"; EvQuery ":PHAS?"]
       ["Error reading power"; "Error reading output state"]).
Proof. vm_compute. reflexivity. Qed.

(** X15.  [AnaPico_sin20G.configure_sine_output] switches the output
    on last, and only when asked to and when the instrument has
    accepted both the frequency and the power: its calls are an
    initial segment of the frequency, power and output writes, and the
    output write is among them only if the two writes before it
    succeeded. *)
Theorem configure_sine_output_enables_last :
  forall (Dev : Type) (I : Instrument Dev) frequency power enable
         (w w' : session Dev) r,
    AnaPico_sin20G.configure_sine_output frequency power enable w = (r, w') ->
    exists evs,
      calls w' = (calls w ++ evs)%list
      /\ initial_segment evs (sine_commands frequency power)
      /\ (In (EvWrite ":OUTP ON") evs ->
          enable = true
          /\ exists w1 w2,
               AnaPico_sin20G.set_frequency frequency w = (Ok tt, w1)
               /\ AnaPico_sin20G.set_power power w1 = (Ok tt, w2)).
Proof.
  intros Dev I frequency power enable w w' r.
  unfold AnaPico_sin20G.configure_sine_output, bind.
  destruct (AnaPico_sin20G.set_frequency frequency w) as [[[]|e1] w1] eqn:E1;
    pose proof (res_write_calls _ _ _ _ E1) as C1.
  - destruct (AnaPico_sin20G.set_power power w1) as [[[]|e2] w2] eqn:E2;
      pose proof (res_write_calls _ _ _ _ E2) as C2.
    + destruct enable.
      * intros E3. pose proof (res_write_calls _ _ _ _ E3) as C3.
        exists (sine_commands frequency power). split.
        { rewrite C3, C2, C1. repeat rewrite <- app_assoc. reflexivity. }
        split; [exists []; rewrite app_nil_r; reflexivity|].
        intros _. split; [reflexivity|]. exists w1, w2. auto.
      * unfold ret. intros [= <- <-].
        exists (firstn 2 (sine_commands frequency power)). split.
        { rewrite C2, C1. repeat rewrite <- app_assoc. reflexivity. }
        split; [exists [EvWrite ":OUTP ON"]; reflexivity|].
        simpl. intros [F|[F|[]]]; discriminate F.
    + intros [= <- <-].
      exists (firstn 2 (sine_commands frequency power)). split.
      { rewrite C2, C1. repeat rewrite <- app_assoc. reflexivity. }
      split; [exists [EvWrite ":OUTP ON"]; reflexivity|].
      simpl. intros [F|[F|[]]]; discriminate F.
  - intros [= <- <-].
    exists (firstn 1 (sine_commands frequency power)). split; [exact C1|].
    split; [eexists; reflexivity|].
    simpl. intros [F|[]]; discriminate F.
Qed.

Lemma configure_sine_output_enables_last_witness :
  exists r w' evs,
    AnaPico_sin20G.configure_sine_output f_1_5 f_m5_0 true
      (fresh [Ok ""; Raise (VisaIOError "timeout"); Ok ""]) = (r, w')
    /\ calls w' = evs
    /\ initial_segment evs (sine_commands f_1_5 f_m5_0)
    /\ ~ In (EvWrite ":OUTP ON") evs.
Proof.
  destruct (AnaPico_sin20G.configure_sine_output f_1_5 f_m5_0 true
              (fresh [Ok ""; Raise (VisaIOError "timeout"); Ok ""]))
    as [r w'] eqn:E.
  destruct (configure_sine_output_enables_last _ _ _ _ _ _ _ _ E)
    as (evs & Hc & Hi & Hon).
  exists r, w', evs. split; [reflexivity|]. split; [exact Hc|].
  split; [exact Hi|].
  intros Hin. destruct (Hon Hin) as (_ & w1 & w2 & E1 & E2).
  vm_compute in E1. injection E1 as <-.
  vm_compute in E2. discriminate E2.
Defined.

(** *** Burst trigger of the waveform generator *)

(** X16.  [AWG_Rigol_DG922Pro.setup_trigger] compares the trigger
    source with the three names it knows, exactly and in upper case.
    When the instrument accepts every write, the three burst commands
    are followed by one [:TRIG] command for a known source, and by
    nothing for any other name: an unknown source is not an error and
    leaves the trigger source of the instrument as it was. *)
Theorem setup_trigger_ignores_unknown_source :
  forall (Dev : Type) (I : Instrument Dev) channel source burst_cycles
         (w : session Dev),
    accepts_writes -> is_open w = true ->
    exists w',
      AWG_Rigol_DG922Pro.setup_trigger channel source burst_cycles w = (Ok tt, w')
      /\ calls w'
         = (calls w
            ++ [EvWrite (":SOUR" ++ PyStr.of_int channel ++ ":BURS:STAT ON");
                EvWrite (":SOUR" ++ PyStr.of_int channel ++ ":BURS:MODE TRIG");
                EvWrite (":SOUR" ++ PyStr.of_int channel ++ ":BURS:NCYC "
                           ++ PyStr.of_int burst_cycles)]
            ++ (if known_trigger_source source
                then [EvWrite (":TRIG" ++ PyStr.of_int channel ++ ":SOUR "
                                 ++ source)]
                else []))%list.
Proof.
  intros Dev I channel source burst_cycles w Hacc Hopen.
  unfold AWG_Rigol_DG922Pro.setup_trigger, known_trigger_source.
  destruct (res_write_accepted
              (":SOUR" ++ PyStr.of_int channel ++ ":BURS:STAT ON") w Hacc Hopen)
    as (w1 & E1 & C1 & O1 & _).
  destruct (res_write_accepted
              (":SOUR" ++ PyStr.of_int channel ++ ":BURS:MODE TRIG") w1 Hacc O1)
    as (w2 & E2 & C2 & O2 & _).
  destruct (res_write_accepted
              (":SOUR" ++ PyStr.of_int channel ++ ":BURS:NCYC "
                 ++ PyStr.of_int burst_cycles) w2 Hacc O2)
    as (w3 & E3 & C3 & O3 & _).
  unfold bind at 1. rewrite E1. unfold bind at 1. rewrite E2.
  unfold bind at 1. rewrite E3.
  assert (C : calls w3
              = (calls w
                 ++ [EvWrite (":SOUR" ++ PyStr.of_int channel ++ ":BURS:STAT ON");
                     EvWrite (":SOUR" ++ PyStr.of_int channel ++ ":BURS:MODE TRIG");
                     EvWrite (":SOUR" ++ PyStr.of_int channel ++ ":BURS:NCYC "
                                ++ PyStr.of_int burst_cycles)])%list).
  { rewrite C3, C2, C1. repeat rewrite <- app_assoc. reflexivity. }
  destruct (String.eqb source "EXT") eqn:Ex;
    [apply String.eqb_eq in Ex; subst source|
     destruct (String.eqb source "INT") eqn:Ei;
     [apply String.eqb_eq in Ei; subst source|
      destruct (String.eqb source "MAN") eqn:Em;
      [apply String.eqb_eq in Em; subst source|]]];
    cbn [orb].
  - destruct (res_write_accepted (":TRIG" ++ PyStr.of_int channel ++ ":SOUR EXT")
                w3 Hacc O3) as (w4 & E4 & C4 & _).
    exists w4. split; [exact E4|]. rewrite C4, C, <- app_assoc. reflexivity.
  - destruct (res_write_accepted (":TRIG" ++ PyStr.of_int channel ++ ":SOUR INT")
                w3 Hacc O3) as (w4 & E4 & C4 & _).
    exists w4. split; [exact E4|]. rewrite C4, C, <- app_assoc. reflexivity.
  - destruct (res_write_accepted (":TRIG" ++ PyStr.of_int channel ++ ":SOUR MAN")
                w3 Hacc O3) as (w4 & E4 & C4 & _).
    exists w4. split; [exact E4|]. rewrite C4, C, <- app_assoc. reflexivity.
  - exists w3. split; [reflexivity|]. rewrite C, app_nil_r. reflexivity.
Qed.

(** A lower-case source takes the silent branch. *)
Lemma setup_trigger_ignores_unknown_source_witness :
  let w := mkSession "ready" true true [] [] : session string in
  @accepts_writes string Bench.agreeable
  /\ is_open w = true
  /\ exists w',
       @AWG_Rigol_DG922Pro.setup_trigger string Bench.agreeable 1 "ext" 5 w
       = (Ok tt, w')
       /\ calls w' = [EvWrite ":SOUR1:BURS:STAT ON";
                      EvWrite ":SOUR1:BURS:MODE TRIG";
                      EvWrite ":SOUR1:BURS:NCYC 5"].
Proof.
  intros w.
  assert (Hacc : @accepts_writes string Bench.agreeable) by (intros c d; reflexivity).
  assert (Hopen : is_open w = true) by reflexivity.
  split; [exact Hacc|]. split; [exact Hopen|].
  exact (setup_trigger_ignores_unknown_source string Bench.agreeable 1 "ext" 5 w
           Hacc Hopen).
Defined.

(** *** What the span validation lets through *)

Section Validation.
Context {Dev : Type} `{Instrument Dev}.

Lemma try_write_any_accepted : forall c cs (w : session Dev),
    accepts_writes -> is_open w = true ->
    exists w', SpectrumAnalyzer._try_write_any (c :: cs) w = (Ok tt, w')
               /\ calls w' = (calls w ++ [EvWrite c])%list
               /\ is_open w' = true.
Proof.
  intros c cs w Hacc Hopen.
  destruct (write_accepted c w Hacc Hopen) as (w1 & Ew & Hc & Ho & _).
  exists w1. unfold SpectrumAnalyzer._try_write_any.
  cbn [SpectrumAnalyzer.try_write_loop]. unfold try_except at 1.
  rewrite Ew. auto.
Qed.

Lemma leb_nan_l : forall x, PyFloat.leb S754_nan x = false.
Proof. intros x. destruct x; reflexivity. Qed.

Lemma leb_nan_r : forall x, PyFloat.leb x S754_nan = false.
Proof. intros x. destruct x; reflexivity. Qed.

End Validation.

(** X17.  The span checks are written as rejections ([span <= 0],
    [stop <= start]), and every comparison with a NaN is false: a NaN
    span, start or stop passes the check and is sent to the instrument
    as the text [nan].  With an instrument that accepts every write
    the call returns normally. *)
Theorem nan_passes_span_validation :
  forall (Dev : Type) (I : Instrument Dev) (w : session Dev),
    accepts_writes -> is_open w = true ->
    (forall center points,
        exists w',
          SpectrumAnalyzer.set_center_span center S754_nan points w = (Ok tt, w')
          /\ calls w'
             = (calls w ++ [EvWrite ("FREQ:CENT " ++ PyFloat.repr center);
                            EvWrite "FREQ:SPAN nan";
                            EvWrite ("SWE:POIN " ++ PyStr.of_int points)])%list)
    /\ (forall stop points,
           exists w',
             SpectrumAnalyzer.set_span S754_nan stop points w = (Ok tt, w')
             /\ calls w'
                = (calls w ++ [EvWrite "FREQ:STAR nan";
                               EvWrite ("FREQ:STOP " ++ PyFloat.repr stop);
                               EvWrite ("SWE:POIN " ++ PyStr.of_int points)])%list)
    /\ (forall start points,
           exists w',
             VNA.set_span start S754_nan points w = (Ok tt, w')
             /\ calls w'
                = (calls w ++ [EvWrite ("SENS:FREQ:STAR " ++ PyFloat.repr start);
                               EvWrite "SENS:FREQ:STOP nan";
                               EvWrite ("SENS:SWE:POIN " ++ PyStr.of_int points)])%list).
Proof.
  intros Dev I w Hacc Hopen. split; [|split].
  - intros center points. unfold SpectrumAnalyzer.set_center_span.
    rewrite leb_nan_l.
    destruct (try_write_any_accepted ("FREQ:CENT " ++ PyFloat.repr center)
                ["SENS:FREQ:CENT " ++ PyFloat.repr center] w Hacc Hopen)
      as (w1 & E1 & C1 & O1).
    destruct (try_write_any_accepted ("FREQ:SPAN " ++ PyFloat.repr S754_nan)
                ["SENS:FREQ:SPAN " ++ PyFloat.repr S754_nan] w1 Hacc O1)
      as (w2 & E2 & C2 & O2).
    destruct (try_write_any_accepted ("SWE:POIN " ++ PyStr.of_int points)
                ["SENS:SWE:POIN " ++ PyStr.of_int points] w2 Hacc O2)
      as (w3 & E3 & C3 & O3).
    exists w3. unfold bind at 1. rewrite E1. unfold bind at 1. rewrite E2.
    split; [exact E3|]. rewrite C3, C2, C1. repeat rewrite <- app_assoc.
    reflexivity.
  - intros stop points. unfold SpectrumAnalyzer.set_span.
    rewrite leb_nan_r.
    destruct (try_write_any_accepted ("FREQ:STAR " ++ PyFloat.repr S754_nan)
                ["SENS:FREQ:STAR " ++ PyFloat.repr S754_nan] w Hacc Hopen)
      as (w1 & E1 & C1 & O1).
    destruct (try_write_any_accepted ("FREQ:STOP " ++ PyFloat.repr stop)
                ["SENS:FREQ:STOP " ++ PyFloat.repr stop] w1 Hacc O1)
      as (w2 & E2 & C2 & O2).
    destruct (try_write_any_accepted ("SWE:POIN " ++ PyStr.of_int points)
                ["SENS:SWE:POIN " ++ PyStr.of_int points] w2 Hacc O2)
      as (w3 & E3 & C3 & O3).
    exists w3. unfold bind at 1. rewrite E1. unfold bind at 1. rewrite E2.
    split; [exact E3|]. rewrite C3, C2, C1. repeat rewrite <- app_assoc.
    reflexivity.
  - intros start points. unfold VNA.set_span.
    rewrite leb_nan_l.
    destruct (write_accepted ("SENS:FREQ:STAR " ++ PyFloat.repr start)
                w Hacc Hopen) as (w1 & E1 & C1 & O1 & _).
    destruct (write_accepted ("SENS:FREQ:STOP " ++ PyFloat.repr S754_nan)
                w1 Hacc O1) as (w2 & E2 & C2 & O2 & _).
    destruct (write_accepted ("SENS:SWE:POIN " ++ PyStr.of_int points)
                w2 Hacc O2) as (w3 & E3 & C3 & O3 & _).
    exists w3.
    unfold bind at 1.
    change (VNA.write ("SENS:FREQ:STAR " ++ PyFloat.repr start) w)
      with (SpectrumAnalyzer.write ("SENS:FREQ:STAR " ++ PyFloat.repr start) w).
    rewrite E1. unfold bind at 1.
    change (VNA.write ("SENS:FREQ:STOP " ++ PyFloat.repr S754_nan) w1)
      with (SpectrumAnalyzer.write ("SENS:FREQ:STOP " ++ PyFloat.repr S754_nan) w1).
    rewrite E2.
    split; [exact E3|]. rewrite C3, C2, C1. repeat rewrite <- app_assoc.
    reflexivity.
Qed.

Lemma nan_passes_span_validation_witness :
  let w := mkSession "ready" true true [] [] : session string in
  @accepts_writes string Bench.agreeable
  /\ is_open w = true
  /\ exists w',
       @SpectrumAnalyzer.set_center_span string Bench.agreeable
         f_1_5 S754_nan 1001 w = (Ok tt, w')
       /\ calls w' = [EvWrite "FREQ:CENT 1.5"; EvWrite "FREQ:SPAN nan";
                      EvWrite "SWE:POIN 1001"].
Proof.
  intros w.
  assert (Hacc : @accepts_writes string Bench.agreeable) by (intros c d; reflexivity).
  assert (Hopen : is_open w = true) by reflexivity.
  split; [exact Hacc|]. split; [exact Hopen|].
  exact (proj1 (nan_passes_span_validation string Bench.agreeable w Hacc Hopen)
           f_1_5 1001).
Defined.

(** *** The frequency axis without assumptions on start and stop *)

(** X18.  The arithmetic of [get_frequency_axis] cannot fail for a
    point count up to 2^53, whatever start and stop are (equal,
    reversed, infinite or NaN): the divisor [points - 1] is never zero
    where the division is reached.  The axis has [points] entries, and
    one entry when [points] is below 2 (also zero or negative). *)
Theorem linear_axis_never_fails :
  forall (f_start f_stop : PyFloat.float) (points : Z),
    points <= 2 ^ 53 ->
    exists axis,
      SpectrumAnalyzer.linear_axis f_start f_stop points = Ok axis
      /\ List.length axis = Z.to_nat (Z.max points 1).
Proof.
  intros f_start f_stop points Hp. unfold SpectrumAnalyzer.linear_axis.
  destruct (points <? 2) eqn:E.
  - apply Z.ltb_lt in E. exists [f_start]. split; [reflexivity|].
    simpl. lia.
  - apply Z.ltb_ge in E.
    destruct (points - 1) as [|p|p] eqn:Ep; try lia.
    destruct (of_int_pos_small p ltac:(lia)) as (m & e & Hd).
    rewrite Hd. unfold PyFloat.truediv. cbn [PyFloat.is_zero].
    destruct (axis_entries_spec f_start
                (SFdiv PyFloat.prec PyFloat.emax (PyFloat.sub f_stop f_start)
                   (S754_finite false m e))
                (range points)) as (axis & Ha & Hl & _).
    { intros i Hi. apply range_in in Hi. lia. }
    exists axis. split; [exact Ha|].
    rewrite Hl, range_length. f_equal. lia.
Qed.

Lemma linear_axis_never_fails_witness :
  3 <= 2 ^ 53
  /\ exists axis,
       SpectrumAnalyzer.linear_axis f_2_5 f_1_5 3 = Ok axis
       /\ List.length axis = 3%nat.
Proof.
  assert (Hp : 3 <= 2 ^ 53) by (vm_compute; discriminate).
  split; [exact Hp|].
  exact (linear_axis_never_fails f_2_5 f_1_5 3 Hp).
Defined.

(** With start equal to stop every entry is the start frequency, with
    stop below start the axis runs downwards. *)
Example linear_axis_reversed :
  SpectrumAnalyzer.linear_axis f_2_5 f_1_5 3
  = Ok [f_2_5; S754_finite false 4503599627370496 (-51); f_1_5].
Proof. vm_compute. reflexivity. Qed.

(** *** Opening the instrument *)

Section Opening.
Context {Dev : Type} `{Instrument Dev} `{Library Dev}.

Lemma sa_connect_tried : forall resource ip,
    (given resource = None -> (resource <> None \/ given ip = None) ->
     SpectrumAnalyzer.connect resource ip
     = (Raise (ValueError "Proporciona 'resource' o 'ip'"), []))
    /\ (forall r, given resource = Some r ->
          SpectrumAnalyzer.connect resource ip = (open_resource r, [r]))
    /\ (forall i, resource = None -> given ip = Some i ->
          let first := "TCPIP0::" ++ i ++ "::hislip0::INSTR" in
          let second := "TCPIP0::" ++ i ++ "::inst0::INSTR" in
          match open_resource first with
          | Ok d => SpectrumAnalyzer.connect resource ip = (Ok d, [first])
          | Raise _ =>
              match open_resource second with
              | Ok d =>
                  SpectrumAnalyzer.connect resource ip = (Ok d, [first; second])
              | Raise _ =>
                  SpectrumAnalyzer.connect resource ip
                  = (Raise (RuntimeError ("No pude abrir VISA en " ++ i
                                            ++ " (hislip0 ni inst0)")),
                     [first; second])
              end
          end).
Proof.
  intros resource ip. unfold SpectrumAnalyzer.connect. repeat split.
  - intros Hr Hor. destruct resource as [r|].
    + rewrite Hr. reflexivity.
    + destruct Hor as [Hn|Hi]; [congruence|]. rewrite Hi. simpl. reflexivity.
  - intros r Hr. destruct resource as [r0|]; [rewrite Hr; reflexivity|].
    discriminate Hr.
  - intros i -> Hi. rewrite Hi. cbn [SpectrumAnalyzer.open_first].
    destruct (open_resource ("TCPIP0::" ++ i ++ "::" ++ "hislip0" ++ "::INSTR"))
      as [d|e] eqn:E1;
      change ("TCPIP0::" ++ i ++ "::" ++ "hislip0" ++ "::INSTR")
        with ("TCPIP0::" ++ i ++ "::hislip0::INSTR") in E1;
      cbv zeta; rewrite E1; [reflexivity|].
    destruct (open_resource ("TCPIP0::" ++ i ++ "::" ++ "inst0" ++ "::INSTR"))
      as [d|e'] eqn:E2;
      change ("TCPIP0::" ++ i ++ "::" ++ "inst0" ++ "::INSTR")
        with ("TCPIP0::" ++ i ++ "::inst0::INSTR") in E2;
      rewrite E2; reflexivity.
Qed.

End Opening.

Section Constructing.
Context {Dev : Type} `{Instrument Dev} `{Library Dev}.

Lemma vna_connect_tried : forall resource ip,
    VNA.connect resource ip = SpectrumAnalyzer.connect resource ip.
Proof. reflexivity. Qed.

Lemma sa_init_spec : forall resource ip backend timeout_ms u,
    new_resource_manager (given backend) = Ok u ->
    let c := SpectrumAnalyzer.__init__ resource ip backend timeout_ms in
    tried c = snd (SpectrumAnalyzer.connect resource ip)
    /\ (forall e, fst (SpectrumAnalyzer.connect resource ip) = Raise e ->
          outcome c = Raise e /\ opened c = None)
    /\ (forall a, outcome c = Ok a ->
          opened c = Some (SpectrumAnalyzer.sa a)
          /\ calls (SpectrumAnalyzer.sa a) = [EvWrite "*CLS"; EvQuery "*IDN?"]).
Proof.
  intros resource ip backend timeout_ms u Hrm c. subst c.
  unfold SpectrumAnalyzer.__init__. rewrite Hrm.
  destruct (SpectrumAnalyzer.connect resource ip) as [[d|e] names]; cbn [fst snd].
  - destruct (SpectrumAnalyzer.write "*CLS" (mkSession d true true [] []))
      as [[u1|e1] w1] eqn:E1; pose proof (sa_write_calls _ _ _ _ E1) as C1.
    + destruct (SpectrumAnalyzer.query "*IDN?" w1) as [[reply|e2] w2] eqn:E2;
        pose proof (sa_query_calls _ _ _ _ E2) as C2; cbn.
      * split; [reflexivity|]. split; [discriminate|].
        intros a [= <-]. cbn. split; [reflexivity|].
        rewrite C2, C1. reflexivity.
      * split; [reflexivity|]. split; discriminate.
    + cbn. split; [reflexivity|]. split; discriminate.
  - cbn. split; [reflexivity|]. split; [|discriminate].
    intros e0 [= <-]. auto.
Qed.

Lemma vna_init_spec : forall resource ip backend timeout_ms u,
    new_resource_manager (given backend) = Ok u ->
    let c := VNA.__init__ resource ip backend timeout_ms in
    tried c = snd (SpectrumAnalyzer.connect resource ip)
    /\ (forall e, fst (SpectrumAnalyzer.connect resource ip) = Raise e ->
          outcome c = Raise e /\ opened c = None)
    /\ (forall a, outcome c = Ok a ->
          opened c = Some (VNA.vna a)
          /\ calls (VNA.vna a) = [EvWrite "*CLS"; EvQuery "*IDN?"]).
Proof.
  intros resource ip backend timeout_ms u Hrm c. subst c.
  unfold VNA.__init__. rewrite Hrm, vna_connect_tried.
  destruct (SpectrumAnalyzer.connect resource ip) as [[d|e] names]; cbn [fst snd].
  - destruct (VNA.write "*CLS" (mkSession d true true [] []))
      as [[u1|e1] w1] eqn:E1; pose proof (vna_write_calls _ _ _ _ E1) as C1.
    + destruct (VNA.query "*IDN?" w1) as [[reply|e2] w2] eqn:E2;
        pose proof (vna_query_calls _ _ _ _ E2) as C2; cbn.
      * split; [reflexivity|]. split; [discriminate|].
        intros a [= <-]. cbn. split; [reflexivity|].
        rewrite C2, C1. reflexivity.
      * split; [reflexivity|]. split; discriminate.
    + cbn. split; [reflexivity|]. split; discriminate.
  - cbn. split; [reflexivity|]. split; [|discriminate].
    intros e0 [= <-]. auto.
Qed.

(** Both constructors have the same opening behaviour, given what
    [connect] does. *)
Lemma opens_one_resource_of_spec :
  forall (Obj : Type) (handle : Obj -> session Dev) resource ip
         (c : construction Dev Obj),
    tried c = snd (SpectrumAnalyzer.connect resource ip) ->
    (forall e, fst (SpectrumAnalyzer.connect resource ip) = Raise e ->
       outcome c = Raise e /\ opened c = None) ->
    (forall a, outcome c = Ok a ->
       opened c = Some (handle a)
       /\ calls (handle a) = [EvWrite "*CLS"; EvQuery "*IDN?"]) ->
    opens_one_resource handle resource ip c.
Proof.
  intros Obj handle resource ip c Ht Hr Ho.
  destruct (sa_connect_tried resource ip) as (Ka & Kb & Kc).
  unfold opens_one_resource. split; [|split; [|split]].
  - intros Hn Hor. specialize (Ka Hn Hor). rewrite Ka in *.
    destruct (Hr _ eq_refl) as [H1 H2]. auto.
  - intros r Hg. specialize (Kb r Hg). rewrite Kb in *. split; [exact Ht|].
    intros e He. cbn [fst] in Hr. apply Hr. exact He.
  - intros i Hn Hi. specialize (Kc i Hn Hi). cbv zeta in *.
    destruct (open_resource ("TCPIP0::" ++ i ++ "::hislip0::INSTR")) as [d|e1].
    + rewrite Kc in Ht. exact Ht.
    + destruct (open_resource ("TCPIP0::" ++ i ++ "::inst0::INSTR")) as [d|e2];
        rewrite Kc in *; (split; [exact Ht|]).
      * discriminate.
      * intros e _. apply Hr. reflexivity.
  - exact Ho.
Qed.

End Constructing.

(** X19.  The constructors of both analyzers open exactly one
    resource.  A non-empty [resource] is the only name tried, [ip] is
    then ignored, and its failure is passed on unchanged.  With no
    [resource] and a non-empty [ip], [hislip0] is tried first and
    [inst0] only after it failed; when both fail a [RuntimeError] is
    raised.  With neither, or with an empty [resource] whatever [ip]
    is, [ValueError] is raised and nothing is opened.  An object is
    built only after [*CLS] was written and [*IDN?] answered, and
    these are the only calls made. *)
Theorem constructors_open_one_resource :
  forall (Dev : Type) (I : Instrument Dev) (L : Library Dev)
         resource ip backend timeout_ms u,
    new_resource_manager (given backend) = Ok u ->
    opens_one_resource SpectrumAnalyzer.sa resource ip
      (SpectrumAnalyzer.__init__ resource ip backend timeout_ms)
    /\ opens_one_resource VNA.vna resource ip
         (VNA.__init__ resource ip backend timeout_ms).
Proof.
  intros Dev I L resource ip backend timeout_ms u Hrm. split.
  - destruct (sa_init_spec resource ip backend timeout_ms u Hrm) as (A & B & C).
    apply opens_one_resource_of_spec; assumption.
  - destruct (vna_init_spec resource ip backend timeout_ms u Hrm) as (A & B & C).
    apply opens_one_resource_of_spec; assumption.
Qed.

Lemma constructors_open_one_resource_witness :
  let L := Bench.library_of
             [("TCPIP0::10.0.0.5::inst0::INSTR",
               [Ok ""; Ok "Rohde&Schwarz,FSV-7,101234,4.70"])] in
  let c := @SpectrumAnalyzer.__init__ Mock.script scripted L
             None (Some "10.0.0.5") None 10000 in
  @new_resource_manager Mock.script L (given None) = Ok tt
  /\ tried c = ["TCPIP0::10.0.0.5::hislip0::INSTR";
                "TCPIP0::10.0.0.5::inst0::INSTR"]
  /\ exists a,
       outcome c = Ok a
       /\ calls (SpectrumAnalyzer.sa a) = [EvWrite "*CLS"; EvQuery "*IDN?"].
Proof.
  intros L c.
  assert (Hrm : @new_resource_manager Mock.script L (given None) = Ok tt)
    by reflexivity.
  split; [exact Hrm|].
  destruct (proj1 (constructors_open_one_resource Mock.script scripted L
                     None (Some "10.0.0.5") None 10000 tt Hrm))
    as (_ & _ & Hip & Hok).
  split.
  - exact (proj1 (Hip "10.0.0.5" eq_refl eq_refl)).
  - destruct (outcome c) as [a|e] eqn:Ec; [|vm_compute in Ec; discriminate Ec].
    exists a. split; [reflexivity|]. exact (proj2 (Hok a Ec)).
Defined.

(** *** Sweeps of the signal generator *)

Section Sweeping.
Context {Dev : Type} `{Instrument Dev} `{Clock}.

(** Python's [==] on floats holds between a float and itself, and
    between the two zeros. *)
Lemma eqb_cases : forall a b,
    PyFloat.eqb a b = true ->
    a = b \/ (PyFloat.is_zero a = true /\ PyFloat.is_zero b = true).
Proof.
  intros a b. unfold PyFloat.eqb, SFeqb.
  destruct a as [sa|sa| |sa ma ea], b as [sb|sb| |sb mb eb]; cbn;
    try discriminate; try (right; split; reflexivity);
    try (destruct sa; discriminate); try (destruct sb; discriminate).
  - destruct sa, sb; try discriminate; left; reflexivity.
  - change (PosDef.Pos.compare_cont Eq ma mb) with (Pos.compare ma mb).
    destruct sa, sb; try discriminate;
      destruct (ea ?= eb) eqn:Ee; try discriminate;
      apply Z.compare_eq in Ee; subst eb;
      destruct (ma ?= mb)%positive eqn:Em; cbn; try discriminate;
      apply Pos.compare_eq in Em; subst; left; reflexivity.
Qed.

Lemma eqb_zeros : forall a b,
    PyFloat.is_zero a = true -> PyFloat.is_zero b = true -> PyFloat.eqb a b = true.
Proof. intros [sa|sa| |sa ma ea] [sb|sb| |sb mb eb]; try discriminate; reflexivity. Qed.

Lemma eqb_trans : forall a b c,
    PyFloat.eqb a b = true -> PyFloat.eqb b c = true -> PyFloat.eqb a c = true.
Proof.
  intros a b c Hab Hbc.
  destruct (eqb_cases a b Hab) as [->|[Za Zb]]; [exact Hbc|].
  destruct (eqb_cases b c Hbc) as [<-|[_ Zc]]; [exact Hab|].
  apply eqb_zeros; assumption.
Qed.

Lemma eqb_refl_right : forall a b, PyFloat.eqb a b = true -> PyFloat.eqb b b = true.
Proof.
  intros a b Hab. destruct (eqb_cases a b Hab) as [<-|[_ Zb]]; [exact Hab|].
  apply eqb_zeros; assumption.
Qed.

(** A step that is lost once is lost for good, and the loop condition
    keeps holding. *)
Lemma lost_step_persists : forall x step stop,
    PyFloat.eqb (PyFloat.add x step) x = true ->
    PyFloat.leb x stop = true ->
    PyFloat.leb (PyFloat.add x step) stop = true
    /\ PyFloat.eqb (PyFloat.add (PyFloat.add x step) step) (PyFloat.add x step)
       = true.
Proof.
  intros x step stop Hlost Hle.
  destruct (eqb_cases _ _ Hlost) as [E|[Za Zx]].
  - rewrite !E. rewrite E in Hlost. auto.
  - destruct x as [sx|sx| |sx mx ex]; try discriminate Zx.
    destruct step as [ss|ss| |ss ms es]; try discriminate Za.
    split.
    + destruct sx, ss, stop as [st|st| |st mt et]; cbn in *;
        try discriminate; try reflexivity; exact Hle.
    + destruct sx, ss; reflexivity.
Qed.

Lemma visited_equal : forall n x step,
    PyFloat.eqb (PyFloat.add x step) x = true ->
    Forall (fun y => PyFloat.eqb y x = true) (visited n x step).
Proof.
  induction n as [|n IH]; intros x step Hlost; cbn [visited]; constructor.
  - exact (eqb_refl_right _ _ Hlost).
  - assert (Hnext : PyFloat.eqb (PyFloat.add (PyFloat.add x step) step)
                      (PyFloat.add x step) = true).
    { destruct (eqb_cases _ _ Hlost) as [E|[Za Zx]].
      - rewrite !E. exact (eqb_refl_right _ _ Hlost).
      - destruct x as [sx|sx| |sx mx ex]; try discriminate Zx.
        destruct step as [ss|ss| |ss ms es]; try discriminate Za.
        destruct sx, ss; reflexivity. }
    specialize (IH _ _ Hnext).
    eapply Forall_impl; [|exact IH].
    intros y Hy. exact (eqb_trans _ _ _ Hy Hlost).
Qed.

Lemma frequency_sweep_loop_stuck :
  forall stop step dwell,
    accepts_writes ->
    sleep dwell = Ok tt ->
    forall fuel current (w : session Dev),
      PyFloat.leb current stop = true ->
      PyFloat.eqb (PyFloat.add current step) current = true ->
      is_open w = true ->
      exists w',
        AnaPico_sin20G.frequency_sweep_loop fuel current stop step dwell w
        = (Ok None, w')
        /\ calls w'
           = (calls w
              ++ map (fun x => EvWrite (":FREQ " ++ PyFloat.repr x))
                   (visited fuel current step))%list.
Proof.
  intros stop step dwell Hacc Hsleep.
  induction fuel as [|fuel IH]; intros current w Hle Hlost Hopen;
    cbn [AnaPico_sin20G.frequency_sweep_loop]; rewrite Hle.
  - exists w. unfold ret. simpl. rewrite app_nil_r. auto.
  - destruct (res_write_accepted (":FREQ " ++ PyFloat.repr current) w Hacc Hopen)
      as (w1 & E1 & C1 & O1 & _).
    unfold bind at 1. unfold AnaPico_sin20G.set_frequency. rewrite E1.
    unfold bind at 1. unfold print at 1.
    unfold bind at 1. unfold lift at 1. rewrite Hsleep.
    destruct (lost_step_persists _ _ _ Hlost Hle) as [Hle' Hlost'].
    match goal with
    | |- exists w', _ ?w0 = _ /\ _ =>
        destruct (IH _ w0 Hle' Hlost' O1) as (w' & E & C)
    end.
    exists w'. split; [exact E|].
    rewrite C. cbn [calls visited map]. rewrite C1, <- app_assoc. reflexivity.
Qed.

Lemma power_sweep_loop_stuck :
  forall stop step dwell,
    accepts_writes ->
    sleep dwell = Ok tt ->
    forall fuel current (w : session Dev),
      PyFloat.leb current stop = true ->
      PyFloat.eqb (PyFloat.add current step) current = true ->
      is_open w = true ->
      exists w',
        AnaPico_sin20G.power_sweep_loop fuel current stop step dwell w
        = (Ok None, w')
        /\ calls w'
           = (calls w
              ++ map (fun x => EvWrite (":POW " ++ PyFloat.repr x))
                   (visited fuel current step))%list.
Proof.
  intros stop step dwell Hacc Hsleep.
  induction fuel as [|fuel IH]; intros current w Hle Hlost Hopen;
    cbn [AnaPico_sin20G.power_sweep_loop]; rewrite Hle.
  - exists w. unfold ret. simpl. rewrite app_nil_r. auto.
  - destruct (res_write_accepted (":POW " ++ PyFloat.repr current) w Hacc Hopen)
      as (w1 & E1 & C1 & O1 & _).
    unfold bind at 1. unfold AnaPico_sin20G.set_power. rewrite E1.
    unfold bind at 1. unfold lift at 1. rewrite Hsleep.
    unfold bind at 1. unfold print at 1.
    destruct (lost_step_persists _ _ _ Hlost Hle) as [Hle' Hlost'].
    match goal with
    | |- exists w', _ ?w0 = _ /\ _ =>
        destruct (IH _ w0 Hle' Hlost' O1) as (w' & E & C)
    end.
    exists w'. split; [exact E|].
    rewrite C. cbn [calls visited map]. rewrite C1, <- app_assoc. reflexivity.
Qed.

End Sweeping.

(** X20.  [frequency_sweep] and [power_sweep] do not check their
    step.  When [start + step == start] (a zero step, or a step too
    small for the double-precision value) and [start <= stop], the
    loop never ends: with an instrument that accepts every write and a
    delay the clock accepts, after any number of turns the sweep is
    still running and has sent one command per turn, for the values
    [start], [start + step], [start + step + step], ..., which all
    compare equal to [start] (they can differ from it in the sign of
    zero only). *)
Theorem sweeps_do_not_end_on_a_lost_step :
  forall (Dev : Type) (I : Instrument Dev) (K : Clock)
         (start stop step dwell : PyFloat.float) (w : session Dev),
    accepts_writes -> is_open w = true ->
    sleep dwell = Ok tt ->
    PyFloat.leb start stop = true ->
    PyFloat.eqb (PyFloat.add start step) start = true ->
    forall fuel,
      Forall (fun x => PyFloat.eqb x start = true) (visited fuel start step)
      /\ (exists w',
             AnaPico_sin20G.frequency_sweep fuel start stop step dwell w
             = (Ok None, w')
             /\ calls w'
                = (calls w
                   ++ map (fun x => EvWrite (":FREQ " ++ PyFloat.repr x))
                        (visited fuel start step))%list)
      /\ (exists w',
             AnaPico_sin20G.power_sweep fuel start stop step dwell w
             = (Ok None, w')
             /\ calls w'
                = (calls w
                   ++ map (fun x => EvWrite (":POW " ++ PyFloat.repr x))
                        (visited fuel start step))%list).
Proof.
  intros Dev I K start stop step dwell w Hacc Hopen Hsleep Hle Hlost fuel.
  split; [|split].
  - exact (visited_equal fuel start step Hlost).
  - exact (frequency_sweep_loop_stuck stop step dwell Hacc Hsleep
             fuel start w Hle Hlost Hopen).
  - exact (power_sweep_loop_stuck stop step dwell Hacc Hsleep
             fuel start w Hle Hlost Hopen).
Qed.

(** From 1e16 a step of 0.5 is lost in rounding: the sweep towards
    2e16 repeats [:FREQ 1e+16]. *)
Lemma sweeps_do_not_end_on_a_lost_step_witness :
  let start := S754_finite false 5000000000000000 1 in
  let stop := S754_finite false 5000000000000000 2 in
  let step := S754_finite false 4503599627370496 (-53) in
  let w := mkSession "ready" true true [] [] : session string in
  PyFloat.leb start stop = true
  /\ PyFloat.eqb (PyFloat.add start step) start = true
  /\ exists w',
       @AnaPico_sin20G.frequency_sweep string Bench.agreeable (Bench.steady 0)
         3 start stop step f_0_001 w = (Ok None, w')
       /\ calls w' = [EvWrite ":FREQ 1e+16"; EvWrite ":FREQ 1e+16";
                      EvWrite ":FREQ 1e+16"].
Proof.
  intros start stop step w.
  assert (Hacc : @accepts_writes string Bench.agreeable) by (intros c d; reflexivity).
  assert (Hopen : is_open w = true) by reflexivity.
  assert (Hsleep : @sleep (Bench.steady 0) f_0_001 = Ok tt)
    by (vm_compute; reflexivity).
  assert (Hle : PyFloat.leb start stop = true) by (vm_compute; reflexivity).
  assert (Hlost : PyFloat.eqb (PyFloat.add start step) start = true)
    by (vm_compute; reflexivity).
  split; [exact Hle|]. split; [exact Hlost|].
  destruct (proj1 (proj2 (sweeps_do_not_end_on_a_lost_step string Bench.agreeable
                            (Bench.steady 0) start stop step f_0_001 w
                            Hacc Hopen Hsleep Hle Hlost 3))) as (w' & E & C).
  exists w'. split; [exact E|]. rewrite C. vm_compute. reflexivity.
Defined.

(** A zero step from minus zero: the values compare equal, the
    commands differ in the sign. *)
Example sweep_from_minus_zero :
  let w := mkSession "ready" true true [] [] : session string in
  calls (snd (@AnaPico_sin20G.frequency_sweep string Bench.agreeable
                (Bench.steady 0) 3 (S754_zero true) f_1_5 (S754_zero false)
                f_0_001 w))
  = [EvWrite ":FREQ -0.0"; EvWrite ":FREQ 0.0"; EvWrite ":FREQ 0.0"].
Proof. vm_compute. reflexivity. Qed.

(** *** Screenshots *)

Section Screenshot.
Context {Dev : Type} `{Instrument Dev}.

Lemma sa_query_stdout : forall c (w w' : session Dev) r,
    SpectrumAnalyzer.query c w = (r, w') -> stdout w' = stdout w.
Proof.
  intros c w w' r. unfold SpectrumAnalyzer.query, try_except.
  destruct (res_query c w) as [[x|e] w1] eqn:Eq;
    pose proof (res_query_stdout _ _ _ _ Eq) as Sq;
    [|destruct e]; unfold raise; intros [= <- <-]; exact Sq.
Qed.

Lemma perform_calls : forall ev (w w' : session Dev) r,
    match ev with EvWrite _ | EvQuery _ => True | _ => False end ->
    perform ev w = (r, w') ->
    calls w' = (calls w ++ [ev])%list /\ stdout w' = stdout w.
Proof.
  intros ev w w' r Hev E. destruct ev as [c|c| |]; try contradiction;
    cbn [perform] in E.
  - split; [exact (sa_write_calls _ _ _ _ E)|exact (vna_write_stdout _ _ _ _ E)].
  - unfold bind, ret in E.
    destruct (SpectrumAnalyzer.query c w) as [[x|e] w1] eqn:Eq;
      injection E as _ <-;
      split; [exact (sa_query_calls _ _ _ _ Eq)|exact (sa_query_stdout _ _ _ _ Eq)
             |exact (sa_query_calls _ _ _ _ Eq)|exact (sa_query_stdout _ _ _ _ Eq)].
Qed.

(** Running a list of calls inside [try: ... except Exception: pass]. *)
Lemma guarded_run : forall (cmds : list event) (w : session Dev),
    Forall (fun ev => match ev with EvWrite _ | EvQuery _ => True | _ => False end)
      cmds ->
    exists pre us wk,
      all_ok perform pre w us wk
      /\ calls wk = (calls w ++ pre)%list
      /\ stdout wk = stdout w
      /\ (pre = cmds
          \/ exists c post e w',
               cmds = (pre ++ c :: post)%list
               /\ perform c wk = (Raise e, w')
               /\ calls w' = (calls wk ++ [c])%list
               /\ stdout w' = stdout w).
Proof.
  induction cmds as [|c cs IH]; intros w Hall.
  - exists [], [], w. rewrite app_nil_r.
    split; [constructor|]. auto.
  - inversion Hall as [|? ? Hc Hcs]; subst.
    destruct (perform c w) as [[u|e] w1] eqn:E;
      destruct (perform_calls c w w1 _ Hc E) as [C1 S1].
    + destruct (IH w1 Hcs) as (pre & us & wk & Hok & Hcalls & Hso & Hend).
      exists (c :: pre), (u :: us), wk.
      split; [econstructor; eassumption|].
      split; [rewrite Hcalls, C1, <- app_assoc; reflexivity|].
      split; [congruence|].
      destruct Hend as [->|(c' & post & e & w' & Hsplit & Ef & Cf & Sf)].
      * left. reflexivity.
      * right. exists c', post, e, w'. rewrite Hsplit.
        split; [reflexivity|]. split; [exact Ef|]. split; [exact Cf|]. congruence.
    + exists [], [], w. rewrite app_nil_r.
      split; [constructor|]. split; [reflexivity|]. split; [reflexivity|].
      right. exists c, cs, e, w1. auto.
Qed.

Lemma screenshot_png_unfold : forall filepath (w : session Dev),
    SpectrumAnalyzer.screenshot_png filepath w
    = match perform (EvWrite "HCOP:DEV:LANG PNG") w with
      | (Raise _, w1) => (Ok tt, w1)
      | (Ok _, w1) =>
          match perform (EvWrite ("MMEM:NAME '" ++ filepath ++ "'")) w1 with
          | (Raise _, w2) => (Ok tt, w2)
          | (Ok _, w2) =>
              match perform (EvWrite "HCOP:IMM") w2 with
              | (Raise _, w3) => (Ok tt, w3)
              | (Ok _, w3) =>
                  match perform (EvQuery "*OPC?") w3 with
                  | (_, w4) => (Ok tt, w4)
                  end
              end
          end
      end.
Proof.
  intros filepath w.
  unfold SpectrumAnalyzer.screenshot_png, try_except, bind, ret. cbn [perform].
  unfold bind, ret.
  destruct (SpectrumAnalyzer.write "HCOP:DEV:LANG PNG" w) as [[[]|e1] w1];
    [|reflexivity].
  destruct (SpectrumAnalyzer.write ("MMEM:NAME '" ++ filepath ++ "'") w1)
    as [[[]|e2] w2]; [|reflexivity].
  destruct (SpectrumAnalyzer.write "HCOP:IMM" w2) as [[[]|e3] w3]; [|reflexivity].
  destruct (SpectrumAnalyzer.query "*OPC?" w3) as [[x|e4] w4]; reflexivity.
Qed.

End Screenshot.

(** X21.  [SpectrumAnalyzer.screenshot_png] never raises and prints
    nothing: it returns normally whether the instrument took the
    screenshot or not.  It makes its three writes and the
    operation-complete query one after the other and stops at the first
    that fails: the calls made are those that returned normally,
    followed by the one that raised if there is one, and nothing after
    it. *)
Theorem screenshot_png_is_silent :
  forall (Dev : Type) (I : Instrument Dev) filepath (w : session Dev),
    exists pre us wk,
      all_ok perform pre w us wk
      /\ calls wk = (calls w ++ pre)%list
      /\ ((pre = screenshot_commands filepath
           /\ SpectrumAnalyzer.screenshot_png filepath w = (Ok tt, wk)
           /\ stdout wk = stdout w)
          \/ exists c post e w',
               screenshot_commands filepath = (pre ++ c :: post)%list
               /\ perform c wk = (Raise e, w')
               /\ SpectrumAnalyzer.screenshot_png filepath w = (Ok tt, w')
               /\ calls w' = (calls wk ++ [c])%list
               /\ stdout w' = stdout w).
Proof.
  intros Dev I filepath w.
  pose proof (guarded_run (screenshot_commands filepath) w) as G.
  rewrite screenshot_png_unfold. unfold screenshot_commands in *.
  set (name := "MMEM:NAME '" ++ filepath ++ "'") in *. clearbody name.
  destruct G as (pre & us & wk & Hok & Hc & Hs & Hend).
  { repeat constructor. }
  exists pre, us, wk. split; [exact Hok|]. split; [exact Hc|].
  destruct Hend as [->|(c & post & e & w' & Hsplit & Ef & Cf & Sf)].
  - left. split; [reflexivity|]. split; [|exact Hs].
    inversion Hok as [|? ? ? ? w1 ? ? E1 Hok1]; subst. rewrite E1.
    inversion Hok1 as [|? ? ? ? w2 ? ? E2 Hok2]; subst. rewrite E2.
    inversion Hok2 as [|? ? ? ? w3 ? ? E3 Hok3]; subst. rewrite E3.
    inversion Hok3 as [|? ? ? ? w4 ? ? E4 Hok4]; subst. rewrite E4.
    inversion Hok4; subst. reflexivity.
  - right. exists c, post, e, w'.
    split; [exact Hsplit|]. split; [exact Ef|]. split; [|auto].
    destruct pre as [|p1 pre].
    { injection Hsplit as <- <-. inversion Hok; subst. rewrite Ef. reflexivity. }
    injection Hsplit as <- Hsplit.
    inversion Hok as [|? ? ? ? w1 ? ? E1 Hok1]; subst. rewrite E1.
    destruct pre as [|p2 pre].
    { injection Hsplit as <- <-. inversion Hok1; subst. rewrite Ef. reflexivity. }
    injection Hsplit as <- Hsplit.
    inversion Hok1 as [|? ? ? ? w2 ? ? E2 Hok2]; subst. rewrite E2.
    destruct pre as [|p3 pre].
    { injection Hsplit as <- <-. inversion Hok2; subst. rewrite Ef. reflexivity. }
    injection Hsplit as <- Hsplit.
    inversion Hok2 as [|? ? ? ? w3 ? ? E3 Hok3]; subst. rewrite E3.
    destruct pre as [|p4 pre].
    { injection Hsplit as <- <-. inversion Hok3; subst. rewrite Ef. reflexivity. }
    injection Hsplit as <- Hsplit. destruct pre; discriminate Hsplit.
Qed.

(** *** Probes of the two generators *)

Section Probes.
Context {Dev : Type} `{Instrument Dev}.

Lemma reading_never_raises :
  forall (A B : Type) (c msg : string) (parse : string -> result A) (f : A -> B),
    never_raises
      (try_except
         (x <- res_query (Dev := Dev) c ;;
          a <- lift (parse (PyStr.strip x)) ;;
          ret (Some (f a)))
         (fun _ => print msg ;;; ret None)).
Proof.
  intros A B c msg parse f w.
  destruct (reading_spec A B c msg parse f w) as (v & w' & E & _). eauto.
Qed.

End Probes.

(** X22.  The probes of the AnaPico driver never raise: each getter,
    [get_error] and [preset] catch every exception.  The same failed
    [:SYST:ERR?] query that the Rigol driver's [get_error] passes on
    to its caller becomes the text [Error query not supported] in the
    AnaPico driver. *)
Theorem anapico_probes_never_raise :
  forall (Dev : Type) (I : Instrument Dev),
    never_raises (AnaPico_sin20G.get_frequency (Dev := Dev))
    /\ never_raises (AnaPico_sin20G.get_power (Dev := Dev))
    /\ never_raises (AnaPico_sin20G.get_output_state (Dev := Dev))
    /\ never_raises (AnaPico_sin20G.get_phase (Dev := Dev))
    /\ never_raises (AnaPico_sin20G.get_status (Dev := Dev))
    /\ never_raises (AnaPico_sin20G.get_error (Dev := Dev))
    /\ never_raises (AnaPico_sin20G.preset (Dev := Dev))
    /\ (forall (w w1 : session Dev) e,
           res_query ":SYST:ERR?" w = (Raise e, w1) ->
           AnaPico_sin20G.get_error w = (Ok "Error query not supported", w1)
           /\ AWG_Rigol_DG922Pro.get_error w = (Raise e, w1)).
Proof.
  intros Dev I.
  repeat match goal with |- _ /\ _ => split end.
  - exact (reading_never_raises PyFloat.float PyFloat.float ":FREQ?"
             "Error reading frequency" PyFloat.of_string (fun v => v)).
  - exact (reading_never_raises PyFloat.float PyFloat.float ":POW?"
             "Error reading power" PyFloat.of_string (fun v => v)).
  - exact (reading_never_raises Z bool ":OUTP?"
             "Error reading output state" PyInt.of_string PyInt.truthy).
  - exact (reading_never_raises PyFloat.float PyFloat.float ":PHAS?"
             "Error reading phase" PyFloat.of_string (fun v => v)).
  - intros w. destruct (get_status_spec Dev I w) as (st & w' & E & _).
    eauto.
  - intros w. unfold AnaPico_sin20G.get_error, try_except, bind, ret.
    destruct (res_query ":SYST:ERR?" w) as [[s|e] w1]; eauto.
  - intros w. unfold AnaPico_sin20G.preset, try_except, print.
    destruct (res_write ":SYST:PRES" w) as [[[]|e] w1]; eauto.
  - intros w w1 e E.
    unfold AnaPico_sin20G.get_error, AWG_Rigol_DG922Pro.get_error,
      try_except, bind, ret.
    rewrite E. split; reflexivity.
Qed.

Lemma anapico_probes_never_raise_witness :
  let w := fresh [Raise (VisaIOError "VI_ERROR_TMO")] in
  let w1 := mkSession [] true true [EvQuery ":SYST:ERR?"] [] in
  res_query ":SYST:ERR?" w = (Raise (VisaIOError "VI_ERROR_TMO"), w1)
  /\ AnaPico_sin20G.get_error w = (Ok "Error query not supported", w1)
  /\ AWG_Rigol_DG922Pro.get_error w = (Raise (VisaIOError "VI_ERROR_TMO"), w1).
Proof.
  intros w w1.
  assert (E : res_query ":SYST:ERR?" w = (Raise (VisaIOError "VI_ERROR_TMO"), w1))
    by reflexivity.
  split; [exact E|].
  destruct (anapico_probes_never_raise Mock.script scripted)
    as (_ & _ & _ & _ & _ & _ & _ & K).
  exact (K w w1 (VisaIOError "VI_ERROR_TMO") E).
Defined.

(** *** Peak search *)

(** X23.  [peak_search] and [next_peak] move the marker first and
    switch it on afterwards.  [next_peak] folds the direction to upper
    case and goes to the next peak for [NEXT] and [RIGHT]; every other
    direction, known or not, goes left.  With an instrument that
    accepts every write each sends two commands, in the first
    spelling. *)
Theorem peak_moves_then_switches_on :
  forall (Dev : Type) (I : Instrument Dev) idx (w : session Dev),
    accepts_writes -> is_open w = true ->
    (exists w',
        SpectrumAnalyzer.peak_search idx w = (Ok tt, w')
        /\ calls w'
           = (calls w ++ [EvWrite ("CALC:MARK" ++ PyStr.of_int idx ++ ":MAX");
                          EvWrite ("CALC:MARK" ++ PyStr.of_int idx
                                     ++ ":STAT ON")])%list)
    /\ (forall direction,
           exists w',
             SpectrumAnalyzer.next_peak idx direction w = (Ok tt, w')
             /\ calls w'
                = (calls w
                   ++ [EvWrite
                         ("CALC:MARK" ++ PyStr.of_int idx ++ ":MAX:"
                            ++ (if PyStr.cp_eqb (PyStr.upper direction)
                                     (PyStr.codes "NEXT")
                                   || PyStr.cp_eqb (PyStr.upper direction)
                                        (PyStr.codes "RIGHT")
                                then "NEXT" else "LEFT"));
                       EvWrite ("CALC:MARK" ++ PyStr.of_int idx
                                  ++ ":STAT ON")])%list).
Proof.
  intros Dev I idx w Hacc Hopen. split.
  - unfold SpectrumAnalyzer.peak_search, SpectrumAnalyzer.set_marker.
    destruct (try_write_any_accepted ("CALC:MARK" ++ PyStr.of_int idx ++ ":MAX")
                ["CALC:MARKER" ++ PyStr.of_int idx ++ ":MAX"] w Hacc Hopen)
      as (w1 & E1 & C1 & O1).
    unfold bind. rewrite E1.
    destruct (try_write_any_accepted
                ("CALC:MARK" ++ PyStr.of_int idx ++ ":STAT "
                   ++ SpectrumAnalyzer.on_off true)
                ["CALC:MARKER" ++ PyStr.of_int idx ++ ":STATE "
                   ++ SpectrumAnalyzer.on_off true] w1 Hacc O1)
      as (w2 & E2 & C2 & O2).
    exists w2. split; [exact E2|]. rewrite C2, C1, <- app_assoc. reflexivity.
  - intros direction.
    unfold SpectrumAnalyzer.next_peak, SpectrumAnalyzer.set_marker.
    destruct (PyStr.cp_eqb (PyStr.upper direction) (PyStr.codes "NEXT")
              || PyStr.cp_eqb (PyStr.upper direction) (PyStr.codes "RIGHT")).
    + destruct (try_write_any_accepted
                  ("CALC:MARK" ++ PyStr.of_int idx ++ ":MAX:NEXT")
                  ["CALC:MARKER" ++ PyStr.of_int idx ++ ":MAX:NEXT"] w Hacc Hopen)
        as (w1 & E1 & C1 & O1).
      unfold bind. rewrite E1.
      destruct (try_write_any_accepted
                  ("CALC:MARK" ++ PyStr.of_int idx ++ ":STAT "
                     ++ SpectrumAnalyzer.on_off true)
                  ["CALC:MARKER" ++ PyStr.of_int idx ++ ":STATE "
                     ++ SpectrumAnalyzer.on_off true] w1 Hacc O1)
        as (w2 & E2 & C2 & O2).
      exists w2. split; [exact E2|]. rewrite C2, C1, <- app_assoc. reflexivity.
    + destruct (try_write_any_accepted
                  ("CALC:MARK" ++ PyStr.of_int idx ++ ":MAX:LEFT")
                  ["CALC:MARKER" ++ PyStr.of_int idx ++ ":MAX:LEFT"] w Hacc Hopen)
        as (w1 & E1 & C1 & O1).
      unfold bind. rewrite E1.
      destruct (try_write_any_accepted
                  ("CALC:MARK" ++ PyStr.of_int idx ++ ":STAT "
                     ++ SpectrumAnalyzer.on_off true)
                  ["CALC:MARKER" ++ PyStr.of_int idx ++ ":STATE "
                     ++ SpectrumAnalyzer.on_off true] w1 Hacc O1)
        as (w2 & E2 & C2 & O2).
      exists w2. split; [exact E2|]. rewrite C2, C1, <- app_assoc. reflexivity.
Qed.

(** A lower-case [right] goes to the next peak, [up] goes left. *)
Lemma peak_moves_then_switches_on_witness :
  let w := mkSession "ready" true true [] [] : session string in
  @accepts_writes string Bench.agreeable
  /\ is_open w = true
  /\ (exists w',
         @SpectrumAnalyzer.next_peak string Bench.agreeable 2 "right" w
         = (Ok tt, w')
         /\ calls w' = [EvWrite "CALC:MARK2:MAX:NEXT"; EvWrite "CALC:MARK2:STAT ON"])
  /\ (exists w',
         @SpectrumAnalyzer.next_peak string Bench.agreeable 2 "up" w
         = (Ok tt, w')
         /\ calls w' = [EvWrite "CALC:MARK2:MAX:LEFT"; EvWrite "CALC:MARK2:STAT ON"]).
Proof.
  intros w.
  assert (Hacc : @accepts_writes string Bench.agreeable) by (intros c d; reflexivity).
  assert (Hopen : is_open w = true) by reflexivity.
  split; [exact Hacc|]. split; [exact Hopen|].
  pose proof (proj2 (peak_moves_then_switches_on string Bench.agreeable 2 w
                       Hacc Hopen)) as K.
  split; [exact (K "right")|exact (K "up")].
Defined.
